(* ===== verification/_CoqProject ===== *)
-Q . S2P
Prelude.v
Groupby.v
Cell.v
Value.v
Clock.v
Frame.v
Effects.v
Proc.v
Logged.v
Sentiment.v
Join.v
Relational.v
Crawler.v
Wines.v
Reviews.v
CrawlerMain.v
Samples.v
Hierarchy.v
Document.v
Malformed.v
Invariance.v
Load.v
Emit.v
Cli.v
Pipeline.v
