(* ===== verification/Prelude.v ===== *)
(** * Vivino-Crawler: a verification development

    The repository holds three Python programs around one data set of wines:

    - [src/data/dataLoad.py] reads three CSV tables (reviews, wines, styles),
      joins them and reshapes the joined table into a nested document
      type -> style -> wine -> reviews ([loadStructure], [setHierarchy]), and
      writes the document as JSON and the joined table as CSV.  This is the
      core of the system.  Its script asks for the two directories and can
      remove the output directory first ([resetDataset]).
    - [src/src/crawler.py] downloads the raw tables from a web API, page by
      page ([inputParameters], [wineCrawler], [reviewsCrawler]), and writes
      them as CSV ([exportCSV], [main]); its script passes the options of
      the command line to [main].
    - [src/indexer/sentimentAnalyis.py] builds two classifiers
      ([initClassifier]) and labels a review text with one of them, chosen
      by language ([setSentiment]).

    The programs meet only through files: the crawler writes tables, the
    loader reads tables.  The development is a shallow embedding: every
    modelled function of the source is a function here, under the name it
    has in the source, and takes as arguments what the source obtains from
    outside (the tables read, the answers of the web API, the lines typed by
    the user, the clock, the programs it runs, the operating system that
    grants or refuses a directory or a file, the library that loads the
    classifiers).

    ** Files, in the order of their dependencies

    - [Prelude] (this file): Python exceptions as values ([pyexc], [exc]),
      the bind notation of scope [exc_scope], the loop combinators [foldlM]
      and [mapM] with their laws ([mapM] as a morphism, when a loop
      returns), [never] (the exceptions that a computation does not
      raise) and [raised] (the one that ends it), lemmas on lists, the
      development's tactics and the hint databases [py] and [py_rw].
    - [Groupby]: grouping a list by a key, as [DataFrame.groupby] does it
      (distinct keys ascending, rows of a group in the order of the list,
      rows without key left out), proved against the interface [KeyOrder]
      of a decidable strict total order on keys: the groups partition the
      keyed rows, keys are sorted and distinct, grouping is stable.
    - [Cell]: the values of a table ([cell]), Python equality and order on
      them as keys ([pykey], the instance of [KeyOrder]), the builtin [int]
      ([py_int]), [fillna] on one cell.
    - [Value]: the values the crawler and the classifier receive ([pyval]:
      decoded JSON), subscripts, truth value, iteration, text; the
      dictionary of the query parameters ([params]) and its [repr].
    - [Clock]: a reading of the clock ([datetime]) and the three formats
      of [strftime] that name the directories and the files; when two
      readings give the same text.
    - [Frame]: tables ([DataFrame]) and the operations of pandas that
      [dataLoad.py] calls: [row[label]], [iterrows], [.iloc[0]], [fillna],
      [add_prefix], [drop], [groupby], [merge]; well-formed tables
      ([df_wf]), tables without missing values ([no_nan]), integer columns.
    - [Effects]: what a run does to the file system and the terminal, as a
      list of effects: directories made, files written, lines printed
      ([Print] for a text, [Show] for the arguments of a [print] that are
      values), calls of the progress bar ([Progress]); the directories
      that exist, as state; paths ([path_exists], [inside]) and what
      [rm -fr] leaves ([rm_rf]).
    - [Proc]: procedures ([proc]): from the directories that exist to the
      directories afterwards, the effects in order and the result or the
      exception, with their bind (scope [proc_scope]) and its laws; the
      statements of the sources that act on the system ([makedirs],
      [write_json], [write_csv], [print], the handler
      [except_CalledProcessError], the test [if_exists]); an operating
      system that may refuse a path ([system]); the guard of a directory
      ([ensure_dir]) on every branch; the classes [Keeps] (no existing path
      is lost) and [Quiet] (no file is written) with their closure under
      the constructs; what a run leaves behind apart from what it shows
      ([observe]).
    - [Logged]: the functions that print and touch no file ([logged]: the
      effects in order with the result or the exception), their bind
      (scope [log_scope]), [when] for [if verbose:], [log_foldlM] for a
      loop; runs on fuel ([run], scope [run_scope]); the class [Talk] (no
      file is written); [say], which makes a procedure of such a function.
    - [Sentiment]: [setSentiment] and [initClassifier]; the library
      [transformers] as the interface [Transformers] with the promises
      [TransformersLaws], and an instance that computes.
    - [Join]: what [fillna], [add_prefix], [merge] and [drop] preserve, the
      rows of an inner join and their number.
    - [Relational]: the table operations of [crawler.py]: [concat],
      [drop_duplicates], [merge] on the common columns.
    - [Crawler]: the web API ([server], [getWine]) and
      [inputParameters].
    - [Wines]: [wineCrawler] and the stateless description
      [wineCrawler_spec] of its loop.
    - [Reviews]: [reviewsCrawler], its page loop on fuel and as the
      relation [pages_run], the table it returns, its progress bar.
    - [CrawlerMain]: [exportCSV] and [main]; what [verbose] changes.
    - [Samples]: concrete joined tables, among them the scenarios of the
      specification.
    - [Hierarchy]: [setHierarchy], its loops as they are written, and the
      stateless description [hierarchy_spec] of what they compute.
    - [Document]: the result of [setHierarchy] in closed form: on integer
      identifiers the document or the exception of a year
      ([document_or_error]), on typed tables the document ([document]);
      the properties of the document.
    - [Malformed]: when a year that is not a number ends the run, and when
      it is never read.
    - [Invariance]: the equivalence [same_wines] of tables that agree on
      the rows of every wine, and the levels of the document as morphisms
      for it.
    - [Load]: the join stage of [loadStructure] ([merged_table]).
    - [Emit]: [loadStructure]: the guard of the directory, the reads, the
      join stage and the two artifacts ([export_dataset]), on a system
      that may refuse any of the three paths.
    - [Cli]: [parse_args] of [argparse] for the options of the two
      scripts, [resetDataset], the script of the loader
      ([dataLoad_script]) and the script of the crawler
      ([crawler_script]).
    - [Pipeline]: what the loader does with a table as the crawler writes
      it.

    ** How the state and the operations correspond to the code

    - [setHierarchy] (lines 63-120 of [dataLoad.py]) is four nested [for]
      loops that append to four lists.  Each loop body is one definition
      ([type_body], [style_body], [wine_body], [review_body]) on the pair
      of the list built so far and the record [locals] of the two loop
      variables that the code reads after their loop has ended: [row]
      (lines 90-96) and [wineGroup] (lines 103-105).  A variable that no
      loop has assigned is [None], and reading it raises
      [UnboundLocalError].  The dictionaries are records with the keys of
      the JSON document as fields.
    - [loadStructure] (lines 122-156) is a procedure: it creates the
      directory if [os.path.exists] says it is not there ([ensure_dir],
      lines 124-128, with the handler of the source around [os.makedirs]),
      reads the three files ([read_tables], lines 130-132, with
      [pd.read_csv] as an argument), then is [merged_table] (lines
      134-143), [setHierarchy], and the two writes ([export_dataset], lines
      147-156).  Its result is the directories that exist afterwards, the
      list of its effects in order ([MakeDirs], [WriteJson], [WriteCsv],
      [Print]), and [Ok tt] or the exception that ended the run.
    - The operating system is a function from a path to the exception with
      which it refuses the path, if it does ([system]); [os.makedirs]
      raises [FileNotFoundError] on the empty path and [FileExistsError] on
      a path that exists before it asks the system, and [open] and
      [to_csv] raise what the system answers.  A clock reading is a record
      of six fields; [strftime] writes each field on two digits.
    - The script of the loader (lines 168-187) is [dataLoad_script], on
      the list of the words of the command line; what it reads from outside
      is the record [host].  [resetDataset] (lines 158-166) calls
      [subprocess.run] with the argument list of line 161
      ([subprocess_run]): the host says what the program does to the
      directories and with which status it exits; status 0 is a normal
      return, another status is [CalledProcessError] with the command as
      [repr] shows it (caught and printed), and an exception that kept the
      program from running propagates.  The function always ends the
      process.
    - [initClassifier] (lines 23-51 of [sentimentAnalyis.py]) is the two
      branches [load_offline] and [load_online] with the calls of the
      library in their order; [setSentiment] (lines 4-21) returns what it
      prints with the label or the exception.
    - [wineCrawler] (lines 64-120 of [crawler.py]) is a [foldlM] of
      [wine_page] over the page numbers, on the pair of the table built so
      far and the dictionary of the parameters that the loop updates in
      place; [reviewsCrawler] (lines 122-173) is [all_ratings] over the
      wines, with [wine_pages] the [while True] loop over the pages of one
      wine, one turn of which is [page_turn].  The three functions that
      download are values of [logged]: with [verbose] they return the
      lines they print ([if verbose:] is [when verbose]), and without it
      [reviewsCrawler] returns the calls it makes to the progress bar of
      [tqdm] ([BarOpen] with the total, [BarUpdate 1] after the pages of a
      wine, [BarClose]).  A line whose arguments are values ([print(params)],
      the f-string with the cells of a row) is kept as its pieces
      ([piece]); [line] gives its text.  [exportCSV] (lines 175-198) is a
      procedure with its two guards and the write, on the two readings of
      the clock it takes.
      [main] (lines 200-217) is [export_wines], the crawl of the reviews
      and [export_reviews], run one after the other on the directories
      that exist; what it reads from outside is the record [world], whose
      clock is a function of the number of readings taken before.  The
      script (lines 219-230) is [crawler_script].

    ** What the theorems show

    - Refinement: the loops of [setHierarchy] compute [hierarchy_spec] on
      every rectangular table without missing values, [document_or_error]
      on every table with integer identifiers and [document] on every
      typed table; the loop of [wineCrawler] computes [wineCrawler_spec] on
      every input.
    - Equivalence: tables that agree on the rows of every wine give the
      same document or the same exception, however the rows of different
      wines are interleaved.
    - The grouping is a partition: every row is under exactly the node of
      its three identifiers, the reviews of a wine are its rows in the
      order of the table, the leaves are as many as the rows, the nodes are
      in ascending order.
    - Which row the fields of a style come from, and when that makes no
      difference.
    - The join stage: the rows of the exported table are the matching
      triples of a review, a wine and a style; the table is one that
      [setHierarchy] accepts; how many rows it has.
    - Exceptions: which inputs raise [KeyError], [ValueError] or
      [UnboundLocalError]: a missing column, a year that is not a number on
      the last row of a wine (and only there), a file that cannot be read;
      which key or text the exception names ([merge] looks up the key of
      the right table first; [int] names the text it refuses, and the run
      ends on the first wine of the document that has such a year); that a
      clean table never makes [setHierarchy] read an unassigned variable.
    - Failures of the system: the handlers around [os.makedirs] never
      fire, so a refused directory ends the run before a table is read; a
      run that raises has written no file unless it is the CSV file that
      was refused, and then the JSON file is left alone; an empty
      directory name ends the run in [os.makedirs]; a refusal of the file
      of the wines ends [main] before any review is requested.
    - The footprint of a run of [loadStructure], on every input and
      system: the directory and the two files of the run at most, nothing
      removed; that a run leaves nothing that changes the next one (the
      same run again creates nothing and writes the same files); and which
      runs write to the same files (those at the same hour and minute).
    - The scripts: with the reset option the loader only resets; after a
      reset the next run creates the directory again; the files are inside
      the output directory exactly when its name ends with the separator;
      which options of the crawler reach [main].
    - The classifiers: built from the network, the Italian one never
      yields a label; built from disk, both do.  Proved for every library
      that keeps [TransformersLaws].
    - The crawler: which answers of the user reach the query, how many
      pages are requested and what is missed, that the wines returned have
      distinct identifiers, when the page loop of the reviews ends, what
      the table of the reviews holds, what [main] writes and in which
      order, and that the loader rejects the table of the reviews.
    - Non-interference of [verbose]: the flag changes what is shown and
      nothing else.  Each of the three functions returns the same table or
      raises the same exception with and without it, none writes a file,
      and two runs of [main] (and of the script with and without [-v])
      that differ in the flag leave the same directories and the same
      files with the same tables, or both run out of fuel.
    - What a verbose run shows: [wineCrawler] the parameters, the number
      of matches and, for every page, its number and the size of the table
      after it, rows of a wine seen before included; [reviewsCrawler] one
      line for every page it requests, the pages of a wine one after the
      other from the first to the one without reviews.
    - The progress bar: a run without [verbose] that returns has opened
      the bar with the number of wines, made one step for every wine and
      closed it; a run that raises in the loop has made fewer steps and
      leaves the bar open.
    - The contracts of the table operations ([groupby], [merge],
      [drop_duplicates]) and of [int] on the text of an integer.
    - The scenarios A to D of the specification, evaluated.

    ** Bounds and fuel

    - Integers are unbounded ([Z]), as Python's are.  A float is the
      rational number it denotes ([Q]): the sources carry floats, compare
      them as keys and truncate them, and do no arithmetic on them.  The
      one division, [matches / 25] in [wineCrawler], is exact here and is
      rounded in Python; the integer part agrees as long as [matches] is
      below [2^47].
    - The only loop without a bound in the sources is the [while True] of
      [reviewsCrawler].  [wine_pages] takes fuel, one unit per page
      requested of one wine, and returns [None] when it is used up.  The
      relation [pages_run] describes the same loop without fuel; the
      function is sound and complete for it, more fuel never changes a
      result, and a wine whose [k]-th page is empty needs [k + 1] units.
      Every other loop runs over a finite list and is structural.

    ** What is not modelled

    - The text of files: [pd.read_csv] is a function from the path to the
      table or the exception, and a write is recorded with the value
      written, not its text.  [open] and [json.dump] are one step
      ([write_json]): a value of the document is a Python value, which
      [json.dump] accepts.  That [.iloc[0]] on a column of dtype int64
      yields an integer of numpy, which [json.dump] refuses with
      [TypeError] after the file has been opened, is outside the model:
      the theorems on what is written speak of inputs whose style fields
      (region, description, nation) are text, as the docstring of the
      module documents them (dtype object).  Only directories are
      state: a file written is an effect, and whether it replaces an older
      file is read from the paths of the effects.  Paths are compared as
      strings up to final separators; links, [.] and [..] and relative
      against absolute paths are not resolved, so the directory
      [../out/../out/out <date>] that [exportCSV] writes into is the path
      as the code spells it.
    - The operating system answers a path with the same refusal whenever
      it is asked: a disk that fills up between the two writes is the
      system that refuses the second path.
    - The network: the web API is a function; time-outs and retries do not
      occur in the sources.
    - pandas beyond the calls of the sources: dtypes (and the refusal of
      [merge] to join a text column with a numeric one), indexes.
    - [argparse] beyond declared option strings, the help option, [--] and
      plain words: abbreviated long options and short options joined in
      one word are answered with [Unsupported].  The help and usage texts
      and the prompts of [input] are not recorded as effects.
    - What [tqdm] draws: the bar is the sequence of the calls made to it.
    - The library [transformers]: models, tokenizers and pipelines are the
      interface [Transformers]; the theorems assume of it only
      [TransformersLaws].
    - The module [checkCrawler] ([resetInfo], [checkWineTz]) is not in the
      sources: its two functions are arguments.  [checkWineTz] is given
      the table and may raise; that it leaves the table as it is (Python
      would let it change the table in place) is assumed.
    - Programs run by [subprocess.run] that end by a signal
      ([Unsupported]).
    - The division [matches / 25] of [wineCrawler] on floats (see Bounds
      and fuel).
    - Text outside ASCII in [int], [strip], [split] and [repr], and the
      text of a float ([Unsupported] where a cell is made of it in an
      f-string of [wineCrawler]; a line that shows one is kept as its
      pieces, and [line] answers [Unsupported] for it).

    ** Conventions

    - A Python function that may raise returns [exc A]: [Ok a] is a normal
      return, [Raise e] an exception that propagates to the caller.  The
      only handlers of the sources are those for [CalledProcessError]
      around [os.makedirs] and [rm]; any other exception ends the run.
    - A [for] loop that appends to a list is a [foldlM] whose state is the
      list built so far together with the local variables the loop assigns;
      the equivalent [mapM] form is proved, not assumed.
    - Statements about the program are made on the definitions that
      translate it; an abstract specification is a separate definition and is
      connected to the translation by a refinement theorem. *)

From Stdlib Require Import ZArith String List.
From stdpp Require Import base tactics option list strings.

(** ** Python exceptions *)

(** The exceptions the modelled code can raise.  [UnboundLocalError] is what
    Python raises when a local variable is read before any assignment;
    [ConnectionError] stands for any failure of an HTTP request or of the
    decoding of its answer; [MergeError] is pandas' refusal to join two
    tables without a common column.  [SystemExit] carries the code given to
    [sys.exit]: [None] for [quit()], 0 and 2 for the exits of [argparse].
    [CalledProcessError] is what [subprocess.run(..., check=True)] raises on
    a non-zero exit status, with the text of the command (a process ended
    by a signal is not modelled).  [FileNotFoundError], [FileExistsError]
    and [PermissionError] are the subclasses of [OSError] that reading,
    creating a directory and opening a file for writing raise.
    [ValueError] carries its message in two parts, the text and the
    literal that [int] refused, if any: the message of Python is the text,
    a colon and [repr] of the literal.
    [Unsupported] is not an exception of Python: it
    marks the places where a run leaves what the development models (a
    float formatted as text, a list as the cell of a table). *)
Inductive pyexc : Type :=
| KeyError (key : string)
| ValueError (what : string) (literal : option string)
| TypeError (what : string)
| IndexError
| UnboundLocalError (var : string)
| ConnectionError
| MergeError
| SystemExit (code : option Z)
| CalledProcessError (status : positive) (cmd : string)
| FileNotFoundError (path : string)
| FileExistsError (path : string)
| PermissionError (path : string)
| Unsupported (what : string).

#[export] Instance pyexc_eq_dec : EqDecision pyexc.
Proof. solve_decision. Defined.

(** The result of running a piece of Python. *)
Inductive exc (A : Type) : Type :=
| Ok (a : A)
| Raise (e : pyexc).

Arguments Ok {A} a.
Arguments Raise {A} e.

#[export] Instance exc_eq_dec {A} `{EqDecision A} : EqDecision (exc A).
Proof. solve_decision. Defined.

Definition exc_bind {A B} (m : exc A) (f : A -> exc B) : exc B :=
  match m with
  | Ok a => f a
  | Raise e => Raise e
  end.

Definition exc_map {A B} (f : A -> B) (m : exc A) : exc B :=
  match m with
  | Ok a => Ok (f a)
  | Raise e => Raise e
  end.

Definition is_Ok {A} (m : exc A) : bool :=
  match m with
  | Ok _ => true
  | Raise _ => false
  end.

(** The value of a normal return. *)
Definition of_exc {A} (m : exc A) : option A :=
  match m with
  | Ok a => Some a
  | Raise _ => None
  end.

(** [d[k]] on a dictionary modelled as a partial function. *)
Definition of_option {A} (e : pyexc) (o : option A) : exc A :=
  match o with
  | Some a => Ok a
  | None => Raise e
  end.

Declare Scope exc_scope.
Delimit Scope exc_scope with exc.

Notation "x <- c ;; k" := (exc_bind c (fun x => k))
  (at level 20, c at level 99, k at level 200, only parsing) : exc_scope.
Notation "' pat <- c ;; k" :=
  (exc_bind c (fun x => match x with pat => k end))
  (at level 20, pat pattern, c at level 99, k at level 200, only parsing)
  : exc_scope.

#[global] Open Scope exc_scope.

(** ** Loops *)

(** [for x in l: s = f(s, x)], stopping at the first exception. *)
Fixpoint foldlM {S A} (f : S -> A -> exc S) (s : S) (l : list A) : exc S :=
  match l with
  | [] => Ok s
  | x :: l' => s' <- f s x ;; foldlM f s' l'
  end.

(** [[f(x) for x in l]], stopping at the first exception. *)
Fixpoint mapM {A B} (f : A -> exc B) (l : list A) : exc (list B) :=
  match l with
  | [] => Ok []
  | x :: l' => y <- f x ;; ys <- mapM f l' ;; Ok (y :: ys)
  end.

(** ** Laws of the exception monad *)

Section ExcLaws.
Context {A B C : Type}.
Implicit Types (m : exc A) (f : A -> exc B) (g : B -> exc C).

Lemma exc_bind_Ok_l (a : A) f : exc_bind (Ok a) f = f a.
Proof. reflexivity. Qed.

Lemma exc_bind_Raise_l (e : pyexc) f : exc_bind (Raise e) f = Raise e.
Proof. reflexivity. Qed.

Lemma exc_bind_Ok_r m : exc_bind m Ok = m.
Proof. by destruct m. Qed.

Lemma exc_bind_assoc m f g :
  exc_bind (exc_bind m f) g = exc_bind m (fun a => exc_bind (f a) g).
Proof. by destruct m. Qed.

Lemma exc_bind_Ok_inv m f (b : B) :
  exc_bind m f = Ok b -> exists a, m = Ok a /\ f a = Ok b.
Proof. destruct m as [a|e]; [by exists a | done]. Qed.

Lemma exc_bind_Raise_inv m f (e : pyexc) :
  exc_bind m f = Raise e ->
  m = Raise e \/ exists a, m = Ok a /\ f a = Raise e.
Proof. destruct m as [a|e']; [right; by exists a | left; by simplify_eq/=]. Qed.

Lemma exc_bind_ext m f (f' : A -> exc B) :
  (forall a, m = Ok a -> f a = f' a) -> exc_bind m f = exc_bind m f'.
Proof. destruct m; simpl; auto. Qed.

Lemma exc_map_bind (h : A -> B) m : exc_map h m = exc_bind m (fun a => Ok (h a)).
Proof. by destruct m. Qed.

Lemma is_Ok_true m : is_Ok m = true <-> exists a, m = Ok a.
Proof. destruct m; simpl; split; [eauto | done | done | by intros [? ?]]. Qed.

Lemma of_option_Ok (e : pyexc) (o : option A) (a : A) :
  of_option e o = Ok a <-> o = Some a.
Proof. destruct o; simpl; split; congruence. Qed.

End ExcLaws.

(** [py] holds the resolution hints of the development, [py_rw] the
    rewriting rules that normalise computations in [exc]. *)
Create HintDb py discriminated.
Create Rewrite HintDb py_rw.

#[export] Hint Rewrite @exc_bind_Ok_l @exc_bind_Raise_l @exc_bind_Ok_r
  @exc_bind_assoc : py_rw.

(** ** Tactics *)

(** Split a hypothesis [x <- m ;; k = Ok b] into [m = Ok a] and [k a = Ok b]. *)
Ltac exc_inv H :=
  let a := fresh "a" in
  let Ha := fresh "H" a in
  apply exc_bind_Ok_inv in H as (a & Ha & H).

(** Case analysis on the first computation of a bind in the goal. *)
Ltac exc_case :=
  match goal with
  | |- context [exc_bind ?m _] =>
      let E := fresh "E" in
      destruct m eqn:E; simpl
  end.

(** ** Laws of the loop combinators *)

Section LoopLaws.
Context {A B : Type}.
Implicit Types (f : A -> exc B) (l : list A).

Lemma mapM_app f l1 l2 :
  mapM f (l1 ++ l2)
  = (ys1 <- mapM f l1 ;; ys2 <- mapM f l2 ;; Ok (ys1 ++ ys2)).
Proof.
  induction l1 as [|x l1 IH]; simpl.
  - by rewrite exc_bind_Ok_r.
  - destruct (f x); simpl; [|done]. rewrite IH.
    destruct (mapM f l1); simpl; [|done]. by destruct (mapM f l2).
Qed.

Lemma mapM_Ok_length f l ys : mapM f l = Ok ys -> length ys = length l.
Proof.
  revert ys. induction l as [|x l IH]; simpl; intros ys H.
  - by simplify_eq.
  - exc_inv H. exc_inv H. simplify_eq. simpl. f_equal. eauto.
Qed.

Lemma mapM_Ok_Forall2 f l ys :
  mapM f l = Ok ys <-> Forall2 (fun x y => f x = Ok y) l ys.
Proof.
  revert ys. induction l as [|x l IH]; simpl; intros ys.
  - split; [intros ?; simplify_eq; constructor | by inversion 1].
  - split.
    + intros H. exc_inv H. exc_inv H. simplify_eq.
      constructor; [done | by apply IH].
    + inversion 1 as [|? y ? ys' Hx Hl]; subst.
      rewrite Hx. simpl. apply IH in Hl. by rewrite Hl.
Qed.

(** What holds of every result holds of the results of the loop. *)
Lemma mapM_Ok_Forall (P : B -> Prop) f l ys :
  (forall x y, f x = Ok y -> P y) -> mapM f l = Ok ys -> Forall P ys.
Proof.
  intros HP H. apply mapM_Ok_Forall2 in H.
  induction H; constructor; eauto.
Qed.

Lemma mapM_ext f (f' : A -> exc B) l :
  Forall (fun x => f x = f' x) l -> mapM f l = mapM f' l.
Proof. induction 1 as [|x l Hx _ IH]; simpl; [done | by rewrite Hx, IH]. Qed.

(** Rounds that agree on related items give the same loop on related
    lists. *)
#[export] Instance mapM_proper (R : relation A) :
  Proper ((R ==> eq) ==> Forall2 R ==> eq) (@mapM A B).
Proof.
  intros f f' Hf l l' Hl.
  induction Hl as [|x x' l l' Hx _ IH]; simpl; [done|].
  by rewrite (Hf x x' Hx), IH.
Qed.

Lemma mapM_pure (h : A -> B) l : mapM (fun x => Ok (h x)) l = Ok (map h l).
Proof. induction l as [|x l IH]; simpl; [done | by rewrite IH]. Qed.

Lemma mapM_fmap_Ok {C} (g : C -> A) (h : C -> B) f (l : list C) :
  Forall (fun x => f (g x) = Ok (h x)) l -> mapM f (map g l) = Ok (map h l).
Proof.
  induction 1 as [|x l Hx _ IH]; simpl; [done|]. by rewrite Hx, IH.
Qed.

Lemma mapM_Raise_first f l1 x l2 (e : pyexc) ys :
  mapM f l1 = Ok ys -> f x = Raise e -> mapM f (l1 ++ x :: l2) = Raise e.
Proof. intros H1 Hx. rewrite mapM_app, H1. simpl. by rewrite Hx. Qed.

End LoopLaws.

Section FoldLaws.
Context {S A : Type}.
Implicit Types (f : S -> A -> exc S) (l : list A).

Lemma foldlM_app f s l1 l2 :
  foldlM f s (l1 ++ l2) = (s' <- foldlM f s l1 ;; foldlM f s' l2).
Proof.
  revert s. induction l1 as [|x l1 IH]; simpl; intros s; [done|].
  destruct (f s x); simpl; [apply IH | done].
Qed.

Lemma foldlM_ext f (f' : S -> A -> exc S) s l :
  Forall (fun x => forall s, f s x = f' s x) l -> foldlM f s l = foldlM f' s l.
Proof.
  intros H. revert s. induction H as [|x l Hx _ IH]; simpl; intros s; [done|].
  rewrite Hx. destruct (f' s x); simpl; auto.
Qed.

End FoldLaws.

(** A loop that appends one result per element to a list and assigns local
    variables on the way is a [mapM] over the elements, followed by the
    assignments in order.  [step] is the loop body on the pair of the list
    built so far and the locals [E]; [g] computes the appended value and
    [upd] is the assignment one iteration makes to the locals. *)
Section Collect.
Context {A B E : Type}.
Variable step : list B * E -> A -> exc (list B * E).
Variable g : A -> exc B.
Variable upd : E -> A -> E.

Definition collects (x : A) : Prop :=
  forall acc env, step (acc, env) x = (y <- g x ;; Ok (acc ++ [y], upd env x)).

Lemma foldlM_collect l acc env :
  Forall collects l ->
  foldlM step (acc, env) l
  = (ys <- mapM g l ;; Ok (acc ++ ys, fold_left upd l env)).
Proof.
  intros H. revert acc env.
  induction H as [|x l Hx _ IH]; simpl; intros acc env.
  - by rewrite app_nil_r.
  - rewrite Hx. destruct (g x) as [y|e]; simpl; [|done].
    rewrite IH. destruct (mapM g l) as [ys|e]; simpl; [|done].
    by rewrite <- app_assoc.
Qed.

End Collect.

(** ** Which exceptions a computation can raise *)

(** [m] raises no exception of the class [bad]. *)
Definition never {A} (bad : pyexc -> Prop) (m : exc A) : Prop :=
  forall e, m = Raise e -> ~ bad e.

Section Never.
Variable bad : pyexc -> Prop.

Lemma never_Ok {A} (a : A) : never bad (Ok a).
Proof. intros e He. discriminate. Qed.

Lemma never_Raise {A} (e : pyexc) : ~ bad e -> never bad (@Raise A e).
Proof. intros He e' E. by simplify_eq. Qed.

Lemma never_bind {A B} (m : exc A) (f : A -> exc B) :
  never bad m -> (forall a, m = Ok a -> never bad (f a)) ->
  never bad (exc_bind m f).
Proof.
  intros Hm Hf e He. destruct m as [a|e']; simpl in He.
  - by apply (Hf a eq_refl e).
  - simplify_eq. by apply (Hm e).
Qed.

Lemma never_of_option {A} (e : pyexc) (o : option A) :
  ~ bad e -> never bad (of_option e o).
Proof. intros He. destruct o; [apply never_Ok | by apply never_Raise]. Qed.

Lemma never_mapM {A B} (f : A -> exc B) (l : list A) :
  Forall (fun x => never bad (f x)) l -> never bad (mapM f l).
Proof.
  induction 1 as [|x l Hx _ IH]; simpl; [apply never_Ok|].
  apply never_bind; [done|]. intros y _.
  apply never_bind; [done|]. intros ys _. apply never_Ok.
Qed.

End Never.

(** The exception that ends [m], if one does. *)
Definition raised {A} (m : exc A) : option pyexc :=
  match m with
  | Ok _ => None
  | Raise e => Some e
  end.

Section Raised.
Context {A B : Type}.

Lemma raised_None (m : exc A) : raised m = None <-> is_Ok m = true.
Proof. by destruct m. Qed.

Lemma raised_Some (m : exc A) e : raised m = Some e <-> m = Raise e.
Proof. destruct m; simpl; split; congruence. Qed.

Lemma raised_bind_pure (m : exc A) (h : A -> B) :
  raised (x <- m ;; Ok (h x)) = raised m.
Proof. by destruct m. Qed.

(** A loop ends with the exception of its first turn that raises. *)
Lemma raised_mapM (f : A -> exc B) (l : list A) :
  raised (mapM f l) = head (omap (fun x => raised (f x)) l).
Proof.
  induction l as [|x l IH]; [done|]. cbn [mapM omap list_omap].
  destruct (f x) as [y|e]; [|done]. cbn [exc_bind raised].
  rewrite <- IH. by destruct (mapM f l).
Qed.

End Raised.

Lemma omap_pointwise {A B} (f g : A -> option B) (l : list A) :
  (forall x, f x = g x) -> omap f l = omap g l.
Proof.
  intros H. induction l as [|x l IH]; [done|]. cbn [omap list_omap].
  by rewrite H, IH.
Qed.

Lemma head_app {A} (l1 l2 : list A) :
  head (l1 ++ l2) = match head l1 with Some x => Some x | None => head l2 end.
Proof. by destruct l1. Qed.

(** The first exception of nested loops is the first of the loop over the
    leaves. *)
Lemma head_omap_bind {A B C} (g : B -> option C) (f : A -> list B)
    (l : list A) :
  head (omap (fun x => head (omap g (f x))) l) = head (omap g (l ≫= f)).
Proof.
  induction l as [|x l IH]; [done|]. cbn [omap list_omap mbind list_bind].
  rewrite omap_app, head_app.
  destruct (head (omap g (f x))); [done | exact IH].
Qed.

Lemma is_Ok_bind {A B} (m : exc A) (f : A -> exc B) :
  is_Ok (exc_bind m f) = true
  <-> exists a, m = Ok a /\ is_Ok (f a) = true.
Proof.
  destruct m as [a|e]; simpl; split.
  - eauto.
  - by intros (? & [= <-] & ?).
  - done.
  - by intros (? & ? & _).
Qed.

(** A loop returns when every round returns. *)
Lemma mapM_is_Ok {A B} (f : A -> exc B) (l : list A) :
  is_Ok (mapM f l) = true <-> Forall (fun x => is_Ok (f x) = true) l.
Proof.
  induction l as [|x l IH]; simpl; [by split|].
  rewrite Forall_cons, <- IH. clear IH.
  destruct (f x) as [y|e]; simpl; [|by split; [|intros []]].
  destruct (mapM f l); simpl; by split; [|intros []].
Qed.

(** [UnboundLocalError]: a variable read before it was assigned. *)
Definition is_unbound (e : pyexc) : Prop :=
  match e with
  | UnboundLocalError _ => True
  | _ => False
  end.

#[export] Hint Resolve never_Ok never_of_option never_mapM : py.

(** Goes through a chain of binds; leaves the computations it has no lemma
    for. *)
Ltac never_step :=
  first [ apply never_Ok
        | apply never_of_option; solve [intros []]
        | apply never_Raise; solve [intros []]
        | apply never_bind; [|intros ? ?] ].

(** ** Lists *)

Section Lists.
Context {A : Type}.
Implicit Types (l : list A).

(** Assignments that overwrite: after a non-empty loop only the last counts. *)
Lemma fold_left_overwrite {E} (h : A -> E) (upd : E -> A -> E) l x env :
  (forall e y, upd e y = h y) -> last l = Some x -> fold_left upd l env = h x.
Proof.
  intros Hupd. revert env. induction l as [|y l IH]; simpl; intros env Hl.
  - done.
  - destruct l as [|z l'].
    + simpl in *. simplify_eq. apply Hupd.
    + apply IH. exact Hl.
Qed.

Lemma last_is_Some l : l <> [] -> is_Some (last l).
Proof.
  induction l as [|x [|y l'] IH]; intros H; [done | by eexists |].
  apply IH. done.
Qed.

Lemma head_is_Some l : l <> [] -> is_Some (head l).
Proof. destruct l; [done | by eexists]. Qed.

Lemma last_elem_of l x : last l = Some x -> x ∈ l.
Proof.
  induction l as [|y [|z l'] IH]; simpl; intros H; [done | |].
  - simplify_eq. left.
  - right. by apply IH.
Qed.

Lemma head_elem_of l x : head l = Some x -> x ∈ l.
Proof. destruct l; simpl; intros; simplify_eq. left. Qed.

(** Filtering by two predicates that agree on the elements of the list. *)
Lemma filter_ext_in (P Q : A -> Prop)
    `{!forall x, Decision (P x)} `{!forall x, Decision (Q x)} l :
  (forall x, x ∈ l -> P x <-> Q x) -> filter P l = filter Q l.
Proof.
  induction l as [|x l IH]; intros HPQ; [done|].
  rewrite !filter_cons.
  rewrite IH by (intros y Hy; apply HPQ; by right).
  destruct (decide (P x)) as [HP|HP], (decide (Q x)) as [HQ|HQ]; try done;
    destruct (HPQ x); try tauto; left.
Qed.

Lemma filter_all (P : A -> Prop) `{!forall x, Decision (P x)} l :
  Forall P l -> filter P l = l.
Proof.
  induction 1 as [|x l Hx _ IH]; [done|].
  by rewrite filter_cons, decide_True, IH.
Qed.

End Lists.

Section Keys.
Context {A K : Type} `{EqDecision K}.
Implicit Types (f : A -> K) (k : K) (l : list A).

Lemma filter_none (P : A -> Prop) `{!forall x, Decision (P x)} l :
  Forall (fun x => ~ P x) l -> filter P l = [].
Proof.
  induction 1 as [|x l Hx _ IH]; [done|].
  by rewrite filter_cons, decide_False, IH.
Qed.

(** A key that no element has selects nothing. *)
Lemma filter_key_none f k l :
  k ∉ f <$> l -> filter (fun x => k = f x) l = [].
Proof.
  intros Hk. apply filter_none, Forall_forall. intros x Hx E.
  apply Hk. rewrite E. by apply list_elem_of_fmap_2.
Qed.

(** A key that occurs once selects one element. *)
Lemma filter_key_length_le f k l :
  NoDup (f <$> l) -> length (filter (fun x => k = f x) l) <= 1.
Proof.
  induction l as [|a l IH]; simpl; [lia|]. rewrite NoDup_cons.
  intros [Ha Hnd]. rewrite filter_cons. case_decide; [|auto].
  subst k. simpl. by rewrite filter_key_none.
Qed.

Lemma filter_key_length f k l :
  NoDup (f <$> l) -> k ∈ f <$> l -> length (filter (fun x => k = f x) l) = 1.
Proof.
  intros Hnd Hk. pose proof (filter_key_length_le f k l Hnd) as Hle.
  apply list_elem_of_fmap in Hk as (x & -> & Hx).
  assert (x ∈ filter (fun y => f x = f y) l) as Hin
    by by apply list_elem_of_filter.
  destruct (filter (fun y => f x = f y) l); [by apply elem_of_nil in Hin|].
  simpl in *. lia.
Qed.

(** The one element with the key of [x] among those that satisfy [P]. *)
Lemma filter_singleton f (P : A -> Prop) `{!forall x, Decision (P x)} l x :
  NoDup (f <$> l) -> x ∈ l -> P x ->
  (forall y, y ∈ l -> P y -> f y = f x) -> filter P l = [x].
Proof.
  induction l as [|a l IH]; intros Hnd Hx HPx Hkey.
  - by apply elem_of_nil in Hx.
  - rewrite fmap_cons in Hnd. apply NoDup_cons in Hnd as [Ha Hnd].
    rewrite filter_cons. apply elem_of_cons in Hx as [<-|Hx].
    + rewrite decide_True by done. f_equal. apply filter_none, Forall_forall.
      intros y Hy HPy. apply Ha. rewrite <- (Hkey y); [|by right|done].
      by apply list_elem_of_fmap_2.
    + rewrite decide_False.
      * apply IH; [done..|]. intros y Hy. apply Hkey. by right.
      * intros HPa. apply Ha. rewrite (Hkey a); [|left|done].
        by apply list_elem_of_fmap_2.
Qed.

End Keys.
