(* ===== verification/Groupby.v ===== *)
(** * Grouping rows by a key

    [df.groupby(col)] of pandas, as [setHierarchy] of [src/data/dataLoad.py]
    uses it three times: the distinct keys of the rows are collected and
    sorted ascending, and to each key belongs the sub-table of the rows with
    that key, in their original order.  Rows whose key is missing (NaN) are in
    no group.

    The file is generic in the type of rows and of keys.  What a key type has
    to provide is the interface [KeyOrder]: decidable equality and a decidable
    strict total order.  [Cell] gives the instance for the values of a table;
    the theorems here are proved against the interface only. *)

From Stdlib Require Import ZArith.
From stdpp Require Import base tactics option numbers list sorting.
From S2P Require Import Prelude.

(** ** The interface of keys *)

Class KeyOrder (K : Type) : Type := {
  key_eq_dec :: EqDecision K;
  key_lt : relation K;
  key_lt_dec :: RelDecision key_lt;
  key_lt_strict :: StrictOrder key_lt;
  key_lt_trichotomy :: Trichotomy key_lt
}.

(** Integers in their usual order: the keys of a table whose key column is
    of integer type. *)
#[export] Instance Z_lt_trichotomy : Trichotomy Z.lt.
Proof. intros x y. apply Z.lt_trichotomy. Qed.

#[export] Instance Z_KeyOrder : KeyOrder Z := {
  key_lt := Z.lt;
  key_lt_strict := Z.lt_strorder
}.

Section Keys.
Context {K : Type} `{KeyOrder K}.
Implicit Types (k : K) (ks : list K).

Definition key_le : relation K := fun k1 k2 => k1 = k2 \/ key_lt k1 k2.

#[export] Instance key_le_dec : RelDecision key_le.
Proof. intros k1 k2. unfold key_le. apply _. Defined.

#[export] Instance key_le_trans : Transitive key_le.
Proof.
  intros x y z [->|Hxy] [->|Hyz]; unfold key_le; auto.
  right. by transitivity y.
Qed.

#[export] Instance key_le_total : Total key_le.
Proof.
  intros x y. unfold key_le.
  destruct (trichotomy key_lt x y) as [?|[?|?]]; auto.
Qed.

(** The keys of a grouping: each distinct key once, ascending. *)
Definition sort_keys ks : list K := merge_sort key_le (remove_dups ks).

Lemma elem_of_sort_keys ks k : k ∈ sort_keys ks <-> k ∈ ks.
Proof.
  unfold sort_keys. rewrite merge_sort_Permutation. apply elem_of_remove_dups.
Qed.

Lemma NoDup_sort_keys ks : NoDup (sort_keys ks).
Proof.
  unfold sort_keys. rewrite merge_sort_Permutation. apply NoDup_remove_dups.
Qed.

(** A list sorted by [<=] that has no duplicates is sorted by [<]. *)
Lemma StronglySorted_le_lt ks :
  StronglySorted key_le ks -> NoDup ks -> StronglySorted key_lt ks.
Proof.
  induction 1 as [|k ks _ IH Hall]; intros Hnd; [constructor|].
  apply NoDup_cons in Hnd as [Hk Hnd].
  constructor; [by apply IH|].
  rewrite Forall_forall in *. intros k' Hk'.
  destruct (Hall k' Hk') as [->|?]; done.
Qed.

Lemma StronglySorted_sort_keys ks : StronglySorted key_lt (sort_keys ks).
Proof.
  apply StronglySorted_le_lt; [|apply NoDup_sort_keys].
  apply StronglySorted_merge_sort; apply _.
Qed.

(** The sorted list of the distinct keys is the only strictly sorted list
    with these elements. *)
Lemma sort_keys_unique ks (l : list K) :
  StronglySorted key_lt l -> (forall k, k ∈ l <-> k ∈ ks) -> l = sort_keys ks.
Proof.
  intros Hs Hl. apply (StronglySorted_unique_strong key_lt).
  - intros x y _ _ Hxy Hyx. destruct (irreflexivity key_lt x).
    by transitivity y.
  - done.
  - apply StronglySorted_sort_keys.
  - apply NoDup_Permutation.
    + clear Hl. induction Hs as [|k l' _ IH Hall]; constructor; [|done].
      intros Hin. rewrite Forall_forall in Hall.
      by destruct (irreflexivity key_lt k (Hall k Hin)).
    + apply NoDup_sort_keys.
    + intros k. by rewrite Hl, elem_of_sort_keys.
Qed.

End Keys.

(** ** Groups *)

Section Groupby.
Context {A K : Type} `{KeyOrder K}.
Variable key : A -> option K.
Implicit Types (a : A) (k : K) (l g : list A).

(** The row has key [k]. *)
Definition key_is k a : Prop := key a = Some k.

#[export] Instance key_is_dec k a : Decision (key_is k a).
Proof. unfold key_is. apply _. Defined.

(** The distinct keys of the rows of [l], ascending. *)
Definition group_keys l : list K := sort_keys (omap key l).

(** The rows of [l] with key [k], in the order of [l]. *)
Definition group_rows k l : list A := filter (key_is k) l.

(** [for name, group in df.groupby(col)]. *)
Definition groupby l : list (K * list A) :=
  map (fun k => (k, group_rows k l)) (group_keys l).

(** The rows [groupby] keeps: those that have a key. *)
Definition keyed l : list A := filter (fun a => is_Some (key a)) l.

(** *** The keys *)

Lemma elem_of_group_keys l k :
  k ∈ group_keys l <-> exists a, a ∈ l /\ key a = Some k.
Proof. unfold group_keys. rewrite elem_of_sort_keys. apply list_elem_of_omap. Qed.

Lemma group_keys_sorted l : StronglySorted key_lt (group_keys l).
Proof. apply StronglySorted_sort_keys. Qed.

Lemma group_keys_NoDup l : NoDup (group_keys l).
Proof. apply NoDup_sort_keys. Qed.

Lemma groupby_keys l : map fst (groupby l) = group_keys l.
Proof. unfold groupby. rewrite map_map. simpl. apply map_id. Qed.

Lemma groupby_nil : groupby [] = [].
Proof. reflexivity. Qed.

(** *** The groups *)

Lemma elem_of_groupby l k g :
  (k, g) ∈ groupby l <-> k ∈ group_keys l /\ g = group_rows k l.
Proof.
  unfold groupby. rewrite list_elem_of_fmap. split.
  - intros (k' & ? & ?). by simplify_eq.
  - intros [? ->]. by exists k.
Qed.

Lemma elem_of_group_rows l k a : a ∈ group_rows k l <-> a ∈ l /\ key a = Some k.
Proof. unfold group_rows. rewrite list_elem_of_filter. unfold key_is. tauto. Qed.

Lemma group_rows_nonempty l k : k ∈ group_keys l -> group_rows k l <> [].
Proof.
  intros (a & Ha & Hk)%elem_of_group_keys Hnil.
  assert (a ∈ group_rows k l) as Hin by by apply elem_of_group_rows.
  rewrite Hnil in Hin. by apply elem_of_nil in Hin.
Qed.

Lemma group_rows_sublist l k : group_rows k l `sublist_of` l.
Proof. apply sublist_filter. Qed.

Lemma group_rows_app k l1 l2 :
  group_rows k (l1 ++ l2) = group_rows k l1 ++ group_rows k l2.
Proof. apply filter_app. Qed.

Lemma group_rows_idemp l k : group_rows k (group_rows k l) = group_rows k l.
Proof. unfold group_rows. by apply list_filter_filter_l. Qed.

Lemma group_rows_other l k k' : k <> k' -> group_rows k (group_rows k' l) = [].
Proof.
  intros Hne. unfold group_rows. rewrite list_filter_filter.
  induction l as [|a l IH]; [done|].
  rewrite filter_cons. destruct (decide _) as [[H1 H2]|_]; [|done].
  unfold key_is in *. congruence.
Qed.

(** *** The groups partition the rows that have a key *)

(** The rows whose key is one of [ks]. *)
Definition key_in (ks : list K) a : Prop :=
  match key a with
  | Some k => k ∈ ks
  | None => False
  end.

#[export] Instance key_in_dec ks a : Decision (key_in ks a).
Proof. unfold key_in. destruct (key a); apply _. Defined.

Lemma key_in_cons k ks a : key_in (k :: ks) a <-> key_is k a \/ key_in ks a.
Proof.
  unfold key_in, key_is. destruct (key a) as [k'|].
  - rewrite elem_of_cons. split; intros [?|?]; simplify_eq; auto.
  - split; [done | by intros [?|?]].
Qed.

Lemma key_in_nil a : ~ key_in [] a.
Proof. unfold key_in. destruct (key a); [apply not_elem_of_nil | tauto]. Qed.

Lemma key_in_key_is k ks a : key_is k a -> key_in ks a -> k ∈ ks.
Proof. unfold key_in, key_is. by intros ->. Qed.

Lemma filter_key_in_cons k ks l :
  k ∉ ks ->
  filter (key_in (k :: ks)) l ≡ₚ group_rows k l ++ filter (key_in ks) l.
Proof.
  intros Hk. unfold group_rows. induction l as [|a l IH]; [done|].
  rewrite !filter_cons. pose proof (key_in_cons k ks a) as Hc.
  destruct (decide (key_is k a)) as [Ha|Ha],
    (decide (key_in ks a)) as [Hb|Hb],
    (decide (key_in (k :: ks) a)) as [Hd|Hd]; try tauto.
  - destruct Hk. by apply (key_in_key_is k ks a).
  - simpl. by f_equiv.
  - rewrite IH. by rewrite Permutation_middle.
Qed.

Lemma concat_group_rows ks l :
  NoDup ks ->
  concat (map (fun k => group_rows k l) ks) ≡ₚ filter (key_in ks) l.
Proof.
  induction 1 as [|k ks Hk _ IH]; simpl.
  - induction l as [|a l IHl]; [done|].
    rewrite filter_cons, decide_False; [done | apply key_in_nil].
  - by rewrite filter_key_in_cons, IH.
Qed.

Lemma filter_key_in_group_keys l : filter (key_in (group_keys l)) l = keyed l.
Proof.
  unfold keyed. apply filter_ext_in.
  intros a Ha. unfold key_in. destruct (key a) as [k|] eqn:E.
  - rewrite elem_of_group_keys. split; [by eexists | eauto].
  - split; [done | by intros [? ?]].
Qed.

(** *** What the iteration over [groupby l] sees *)

Lemma groupby_groups l :
  map snd (groupby l) = map (fun k => group_rows k l) (group_keys l).
Proof. unfold groupby. by rewrite map_map. Qed.

(** No group is empty: the body of a loop over the rows of a group runs at
    least once. *)
Lemma groupby_nonempty l : Forall (fun kg => kg.2 <> []) (groupby l).
Proof.
  rewrite Forall_forall. intros [k g] [Hk ->]%elem_of_groupby. simpl.
  by apply group_rows_nonempty.
Qed.

(** Every row of a group has the key of the group. *)
Lemma groupby_key_is l : Forall (fun kg => Forall (key_is kg.1) kg.2) (groupby l).
Proof.
  rewrite Forall_forall. intros [k g] [Hk ->]%elem_of_groupby. simpl.
  rewrite Forall_forall. by intros a [_ ?]%elem_of_group_rows.
Qed.

(** Every row of a group is a row of the table. *)
Lemma groupby_incl l k g a : (k, g) ∈ groupby l -> a ∈ g -> a ∈ l.
Proof. intros [_ ->]%elem_of_groupby [? _]%elem_of_group_rows. done. Qed.

(** The groups taken together are the rows that have a key, each once. *)
Lemma groupby_Permutation l : concat (map snd (groupby l)) ≡ₚ keyed l.
Proof.
  rewrite groupby_groups, concat_group_rows by apply group_keys_NoDup.
  by rewrite filter_key_in_group_keys.
Qed.

Lemma groupby_length l :
  sum_list (map (fun kg => length kg.2) (groupby l)) = length (keyed l).
Proof.
  rewrite <- (groupby_Permutation l), length_concat.
  by rewrite <- list_fmap_compose.
Qed.

(** When every row has a key, no row is lost. *)
Lemma keyed_all l : Forall (fun a => is_Some (key a)) l -> keyed l = l.
Proof. apply filter_all. Qed.

(** The rows of one key are met in the order of the table: reading the
    groups one after the other and keeping the rows of key [k] gives the rows
    of key [k] of the table. *)
Lemma group_rows_concat k ks l :
  NoDup ks ->
  group_rows k (concat (map (fun k' => group_rows k' l) ks))
  = if decide (k ∈ ks) then group_rows k l else [].
Proof.
  induction 1 as [|k' ks Hk' Hnd IH]; cbn [map concat].
  - case_decide as Hin; [by apply elem_of_nil in Hin | done].
  - rewrite group_rows_app, IH. destruct (decide (k = k')) as [->|Hne].
    + rewrite group_rows_idemp.
      repeat case_decide; rewrite ?app_nil_r; try done.
      all: rewrite elem_of_cons in *; tauto.
    + rewrite group_rows_other by done. cbn [app].
      repeat case_decide; try done; rewrite elem_of_cons in *; tauto.
Qed.

Lemma groupby_stable l k :
  group_rows k (concat (map snd (groupby l))) = group_rows k l.
Proof.
  rewrite groupby_groups, group_rows_concat by apply group_keys_NoDup.
  destruct (decide (k ∈ group_keys l)) as [|Hk]; [done|].
  symmetry. unfold group_rows. induction l as [|a l IH]; [done|].
  rewrite filter_cons. destruct (decide (key_is k a)) as [Ha|Ha].
  - destruct Hk. apply elem_of_group_keys. exists a. split; [left | done].
  - apply IH. intros (a' & ? & ?)%elem_of_group_keys.
    apply Hk, elem_of_group_keys. exists a'. split; [by right | done].
Qed.

End Groupby.

(** ** Grouping by the same key in two representations

    When the keys of the rows are the images of keys of another type under a
    strictly increasing function, the groups are the same and the keys
    correspond.  [Frame] uses it to read the groups of an integer column as
    groups by integer value. *)
Section Transfer.
Context {A K1 K2 : Type} `{KeyOrder K1} `{KeyOrder K2}.
Variable key1 : A -> option K1.
Variable key2 : A -> option K2.
Variable f : K1 -> K2.
Hypothesis f_mono : forall x y, key_lt x y -> key_lt (f x) (f y).

Lemma mono_inj x y : f x = f y -> x = y.
Proof.
  intros E. destruct (trichotomy key_lt x y) as [Hlt|[?|Hlt]]; [|done|];
    apply f_mono in Hlt; rewrite E in Hlt;
    by destruct (irreflexivity key_lt (f y)).
Qed.

Lemma group_keys_transfer l :
  (forall a, a ∈ l -> key2 a = f <$> key1 a) ->
  group_keys key2 l = map f (group_keys key1 l).
Proof.
  intros Hk. symmetry. apply sort_keys_unique.
  - eapply StronglySorted_fmap; [exact f_mono | apply group_keys_sorted].
  - intros k2. rewrite list_elem_of_fmap, list_elem_of_omap. split.
    + intros (k1 & -> & (a & Ha & Hka)%elem_of_group_keys).
      exists a. split; [done|]. by rewrite Hk, Hka.
    + intros (a & Ha & Hka). rewrite Hk in Hka by done.
      destruct (key1 a) as [k1|] eqn:E; [|done]. simpl in Hka. simplify_eq.
      exists k1. split; [done|]. apply elem_of_group_keys. eauto.
Qed.

Lemma group_rows_transfer l k :
  (forall a, a ∈ l -> key2 a = f <$> key1 a) ->
  group_rows key2 (f k) l = group_rows key1 k l.
Proof.
  intros Hk. apply filter_ext_in. intros a Ha. unfold key_is.
  rewrite Hk by done. destruct (key1 a) as [k1|]; simpl; [|done].
  split; intros E; simplify_eq; [|done]. f_equal. by apply mono_inj.
Qed.

Lemma groupby_transfer l :
  (forall a, a ∈ l -> key2 a = f <$> key1 a) ->
  groupby key2 l = map (fun kg => (f kg.1, kg.2)) (groupby key1 l).
Proof.
  intros Hk. unfold groupby. rewrite group_keys_transfer, !map_map by done.
  apply map_ext. intros k. simpl. by rewrite group_rows_transfer.
Qed.

End Transfer.

#[export] Hint Resolve group_keys_sorted group_keys_NoDup groupby_nonempty
  groupby_key_is : py.
