(* ===== verification/Cell.v ===== *)
(** * The values of a table

    A cell of a pandas DataFrame as [src/data/dataLoad.py] meets it: an
    integer (a column of dtype int64), a float (float64), a string (object)
    or a missing value (NaN, before [fillna]).

    - A finite float is the rational number it denotes.  The program does no
      arithmetic on floats; it carries them, compares them as grouping and
      join keys and truncates them with [int], and these three are exact on
      the denoted number.  Infinities do not occur in the tables.
    - [py_eq] is Python's [==] on these scalars and [pykey] the key under
      which pandas files a value when it groups or joins: [47] and [47.0]
      are one key.  Keys are ordered as pandas sorts the groups: numbers by
      value, before strings; strings by code point (byte order on UTF-8).
    - [py_int] is the builtin [int]: identity on integers, truncation toward
      zero on floats, the decimal literal syntax on ASCII strings, and
      [ValueError] naming the text otherwise; [int('')] raises.  Non-ASCII
      whitespace and digits are outside the model: on them [py_int] raises
      where Python may accept. *)

From Stdlib Require Import ZArith QArith Qcanon String Ascii List OrderedTypeEx.
From stdpp Require Import base tactics option numbers list strings.
From S2P Require Import Prelude Groupby.

(** ** Cells *)

Inductive cell : Type :=
| CInt (z : Z)
| CFloat (q : Q)
| CStr (s : string)
| CNaN.

#[export] Instance Q_eq_dec : EqDecision Q.
Proof. solve_decision. Defined.

#[export] Instance cell_eq_dec : EqDecision cell.
Proof. solve_decision. Defined.

Definition is_nan (c : cell) : bool :=
  match c with
  | CNaN => true
  | _ => false
  end.

(** ** Keys: Python equality and the order of sorted groups *)

(** A value as a key: a number by its value, a string by its text. *)
Inductive nkey : Type :=
| NNum (q : Qc)
| NStr (s : string).

#[export] Instance nkey_eq_dec : EqDecision nkey.
Proof. solve_decision. Defined.

(** The key of a cell; a missing value has none. *)
Definition pykey (c : cell) : option nkey :=
  match c with
  | CInt z => Some (NNum (Qc_of_Z z))
  | CFloat q => Some (NNum (Q2Qc q))
  | CStr s => Some (NStr s)
  | CNaN => None
  end.

(** Python's [a == b] on two cells that are not missing. *)
Definition py_eq (a b : cell) : bool := bool_decide (pykey a = pykey b).

Definition nkey_cmp (a b : nkey) : comparison :=
  match a, b with
  | NNum p, NNum q => (p ?= q)%Qc
  | NNum _, NStr _ => Lt
  | NStr _, NNum _ => Gt
  | NStr s, NStr t => String.compare s t
  end.

Definition nkey_lt (a b : nkey) : Prop := nkey_cmp a b = Lt.

#[export] Instance nkey_lt_dec : RelDecision nkey_lt.
Proof. intros a b. unfold nkey_lt. apply _. Defined.

(** ** [int(x)] *)

(** Truncation toward zero. *)
Definition Qtrunc (q : Q) : Z := Z.quot (Qnum q) (Zpos (Qden q)).

Definition is_space (a : ascii) : bool :=
  let n := nat_of_ascii a in
  ((9 <=? n) && (n <=? 13) || (28 <=? n) && (n <=? 32))%nat.

Definition digit_of (a : ascii) : option Z :=
  let n := Z.of_nat (nat_of_ascii a) in
  if ((48 <=? n) && (n <=? 57))%Z then Some (n - 48)%Z else None.

Fixpoint lstrip (l : list ascii) : list ascii :=
  match l with
  | a :: l' => if is_space a then lstrip l' else l
  | [] => []
  end.

Definition strip (l : list ascii) : list ascii :=
  rev (lstrip (rev (lstrip l))).

(** Where the scan of the digits stands: nothing read yet, after a digit, or
    after an underscore. *)
Inductive scan : Type := AtStart | AfterDigit | AfterUnderscore.

(** Decimal digits, single underscores allowed between two digits. *)
Fixpoint digits (st : scan) (acc : Z) (l : list ascii) : option Z :=
  match l with
  | [] =>
      match st with
      | AfterDigit => Some acc
      | _ => None
      end
  | a :: l' =>
      match digit_of a with
      | Some d => digits AfterDigit (10 * acc + d)%Z l'
      | None =>
          match st with
          | AfterDigit =>
              if Ascii.eqb a "_" then digits AfterUnderscore acc l' else None
          | _ => None
          end
      end
  end.

(** [int(s)] for a string: whitespace, an optional sign, digits. *)
Definition int_of_string (s : string) : option Z :=
  match strip (list_ascii_of_string s) with
  | a :: l =>
      if Ascii.eqb a "-" then Z.opp <$> digits AtStart 0 l
      else if Ascii.eqb a "+" then digits AtStart 0 l
      else digits AtStart 0 (a :: l)
  | [] => None
  end.

(** What [int] raises on a text that is no integer: the message names the
    text, [invalid literal for int() with base 10: '<s>']. *)
Definition invalid_literal (s : string) : pyexc :=
  ValueError "invalid literal for int() with base 10" (Some s).

Definition py_int (c : cell) : exc Z :=
  match c with
  | CInt z => Ok z
  | CFloat q => Ok (Qtrunc q)
  | CStr s => of_option (invalid_literal s) (int_of_string s)
  | CNaN => Raise (ValueError "cannot convert float NaN to integer" None)
  end.

(** ** [fillna('')] on one cell *)

Definition fillna_cell (c : cell) : cell :=
  match c with
  | CNaN => CStr ""
  | _ => c
  end.

(** ** The order of keys is a strict total order *)

Lemma nkey_cmp_Eq a b : nkey_cmp a b = Eq <-> a = b.
Proof.
  destruct a as [p|s], b as [q|t]; simpl; try (split; discriminate).
  - rewrite <- Qceq_alt. split; congruence.
  - change (String.compare s t) with (String_as_OT.cmp s t).
    rewrite String_as_OT.cmp_eq. split; congruence.
Qed.

Lemma nkey_cmp_antisym a b : nkey_cmp a b = CompOpp (nkey_cmp b a).
Proof.
  destruct a as [p|s], b as [q|t]; simpl; try done.
  - unfold Qccompare. by rewrite <- Qcompare_antisym.
  - apply String.compare_antisym.
Qed.

Lemma nkey_cmp_Gt a b : nkey_cmp a b = Gt <-> nkey_lt b a.
Proof.
  unfold nkey_lt. rewrite (nkey_cmp_antisym b a).
  destruct (nkey_cmp a b); simpl; split; congruence.
Qed.

#[export] Instance nkey_lt_strict : StrictOrder nkey_lt.
Proof.
  split.
  - intros a Ha. unfold nkey_lt in Ha.
    assert (nkey_cmp a a = Eq) as E by by apply nkey_cmp_Eq. congruence.
  - intros [p|s] [q|t] [r|u]; unfold nkey_lt; simpl; try done.
    + rewrite <- !Qclt_alt. apply Qclt_trans.
    + change String.compare with String_as_OT.cmp.
      rewrite !String_as_OT.cmp_lt. apply String_as_OT.lt_trans.
Qed.

#[export] Instance nkey_lt_trichotomy : Trichotomy nkey_lt.
Proof.
  intros a b. destruct (nkey_cmp a b) eqn:E.
  - right; left. by apply nkey_cmp_Eq.
  - by left.
  - right; right. by apply nkey_cmp_Gt.
Qed.

#[export] Instance nkey_KeyOrder : KeyOrder nkey := {
  key_lt := nkey_lt
}.

(** ** Integer keys *)

(** On integer cells the key order is the order of the integers and key
    equality is equality: an int64 column groups by value. *)
Lemma Qc_of_Z_compare (a b : Z) : (Qc_of_Z a ?= Qc_of_Z b)%Qc = (a ?= b)%Z.
Proof.
  unfold Qccompare, Qc_of_Z, Qcompare, inject_Z. simpl.
  by rewrite !Z.mul_1_r.
Qed.

Lemma pykey_CInt_lt (a b : Z) :
  nkey_lt (NNum (Qc_of_Z a)) (NNum (Qc_of_Z b)) <-> (a < b)%Z.
Proof. unfold nkey_lt. simpl. by rewrite Qc_of_Z_compare. Qed.

Lemma Qc_of_Z_inj (a b : Z) : Qc_of_Z a = Qc_of_Z b -> a = b.
Proof.
  intros E. apply Z.compare_eq. rewrite <- Qc_of_Z_compare.
  by apply Qceq_alt.
Qed.

Lemma pykey_CInt_inj (a b : Z) : pykey (CInt a) = pykey (CInt b) -> a = b.
Proof. simpl. intros E. apply Qc_of_Z_inj. congruence. Qed.

(** ** [int] and keys *)

Lemma py_int_CInt z : py_int (CInt z) = Ok z.
Proof. reflexivity. Qed.

Lemma py_int_empty : py_int (CStr "") = Raise (invalid_literal "").
Proof. reflexivity. Qed.

(** What [int] raises on a text names the text. *)
Lemma py_int_CStr_Raise s e :
  py_int (CStr s) = Raise e <-> int_of_string s = None /\ e = invalid_literal s.
Proof.
  simpl. destruct (int_of_string s); simpl; split; try done.
  - by intros [].
  - by intros [= <-].
  - by intros [_ ->].
Qed.

Lemma Qtrunc_inject_Z z : Qtrunc (inject_Z z) = z.
Proof. unfold Qtrunc. simpl. apply Z.quot_1_r. Qed.

(** [int] is defined on every float, and agrees with the integer on a float
    that holds one: [int(47.0) = 47]. *)
Lemma py_int_CFloat_Z z : py_int (CFloat (inject_Z z)) = Ok z.
Proof. simpl. by rewrite Qtrunc_inject_Z. Qed.

(** ** [fillna] *)

Lemma fillna_cell_not_nan c : is_nan (fillna_cell c) = false.
Proof. by destruct c. Qed.

Lemma fillna_cell_id c : is_nan c = false -> fillna_cell c = c.
Proof. by destruct c. Qed.

Lemma pykey_is_Some c : is_nan c = false <-> is_Some (pykey c).
Proof. destruct c; simpl; split; try done; by intros [? ?]. Qed.

#[export] Hint Rewrite py_int_CInt fillna_cell_not_nan : py_rw.

(** Numbers as keys: an integer and the float with the same value are
    one key ([47 == 47.0]), two integers are one key only when they are
    equal, and the order of the keys of two integers is the order of the
    integers.  Grouping and joining an integer column is grouping and
    joining by value. *)
Theorem pykey_numbers (a b : Z) :
  pykey (CInt a) = pykey (CFloat (inject_Z a)) /\
  (py_eq (CInt a) (CInt b) = true <-> a = b) /\
  (forall ka kb, pykey (CInt a) = Some ka -> pykey (CInt b) = Some kb ->
     key_lt ka kb <-> (a < b)%Z).
Proof.
  split_and!.
  - simpl. do 2 f_equal. apply Qc_is_canon. simpl. apply Qeq_sym, Qred_correct.
  - unfold py_eq. rewrite bool_decide_eq_true.
    split; [apply pykey_CInt_inj | by intros ->].
  - intros ka kb [= <-] [= <-]. apply pykey_CInt_lt.
Qed.

Lemma pykey_numbers_witness : pykey (CInt 47) = pykey (CFloat (inject_Z 47)).
Proof. apply (pykey_numbers 47 48). Defined.
