(* ===== verification/Value.v ===== *)
(** * Python values

    The values that [src/src/crawler.py] and
    [src/indexer/sentimentAnalyis.py] receive from outside: a decoded JSON
    document (the answer of the web API) or the result of a classifier.
    [getitem] is the subscript [v[k]] with a string, [getitem0] is [v[0]],
    [truthy] the truth value that [if] and [not] test, [iterate] what a
    [for] loop or a comprehension runs over, [py_str] the text that an
    f-string inserts, and [to_cell] the cell that a value becomes in a
    table.

    A dictionary is the list of its items in order; a key occurs once.
    [py_str] of a float and [to_cell] of a boolean, a list or a dictionary
    are outside the model ([Unsupported]).  The messages of [TypeError]
    name the type of the value, as those of Python 3.11 do.

    The parameters of a query ([param]) are the values [crawler.py] sends
    with a request.  [cell_str] is the text of a cell in an f-string, and
    [repr_string], [repr_param] and [repr_params] are [repr] on a string
    of ASCII characters and on a dictionary of parameters, which is what
    [print] shows of it. *)

From Stdlib Require Import ZArith QArith String Ascii List DecimalString.
From Stdlib Require Decimal DecimalPos.
From stdpp Require Import base tactics option numbers list strings.
From S2P Require Import Prelude Groupby Cell.

#[local] Open Scope exc_scope.

#[local] Unset Elimination Schemes.

Inductive pyval : Type :=
| VNone
| VBool (b : bool)
| VInt (z : Z)
| VFloat (q : Q)
| VStr (s : string)
| VList (l : list pyval)
| VDict (d : list (string * pyval)).

#[local] Set Elimination Schemes.

Lemma pyval_eq_dec' : forall v w : pyval, {v = w} + {v <> w}.
Proof.
  fix IH 1. intros [|b|z|q|s|l|d] [|b'|z'|q'|s'|l'|d'];
    try (right; discriminate); try (by left).
  - destruct (decide (b = b')); [left | right]; congruence.
  - destruct (decide (z = z')); [left | right]; congruence.
  - destruct (decide (q = q')); [left | right]; congruence.
  - destruct (decide (s = s')); [left | right]; congruence.
  - destruct (list_eq_dec (dec := IH) l l'); [left | right]; congruence.
  - destruct (list_eq_dec (dec := prod_eq_dec (EqDecision1 := IH)) d d');
      [left | right]; congruence.
Defined.

#[export] Instance pyval_eq_dec : EqDecision pyval := pyval_eq_dec'.

(** The value of a query parameter: a text, a list of texts, a number. *)
Inductive param : Type :=
| PStr (s : string)
| PList (l : list string)
| PInt (z : Z).

#[export] Instance param_eq_dec : EqDecision param.
Proof. solve_decision. Defined.

Definition params : Type := list (string * param).

(** ** Subscripts *)

(** [d.get(k)] on the items of a dictionary. *)
Fixpoint dict_get {A} (d : list (string * A)) (k : string) : option A :=
  match d with
  | [] => None
  | (k', v) :: d' => if decide (k = k') then Some v else dict_get d' k
  end.

(** [d[k] = v]: the item is replaced where the key is, added at the end
    otherwise. *)
Fixpoint dict_set {A} (d : list (string * A)) (k : string) (v : A)
    : list (string * A) :=
  match d with
  | [] => [(k, v)]
  | (k', v') :: d' =>
      if decide (k = k') then (k, v) :: d' else (k', v') :: dict_set d' k v
  end.

(** [type(v).__name__], as the messages of [TypeError] show it. *)
Definition type_name (v : pyval) : string :=
  match v with
  | VNone => "NoneType"
  | VBool _ => "bool"
  | VInt _ => "int"
  | VFloat _ => "float"
  | VStr _ => "str"
  | VList _ => "list"
  | VDict _ => "dict"
  end.

(** What a subscript raises on a value that has none. *)
Definition not_subscriptable (v : pyval) : pyexc :=
  TypeError (String.append "'" (String.append (type_name v)
               "' object is not subscriptable")).

(** [v[k]] for a string [k]. *)
Definition getitem (v : pyval) (k : string) : exc pyval :=
  match v with
  | VDict d => of_option (KeyError k) (dict_get d k)
  | VList _ =>
      Raise (TypeError "list indices must be integers or slices, not str")
  | VStr _ => Raise (TypeError "string indices must be integers, not 'str'")
  | _ => Raise (not_subscriptable v)
  end.

(** [v[0]]. *)
Definition getitem0 (v : pyval) : exc pyval :=
  match v with
  | VList l => of_option IndexError (head l)
  | VStr s =>
      match s with
      | String a _ => Ok (VStr (String a EmptyString))
      | EmptyString => Raise IndexError
      end
  | VDict _ => Raise (KeyError "0")
  | _ => Raise (not_subscriptable v)
  end.

(** ** Truth, iteration, text *)

Definition truthy (v : pyval) : bool :=
  match v with
  | VNone => false
  | VBool b => b
  | VInt z => negb (z =? 0)%Z
  | VFloat q => negb (Qeq_bool q 0)
  | VStr s => negb (String.eqb s "")
  | VList l => negb (Nat.eqb (length l) 0)
  | VDict d => negb (Nat.eqb (length d) 0)
  end.

(** The items a [for] runs over: the elements of a list, the keys of a
    dictionary, the characters of a string. *)
Definition iterate (v : pyval) : exc (list pyval) :=
  match v with
  | VList l => Ok l
  | VDict d => Ok (map (fun kv => VStr kv.1) d)
  | VStr s =>
      Ok (map (fun a => VStr (String a EmptyString)) (list_ascii_of_string s))
  | _ =>
      Raise (TypeError (String.append "'" (String.append (type_name v)
                          "' object is not iterable")))
  end.

(** [str(z)] for an integer. *)
Definition str_of_Z (z : Z) : string := NilZero.string_of_int (Z.to_int z).

(** The text of [v] in an f-string. *)
Definition py_str (v : pyval) : exc string :=
  match v with
  | VNone => Ok "None"%string
  | VBool true => Ok "True"%string
  | VBool false => Ok "False"%string
  | VInt z => Ok (str_of_Z z)
  | VStr s => Ok s
  | VFloat _ => Raise (Unsupported "text of a float")
  | VList _ | VDict _ => Raise (Unsupported "text of a container")
  end.

(** The end of a line, [\n] in a literal of the source. *)
Definition nl : string := String "010"%char EmptyString.

(** The text of a cell in an f-string. *)
Definition cell_str (c : cell) : exc string :=
  match c with
  | CInt z => Ok (str_of_Z z)
  | CStr s => Ok s
  | CNaN => Ok "nan"%string
  | CFloat _ => Raise (Unsupported "text of a float")
  end.

(** [repr] of one character of a string that is quoted with [quote]. *)
Definition hex_digit (n : N) : ascii :=
  nth (N.to_nat n) (list_ascii_of_string "0123456789abcdef") "0"%char.

Definition repr_char (quote a : ascii) : exc (list ascii) :=
  let n := N_of_ascii a in
  if decide (a = quote \/ a = "092"%char) then Ok ["092"%char; a]
  else if decide (n = 9%N) then Ok ["092"; "t"]%char
  else if decide (n = 10%N) then Ok ["092"; "n"]%char
  else if decide (n = 13%N) then Ok ["092"; "r"]%char
  else if decide (n < 32 \/ n = 127)%N
  then Ok ["092"%char; "x"%char; hex_digit (n / 16); hex_digit (n mod 16)]
  else if decide (n < 127)%N then Ok [a]
  else Raise (Unsupported "text outside ASCII").

(** [repr(s)]: between single quotes, unless [s] has a single quote and no
    double quote. *)
Definition repr_quote (l : list ascii) : ascii :=
  if decide ("'"%char ∈ l /\ "034"%char ∉ l) then "034"%char else "'"%char.

Definition repr_string (s : string) : exc string :=
  let l := list_ascii_of_string s in
  let quote := repr_quote l in
  body <- mapM (repr_char quote) l ;;
  Ok (string_of_list_ascii (quote :: List.concat body ++ [quote])).

(** [', '.join(l)]. *)
Fixpoint join (sep : string) (l : list string) : string :=
  match l with
  | [] => EmptyString
  | [s] => s
  | s :: l' => String.append s (String.append sep (join sep l'))
  end.

(** [repr(l)] for a list of strings. *)
Definition repr_list (l : list string) : exc string :=
  items <- mapM repr_string l ;;
  Ok (String.append "[" (String.append (join ", " items) "]")).

Definition repr_param (v : param) : exc string :=
  match v with
  | PStr s => repr_string s
  | PList l => repr_list l
  | PInt z => Ok (str_of_Z z)
  end.

(** [repr(d)] for a dictionary of parameters. *)
Definition repr_params (d : params) : exc string :=
  items <- mapM (fun kv : string * param =>
                   k <- repr_string kv.1 ;;
                   v <- repr_param kv.2 ;;
                   Ok (String.append k (String.append ": " v))) d ;;
  Ok (String.append "{" (String.append (join ", " items) "}")).

(** The cell of a table that holds [v]. *)
Definition to_cell (v : pyval) : exc cell :=
  match v with
  | VNone => Ok CNaN
  | VInt z => Ok (CInt z)
  | VFloat q => Ok (CFloat q)
  | VStr s => Ok (CStr s)
  | VBool _ => Raise (Unsupported "boolean cell")
  | VList _ | VDict _ => Raise (Unsupported "container cell")
  end.

(** ** Lemmas *)

Lemma dict_get_set {A} (d : list (string * A)) k v :
  dict_get (dict_set d k v) k = Some v.
Proof.
  induction d as [|[k' v'] d IH]; simpl.
  - by rewrite decide_True.
  - case_decide; simpl; [by rewrite decide_True | by rewrite decide_False].
Qed.

Lemma dict_get_set_ne {A} (d : list (string * A)) k k' v :
  k <> k' -> dict_get (dict_set d k v) k' = dict_get d k'.
Proof.
  intros Hne. induction d as [|[k0 v0] d IH]; simpl.
  - by rewrite decide_False.
  - destruct (decide (k = k0)) as [->|]; simpl;
      destruct (decide (k' = k0)) as [->|]; done.
Qed.

Lemma dict_set_set {A} (d : list (string * A)) k v w :
  dict_set (dict_set d k v) k w = dict_set d k w.
Proof.
  induction d as [|[k' v'] d IH]; simpl.
  - by rewrite decide_True.
  - case_decide; simpl; [by rewrite decide_True|].
    by rewrite decide_False, IH.
Qed.

Lemma getitem_dict d k v : dict_get d k = Some v -> getitem (VDict d) k = Ok v.
Proof. simpl. by intros ->. Qed.

Lemma getitem_missing d k :
  dict_get d k = None -> getitem (VDict d) k = Raise (KeyError k).
Proof. simpl. by intros ->. Qed.

Lemma getitem_Ok_inv v k x :
  getitem v k = Ok x -> exists d, v = VDict d /\ dict_get d k = Some x.
Proof.
  destruct v; simpl; try done. intros H. eexists; split; [done|].
  by destruct (dict_get d k); simplify_eq/=.
Qed.

Lemma truthy_list l : truthy (VList l) = false <-> l = [].
Proof. by destruct l. Qed.

(** A dictionary filled key by key. *)
Section Fill.
Context {A : Type} (g : string -> A).

Definition fill (d : list (string * A)) (keys : list string)
    : list (string * A) :=
  fold_left (fun d k => dict_set d k (g k)) keys d.

Lemma fill_cons d k keys : fill d (k :: keys) = fill (dict_set d k (g k)) keys.
Proof. reflexivity. Qed.

Lemma dict_get_fill_other d keys k :
  k ∉ keys -> dict_get (fill d keys) k = dict_get d k.
Proof.
  revert d. induction keys as [|k' keys IH]; intros d Hk; [done|].
  rewrite not_elem_of_cons in Hk. destruct Hk as [Hne Hk].
  rewrite fill_cons, IH by done. by apply dict_get_set_ne.
Qed.

Lemma dict_get_fill d keys k :
  k ∈ keys -> dict_get (fill d keys) k = Some (g k).
Proof.
  revert d. induction keys as [|k' keys IH]; intros d Hk.
  - by apply elem_of_nil in Hk.
  - rewrite fill_cons. destruct (decide (k ∈ keys)) as [Hin|Hout].
    + by apply IH.
    + apply elem_of_cons in Hk as [->|?]; [|done].
      rewrite dict_get_fill_other by done. apply dict_get_set.
Qed.

End Fill.

(** ** [int(str(z))] *)

Section IntStr.
Import Decimal DecimalPos.

(** The characters of a number written in decimal. *)
Definition chars (d : uint) : list ascii :=
  list_ascii_of_string (NilEmpty.string_of_uint d).

(** Evaluates [digit_of] on a character. *)
Ltac eval_digit :=
  match goal with
  | |- context [digit_of ?a] =>
      let v := eval vm_compute in (digit_of a) in
      change (digit_of a) with v; cbv iota beta
  end.

Lemma digits_acc d : forall p,
  digits AfterDigit (Zpos p) (chars d) = Some (Zpos (Pos.of_uint_acc d p)).
Proof.
  induction d as [|d IH|d IH|d IH|d IH|d IH|d IH|d IH|d IH|d IH|d IH];
    intros p; [done|..]; unfold chars in *;
    cbn -[Z.mul Z.add Pos.mul Pos.add digit_of]; eval_digit;
    rewrite <- IH; f_equal; lia.
Qed.

Lemma digits_uint d : forall st,
  st = AfterDigit \/ d <> Nil ->
  digits st 0 (chars d) = Some (Z.of_N (Pos.of_uint d)).
Proof.
  induction d as [|d IH|d IH|d IH|d IH|d IH|d IH|d IH|d IH|d IH|d IH];
    intros st Hst.
  - by destruct Hst as [->|?].
  - unfold chars in *. cbn -[Z.mul Z.add digit_of]. eval_digit.
    apply IH. by left.
  - apply (digits_acc d 1).
  - apply (digits_acc d 2).
  - apply (digits_acc d 3).
  - apply (digits_acc d 4).
  - apply (digits_acc d 5).
  - apply (digits_acc d 6).
  - apply (digits_acc d 7).
  - apply (digits_acc d 8).
  - apply (digits_acc d 9).
Qed.

Lemma chars_no_space d : Forall (fun a => is_space a = false) (chars d).
Proof.
  induction d; unfold chars in *; simpl; constructor; done.
Qed.

Lemma lstrip_id l : Forall (fun a => is_space a = false) l -> lstrip l = l.
Proof. destruct 1 as [|a l Ha _]; [done|]. simpl. by rewrite Ha. Qed.

Lemma strip_id l : Forall (fun a => is_space a = false) l -> strip l = l.
Proof.
  intros H. unfold strip. rewrite (lstrip_id l H), lstrip_id.
  - apply rev_involutive.
  - by apply Forall_rev.
Qed.

Lemma to_uint_not_Nil p : Pos.to_uint p <> Nil.
Proof.
  intros E. pose proof (Unsigned.of_to p) as H. by rewrite E in H.
Qed.

(** The first character of a number is no sign. *)
Lemma chars_head d :
  d <> Nil ->
  exists a l, chars d = a :: l /\ Ascii.eqb a "-" = false /\
              Ascii.eqb a "+" = false.
Proof. destruct d; [done|..]; intros _; by eexists _, _. Qed.

Lemma int_of_string_pos p :
  int_of_string (NilEmpty.string_of_uint (Pos.to_uint p)) = Some (Zpos p).
Proof.
  unfold int_of_string. fold (chars (Pos.to_uint p)).
  rewrite strip_id by apply chars_no_space.
  pose proof (to_uint_not_Nil p) as Hne.
  destruct (chars_head _ Hne) as (a & l & E & Hm & Hp).
  rewrite E, Hm, Hp, <- E, digits_uint by by right.
  by rewrite Unsigned.of_to.
Qed.

Lemma int_of_string_neg p :
  int_of_string (String "-" (NilEmpty.string_of_uint (Pos.to_uint p)))
  = Some (Zneg p).
Proof.
  unfold int_of_string.
  change (list_ascii_of_string (String "-" ?s))
    with ("-"%char :: list_ascii_of_string s).
  fold (chars (Pos.to_uint p)).
  rewrite strip_id by (constructor; [done | apply chars_no_space]).
  rewrite Ascii.eqb_refl, digits_uint by (right; apply to_uint_not_Nil).
  by rewrite Unsigned.of_to.
Qed.

Lemma string_of_uint_to_uint p :
  NilZero.string_of_uint (Pos.to_uint p)
  = NilEmpty.string_of_uint (Pos.to_uint p).
Proof.
  pose proof (to_uint_not_Nil p). by destruct (Pos.to_uint p).
Qed.

Lemma int_of_string_str (z : Z) : int_of_string (str_of_Z z) = Some z.
Proof.
  destruct z as [|p|p]; unfold str_of_Z; simpl.
  - reflexivity.
  - rewrite string_of_uint_to_uint. apply int_of_string_pos.
  - rewrite string_of_uint_to_uint. apply int_of_string_neg.
Qed.

End IntStr.

(** [int(str(z)) == z]: an integer written as text, as an identifier
    is in a column of strings, is read back by [int] as the same integer,
    for every integer. *)
Theorem py_int_str (z : Z) : py_int (CStr (str_of_Z z)) = Ok z.
Proof. simpl. by rewrite int_of_string_str. Qed.
