(* ===== verification/Clock.v ===== *)
(** * The clock

    [datetime.now()] is a reading of the clock, and the names of the files
    come from it through [strftime]: ["%H.%M"] in the script of
    [src/data/dataLoad.py] (line 178), ["%d.%m"] and ["%H.%M.%S"] in
    [exportCSV] of [src/src/crawler.py] (lines 186 and 195).  Every field of
    these formats is two digits, padded with a zero.

    The theorems say when two readings give the same text: that is when two
    runs write to the same files. *)

From Stdlib Require Import ZArith String List Lia.
From stdpp Require Import base tactics option numbers list strings.
From S2P Require Import Prelude Groupby Cell Value.

#[local] Open Scope string_scope.
#[local] Notation "a +:+ b" := (String.append a b)
  (at level 60, right associativity).

(** A reading of the clock. *)
Record datetime : Type := mk_datetime {
  year : nat;
  month : nat;
  day : nat;
  hour : nat;
  minute : nat;
  second : nat
}.

#[export] Instance datetime_eq_dec : EqDecision datetime.
Proof. solve_decision. Defined.

(** The readings a clock gives. *)
Definition valid (now : datetime) : Prop :=
  (1 <= month now <= 12 /\ 1 <= day now <= 31)
  /\ hour now < 24 /\ minute now < 60 /\ second now < 60.

#[export] Instance valid_dec now : Decision (valid now).
Proof. unfold valid. apply _. Defined.

(** A field of the formats [%H], [%M], [%S], [%d] and [%m]: the number in
    two digits. *)
Definition two_digits (n : nat) : string :=
  if decide (n < 10) then "0" +:+ str_of_Z (Z.of_nat n)
  else str_of_Z (Z.of_nat n).

(** [now.strftime("%H.%M")]. *)
Definition strftime_HM (now : datetime) : string :=
  two_digits (hour now) +:+ "." +:+ two_digits (minute now).

(** [now.strftime("%d.%m")]. *)
Definition strftime_dm (now : datetime) : string :=
  two_digits (day now) +:+ "." +:+ two_digits (month now).

(** [now.strftime("%H.%M.%S")]. *)
Definition strftime_HMS (now : datetime) : string :=
  two_digits (hour now) +:+ "." +:+ two_digits (minute now) +:+ "."
  +:+ two_digits (second now).

(** Half past ten on the fifth of October. *)
Definition sample_now : datetime :=
  {| year := 2016; month := 10; day := 5; hour := 10; minute := 30;
     second := 0 |}.

(** ** Two digits *)

(** What holds of every number below 100 is checked on each of them. *)
Lemma below_100 (P : nat -> Prop) `{forall n, Decision (P n)} :
  Forall P (seq 0 100) -> forall n, n < 100 -> P n.
Proof.
  intros HP n Hn. rewrite Forall_forall in HP. apply HP, elem_of_seq. lia.
Qed.

Lemma two_digits_length n : n < 100 -> String.length (two_digits n) = 2.
Proof. revert n. apply below_100; [apply _ | compute_done]. Qed.

(** [int] reads the field back. *)
Lemma two_digits_read n :
  n < 100 -> int_of_string (two_digits n) = Some (Z.of_nat n).
Proof. revert n. apply below_100; [apply _ | compute_done]. Qed.

Lemma two_digits_inj n m :
  n < 100 -> m < 100 -> two_digits n = two_digits m -> n = m.
Proof.
  intros Hn Hm E. apply Nat2Z.inj. apply (inj Some).
  by rewrite <- !two_digits_read, E.
Qed.

(** ** Texts of equal length at the beginning of equal texts *)

Lemma append_inj_length (a a' b b' : string) :
  String.length a = String.length a' ->
  a +:+ b = a' +:+ b' -> a = a' /\ b = b'.
Proof.
  revert a'. induction a as [|x a IH]; intros [|x' a'] Hl E; try done.
  simpl in Hl. injection E as -> E. destruct (IH a') as [-> ->]; auto.
Qed.

Lemma length_append (a b : string) :
  String.length (a +:+ b) = String.length a + String.length b.
Proof. induction a as [|x a IH]; [done|]. simpl. by rewrite IH. Qed.

Lemma strftime_HM_length now :
  valid now -> String.length (strftime_HM now) = 5.
Proof.
  intros Hv. unfold strftime_HM, valid in *.
  rewrite !length_append, !two_digits_length by lia. done.
Qed.

(** ** When two readings give the same text *)

Section SameText.
Variables a b : datetime.
Hypotheses (Ha : valid a) (Hb : valid b).

Lemma fields_below_100 :
  (month a < 100 /\ day a < 100 /\ hour a < 100 /\ minute a < 100
   /\ second a < 100)
  /\ (month b < 100 /\ day b < 100 /\ hour b < 100 /\ minute b < 100
      /\ second b < 100).
Proof. unfold valid in *. lia. Qed.

Lemma strftime_HM_eq :
  strftime_HM a = strftime_HM b <-> hour a = hour b /\ minute a = minute b.
Proof.
  destruct fields_below_100 as [(?&?&?&?&?) (?&?&?&?&?)].
  unfold strftime_HM. split; [|by intros [-> ->]].
  intros [E1 E2]%append_inj_length; [|by rewrite !two_digits_length].
  injection E2 as E2. split; by apply two_digits_inj.
Qed.

Lemma strftime_dm_eq :
  strftime_dm a = strftime_dm b <-> day a = day b /\ month a = month b.
Proof.
  destruct fields_below_100 as [(?&?&?&?&?) (?&?&?&?&?)].
  unfold strftime_dm. split; [|by intros [-> ->]].
  intros [E1 E2]%append_inj_length; [|by rewrite !two_digits_length].
  injection E2 as E2. split; by apply two_digits_inj.
Qed.

Lemma strftime_HMS_eq :
  strftime_HMS a = strftime_HMS b
  <-> hour a = hour b /\ minute a = minute b /\ second a = second b.
Proof.
  destruct fields_below_100 as [(?&?&?&?&?) (?&?&?&?&?)].
  unfold strftime_HMS. split; [|by intros (-> & -> & ->)].
  intros [E1 E2]%append_inj_length; [|by rewrite !two_digits_length].
  injection E2 as E2.
  apply (append_inj_length (two_digits (minute a)) (two_digits (minute b)))
    in E2 as [E2 E3]; [|by rewrite !two_digits_length].
  injection E3 as E3. split_and!; by apply two_digits_inj.
Qed.

End SameText.
