(* ===== verification/Frame.v ===== *)
(** * Tables

    The pandas DataFrame operations that [src/data/dataLoad.py] calls:
    [fillna], [add_prefix], [merge] (inner join), [drop], [groupby],
    [iterrows], column selection, [.iloc[0]] and [row[label]].

    A table is its column labels and its rows, each row a list of cells;
    [df_wf] says that it is rectangular and that its labels are distinct,
    which pandas guarantees for what [read_csv] returns from a CSV file with
    distinct headers.  Every operation keeps [df_wf].  A row handed to the
    body of a loop ([iterrows]) is a [Series]: the cells with their labels.

    The operations raise what pandas raises on a missing label ([KeyError]
    with the label; with the list of the labels for [drop]; for [merge]
    the key of the right table before the key of the left one) and on an
    empty selection ([IndexError]).  Out of the model: the dtype checks
    pandas makes on join keys, and the index of a table (no modelled code
    reads it). *)

From Stdlib Require Import ZArith QArith String List Sorted.
From stdpp Require Import base tactics option numbers list strings.
From S2P Require Import Prelude Groupby Cell Value.

(** ** Tables and rows *)

Record DataFrame : Type := mkDataFrame {
  columns : list string;
  rows : list (list cell)
}.

#[export] Instance DataFrame_eq_dec : EqDecision DataFrame.
Proof. solve_decision. Defined.

(** A row with its labels. *)
Definition Series : Type := list (string * cell).

Definition df_wf (df : DataFrame) : Prop :=
  NoDup (columns df) /\
  Forall (fun r => length r = length (columns df)) (rows df).

(** [len(df)]. *)
Definition df_len (df : DataFrame) : nat := length (rows df).

(** ** Access by label *)

Fixpoint assoc (c : string) (row : Series) : option cell :=
  match row with
  | [] => None
  | (c', v) :: row' => if decide (c = c') then Some v else assoc c row'
  end.

(** [row[c]]. *)
Definition series_get (row : Series) (c : string) : exc cell :=
  of_option (KeyError c) (assoc c row).

(** The cell of a row of the table under label [c]. *)
Definition cell_of (cols : list string) (c : string) (r : list cell)
    : option cell :=
  assoc c (zip cols r).

(** [for index, row in df.iterrows()]: the rows in order. *)
Definition iterrows (df : DataFrame) : list Series :=
  map (zip (columns df)) (rows df).

(** [df[c]]: the column as the list of its values. *)
Definition column (df : DataFrame) (c : string) : exc (list cell) :=
  if decide (c ∈ columns df)
  then Ok (omap (cell_of (columns df) c) (rows df))
  else Raise (KeyError c).

(** [s.iloc[0]]. *)
Definition iloc0 (s : list cell) : exc cell := of_option IndexError (head s).

(** ** [fillna], [add_prefix], [drop] *)

(** [df.fillna('')]. *)
Definition fillna (df : DataFrame) : DataFrame :=
  {| columns := columns df; rows := map (map fillna_cell) (rows df) |}.

(** [df.add_prefix(p)]. *)
Definition add_prefix (p : string) (df : DataFrame) : DataFrame :=
  {| columns := map (String.append p) (columns df); rows := rows df |}.

(** The cells of a row whose label is not dropped. *)
Definition drop_cells (cs cols : list string) (r : list cell) : list cell :=
  (filter (fun cv => cv.1 ∉ cs) (zip cols r)).*2.

(** [df.drop(cs, axis=1)]: every label of [cs] must be a column; the
    exception names all those that are not, as a list. *)
Definition drop (cs : list string) (df : DataFrame) : exc DataFrame :=
  match filter (fun c => c ∉ columns df) cs with
  | [] =>
      Ok {| columns := filter (fun c => c ∉ cs) (columns df);
            rows := map (drop_cells cs (columns df)) (rows df) |}
  | missing =>
      (labels <- repr_list missing ;;
       Raise (KeyError (String.append labels " not found in axis")))%exc
  end.

(** ** [groupby] *)

(** The grouping key of a row: the key of its cell under [c]. *)
Definition row_key (cols : list string) (c : string) (r : list cell)
    : option nkey :=
  cell_of cols c r ≫= pykey.

(** The name of a group as the loop sees it: the value of the first row. *)
Definition group_name (cols : list string) (c : string) (g : list (list cell))
    : cell :=
  default CNaN (head g ≫= cell_of cols c).

(** [df.groupby(c)], iterated: the pairs of a name and a sub-table, by
    ascending key, each sub-table with its rows in the order of [df]. *)
Definition df_groupby (df : DataFrame) (c : string)
    : exc (list (cell * DataFrame)) :=
  if decide (c ∈ columns df)
  then Ok (map (fun kg => (group_name (columns df) c kg.2,
                           {| columns := columns df; rows := kg.2 |}))
             (groupby (row_key (columns df) c) (rows df)))
  else Raise (KeyError c).

(** ** [merge]: the inner join *)

(** Labels that both tables have get the suffixes [_x] and [_y]. *)
Definition suffix_overlap (sfx : string) (other : list string) (c : string)
    : string :=
  if decide (c ∈ other) then String.append c sfx else c.

(** Two cells are the same join key.  Missing values match each other. *)
Definition key_match (a b : option cell) : Prop :=
  (a ≫= pykey) = (b ≫= pykey).

#[export] Instance key_match_dec a b : Decision (key_match a b).
Proof. unfold key_match. apply _. Defined.

(** The rows of [right] that match a row of [left], in the order of
    [right], each appended to the row of [left]. *)
Definition join_row (lcols rcols : list string) (lon ron : string)
    (rrows : list (list cell)) (lr : list cell) : list (list cell) :=
  map (app lr)
    (filter (fun rr => key_match (cell_of lcols lon lr) (cell_of rcols ron rr))
       rrows).

(** [pd.merge(left, right, left_on=lon, right_on=ron, how='inner')]: the
    order of the rows of [left] is kept.  pandas looks up the key of the
    right table before the key of the left one: when both are absent the
    exception names [ron].  pandas keeps one column when the two join
    columns have one label; the sources join on columns with different
    labels, and the other case is outside the model. *)
Definition merge (left right : DataFrame) (lon ron : string) : exc DataFrame :=
  if decide (ron ∈ columns right) then
    if decide (lon ∈ columns left) then
      if decide (lon = ron) then
        Raise (Unsupported "join columns with one label")
      else
        Ok {| columns :=
                map (suffix_overlap "_x" (columns right)) (columns left)
                ++ map (suffix_overlap "_y" (columns left)) (columns right);
              rows :=
                flat_map (join_row (columns left) (columns right) lon ron
                            (rows right)) (rows left) |}
    else Raise (KeyError lon)
  else Raise (KeyError ron).

(** ** Typing of columns *)

(** The integer of a row under [c] (0 where there is none). *)
Definition zcell (cols : list string) (c : string) (r : list cell) : Z :=
  match cell_of cols c r with
  | Some (CInt z) => z
  | _ => 0%Z
  end.

(** Every row has an integer under [c]: a column of dtype int64. *)
Definition int_column (df : DataFrame) (c : string) : Prop :=
  Forall (fun r => cell_of (columns df) c r
                   = Some (CInt (zcell (columns df) c r))) (rows df).

(** No cell of the table is missing. *)
Definition no_nan (df : DataFrame) : Prop :=
  Forall (Forall (fun c => is_nan c = false)) (rows df).

(** ** Access by label: lemmas *)

Lemma assoc_zip_is_Some (cols : list string) c (r : list cell) :
  c ∈ cols -> length r = length cols -> is_Some (assoc c (zip cols r)).
Proof.
  revert r. induction cols as [|c' cols IH]; intros r Hc Hlen.
  - by apply elem_of_nil in Hc.
  - destruct r as [|v r]; [done|]. simpl. case_decide; [by eexists|].
    apply IH; [|by simplify_eq/=]. apply elem_of_cons in Hc as [?|?]; done.
Qed.

Lemma assoc_zip_None (cols : list string) c (r : list cell) :
  c ∉ cols -> assoc c (zip cols r) = None.
Proof.
  revert r. induction cols as [|c' cols IH]; intros r Hc; [done|].
  destruct r as [|v r]; [done|]. simpl.
  rewrite not_elem_of_cons in Hc. destruct Hc. case_decide; [done | auto].
Qed.

Lemma assoc_zip_elem_of (cols : list string) c (r : list cell) v :
  assoc c (zip cols r) = Some v -> v ∈ r.
Proof.
  revert r. induction cols as [|c' cols IH]; intros r; [done|].
  destruct r as [|v' r]; [done|]. simpl. case_decide.
  - intros ?; simplify_eq. left.
  - intros ?. right. auto.
Qed.

Lemma cell_of_is_Some cols c r :
  c ∈ cols -> length r = length cols -> is_Some (cell_of cols c r).
Proof. apply assoc_zip_is_Some. Qed.

Lemma cell_of_elem_of cols c r v : cell_of cols c r = Some v -> v ∈ r.
Proof. apply assoc_zip_elem_of. Qed.

Lemma series_get_zip cols c r :
  series_get (zip cols r) c = of_option (KeyError c) (cell_of cols c r).
Proof. reflexivity. Qed.

Lemma series_get_missing cols c r :
  c ∉ cols -> series_get (zip cols r) c = Raise (KeyError c).
Proof. intros Hc. unfold series_get. by rewrite assoc_zip_None. Qed.

(** A row without missing values has a grouping key under every label. *)
Lemma row_key_is_Some cols c r :
  c ∈ cols -> length r = length cols -> Forall (fun v => is_nan v = false) r ->
  is_Some (row_key cols c r).
Proof.
  intros Hc Hlen Hr. unfold row_key.
  destruct (cell_of_is_Some cols c r Hc Hlen) as [v Hv]. rewrite Hv. simpl.
  apply pykey_is_Some. rewrite Forall_forall in Hr.
  apply Hr. by apply cell_of_elem_of in Hv.
Qed.

Lemma iterrows_length df : length (iterrows df) = df_len df.
Proof. unfold iterrows, df_len. apply length_map. Qed.

Lemma iterrows_nil df : iterrows df = [] <-> rows df = [].
Proof. unfold iterrows. split; [apply map_eq_nil | by intros ->]. Qed.

Lemma last_iterrows df :
  last (iterrows df) = zip (columns df) <$> last (rows df).
Proof. unfold iterrows. apply fmap_last. Qed.

(** ** Tables that a loop can run on *)

(** Rectangular, nothing missing, at least one row: what every group of a
    table without missing values is. *)
Definition populated (df : DataFrame) : Prop :=
  df_wf df /\ no_nan df /\ rows df <> [].

(** The sub-table of a group. *)
Definition sub_frame (df : DataFrame) (g : list (list cell)) : DataFrame :=
  {| columns := columns df; rows := g |}.

Lemma sub_frame_wf df g : df_wf df -> g ⊆ rows df -> df_wf (sub_frame df g).
Proof.
  intros [Hnd Hlen] Hg. split; [done|]. simpl.
  rewrite Forall_forall in *. auto.
Qed.

Lemma sub_frame_no_nan df g : no_nan df -> g ⊆ rows df -> no_nan (sub_frame df g).
Proof. unfold no_nan. simpl. rewrite !Forall_forall. auto. Qed.

Section DfGroupby.
Variable df : DataFrame.
Variable c : string.

Lemma df_groupby_missing : c ∉ columns df -> df_groupby df c = Raise (KeyError c).
Proof. intros Hc. unfold df_groupby. by rewrite decide_False. Qed.

Lemma df_groupby_Ok :
  c ∈ columns df ->
  df_groupby df c
  = Ok (map (fun kg => (group_name (columns df) c kg.2, sub_frame df kg.2))
          (groupby (row_key (columns df) c) (rows df))).
Proof. intros Hc. unfold df_groupby. by rewrite decide_True. Qed.

Lemma df_groupby_Ok_inv gs :
  df_groupby df c = Ok gs ->
  c ∈ columns df /\
  gs = map (fun kg => (group_name (columns df) c kg.2, sub_frame df kg.2))
         (groupby (row_key (columns df) c) (rows df)).
Proof.
  unfold df_groupby. case_decide; intros ?; simplify_eq. done.
Qed.

(** With nothing missing, every row has a key: grouping loses no row. *)
Lemma keyed_populated :
  c ∈ columns df -> df_wf df -> no_nan df ->
  keyed (row_key (columns df) c) (rows df) = rows df.
Proof.
  intros Hc [_ Hlen] Hnan. apply keyed_all.
  unfold no_nan in Hnan. rewrite Forall_forall in *.
  intros r Hr. apply row_key_is_Some; auto.
Qed.

(** The groups of a populated table are populated, and there is one. *)
Lemma df_groupby_populated gs :
  populated df -> df_groupby df c = Ok gs ->
  gs <> [] /\ Forall (fun ng => populated ng.2) gs.
Proof.
  intros (Hwf & Hnan & Hne) [Hc ->]%df_groupby_Ok_inv. split.
  - intros Hnil%fmap_nil_inv.
    pose proof (groupby_Permutation (row_key (columns df) c) (rows df)) as HP.
    rewrite Hnil, keyed_populated in HP by done. simpl in HP.
    by apply Permutation_nil_l in HP.
  - rewrite Forall_fmap, Forall_forall. intros [k g] Hkg. simpl.
    assert (g ⊆ rows df) as Hsub.
    { intros r Hr. by eapply groupby_incl. }
    split; [by apply sub_frame_wf|]. split; [by apply sub_frame_no_nan|].
    pose proof (groupby_nonempty (row_key (columns df) c) (rows df)) as HN.
    rewrite Forall_forall in HN. by apply (HN (k, g)).
Qed.

End DfGroupby.

(** The groups of a rectangular table without missing values are populated;
    an empty table has no group. *)
Lemma df_groupby_clean df c gs :
  df_wf df -> no_nan df -> df_groupby df c = Ok gs ->
  Forall (fun ng => populated ng.2) gs.
Proof.
  intros Hwf Hnan E. destruct (decide (rows df = [])) as [Hnil|Hne].
  - apply df_groupby_Ok_inv in E as [_ ->]. rewrite Hnil. constructor.
  - by apply (df_groupby_populated df c gs).
Qed.

(** ** Deciding the invariants *)

#[export] Instance df_wf_dec df : Decision (df_wf df).
Proof. unfold df_wf. apply _. Defined.

#[export] Instance no_nan_dec df : Decision (no_nan df).
Proof. unfold no_nan. apply _. Defined.

#[export] Instance int_column_dec df c : Decision (int_column df c).
Proof. unfold int_column. apply _. Defined.

(** ** Integer columns *)

(** The key of an integer. *)
Definition int_key (z : Z) : nkey := NNum (Qc_of_Z z).

Lemma int_key_mono (x y : Z) : key_lt x y -> key_lt (int_key x) (int_key y).
Proof. apply pykey_CInt_lt. Qed.

Lemma int_column_cell df c r :
  int_column df c -> r ∈ rows df ->
  cell_of (columns df) c r = Some (CInt (zcell (columns df) c r)).
Proof.
  unfold int_column. rewrite Forall_forall. auto.
Qed.

Lemma row_key_int df c r :
  int_column df c -> r ∈ rows df ->
  row_key (columns df) c r = int_key <$> Some (zcell (columns df) c r).
Proof.
  intros Hint Hr. unfold row_key. by rewrite (int_column_cell df c r).
Qed.

Lemma sub_frame_int_column df c g :
  int_column df c -> g ⊆ rows df -> int_column (sub_frame df g) c.
Proof. unfold int_column. simpl. rewrite !Forall_forall. auto. Qed.

(** The rows of [df] whose integer under [c] is [z]. *)
Definition rows_with (df : DataFrame) (c : string) (z : Z) : list (list cell) :=
  filter (fun r => zcell (columns df) c r = z) (rows df).

(** The distinct integers of column [c], ascending. *)
Definition int_values (df : DataFrame) (c : string) : list Z :=
  sort_keys (map (zcell (columns df) c) (rows df)).

Lemma group_keys_int_values df c :
  group_keys (fun r => Some (zcell (columns df) c r)) (rows df)
  = int_values df c.
Proof.
  unfold group_keys, int_values. f_equal.
Qed.

Lemma group_rows_rows_with df c z :
  group_rows (fun r => Some (zcell (columns df) c r)) z (rows df)
  = rows_with df c z.
Proof.
  unfold group_rows, rows_with. apply filter_ext_in. intros r _.
  unfold key_is. split; intros E; by simplify_eq.
Qed.

(** Grouping by a column of integers is grouping by integer value: the names
    of the groups are the distinct integers of the column in ascending
    order, and the group of [z] holds the rows with [z], in their order. *)
Lemma df_groupby_int df c :
  c ∈ columns df -> int_column df c ->
  df_groupby df c
  = Ok (map (fun z => (CInt z, sub_frame df (rows_with df c z)))
          (int_values df c)).
Proof.
  intros Hc Hint. rewrite df_groupby_Ok by done. f_equal.
  rewrite (groupby_transfer (fun r => Some (zcell (columns df) c r))
             (row_key (columns df) c) int_key int_key_mono)
    by (intros r Hr; by apply row_key_int).
  unfold groupby. rewrite !map_map, group_keys_int_values.
  apply Forall_fmap_ext, Forall_forall. intros z Hz. simpl.
  rewrite group_rows_rows_with. f_equal.
  unfold int_values in Hz. apply (proj1 (elem_of_sort_keys _ _)) in Hz.
  apply list_elem_of_fmap in Hz as (r0 & -> & Hr0).
  unfold group_name, rows_with.
  destruct (filter _ (rows df)) as [|r g] eqn:E.
  - assert (r0 ∈ filter (fun r => zcell (columns df) c r
                                  = zcell (columns df) c r0) (rows df)) as Hin
      by by apply list_elem_of_filter.
    rewrite E in Hin. by apply elem_of_nil in Hin.
  - assert (r ∈ r :: g) as Hin by left. rewrite <- E in Hin.
    apply list_elem_of_filter in Hin as [Hz Hr]. simpl.
    by rewrite (int_column_cell df c r), Hz.
Qed.

(** ** The contract of [groupby] *)

(** The key of a group is the key of its name. *)
Lemma group_name_key cols c k g :
  g <> [] -> Forall (fun r => row_key cols c r = Some k) g ->
  pykey (group_name cols c g) = Some k.
Proof.
  destruct g as [|r g]; [done|]. intros _ [Hr _]%Forall_cons.
  unfold group_name, row_key in *. simpl.
  by destruct (cell_of cols c r).
Qed.

Lemma df_groupby_names df c gs :
  df_groupby df c = Ok gs ->
  omap (fun ng => pykey ng.1) gs = group_keys (row_key (columns df) c) (rows df)
  /\ map (fun ng => rows ng.2) gs
     = map snd (groupby (row_key (columns df) c) (rows df)).
Proof.
  intros [_ ->]%df_groupby_Ok_inv. rewrite <- groupby_keys.
  pose proof (groupby_nonempty (row_key (columns df) c) (rows df)) as Hne.
  pose proof (groupby_key_is (row_key (columns df) c) (rows df)) as Hkey.
  induction (groupby _ _) as [|[k g] l IH]; [done|].
  apply Forall_cons in Hne as [Hg Hne]. apply Forall_cons in Hkey as [Hk Hkey].
  destruct (IH Hne Hkey) as [IH1 IH2]. cbn -[group_name pykey] in *.
  rewrite (group_name_key _ _ k g) by done. cbn -[group_name pykey].
  by rewrite IH1, IH2.
Qed.

(** [df.groupby(c)] on a table without missing values is a partition
    in order: the groups taken together are the rows of the table, each
    once; the keys of the groups are distinct and ascending; and the rows of
    a group are the rows of the table with the key of the group, in the
    order of the table. *)
Theorem df_groupby_partition (df : DataFrame) (c : string)
    (gs : list (cell * DataFrame)) :
  df_wf df -> no_nan df -> df_groupby df c = Ok gs ->
  concat (map (fun ng => rows ng.2) gs) ≡ₚ rows df /\
  StronglySorted key_lt (omap (fun ng => pykey ng.1) gs) /\
  Forall (fun ng =>
      rows ng.2
      = filter (fun r => row_key (columns df) c r = pykey ng.1) (rows df)
      /\ is_Some (pykey ng.1)) gs.
Proof.
  intros Hwf Hnan E. destruct (df_groupby_names df c gs E) as [Hk Hr].
  pose proof E as [Hc Hgs]%df_groupby_Ok_inv. split_and!.
  - rewrite Hr, groupby_Permutation. by rewrite keyed_populated.
  - rewrite Hk. apply group_keys_sorted.
  - subst gs. apply Forall_map, Forall_forall.
    intros [k g] [Hkin ->]%elem_of_groupby. cbn [fst snd sub_frame rows].
    rewrite (group_name_key _ _ k).
    + split; [|by eexists]. apply list_filter_iff. intros r.
      unfold key_is. done.
    + by apply group_rows_nonempty.
    + apply Forall_forall. by intros r [_ ?]%elem_of_group_rows.
Qed.

Lemma df_groupby_partition_witness :
  exists gs,
    df_groupby {| columns := ["k"; "v"];
                  rows := [[CInt 2; CStr "a"]; [CFloat 1; CStr "b"];
                           [CInt 2; CStr "c"]] |} "k" = Ok gs /\
    concat (map (fun ng => rows ng.2) gs)
    ≡ₚ [[CInt 2; CStr "a"]; [CFloat 1; CStr "b"]; [CInt 2; CStr "c"]].
Proof.
  eexists. split; [by vm_compute|].
  apply (df_groupby_partition
           {| columns := ["k"; "v"];
              rows := [[CInt 2; CStr "a"]; [CFloat 1; CStr "b"];
                       [CInt 2; CStr "c"]] |} "k");
    [compute_done | compute_done | by vm_compute].
Defined.
