(* ===== verification/Effects.v ===== *)
(** * Effects on the outside

    What the programs do to the file system and to the terminal, as values:
    a run returns the list of its effects in the order in which they happen.
    [J] is the type of the documents written as JSON.

    A line printed is [Print] with its text when the text is a literal of
    the source or made of integers, and [Show] with the pieces of the line
    when it shows a value ([print(a, b)], an f-string with a cell): the
    line is the texts of the pieces one after the other, and [line] gives
    it where the model has the text of every piece.  [Progress] is a call
    of the progress bar of [tqdm].

    The directories that exist are a list of paths, as the programs wrote
    them when they created them; [path_exists] is [os.path.exists] on a
    directory: it does not see final separators, it is true of the
    directories above one that exists, and false of the empty path;
    [rm_rf] is what [rm -fr] leaves.  Paths are compared as strings: [.],
    [..], repeated separators and links are not resolved. *)

From Stdlib Require Import Ascii String List.
From stdpp Require Import base tactics option list strings.
From S2P Require Import Prelude Groupby Cell Value Frame.

(** A piece of a line that is printed. *)
Inductive piece : Type :=
| PText (s : string)
| PCell (c : cell)
| PVal (v : pyval)
| PParams (d : params).

#[export] Instance piece_eq_dec : EqDecision piece.
Proof. solve_decision. Defined.

(** The calls of a progress bar: [tqdm(total=..., desc=..., unit=...)],
    [update(n)], [close()]. *)
Inductive bar : Type :=
| BarOpen (total : nat) (desc unit : string)
| BarUpdate (n : nat)
| BarClose.

#[export] Instance bar_eq_dec : EqDecision bar.
Proof. solve_decision. Defined.

Inductive effect {J : Type} : Type :=
| MakeDirs (path : string)
| WriteJson (path : string) (doc : J)
| WriteCsv (path : string) (table : DataFrame)
| Print (text : string)
| Show (pieces : list piece)
| Progress (call : bar).

Arguments effect : clear implicits.

#[export] Instance effect_eq_dec {J} `{EqDecision J} : EqDecision (effect J).
Proof. solve_decision. Defined.

Definition is_write {J} (e : effect J) : bool :=
  match e with
  | WriteJson _ _ | WriteCsv _ _ => true
  | _ => false
  end.

(** The files written, in their order. *)
Definition writes {J} (out : list (effect J)) : list (effect J) :=
  filter (fun e => is_write e) out.

(** The path of a file written. *)
Definition written {J} (e : effect J) : option string :=
  match e with
  | WriteJson p _ | WriteCsv p _ => Some p
  | _ => None
  end.

(** The path an effect touches. *)
Definition touched {J} (e : effect J) : option string :=
  match e with
  | MakeDirs p | WriteJson p _ | WriteCsv p _ => Some p
  | Print _ | Show _ | Progress _ => None
  end.

(** The text of a piece, as [str] gives it. *)
Definition piece_text (p : piece) : exc string :=
  match p with
  | PText s => Ok s
  | PCell c => cell_str c
  | PVal v => py_str v
  | PParams d => repr_params d
  end.

(** The line that an effect prints, if it prints one. *)
Definition line {J} (e : effect J) : option (exc string) :=
  match e with
  | Print text => Some (Ok text)
  | Show pieces =>
      Some (exc_map (fun l => fold_right String.append EmptyString l)
              (mapM piece_text pieces))
  | _ => None
  end.

(** The calls of the progress bar, in their order. *)
Definition bar_calls {J} (out : list (effect J)) : list bar :=
  omap (fun e => match e with Progress c => Some c | _ => None end) out.

Lemma writes_app {J} (out out' : list (effect J)) :
  writes (out ++ out') = writes out ++ writes out'.
Proof. apply filter_app. Qed.

Lemma writes_none {J} (out : list (effect J)) :
  Forall (fun e => is_write e = false) out -> writes out = [].
Proof.
  induction 1 as [|e out He _ IH]; [done|]. unfold writes in *.
  rewrite filter_cons_False; [done|]. intros H%Is_true_true. congruence.
Qed.

Lemma writes_cons_write {J} (e : effect J) out :
  is_write e = true -> writes (e :: out) = e :: writes out.
Proof.
  intros He. unfold writes. rewrite filter_cons_True; [done|].
  by apply Is_true_true.
Qed.

Lemma writes_cons_other {J} (e : effect J) out :
  is_write e = false -> writes (e :: out) = writes out.
Proof.
  intros He. unfold writes. rewrite filter_cons_False; [done|].
  intros H%Is_true_true. congruence.
Qed.

#[export] Hint Rewrite @writes_app : py_rw.

(** ** Paths

    Paths are the strings the programs build; a directory may be written
    with or without its final separator ([dataset/] is created at line 126
    of [src/data/dataLoad.py] and removed as [dataset] at line 161). *)

#[local] Open Scope string_scope.
#[local] Notation "a +:+ b" := (String.append a b)
  (at level 60, right associativity).

(** The path without its final separators. *)
Fixpoint rstrip_slash (s : string) : string :=
  match s with
  | EmptyString => EmptyString
  | String a s' =>
      match rstrip_slash s' with
      | EmptyString =>
          if Ascii.eqb a "/"%char then EmptyString else String a EmptyString
      | r => String a r
      end
  end.

Fixpoint ends_with_slash (s : string) : bool :=
  match s with
  | EmptyString => false
  | String a EmptyString => Ascii.eqb a "/"%char
  | String _ s' => ends_with_slash s'
  end.

(** [p] is a path below the directory [dir]. *)
Definition inside (dir p : string) : bool :=
  String.prefix (rstrip_slash dir +:+ "/") p.

(** [p] is the directory [dir] or a path below it. *)
Definition at_or_inside (dir p : string) : bool :=
  bool_decide (rstrip_slash p = rstrip_slash dir) || inside dir p.

Lemma prefix_app_same a b c :
  String.prefix (a +:+ b) (a +:+ c) = String.prefix b c.
Proof.
  induction a as [|x a IH]; [done|].
  change (String.prefix (String x (a +:+ b)) (String x (a +:+ c))
          = String.prefix b c).
  simpl. by destruct (ascii_dec x x).
Qed.

Lemma append_assoc (a b c : string) : (a +:+ b) +:+ c = a +:+ b +:+ c.
Proof.
  induction a as [|x a IH]; [done|].
  change (String x ((a +:+ b) +:+ c) = String x (a +:+ b +:+ c)).
  by rewrite IH.
Qed.

Lemma append_empty_r (a : string) : a +:+ "" = a.
Proof.
  induction a as [|x a IH]; [done|].
  change (String x (a +:+ "") = String x a). by rewrite IH.
Qed.

Lemma append_nonempty (a b : string) : a <> "" -> a +:+ b <> "".
Proof. by destruct a. Qed.

Lemma prefix_append a b : String.prefix a (a +:+ b) = true.
Proof.
  rewrite <- (append_empty_r a) at 1. rewrite prefix_app_same.
  by destruct b.
Qed.

Lemma rstrip_slash_cons a s :
  rstrip_slash (String a s)
  = match rstrip_slash s with
    | EmptyString =>
        if Ascii.eqb a "/"%char then EmptyString else String a EmptyString
    | r => String a r
    end.
Proof. done. Qed.

Lemma rstrip_slash_id s : ends_with_slash s = false -> s <> "" ->
  rstrip_slash s = s.
Proof.
  induction s as [|a s IH]; [done|]. intros He _.
  rewrite rstrip_slash_cons. destruct s as [|b s].
  - simpl in *. by rewrite He.
  - by rewrite IH.
Qed.

(** A path that ends with a separator is its directory, a separator and
    more separators. *)
Lemma ends_with_slash_split s :
  ends_with_slash s = true ->
  exists more, s = rstrip_slash s +:+ "/" +:+ more.
Proof.
  induction s as [|a s IH]; [done|]. intros He.
  rewrite rstrip_slash_cons. destruct s as [|b s].
  - simpl in *. apply Ascii.eqb_eq in He as ->. by exists "".
  - change (ends_with_slash (String b s) = true) in He.
    destruct (IH He) as [more Hm].
    destruct (rstrip_slash (String b s)) as [|c r].
    + destruct (Ascii.eqb_spec a "/"%char) as [->|_].
      * by exists (String b s).
      * exists more. by rewrite Hm at 1.
    + exists more. by rewrite Hm at 1.
Qed.

(** A file name appended to a directory written with its separator is in
    the directory; appended to a directory written without it, it is
    beside the directory. *)
Lemma inside_with_slash dir name :
  ends_with_slash dir = true -> inside dir (dir +:+ name) = true.
Proof.
  intros [more Hm]%ends_with_slash_split. unfold inside.
  rewrite Hm at 2. rewrite !append_assoc.
  rewrite <- (append_assoc (rstrip_slash dir) "/").
  apply prefix_append.
Qed.

Lemma inside_without_slash dir name :
  ends_with_slash dir = false -> String.prefix "/" name = false ->
  inside dir (dir +:+ name) = false.
Proof.
  intros He Hn. unfold inside. destruct dir as [|a dir].
  - done.
  - rewrite rstrip_slash_id by done. by rewrite prefix_app_same.
Qed.

(** The directories that exist. *)
Definition dirs : Type := list string.

(** [os.path.exists(p)] for a directory: [p] is not the empty path, and one
    of the directories that exist is [p], written with or without its final
    separators, or is below [p]. *)
Definition path_exists (fs : dirs) (p : string) : Prop :=
  p <> "" /\ Exists (fun q => at_or_inside p q = true) fs.

#[export] Instance path_exists_dec fs p : Decision (path_exists fs p).
Proof. unfold path_exists. apply _. Defined.

Lemma at_or_inside_refl p : at_or_inside p p = true.
Proof. unfold at_or_inside. by rewrite bool_decide_eq_true_2. Qed.

Lemma at_or_inside_rstrip p q :
  rstrip_slash q = rstrip_slash p -> at_or_inside p q = true.
Proof. intros H. unfold at_or_inside. by rewrite bool_decide_eq_true_2. Qed.

(** Final separators of the directory make no difference. *)
Lemma at_or_inside_rstrip_l p p' q :
  rstrip_slash p = rstrip_slash p' -> at_or_inside p q = at_or_inside p' q.
Proof. intros H. unfold at_or_inside, inside. by rewrite H. Qed.

Lemma path_exists_nil p : ~ path_exists [] p.
Proof. intros [_ H]. by apply Exists_nil in H. Qed.

Lemma path_exists_empty fs : ~ path_exists fs "".
Proof. by intros [H _]. Qed.

Lemma path_exists_cons fs p q :
  path_exists (q :: fs) p
  <-> p <> "" /\ (at_or_inside p q = true \/ path_exists fs p).
Proof. unfold path_exists. rewrite Exists_cons. tauto. Qed.

Lemma path_exists_elem fs p : p <> "" -> p ∈ fs -> path_exists fs p.
Proof.
  intros Hp Hin. split; [done|]. apply Exists_exists. exists p.
  auto using at_or_inside_refl.
Qed.

(** More directories, more paths that exist. *)
Lemma path_exists_mono fs fs' p :
  fs ⊆ fs' -> path_exists fs p -> path_exists fs' p.
Proof.
  intros Hsub [Hp (q & Hq & Ha)%Exists_exists]. split; [done|].
  apply Exists_exists. eauto.
Qed.

(** What [rm -fr dir] leaves when it succeeds. *)
Definition rm_rf (dir : string) (fs : dirs) : dirs :=
  filter (B:=list string) (fun p => at_or_inside dir p = false) fs.

Lemma elem_of_rm_rf dir fs p :
  p ∈ rm_rf dir fs <-> p ∈ fs /\ at_or_inside dir p = false.
Proof. unfold rm_rf. rewrite list_elem_of_filter. tauto. Qed.

(** After [rm -fr dir] neither [dir] nor anything below it exists, however
    the directory was written when it was created. *)
Lemma rm_rf_gone dir fs p : at_or_inside dir p = true -> p ∉ rm_rf dir fs.
Proof. rewrite elem_of_rm_rf. intros Hp [_ Hq]. congruence. Qed.

Lemma rm_rf_not_exists dir fs p :
  rstrip_slash p = rstrip_slash dir -> ~ path_exists (rm_rf dir fs) p.
Proof.
  intros Hp [_ (q & [_ Hq]%elem_of_rm_rf & Ha)%Exists_exists].
  rewrite (at_or_inside_rstrip_l _ _ _ Hp) in Ha. congruence.
Qed.

Lemma rm_rf_subseteq dir fs : rm_rf dir fs ⊆ fs.
Proof. intros p [? _]%elem_of_rm_rf. done. Qed.

(** [rm] creates nothing. *)
Lemma path_exists_rm_rf dir fs p :
  path_exists (rm_rf dir fs) p -> path_exists fs p.
Proof. apply path_exists_mono, rm_rf_subseteq. Qed.

Lemma rm_rf_idemp dir fs : rm_rf dir (rm_rf dir fs) = rm_rf dir fs.
Proof.
  unfold rm_rf. rewrite list_filter_filter. apply list_filter_iff. tauto.
Qed.
