(* ===== verification/Proc.v ===== *)
(** * Procedures: the directories, the output and the exception

    The functions of the programs that touch the outside ([loadStructure],
    [resetDataset], [exportCSV], [main] and the two scripts) are procedures:
    from the directories that exist to the directories that exist
    afterwards, the effects in their order, and the value returned or the
    exception raised.  [proc_bind] is the sequence of two statements: the
    second runs where the first stopped, unless the first raised.

    The operating system is the function [system]: the exception with which
    it refuses to create a directory or to open a file for writing, if any.
    [makedirs] is [os.makedirs]; [ensure_dir] is the statement

      [if not os.path.exists(p):
          try: os.makedirs(p)
          except subprocess.CalledProcessError as e: print(f"...{e}")]

    of [src/data/dataLoad.py] (lines 124-128) and of [src/src/crawler.py]
    (lines 180-184 and 189-193); [write_json] is line 149-150 of
    [dataLoad.py] and [write_csv] is [DataFrame.to_csv]. *)

From Stdlib Require Import ZArith String List.
From stdpp Require Import base tactics option list strings sets.
From S2P Require Import Prelude Groupby Cell Value Frame Effects.

#[local] Open Scope string_scope.
#[local] Open Scope list_scope.
#[local] Notation "a +:+ b" := (String.append a b)
  (at level 60, right associativity).

(** ** The monad *)

Definition proc (J A : Type) : Type :=
  dirs -> dirs * list (effect J) * exc A.

Section Proc.
Context {J : Type}.

(** [return x]. *)
Definition proc_ret {A} (x : A) : proc J A := fun fs => (fs, [], Ok x).

(** One statement after another. *)
Definition proc_bind {A B} (m : proc J A) (k : A -> proc J B) : proc J B :=
  fun fs =>
    match m fs with
    | (fs1, out1, Raise e) => (fs1, out1, Raise e)
    | (fs1, out1, Ok x) =>
        let '(fs2, out2, r) := k x fs1 in (fs2, out1 ++ out2, r)
    end.

(** A computation that touches nothing outside. *)
Definition lift {A} (m : exc A) : proc J A := fun fs => (fs, [], m).

(** [print(text)]. *)
Definition print (text : string) : proc J unit :=
  fun fs => (fs, [Print text], Ok tt).

(** [try: m  except subprocess.CalledProcessError as e: handler(e)]. *)
Definition except_CalledProcessError {A} (m : proc J A)
    (handler : positive -> string -> proc J A) : proc J A :=
  fun fs =>
    match m fs with
    | (fs1, out1, Raise (CalledProcessError status cmd)) =>
        let '(fs2, out2, r) := handler status cmd fs1 in
        (fs2, out1 ++ out2, r)
    | r => r
    end.

(** [if os.path.exists(p): m  else: m'] . *)
Definition if_exists {A} (p : string) (m m' : proc J A) : proc J A :=
  fun fs => if decide (path_exists fs p) then m fs else m' fs.

(** [subprocess.run(args, check=True)].  [run args fs] is what the program
    called does where the directories [fs] exist: the directories it
    leaves, and its exit status or the exception that kept it from
    running.  A status other than 0 is raised as [CalledProcessError] with
    the command as [repr] shows it; the program prints nothing through the
    caller. *)
Definition subprocess_run (run : list string -> dirs -> dirs * exc Z)
    (args : list string) : proc J unit :=
  fun fs =>
    ((run args fs).1, [],
     (status <- (run args fs).2 ;;
      match status with
      | Z0 => Ok tt
      | Zpos code =>
          cmd <- repr_list args ;; Raise (CalledProcessError code cmd)
      | Zneg _ => Raise (Unsupported "a process ended by a signal")
      end)%exc).

(** The rest of a run that has come to the directories [fs] with the
    output [out]. *)
Definition resume {A} (fs : dirs) (out : list (effect J)) (m : proc J A)
    : dirs * list (effect J) * exc A :=
  let '(fs', out', r) := m fs in (fs', out ++ out', r).

(** What a run leaves behind: the directories, the files it wrote and its
    result, without the lines it printed. *)
Definition observe {A} (x : dirs * list (effect J) * exc A)
    : dirs * list (effect J) * exc A :=
  (x.1.1, writes x.1.2, x.2).

End Proc.

Arguments lift {J A} m%_exc.

Declare Scope proc_scope.
Delimit Scope proc_scope with proc.

Notation "x <- c ;; k" := (proc_bind c (fun x => k))
  (at level 20, c at level 99, k at level 200, only parsing) : proc_scope.
Notation "' pat <- c ;; k" :=
  (proc_bind c (fun x => match x with pat => k end))
  (at level 20, pat pattern, c at level 99, k at level 200, only parsing)
  : proc_scope.

Bind Scope proc_scope with proc.

(** ** The operating system *)

(** The exception with which the system refuses to create the directory or
    to open the file at a path, if it does. *)
Definition system : Type := string -> option pyexc.

(** The answer of the system as a result. *)
Definition refusal (answer : option pyexc) : exc unit :=
  match answer with
  | Some e => Raise e
  | None => Ok tt
  end.

(** A system that refuses nothing. *)
Definition reliable : system := fun _ => None.

(** [str(e)] of a [CalledProcessError]. *)
Definition str_CalledProcessError (status : positive) (cmd : string)
    : string :=
  "Command '" +:+ cmd +:+ "' returned non-zero exit status "
  +:+ str_of_Z (Z.pos status) +:+ ".".

Section System.
Context {J : Type}.
Variable sys : system.

(** [os.makedirs(p)]: the empty path names no directory, a directory that
    is there is not created again. *)
Definition makedirs (p : string) : proc J unit := fun fs =>
  if decide (p = "") then (fs, [], Raise (FileNotFoundError ""))
  else if decide (path_exists fs p) then (fs, [], Raise (FileExistsError p))
  else
    match sys p with
    | Some e => (fs, [], Raise e)
    | None => (p :: fs, [MakeDirs p], Ok tt)
    end.

(** [if not os.path.exists(p): try: os.makedirs(p) except
    subprocess.CalledProcessError as e: print(f"{message}{e}")]. *)
Definition ensure_dir (message p : string) : proc J unit :=
  if_exists p (proc_ret tt)
    (except_CalledProcessError (makedirs p)
       (fun status cmd =>
          print (message +:+ str_CalledProcessError status cmd))).

(** [with open(p, 'w') as f: json.dump(doc, f)]. *)
Definition write_json (p : string) (doc : J) : proc J unit := fun fs =>
  match sys p with
  | Some e => (fs, [], Raise e)
  | None => (fs, [WriteJson p doc], Ok tt)
  end.

(** [table.to_csv(p, index=False)]. *)
Definition write_csv (p : string) (table : DataFrame) : proc J unit :=
  fun fs =>
    match sys p with
    | Some e => (fs, [], Raise e)
    | None => (fs, [WriteCsv p table], Ok tt)
    end.

End System.

(** ** The laws of the monad *)

Lemma resume_nil {J A} fs (m : proc J A) : resume fs [] m = m fs.
Proof. unfold resume. by destruct (m fs) as [[??]?]. Qed.

Lemma resume_output {J A} fs out (m : proc J A) :
  (resume fs out m).1.2 = out ++ (m fs).1.2.
Proof. unfold resume. by destruct (m fs) as [[??]?]. Qed.

Lemma resume_result {J A} fs out (m : proc J A) :
  (resume fs out m).2 = (m fs).2.
Proof. unfold resume. by destruct (m fs) as [[??]?]. Qed.

Lemma resume_dirs {J A} fs out (m : proc J A) :
  (resume fs out m).1.1 = (m fs).1.1.
Proof. unfold resume. by destruct (m fs) as [[??]?]. Qed.


Section Laws.
Context {J A B C : Type}.
Implicit Types (m : proc J A) (k : A -> proc J B) (h : B -> proc J C).

Lemma proc_bind_ret_l (x : A) k fs : proc_bind (proc_ret x) k fs = k x fs.
Proof. unfold proc_bind, proc_ret. by destruct (k x fs) as [[??]?]. Qed.

Lemma proc_bind_ret_r m fs : proc_bind m proc_ret fs = m fs.
Proof.
  unfold proc_bind, proc_ret. destruct (m fs) as [[fs1 out1] [x|e]]; [|done].
  by rewrite app_nil_r.
Qed.

Lemma proc_bind_assoc m k h fs :
  proc_bind (proc_bind m k) h fs
  = proc_bind m (fun x => proc_bind (k x) h) fs.
Proof.
  unfold proc_bind. destruct (m fs) as [[fs1 out1] [x|e]]; [|done].
  destruct (k x fs1) as [[fs2 out2] [y|e]]; [|done].
  destruct (h y fs2) as [[fs3 out3] r]. by rewrite app_assoc.
Qed.

(** A pure computation that returns lets the rest run on its value; one
    that raises ends the run there. *)
Lemma proc_bind_lift (c : exc A) k fs :
  proc_bind (lift c) k fs
  = match c with Ok x => k x fs | Raise e => (fs, [], Raise e) end.
Proof.
  unfold proc_bind, lift. destruct c as [x|e]; [|done].
  by destruct (k x fs) as [[??]?].
Qed.

(** What a sequence does, from what its first statement did. *)
Lemma proc_bind_run m k fs :
  proc_bind m k fs
  = match (m fs).2 with
    | Ok x => resume (m fs).1.1 (m fs).1.2 (k x)
    | Raise e => ((m fs).1.1, (m fs).1.2, Raise e)
    end.
Proof. unfold proc_bind, resume. by destruct (m fs) as [[??] [?|?]]. Qed.

Lemma proc_bind_Ok m k fs fs1 out1 x :
  m fs = (fs1, out1, Ok x) -> proc_bind m k fs = resume fs1 out1 (k x).
Proof. intros H. by rewrite proc_bind_run, H. Qed.

Lemma proc_bind_Raise m k fs fs1 out1 e :
  m fs = (fs1, out1, Raise e) -> proc_bind m k fs = (fs1, out1, Raise e).
Proof. intros H. by rewrite proc_bind_run, H. Qed.

(** The output of the first statement is the beginning of the output of the
    sequence. *)
Lemma proc_bind_output m k fs : (m fs).1.2 `prefix_of` (proc_bind m k fs).1.2.
Proof.
  rewrite proc_bind_run. destruct (m fs) as [[fs1 out1] [x|e]]; simpl.
  - unfold resume. destruct (k x fs1) as [[fs2 out2] r]. by eexists.
  - done.
Qed.

(** The files of a sequence are those of its first statement, followed by
    those of the rest if the first statement returned. *)
Lemma proc_bind_writes m k fs :
  writes (proc_bind m k fs).1.2
  = writes (m fs).1.2
    ++ match (m fs).2 with
       | Ok x => writes (k x (m fs).1.1).1.2
       | Raise _ => []
       end.
Proof.
  rewrite proc_bind_run. destruct (m fs) as [[fs1 out1] [x|e]]; simpl.
  - by rewrite resume_output, writes_app.
  - by rewrite app_nil_r.
Qed.

Lemma proc_bind_result m k fs :
  (proc_bind m k fs).2
  = match (m fs).2 with
    | Ok x => (k x (m fs).1.1).2
    | Raise e => Raise e
    end.
Proof.
  rewrite proc_bind_run. destruct (m fs) as [[fs1 out1] [x|e]]; simpl;
    [by rewrite resume_result | done].
Qed.

End Laws.

#[export] Hint Rewrite @proc_bind_ret_l @proc_bind_ret_r @proc_bind_lift
  : py_rw.

(** Procedures that do the same from every state are interchangeable in a
    sequence. *)
#[export] Instance proc_bind_proper {J A B} :
  Proper (pointwise_relation dirs eq ==>
          pointwise_relation A (pointwise_relation dirs eq) ==>
          pointwise_relation dirs eq) (@proc_bind J A B).
Proof.
  intros m m' Hm k k' Hk fs. unfold proc_bind. rewrite (Hm fs).
  destruct (m' fs) as [[fs1 out1] [x|e]]; [|done]. by rewrite (Hk x fs1).
Qed.

(** ** Procedures that remove nothing, and procedures that write nothing

    Two properties of a procedure that its parts pass on to it: [Keeps],
    every directory that exists before exists after; [Quiet], no file is
    written.  The instances follow the shape of the procedure, so both are
    found by resolution for a procedure built from the operations above. *)

Class Keeps {J A} (m : proc J A) : Prop :=
  keeps : forall fs q, path_exists fs q -> path_exists (m fs).1.1 q.

Class Quiet {J A} (m : proc J A) : Prop :=
  quiet : forall fs, writes (m fs).1.2 = [].

#[global] Hint Mode Keeps - - ! : typeclass_instances.
#[global] Hint Mode Quiet - - ! : typeclass_instances.

Section Closure.
Context {J A B : Type}.
Implicit Types (m : proc J A) (k : A -> proc J B).

#[export] Instance proc_ret_keeps (x : A) : Keeps (J:=J) (proc_ret x).
Proof. by intros fs q. Qed.

#[export] Instance lift_keeps (c : exc A) : Keeps (J:=J) (lift c).
Proof. by intros fs q. Qed.

#[export] Instance print_keeps text : Keeps (J:=J) (print text).
Proof. by intros fs q. Qed.

#[export] Instance proc_bind_keeps m k :
  Keeps m -> (forall x, Keeps (k x)) -> Keeps (proc_bind m k).
Proof.
  intros Hm Hk fs q Hq. rewrite proc_bind_run. specialize (Hm fs q Hq).
  destruct (m fs) as [[fs1 out1] [x|e]]; simpl in *; [|done].
  rewrite resume_dirs. by apply Hk.
Qed.

#[export] Instance if_keeps (b : bool) m m' :
  Keeps m -> Keeps m' -> Keeps (if b then m else m').
Proof. by destruct b. Qed.

#[export] Instance if_exists_keeps p m m' :
  Keeps m -> Keeps m' -> Keeps (if_exists p m m').
Proof. intros Hm Hm' fs q Hq. unfold if_exists. case_decide; auto. Qed.

#[export] Instance except_keeps m (h : positive -> string -> proc J A) :
  Keeps m -> (forall status cmd, Keeps (h status cmd)) ->
  Keeps (except_CalledProcessError m h).
Proof.
  intros Hm Hh fs q Hq. unfold except_CalledProcessError.
  specialize (Hm fs q Hq).
  destruct (m fs) as [[fs1 out1] [x|[]]]; simpl in *; try done.
  specialize (Hh status cmd fs1 q Hm).
  by destruct (h status cmd fs1) as [[??]?].
Qed.

#[export] Instance proc_ret_quiet (x : A) : Quiet (J:=J) (proc_ret x).
Proof. by intros fs. Qed.

#[export] Instance lift_quiet (c : exc A) : Quiet (J:=J) (lift c).
Proof. by intros fs. Qed.

#[export] Instance print_quiet text : Quiet (J:=J) (print text).
Proof. by intros fs. Qed.

#[export] Instance subprocess_run_quiet run args :
  Quiet (J:=J) (subprocess_run run args).
Proof. by intros fs. Qed.

#[export] Instance proc_bind_quiet m k :
  Quiet m -> (forall x, Quiet (k x)) -> Quiet (proc_bind m k).
Proof.
  intros Hm Hk fs. rewrite proc_bind_writes, Hm.
  destruct (m fs).2; [apply Hk | done].
Qed.

#[export] Instance if_quiet (b : bool) m m' :
  Quiet m -> Quiet m' -> Quiet (if b then m else m').
Proof. by destruct b. Qed.

#[export] Instance if_exists_quiet p m m' :
  Quiet m -> Quiet m' -> Quiet (if_exists p m m').
Proof. intros Hm Hm' fs. unfold if_exists. case_decide; auto. Qed.

#[export] Instance except_quiet m (h : positive -> string -> proc J A) :
  Quiet m -> (forall status cmd, Quiet (h status cmd)) ->
  Quiet (except_CalledProcessError m h).
Proof.
  intros Hm Hh fs. unfold except_CalledProcessError. specialize (Hm fs).
  destruct (m fs) as [[fs1 out1] [x|[]]]; simpl in *; try done.
  specialize (Hh status cmd fs1).
  destruct (h status cmd fs1) as [[??]?]. simpl in *.
  by rewrite writes_app, Hm, Hh.
Qed.

End Closure.

#[export] Instance makedirs_keeps {J} sys p : Keeps (makedirs (J:=J) sys p).
Proof.
  intros fs q Hq. unfold makedirs. repeat case_decide; try done.
  destruct (sys p); [done|]. simpl. destruct Hq.
  apply path_exists_cons. split; [done|]. by right.
Qed.

#[export] Instance makedirs_quiet {J} sys p : Quiet (makedirs (J:=J) sys p).
Proof.
  intros fs. unfold makedirs. repeat case_decide; try done.
  by destruct (sys p).
Qed.

#[export] Instance ensure_dir_keeps {J} sys message p :
  Keeps (ensure_dir (J:=J) sys message p).
Proof. unfold ensure_dir. apply _. Qed.

#[export] Instance ensure_dir_quiet {J} sys message p :
  Quiet (ensure_dir (J:=J) sys message p).
Proof. unfold ensure_dir. apply _. Qed.

#[export] Instance write_json_keeps {J} sys p (doc : J) :
  Keeps (write_json sys p doc).
Proof. intros fs q Hq. unfold write_json. by destruct (sys p). Qed.

#[export] Instance write_csv_keeps {J} sys p table :
  Keeps (write_csv (J:=J) sys p table).
Proof. intros fs q Hq. unfold write_csv. by destruct (sys p). Qed.

(** ** [os.makedirs] and the guard around it *)

Section Makedirs.
Context {J : Type}.
Variable sys : system.
Implicit Types (fs : dirs) (p message : string).

(** What [ensure_dir] does, by cases: nothing when the directory is there;
    otherwise the directory is created, or the refusal of the system ends
    the run, unless it is a [CalledProcessError], which is printed. *)
Lemma ensure_dir_cases message p fs :
  ensure_dir (J:=J) sys message p fs
  = if decide (path_exists fs p) then (fs, [], Ok tt)
    else if decide (p = "") then (fs, [], Raise (FileNotFoundError ""))
    else match sys p with
         | None => (p :: fs, [MakeDirs p], Ok tt)
         | Some (CalledProcessError status cmd) =>
             (fs, [Print (message +:+ str_CalledProcessError status cmd)],
              Ok tt)
         | Some e => (fs, [], Raise e)
         end.
Proof.
  unfold ensure_dir, if_exists, except_CalledProcessError, makedirs.
  destruct (decide (path_exists fs p)); [done|].
  destruct (decide (p = "")); [done|]. by destruct (sys p) as [[]|].
Qed.

Lemma ensure_dir_there message p fs :
  path_exists fs p -> ensure_dir (J:=J) sys message p fs = (fs, [], Ok tt).
Proof. intros H. unfold ensure_dir, if_exists. by rewrite decide_True. Qed.

(** On a system that permits the directory, [ensure_dir] creates it when
    it is not there. *)
Lemma ensure_dir_permitted message p fs :
  p <> "" -> sys p = None ->
  ensure_dir (J:=J) sys message p fs
  = if decide (path_exists fs p) then (fs, [], Ok tt)
    else (p :: fs, [MakeDirs p], Ok tt).
Proof.
  intros Hp Hs. rewrite ensure_dir_cases. case_decide; [done|].
  by rewrite decide_False, Hs.
Qed.

(** The same as a specification: the guard returns, the directory is there
    afterwards with those that were, nothing is written, and nothing is
    done when the directory was there. *)
Lemma ensure_dir_spec message p fs :
  p <> "" -> sys p = None ->
  exists fs' made,
    ensure_dir (J:=J) sys message p fs = (fs', made, Ok tt)
    /\ Forall (fun e => is_write e = false) made
    /\ path_exists fs' p
    /\ (forall q, path_exists fs q -> path_exists fs' q)
    /\ (path_exists fs p -> fs' = fs /\ made = []).
Proof.
  intros Hp Hs. rewrite ensure_dir_permitted by done. case_decide.
  - by exists fs, [].
  - exists (p :: fs), [MakeDirs p]. split_and!; [done|by repeat constructor|..].
    + apply path_exists_cons. auto using at_or_inside_refl.
    + intros q [? ?]. apply path_exists_cons. split; [done|]. by right.
    + done.
Qed.

(** A refusal that is not a [CalledProcessError] passes the handler. *)
Lemma ensure_dir_refused message p fs e :
  ~ path_exists fs p -> p <> "" -> sys p = Some e ->
  (forall status cmd, e <> CalledProcessError status cmd) ->
  ensure_dir (J:=J) sys message p fs = (fs, [], Raise e).
Proof.
  intros H Hp Hs He. rewrite ensure_dir_cases, !decide_False by done.
  rewrite Hs. destruct e; try done. by destruct (He status cmd).
Qed.

(** No [CalledProcessError] leaves [ensure_dir], and no
    [FileExistsError] of [os.makedirs] itself: what it raises is the
    refusal of the system, or [FileNotFoundError] for the empty path. *)
Lemma ensure_dir_raises message p fs e :
  (ensure_dir (J:=J) sys message p fs).2 = Raise e ->
  ~ path_exists fs p
  /\ (forall status cmd, e <> CalledProcessError status cmd)
  /\ (p = "" /\ e = FileNotFoundError "" \/ p <> "" /\ sys p = Some e).
Proof.
  rewrite ensure_dir_cases. case_decide; [done|]. case_decide.
  - intros [= <-]. auto.
  - destruct (sys p) as [[]|]; try done; intros [= <-]; auto.
Qed.

(** The guard touches its directory only. *)
Lemma ensure_dir_footprint message p fs :
  omap touched (ensure_dir (J:=J) sys message p fs).1.2 ⊆ [p]
  /\ (ensure_dir (J:=J) sys message p fs).1.1 ⊆ p :: fs.
Proof.
  rewrite ensure_dir_cases.
  destruct (decide (path_exists fs p)); [set_solver|].
  destruct (decide (p = "")); [set_solver|].
  destruct (sys p) as [[]|]; set_solver.
Qed.

(** What [ensure_dir] puts out is no file. *)
Lemma ensure_dir_writes message p fs :
  writes (ensure_dir (J:=J) sys message p fs).1.2 = [].
Proof. apply quiet. Qed.

(** When [ensure_dir] returns, the directory is there, unless the system
    refused it with the exception that the handler swallows. *)
Lemma ensure_dir_exists message p fs :
  (ensure_dir (J:=J) sys message p fs).2 = Ok tt ->
  (forall status cmd, sys p <> Some (CalledProcessError status cmd)) ->
  path_exists (ensure_dir (J:=J) sys message p fs).1.1 p.
Proof.
  rewrite ensure_dir_cases. case_decide; [done|]. case_decide; [done|].
  intros Hr Hs. destruct (sys p) as [[]|] eqn:E; try done.
  - by destruct (Hs status cmd).
  - simpl. apply path_exists_cons. auto using at_or_inside_refl.
Qed.

(** A directory that is there is not created again. *)
Lemma ensure_dir_idemp message p fs :
  (ensure_dir (J:=J) sys message p fs).2 = Ok tt ->
  (forall status cmd, sys p <> Some (CalledProcessError status cmd)) ->
  ensure_dir (J:=J) sys message p
    (ensure_dir (J:=J) sys message p fs).1.1
  = ((ensure_dir (J:=J) sys message p fs).1.1, [], Ok tt).
Proof. intros Hr Hs. by apply ensure_dir_there, ensure_dir_exists. Qed.

(** After a guard that returned, the same guard changes nothing and
    returns again, also when the handler swallowed the refusal. *)
Lemma ensure_dir_again message p fs :
  (ensure_dir (J:=J) sys message p fs).2 = Ok tt ->
  (ensure_dir (J:=J) sys message p
     (ensure_dir (J:=J) sys message p fs).1.1).1.1
  = (ensure_dir (J:=J) sys message p fs).1.1
  /\ (ensure_dir (J:=J) sys message p
        (ensure_dir (J:=J) sys message p fs).1.1).2 = Ok tt.
Proof.
  rewrite (ensure_dir_cases message p fs).
  destruct (decide (path_exists fs p)) as [H|H]; simpl.
  { by rewrite ensure_dir_there. }
  destruct (decide (p = "")) as [Hp|Hp]; [done|].
  destruct (sys p) as [[]|] eqn:E; try done; intros _; simpl.
  - by rewrite ensure_dir_cases, !decide_False, E.
  - rewrite ensure_dir_there; [done|].
    apply path_exists_cons. auto using at_or_inside_refl.
Qed.

End Makedirs.

(** ** Writing *)

Section Writes.
Context {J : Type}.
Variable sys : system.

Lemma write_json_permitted p (doc : J) fs :
  sys p = None -> write_json sys p doc fs = (fs, [WriteJson p doc], Ok tt).
Proof. intros H. unfold write_json. by rewrite H. Qed.

Lemma write_json_refused p (doc : J) fs e :
  sys p = Some e -> write_json sys p doc fs = (fs, [], Raise e).
Proof. intros H. unfold write_json. by rewrite H. Qed.

Lemma write_csv_permitted p table fs :
  sys p = None ->
  write_csv (J:=J) sys p table fs = (fs, [WriteCsv p table], Ok tt).
Proof. intros H. unfold write_csv. by rewrite H. Qed.

Lemma write_csv_refused p table fs e :
  sys p = Some e -> write_csv (J:=J) sys p table fs = (fs, [], Raise e).
Proof. intros H. unfold write_csv. by rewrite H. Qed.

(** A write that raises has written nothing. *)
Lemma write_csv_Raise p table fs e :
  (write_csv (J:=J) sys p table fs).2 = Raise e ->
  (write_csv (J:=J) sys p table fs).1.2 = [].
Proof. unfold write_csv. by destruct (sys p). Qed.

Lemma write_json_Raise p (doc : J) fs e :
  (write_json sys p doc fs).2 = Raise e ->
  (write_json sys p doc fs).1.2 = [].
Proof. unfold write_json. by destruct (sys p). Qed.

End Writes.

(** ** What a run leaves behind

    Two procedures that leave the same behind, followed by procedures that
    leave the same behind, leave the same behind: [observe] is a congruence
    for the sequence. *)

Section ObserveOne.
Context {J A : Type}.

Lemma observe_inv (x y : dirs * list (effect J) * exc A) :
  observe x = observe y ->
  x.1.1 = y.1.1 /\ writes x.1.2 = writes y.1.2 /\ x.2 = y.2.
Proof. intros [= ? ? ?]. done. Qed.

Lemma observe_resume fs out out' (m m' : proc J A) :
  writes out = writes out' -> observe (m fs) = observe (m' fs) ->
  observe (resume fs out m) = observe (resume fs out' m').
Proof.
  intros Ho (Hd & Hw & Hr)%observe_inv. unfold observe.
  rewrite !resume_dirs, !resume_output, !resume_result, !writes_app.
  by rewrite Ho, Hd, Hw, Hr.
Qed.

End ObserveOne.

Section Observe.
Context {J A B : Type}.
Implicit Types (m : proc J A) (k : A -> proc J B).

Lemma observe_proc_bind m m' k k' fs :
  observe (m fs) = observe (m' fs) ->
  (forall x fs1, observe (k x fs1) = observe (k' x fs1)) ->
  observe (proc_bind m k fs) = observe (proc_bind m' k' fs).
Proof.
  intros (Hd & Hw & Hr)%observe_inv Hk. rewrite !proc_bind_run, <- Hr, <- Hd.
  destruct (m fs).2 as [x|e]; [by apply observe_resume|].
  unfold observe. simpl. by rewrite Hw.
Qed.

End Observe.
