(* ===== verification/Logged.v ===== *)
(** * Functions that print: the output and the exception

    The functions of [src/src/crawler.py] that download the tables
    ([inputParameters], [wineCrawler], [reviewsCrawler]) touch no file and
    no directory, but they print: messages when [verbose] is set, the
    progress bar when it is not.  Such a function is a value of [logged]:
    the effects in their order, and the value returned or the exception
    raised.  [log_bind] is the sequence of two statements, [tell] one
    effect, [quietly] a computation that prints nothing, [when] the
    statement [if b: m], [log_foldlM] a [for] loop.

    [reviewsCrawler] has a loop without a bound and runs on fuel: a [run]
    is a logged computation, or [None] when the fuel is used up.

    [say] makes a procedure of a logged computation: the directories stay
    as they are.  The class [Talk] holds of a computation that writes no
    file; its instances follow the shape of the computation. *)

From Stdlib Require Import String List.
From stdpp Require Import base tactics option list.
From S2P Require Import Prelude Groupby Cell Value Frame Effects Proc.

#[local] Open Scope list_scope.

(** ** Logged computations *)

Definition logged (J A : Type) : Type := list (effect J) * exc A.

Section Logged.
Context {J : Type}.

(** [return x]. *)
Definition log_ret {A} (x : A) : logged J A := ([], Ok x).

(** One statement after another. *)
Definition log_bind {A B} (m : logged J A) (k : A -> logged J B)
    : logged J B :=
  match m.2 with
  | Raise e => (m.1, Raise e)
  | Ok x => (m.1 ++ (k x).1, (k x).2)
  end.

(** One effect. *)
Definition tell (e : effect J) : logged J unit := ([e], Ok tt).

(** A computation that prints nothing. *)
Definition quietly {A} (m : exc A) : logged J A := ([], m).

(** [if b: m]. *)
Definition when (b : bool) (m : logged J unit) : logged J unit :=
  if b then m else log_ret tt.

(** [for x in l: st = f(st, x)]. *)
Fixpoint log_foldlM {S X} (f : S -> X -> logged J S) (st : S) (l : list X)
    : logged J S :=
  match l with
  | [] => log_ret st
  | x :: l' => log_bind (f st x) (fun st' => log_foldlM f st' l')
  end.

(** A logged computation as a procedure. *)
Definition say {A} (m : logged J A) : proc J A := fun fs => (fs, m.1, m.2).

(** ** Runs on fuel *)

Definition run (A : Type) : Type := option (logged J A).

(** A computation that ends. *)
Definition ends {A} (m : logged J A) : run A := Some m.

(** What was printed before, in front of the rest. *)
Definition after {A} (out : list (effect J)) (r : run A) : run A :=
  (fun m : logged J A => (out ++ m.1, m.2)) <$> r.

Definition run_bind {A B} (m : run A) (k : A -> run B) : run B :=
  match m with
  | None => None
  | Some m =>
      match m.2 with
      | Raise e => Some (m.1, Raise e)
      | Ok x => after m.1 (k x)
      end
  end.

(** The result of a run, without what it printed. *)
Definition result {A} (r : run A) : option (exc A) := snd <$> r.

(** A run that writes no file, if it ends. *)
Definition talks {A} (r : run A) : Prop :=
  forall m, r = Some m -> writes m.1 = [].

End Logged.

Arguments quietly {J A} m%_exc.
Arguments run : clear implicits.

Declare Scope log_scope.
Delimit Scope log_scope with log.

Notation "x <- c ;; k" := (log_bind c (fun x => k))
  (at level 20, c at level 99, k at level 200, only parsing) : log_scope.
Notation "' pat <- c ;; k" :=
  (log_bind c (fun x => match x with pat => k end))
  (at level 20, pat pattern, c at level 99, k at level 200, only parsing)
  : log_scope.

Declare Scope run_scope.
Delimit Scope run_scope with run.

Notation "x <- c ;; k" := (run_bind c (fun x => k))
  (at level 20, c at level 99, k at level 200, only parsing) : run_scope.

Arguments ends {J A} m%_log.
Arguments when {J} b m%_log.
Arguments say {J A} m%_log.

(** ** The laws *)

Section Laws.
Context {J A B C : Type}.
Implicit Types (m : logged J A) (k : A -> logged J B) (h : B -> logged J C).

Lemma log_bind_ret_l (x : A) k : log_bind (log_ret x) k = k x.
Proof. unfold log_bind. simpl. by destruct (k x). Qed.

Lemma log_bind_ret_r m : log_bind m log_ret = m.
Proof.
  destruct m as [out [x|e]]; unfold log_bind; simpl; [|done].
  by rewrite app_nil_r.
Qed.

Lemma log_bind_assoc m k h :
  log_bind (log_bind m k) h = log_bind m (fun x => log_bind (k x) h).
Proof.
  destruct m as [out [x|e]]; unfold log_bind; simpl; [|done].
  destruct (k x) as [out' [y|e]]; simpl; [|done]. by rewrite app_assoc.
Qed.

(** The result of a sequence does not see what is printed. *)
Lemma log_bind_result m k :
  (log_bind m k).2 = (x <- m.2 ;; (k x).2)%exc.
Proof. unfold log_bind. by destruct m.2. Qed.

Lemma log_bind_output m k :
  (log_bind m k).1
  = m.1 ++ match m.2 with Ok x => (k x).1 | Raise _ => [] end.
Proof. unfold log_bind. destruct m.2; simpl; [done|]. by rewrite app_nil_r. Qed.

Lemma log_bind_quietly (c : exc A) k :
  log_bind (quietly c) k
  = match c with Ok x => k x | Raise e => ([], Raise e) end.
Proof. unfold log_bind. destruct c; simpl; [|done]. by destruct (k a). Qed.

Lemma log_bind_Ok m k x :
  m.2 = Ok x -> log_bind m k = (m.1 ++ (k x).1, (k x).2).
Proof. intros H. unfold log_bind. by rewrite H. Qed.

Lemma log_bind_Raise m k e :
  m.2 = Raise e -> log_bind m k = (m.1, Raise e).
Proof. intros H. unfold log_bind. by rewrite H. Qed.

End Laws.

Lemma log_bind_tell {J B} (e : effect J) (k : unit -> logged J B) :
  log_bind (tell e) k = (e :: (k tt).1, (k tt).2).
Proof. reflexivity. Qed.

Lemma when_result {J} (b : bool) (m : logged J unit) :
  (when b m).2 = if b then m.2 else Ok tt.
Proof. by destruct b. Qed.

Lemma when_false {J} (m : logged J unit) : when false m = log_ret tt.
Proof. reflexivity. Qed.

Lemma when_true {J} (m : logged J unit) : when true m = m.
Proof. reflexivity. Qed.

(** A message that is printed or not changes no result. *)
Lemma log_bind_when_result {J B} (b : bool) (e : effect J)
    (k : unit -> logged J B) :
  (log_bind (when b (tell e)) k).2 = (k tt).2.
Proof. by destruct b. Qed.

Lemma log_foldlM_result {J S X} (f : S -> X -> logged J S) l : forall st,
  (log_foldlM f st l).2 = foldlM (fun st x => (f st x).2) st l.
Proof.
  induction l as [|x l IH]; intros st; [done|]. simpl.
  rewrite log_bind_result. destruct (f st x).2; [|done]. apply IH.
Qed.

(** A loop whose turns print nothing prints nothing. *)
Lemma log_foldlM_silent {J S X} (f : S -> X -> logged J S) l :
  (forall st x, (f st x).1 = []) -> forall st, (log_foldlM f st l).1 = [].
Proof.
  intros Hf. induction l as [|x l IH]; intros st; [done|]. simpl.
  rewrite log_bind_output, Hf. destruct (f st x).2; [apply IH | done].
Qed.

#[export] Hint Rewrite @log_bind_result @when_result @log_foldlM_result
  : py_rw.

(** ** Procedures *)

Section Say.
Context {J A B : Type}.

Lemma proc_bind_say (m : logged J A) (k : A -> proc J B) fs :
  proc_bind (say m) k fs
  = match m.2 with
    | Ok x => resume fs m.1 (k x)
    | Raise e => (fs, m.1, Raise e)
    end.
Proof. unfold proc_bind, say, resume. by destruct m.2. Qed.

#[export] Instance say_keeps (m : logged J A) : Keeps (say m).
Proof. by intros fs q. Qed.

End Say.

(** ** Computations that write no file *)

Class Talk {J A} (m : logged J A) : Prop :=
  talk : writes m.1 = [].

#[global] Hint Mode Talk - - ! : typeclass_instances.

Section Talk.
Context {J A B : Type}.

#[export] Instance log_ret_talk (x : A) : Talk (J:=J) (log_ret x).
Proof. done. Qed.

#[export] Instance quietly_talk (c : exc A) : Talk (J:=J) (quietly c).
Proof. done. Qed.

#[export] Instance tell_Print_talk text : Talk (J:=J) (tell (Print text)).
Proof. done. Qed.

#[export] Instance tell_Show_talk pieces : Talk (J:=J) (tell (Show pieces)).
Proof. done. Qed.

#[export] Instance tell_Progress_talk c : Talk (J:=J) (tell (Progress c)).
Proof. done. Qed.

#[export] Instance when_talk b (m : logged J unit) :
  Talk m -> Talk (when b m).
Proof. by destruct b. Qed.

#[export] Instance if_talk (b : bool) (m m' : logged J A) :
  Talk m -> Talk m' -> Talk (if b then m else m').
Proof. by destruct b. Qed.

#[export] Instance log_bind_talk (m : logged J A) (k : A -> logged J B) :
  Talk m -> (forall x, Talk (k x)) -> Talk (log_bind m k).
Proof.
  intros Hm Hk. unfold Talk. rewrite log_bind_output, writes_app, Hm.
  destruct m.2; [apply Hk | done].
Qed.

#[export] Instance say_quiet (m : logged J A) : Talk m -> Quiet (say m).
Proof. intros H fs. exact H. Qed.

(** Two computations that write nothing and return the same leave the same
    behind, whatever they print. *)
Lemma observe_say (m m' : logged J A) fs :
  Talk m -> Talk m' -> m.2 = m'.2 -> observe (say m fs) = observe (say m' fs).
Proof. intros H H' E. unfold observe, say. simpl. by rewrite H, H', E. Qed.

End Talk.

#[export] Instance log_foldlM_talk {J S X} (f : S -> X -> logged J S) st l :
  (forall st x, Talk (f st x)) -> Talk (log_foldlM f st l).
Proof.
  intros Hf. revert st. induction l as [|x l IH]; intros st; [done|].
  simpl. apply log_bind_talk; [apply Hf | apply IH].
Qed.

(** ** Runs *)

Section After.
Context {J A : Type}.
Implicit Types (r : run J A) (m : logged J A).

Lemma result_ends m : result (ends m) = Some m.2.
Proof. done. Qed.

Lemma result_after out r : result (after out r) = result r.
Proof. by destruct r. Qed.

Lemma result_None r : result r = None <-> r = None.
Proof. by destruct r. Qed.

Lemma result_is_Some r : is_Some (result r) <-> is_Some r.
Proof. apply fmap_is_Some. Qed.

Lemma after_Some out m : after out (Some m) = Some (out ++ m.1, m.2).
Proof. done. Qed.

Lemma after_nil r : after [] r = r.
Proof. by destruct r as [[??]|]. Qed.

Lemma after_app out out' r : after (out ++ out') r = after out (after out' r).
Proof. destruct r as [[??]|]; simpl; [|done]. by rewrite app_assoc. Qed.

End After.

Section Runs.
Context {J A B : Type}.
Implicit Types (r : run J A) (k : A -> run J B).

(** The result of a sequence of runs does not see what is printed. *)
Lemma result_run_bind r k :
  result (run_bind r k)
  = match result r with
    | None => None
    | Some (Raise e) => Some (Raise e)
    | Some (Ok x) => result (k x)
    end.
Proof.
  destruct r as [[out [x|e]]|]; simpl; [|done..]. apply result_after.
Qed.

Lemma run_bind_ends (m : logged J A) k :
  run_bind (ends m) k
  = match m.2 with
    | Raise e => Some (m.1, Raise e)
    | Ok x => after m.1 (k x)
    end.
Proof. done. Qed.

Lemma run_bind_None k : run_bind None k = None.
Proof. done. Qed.

(** A message that is printed or not changes no result of a run. *)
Lemma result_bind_when (b : bool) (e : effect J) (k : unit -> run J B) :
  result (run_bind (ends (when b (tell e))) k) = result (k tt).
Proof. destruct b; simpl; [apply result_after|]. by rewrite after_nil. Qed.

End Runs.

Lemma ends_talks {J A} (m : logged J A) : Talk m -> talks (ends m).
Proof. by intros H ? [= <-]. Qed.

Lemma after_talks {J A} out (r : run J A) :
  writes out = [] -> talks r -> talks (after out r).
Proof.
  intros Ho Hr m. destruct r as [m'|]; [|done]. intros [= <-]. simpl.
  by rewrite writes_app, Ho, (Hr m').
Qed.

Lemma run_bind_talks {J A B} (r : run J A) (k : A -> run J B) :
  talks r -> (forall x, talks (k x)) -> talks (run_bind r k).
Proof.
  intros Hr Hk m. destruct r as [m'|]; [|done]. simpl.
  destruct m'.2 eqn:E.
  - apply after_talks; [by apply Hr | apply Hk].
  - intros [= <-]. by apply Hr.
Qed.
