(* ===== verification/Sentiment.v ===== *)
(** * The sentiment label of a review

    [src/indexer/sentimentAnalyis.py].  [setSentiment] (lines 4-21): the
    text is given to the Italian or to the English classifier according to
    the language tag, and the label of the first result is returned; any
    other tag prints a message and ends the process with [quit()].
    [initClassifier] (lines 23-51) builds the two classifiers, from the
    models on disk or from the network.

    A classifier is a function from the text to the value it returns, or to
    the exception it raises.  The library [transformers] is an interface,
    the class [Transformers]: what its constructors return is up to the
    instance.  What the development relies on is the class
    [TransformersLaws]: a text-classification pipeline answers one text
    with a list holding one dictionary with a label, and a pipeline built
    with [top_k] answers with a list holding the list of the ranked
    dictionaries.  The theorems on [initClassifier] are proved against the
    two classes; [zoo_transformers] is an instance that computes, from the
    scores a model gives to its labels. *)

From Stdlib Require Import ZArith QArith String List.
From stdpp Require Import base tactics option numbers list strings sorting.
From S2P Require Import Prelude Groupby Cell Value Frame Effects.

#[local] Open Scope exc_scope.
#[local] Open Scope string_scope.
#[local] Notation "a +:+ b" := (String.append a b)
  (at level 60, right associativity).

Definition classifier : Type := string -> exc pyval.

(** [result[0]['label']]. *)
Definition first_label (result : pyval) : exc pyval :=
  r0 <- getitem0 result ;; getitem r0 "label".

(** Lines 4-21: what is printed, and the label or the exception. *)
Definition setSentiment (content language : string)
    (classifierIT classifierEN : classifier)
    : list (effect unit) * exc pyval :=
  if decide (language = "it") then
    ([], result <- classifierIT content ;; first_label result)
  else if decide (language = "en") then
    ([], result <- classifierEN content ;; first_label result)
  else
    ([Print ("An error occurred during the sentiment analysis process. "
             +:+ "Language detected: " +:+ language)],
     Raise (SystemExit None)).

(** ** The library that builds the classifiers *)

(** The four entry points of [transformers] that [initClassifier] calls.
    [pipeline task name tokenizer top_k] is
    [pipeline(task, model=name, tokenizer=..., top_k=...)], with [None] for
    an argument that is not given. *)
Class Transformers : Type := {
  model : Type;
  tokenizer : Type;
  AutoModel_from_pretrained : string -> exc model;
  AutoTokenizer_from_pretrained : string -> exc tokenizer;
  TextClassificationPipeline : model -> tokenizer -> string -> classifier;
  pipeline : string -> string -> option string -> option Z -> exc classifier
}.

(** Lines 28-31 and 34-37: a classifier from a model on disk. *)
Definition load_local `{Transformers} (pathModel : string) : exc classifier :=
  model <- AutoModel_from_pretrained pathModel ;;
  tokenizer <- AutoTokenizer_from_pretrained pathModel ;;
  Ok (TextClassificationPipeline model tokenizer "text-classification").

(** Lines 25-39. *)
Definition load_offline `{Transformers} : exc (classifier * classifier) :=
  classifierIT <- load_local "../models/feel-it-italian-emotion" ;;
  classifierEN <- load_local "../models/twitter-roberta-base-sentiment-latest" ;;
  Ok (classifierIT, classifierEN).

(** Lines 41-49. *)
Definition load_online `{Transformers} : exc (classifier * classifier) :=
  classifierIT <- pipeline "text-classification"
                    "MilaNLProc/feel-it-italian-emotion" None (Some 2%Z) ;;
  classifierEN <- pipeline "sentiment-analysis"
                    "cardiffnlp/twitter-roberta-base-sentiment-latest"
                    (Some "cardiffnlp/twitter-roberta-base-sentiment-latest")
                    None ;;
  Ok (classifierIT, classifierEN).

(** Lines 23-51: the message is printed once both classifiers exist. *)
Definition initClassifier `{Transformers} (offlineFlag : bool)
    : list (effect unit) * exc (classifier * classifier) :=
  if offlineFlag then
    match load_offline with
    | Ok cs => ([Print "Models loaded locally."], Ok cs)
    | Raise e => ([], Raise e)
    end
  else
    match load_online with
    | Ok cs => ([Print "Models downloaded from internet."], Ok cs)
    | Raise e => ([], Raise e)
    end.

(** ** What the library promises *)

(** An answer with one dictionary that has a label. *)
Definition labelled (v : pyval) : Prop :=
  exists d, v = VList [VDict d] /\ is_Some (dict_get d "label").

(** An answer with the list of the ranked dictionaries. *)
Definition ranked (v : pyval) : Prop :=
  exists inner, v = VList [VList inner].

(** Every answer of a classifier has the shape [P]. *)
Definition answers (c : classifier) (P : pyval -> Prop) : Prop :=
  forall text v, c text = Ok v -> P v.

Class TransformersLaws `{Transformers} : Prop := {
  pipeline_object m t task :
    answers (TextClassificationPipeline m t task) labelled;
  pipeline_plain task name tok c :
    pipeline task name tok None = Ok c -> answers c labelled;
  pipeline_top_k task name tok k c :
    pipeline task name tok (Some k) = Ok c -> answers c ranked
}.

(** ** An instance that computes *)

(** A model gives a score to each of its labels. *)
Definition scorer : Type := string -> list (string * Q).

Definition score_dict (ls : string * Q) : pyval :=
  VDict [("label", VStr ls.1); ("score", VFloat ls.2)].

Definition higher (a b : string * Q) : Prop := Is_true (Qle_bool b.2 a.2).

#[export] Instance higher_dec a b : Decision (higher a b).
Proof. unfold higher. apply _. Defined.

(** The labels by descending score. *)
Definition by_score (l : list (string * Q)) : list (string * Q) :=
  merge_sort higher l.

(** Without [top_k]: the best label; a model without labels has no answer
    the development describes. *)
Definition answer_best (m : scorer) : classifier := fun text =>
  match by_score (m text) with
  | best :: _ => Ok (VList [score_dict best])
  | [] => Raise (Unsupported "a model without labels")
  end.

(** With [top_k = k]: the [k] best labels, in a list of their own. *)
Definition answer_top (k : Z) (m : scorer) : classifier := fun text =>
  Ok (VList [VList (score_dict <$> take (Z.to_nat k) (by_score (m text)))]).

(** The models that exist, on disk and on the network. *)
Record zoo : Type := {
  on_disk : string -> exc scorer;
  on_line : string -> exc scorer
}.

Definition zoo_transformers (z : zoo) : Transformers := {|
  model := scorer;
  tokenizer := unit;
  AutoModel_from_pretrained := on_disk z;
  AutoTokenizer_from_pretrained := fun p => _ <- on_disk z p ;; Ok tt;
  TextClassificationPipeline := fun m _ _ => answer_best m;
  pipeline := fun _ name _ top_k =>
    m <- on_line z name ;;
    Ok (match top_k with
        | None => answer_best m
        | Some k => answer_top k m
        end)
|}.

(** ** Samples *)

(** The answer of a pipeline for one text: a list with one dictionary. *)
Definition one_label (label : string) (score : Q) : pyval :=
  VList [VDict [("label", VStr label); ("score", VFloat score)]].

(** The answer of a pipeline that ranks the labels ([top_k]): a list with
    the list of the dictionaries. *)
Definition ranked_labels (l1 l2 : string) : pyval :=
  VList [VList [VDict [("label", VStr l1); ("score", VFloat 0.9)];
                VDict [("label", VStr l2); ("score", VFloat 0.1)]]].

Definition sample_IT : classifier := fun _ => Ok (one_label "joy" 0.98).
Definition sample_EN : classifier := fun _ => Ok (one_label "positive" 0.7).
Definition ranked_IT : classifier := fun _ => Ok (ranked_labels "joy" "fear").

Definition feel_it : scorer := fun _ =>
  [("anger", 0.02); ("fear", 0.08); ("joy", 0.85); ("sadness", 0.05)]%Q.
Definition roberta : scorer := fun _ =>
  [("negative", 0.1); ("neutral", 0.2); ("positive", 0.7)]%Q.

(** Both models are in [../models] and on the network. *)
Definition sample_zoo : zoo := {|
  on_disk := fun p =>
    if decide (p = "../models/feel-it-italian-emotion") then Ok feel_it
    else if decide (p = "../models/twitter-roberta-base-sentiment-latest")
    then Ok roberta
    else Raise (FileNotFoundError p);
  on_line := fun n =>
    if decide (n = "MilaNLProc/feel-it-italian-emotion") then Ok feel_it
    else if decide (n = "cardiffnlp/twitter-roberta-base-sentiment-latest")
    then Ok roberta
    else Raise ConnectionError
|}.

(** No model on disk. *)
Definition online_zoo : zoo := {|
  on_disk := fun p => Raise (FileNotFoundError p);
  on_line := on_line sample_zoo
|}.

(** ** The dispatch *)

Lemma first_label_one d label :
  dict_get d "label" = Some label ->
  first_label (VList [VDict d]) = Ok label.
Proof. intros H. unfold first_label. simpl. by rewrite H. Qed.

Lemma first_label_labelled v : labelled v -> is_Ok (first_label v).
Proof.
  intros (d & -> & [label Hl]). rewrite (first_label_one d label Hl). by eexists.
Qed.

Lemma first_label_ranked v :
  ranked v ->
  first_label v
  = Raise (TypeError "list indices must be integers or slices, not str").
Proof. by intros [inner ->]. Qed.

Lemma setSentiment_it content cIT cEN :
  setSentiment content "it" cIT cEN
  = ([], result <- cIT content ;; first_label result).
Proof. reflexivity. Qed.

Lemma setSentiment_en content cIT cEN :
  setSentiment content "en" cIT cEN
  = ([], result <- cEN content ;; first_label result).
Proof. reflexivity. Qed.

Lemma setSentiment_other content language cIT cEN :
  language <> "it" -> language <> "en" ->
  (setSentiment content language cIT cEN).2 = Raise (SystemExit None).
Proof. intros ? ?. unfold setSentiment. by rewrite !decide_False. Qed.

(** The label is that of the classifier of the language; the other
    classifier is not called: its answer and its exceptions do not matter. *)
Theorem setSentiment_dispatch (content language : string)
    (cIT cEN cIT' cEN' : classifier) :
  (language = "it" -> cIT content = cIT' content) ->
  (language = "en" -> cEN content = cEN' content) ->
  setSentiment content language cIT cEN
  = setSentiment content language cIT' cEN'.
Proof.
  intros Hit Hen. unfold setSentiment. repeat case_decide; try done.
  - by rewrite Hit.
  - by rewrite Hen.
Qed.

Lemma setSentiment_dispatch_witness :
  setSentiment "ottimo" "it" sample_IT sample_EN
  = setSentiment "ottimo" "it" sample_IT (fun _ => Raise ConnectionError).
Proof. apply setSentiment_dispatch; [done | discriminate]. Defined.

(** A language other than the two supported ones ends the process after one
    message, whatever the classifiers are; no label is returned. *)
Theorem setSentiment_unsupported (content language : string)
    (cIT cEN : classifier) :
  language <> "it" -> language <> "en" ->
  exists text,
    setSentiment content language cIT cEN
    = ([Print text], Raise (SystemExit None)).
Proof.
  intros ? ?. unfold setSentiment. rewrite !decide_False by done. by eexists.
Qed.

Lemma setSentiment_unsupported_witness :
  exists text,
    setSentiment "bon" "fr" sample_IT sample_EN
    = ([Print text], Raise (SystemExit None)).
Proof. apply setSentiment_unsupported; discriminate. Defined.

(** On a supported language the result is the label of the first
    dictionary the classifier returned, and nothing is printed. *)
Theorem setSentiment_label (content language : string) (cIT cEN : classifier)
    d rest label :
  language = "it" \/ language = "en" ->
  (if decide (language = "it") then cIT content else cEN content)
  = Ok (VList (VDict d :: rest)) ->
  dict_get d "label" = Some label ->
  setSentiment content language cIT cEN = ([], Ok label).
Proof.
  intros Hl Hc Hd. unfold setSentiment.
  destruct (decide (language = "it")) as [->|Hne].
  - rewrite Hc. unfold first_label. simpl. by rewrite Hd.
  - destruct Hl as [?| ->]; [done|]. rewrite decide_True by done.
    rewrite Hc. unfold first_label. simpl. by rewrite Hd.
Qed.

Lemma setSentiment_label_witness :
  setSentiment "great" "en" sample_IT sample_EN = ([], Ok (VStr "positive")).
Proof.
  apply (setSentiment_label _ _ _ _
           [("label", VStr "positive"); ("score", VFloat 0.7)] []);
    [by right | reflexivity | reflexivity].
Defined.

(** A classifier that ranks the labels returns a list of lists; the
    subscript ['label'] is then applied to a list and raises [TypeError]. *)
Theorem setSentiment_ranked (content language : string) (cIT cEN : classifier)
    inner rest :
  language = "it" ->
  cIT content = Ok (VList (VList inner :: rest)) ->
  setSentiment content language cIT cEN
  = ([], Raise (TypeError "list indices must be integers or slices, not str")).
Proof. intros -> Hc. unfold setSentiment. simpl. by rewrite Hc. Qed.

Lemma setSentiment_ranked_witness :
  setSentiment "ottimo" "it" ranked_IT sample_EN
  = ([], Raise (TypeError "list indices must be integers or slices, not str")).
Proof. eapply setSentiment_ranked; reflexivity. Defined.

(** ** The classifiers of [initClassifier] *)

Section Classifiers.
Context `{Transformers} `{!TransformersLaws}.

Lemma load_local_answers p c : load_local p = Ok c -> answers c labelled.
Proof.
  unfold load_local. intros Hc. do 2 exc_inv Hc. simplify_eq.
  apply pipeline_object.
Qed.

Lemma load_offline_answers cIT cEN :
  load_offline = Ok (cIT, cEN) -> answers cIT labelled /\ answers cEN labelled.
Proof.
  unfold load_offline. intros Hc. do 2 exc_inv Hc. simplify_eq.
  eauto using load_local_answers.
Qed.

Lemma load_online_answers cIT cEN :
  load_online = Ok (cIT, cEN) -> answers cIT ranked /\ answers cEN labelled.
Proof.
  unfold load_online. intros Hc. do 2 exc_inv Hc. simplify_eq.
  eauto using pipeline_top_k, pipeline_plain.
Qed.

Lemma initClassifier_Ok_inv offlineFlag out cs :
  initClassifier offlineFlag = (out, Ok cs) ->
  (if offlineFlag then load_offline else load_online) = Ok cs.
Proof.
  unfold initClassifier.
  destruct offlineFlag; [destruct load_offline | destruct load_online];
    by intros [= <- <-] || intros [= _ ?].
Qed.

(** The label of an answer with one labelled dictionary. *)
Lemma setSentiment_labelled content language cIT cEN v :
  language = "it" \/ language = "en" ->
  answers cIT labelled -> answers cEN labelled ->
  (if decide (language = "it") then cIT content else cEN content) = Ok v ->
  exists label,
    first_label v = Ok label
    /\ setSentiment content language cIT cEN = ([], Ok label).
Proof.
  intros Hl HIT HEN Hv.
  assert (labelled v) as (d & -> & [label Hd]).
  { case_decide; [by eapply HIT | by eapply HEN]. }
  exists label. split; [by apply first_label_one|].
  by eapply setSentiment_label.
Qed.

(** A text given to a ranking classifier: the exception of the classifier,
    or [TypeError] at the subscript. *)
Lemma setSentiment_it_ranked content cIT cEN :
  answers cIT ranked ->
  setSentiment content "it" cIT cEN
  = ([], match cIT content with
         | Ok _ => Raise (TypeError
                     "list indices must be integers or slices, not str")
         | Raise e => Raise e
         end).
Proof.
  intros HIT. rewrite setSentiment_it.
  destruct (cIT content) as [v|e] eqn:Hv; [|done]. simpl.
  by rewrite (first_label_ranked v) by by eapply HIT.
Qed.

(** C40.  With the classifiers that [initClassifier] builds from the network,
    no Italian text gets a label: the classifier is built with [top_k], its
    answer is a list of lists, and [setSentiment] ends with the exception
    of the classifier or with [TypeError] at [result[0]['label']]. *)
Theorem initClassifier_online_it (out : list (effect unit))
    (cIT cEN : classifier) (content : string) :
  initClassifier false = (out, Ok (cIT, cEN)) ->
  setSentiment content "it" cIT cEN
  = ([], match cIT content with
         | Ok _ => Raise (TypeError
                     "list indices must be integers or slices, not str")
         | Raise e => Raise e
         end).
Proof.
  intros Hinit%initClassifier_Ok_inv.
  apply setSentiment_it_ranked. by eapply load_online_answers.
Qed.

(** With the classifiers that [initClassifier] builds from the models
    on disk, a text in Italian or in English that its classifier answers
    gets the label of the answer, and nothing is printed. *)
Theorem initClassifier_offline_label (out : list (effect unit))
    (cIT cEN : classifier) (content language : string) (v : pyval) :
  initClassifier true = (out, Ok (cIT, cEN)) ->
  language = "it" \/ language = "en" ->
  (if decide (language = "it") then cIT content else cEN content) = Ok v ->
  exists label,
    first_label v = Ok label
    /\ setSentiment content language cIT cEN = ([], Ok label).
Proof.
  intros Hinit%initClassifier_Ok_inv Hl Hv.
  destruct (load_offline_answers _ _ Hinit).
  by apply setSentiment_labelled.
Qed.

(** From the network the English classifier is built without [top_k]: an
    English text gets the label of the answer. *)
Lemma initClassifier_online_en out cIT cEN content v :
  initClassifier false = (out, Ok (cIT, cEN)) ->
  cEN content = Ok v ->
  exists label,
    first_label v = Ok label
    /\ setSentiment content "en" cIT cEN = ([], Ok label).
Proof.
  intros Hinit%initClassifier_Ok_inv Hv.
  destruct (load_online_answers _ _ Hinit) as [_ HEN].
  destruct (HEN _ _ Hv) as (d & -> & [label Hd]).
  exists label. split; [by apply first_label_one|].
  rewrite setSentiment_en, Hv. simpl. by rewrite (first_label_one d label).
Qed.

End Classifiers.

(** [initClassifier] prints its message once, after both classifiers are
    built: a run that raises has printed nothing, and offline the first
    model that fails to load ends the run before the next one is
    touched. *)
Theorem initClassifier_message `{Transformers} (offlineFlag : bool) :
  match (initClassifier offlineFlag).2 with
  | Ok _ =>
      (initClassifier offlineFlag).1
      = [Print (if offlineFlag then "Models loaded locally."
                else "Models downloaded from internet.")]
  | Raise e =>
      (initClassifier offlineFlag).1 = []
      /\ (if offlineFlag then load_offline else load_online) = Raise e
  end.
Proof.
  unfold initClassifier.
  destruct offlineFlag; [destruct load_offline | destruct load_online]; done.
Qed.

(** ** The instance that computes keeps the promises *)

Lemma answer_best_labelled m : answers (answer_best m) labelled.
Proof.
  intros text v. unfold answer_best.
  destruct (by_score (m text)) as [|best ?]; [done|]. intros [= <-].
  eexists. split; [done|]. by eexists.
Qed.

Lemma answer_top_ranked k m : answers (answer_top k m) ranked.
Proof. intros text v [= <-]. by eexists. Qed.

#[export] Instance zoo_laws (z : zoo) : @TransformersLaws (zoo_transformers z).
Proof.
  split.
  - intros m t task. apply answer_best_labelled.
  - intros task name tok c. simpl. intros Hc. exc_inv Hc. simplify_eq.
    apply answer_best_labelled.
  - intros task name tok k c. simpl. intros Hc. exc_inv Hc. simplify_eq.
    apply answer_top_ranked.
Qed.

#[local] Existing Instance zoo_transformers.

(** The two branches on the sample models. *)
Example offline_joy :
  let '(out, cs) := initClassifier (H := zoo_transformers sample_zoo) true in
  out = [Print "Models loaded locally."]
  /\ (cs' <- cs ;; (setSentiment "ottimo" "it" cs'.1 cs'.2).2)
     = Ok (VStr "joy").
Proof. vm_compute. done. Qed.

Example online_joy_lost :
  (cs <- (initClassifier (H := zoo_transformers sample_zoo) false).2 ;;
   (setSentiment "ottimo" "it" cs.1 cs.2).2)
  = Raise (TypeError "list indices must be integers or slices, not str").
Proof. vm_compute. done. Qed.

Example offline_without_models :
  (initClassifier (H := zoo_transformers online_zoo) true)
  = ([], Raise (FileNotFoundError "../models/feel-it-italian-emotion")).
Proof. vm_compute. done. Qed.

Lemma initClassifier_online_it_witness :
  exists out cIT cEN,
    initClassifier (H := zoo_transformers sample_zoo) false
    = (out, Ok (cIT, cEN))
    /\ setSentiment "ottimo" "it" cIT cEN
       = ([], Raise (TypeError
                "list indices must be integers or slices, not str")).
Proof.
  eexists _, _, _. split; [reflexivity|].
  by rewrite (initClassifier_online_it (H := zoo_transformers sample_zoo)
                _ _ _ "ottimo" eq_refl).
Defined.

Lemma initClassifier_offline_label_witness :
  exists out cIT cEN label,
    initClassifier (H := zoo_transformers sample_zoo) true
    = (out, Ok (cIT, cEN))
    /\ setSentiment "great" "en" cIT cEN = ([], Ok label).
Proof.
  eexists _, _, _. 
  destruct (initClassifier_offline_label
              (H := zoo_transformers sample_zoo) _ _ _
              "great" "en" _ eq_refl (or_intror eq_refl) eq_refl)
    as (label & _ & Hs).
  exists label. split; [reflexivity | exact Hs].
Defined.
