(* ===== verification/Join.v ===== *)
(** * The table operations of the join stage

    What [loadStructure] of [src/data/dataLoad.py] (lines 134-143) relies on
    when it prepares the table for [setHierarchy]: [fillna] removes every
    missing value, [add_prefix] renames the columns without touching the
    rows, [merge] is the inner join (a row of the result is a row of the
    left table followed by a matching row of the right one, in the order of
    the left table), and [drop] removes columns by label.  Each operation
    keeps the table rectangular and free of missing values, and the cell
    under a label that survives is the cell of the input. *)

From Stdlib Require Import ZArith QArith String List Lia.
From stdpp Require Import base tactics option numbers list strings.
From S2P Require Import Prelude Groupby Cell Value Frame.

(** ** [fillna] *)

Lemma fillna_columns df : columns (fillna df) = columns df.
Proof. reflexivity. Qed.

Lemma fillna_len df : df_len (fillna df) = df_len df.
Proof. unfold df_len, fillna. simpl. apply length_map. Qed.

Lemma fillna_wf df : df_wf df -> df_wf (fillna df).
Proof.
  intros [Hnd Hlen]. split; [done|]. simpl.
  apply Forall_map. eapply Forall_impl; [exact Hlen|].
  intros r Hr. simpl. by rewrite length_map.
Qed.

Lemma fillna_no_nan df : no_nan (fillna df).
Proof.
  unfold no_nan, fillna. simpl. apply Forall_map, Forall_true. intros r.
  apply Forall_map, Forall_true. intros c. apply fillna_cell_not_nan.
Qed.

Lemma fillna_id df : no_nan df -> fillna df = df.
Proof.
  destruct df as [cols rs]. unfold no_nan, fillna. simpl. intros Hnan.
  f_equal. rewrite <- (list_fmap_id rs) at 2. apply Forall_fmap_ext_1.
  eapply Forall_impl; [exact Hnan|]. intros r Hr. simpl.
  rewrite <- (list_fmap_id r) at 2. apply Forall_fmap_ext_1.
  eapply Forall_impl; [exact Hr|]. intros c. apply fillna_cell_id.
Qed.

Lemma fillna_idemp df : fillna (fillna df) = fillna df.
Proof. apply fillna_id, fillna_no_nan. Qed.

(** An integer stays the integer it was. *)
Lemma cell_of_fmap (f : cell -> cell) cols c r :
  cell_of cols c (f <$> r) = f <$> cell_of cols c r.
Proof.
  unfold cell_of. revert r. induction cols as [|c' cols IH]; intros r; [done|].
  destruct r as [|v r]; [done|]. simpl. case_decide; [done | apply IH].
Qed.

Lemma fillna_int_column df c : int_column df c -> int_column (fillna df) c.
Proof.
  unfold int_column, fillna. simpl. intros H. apply Forall_map.
  eapply Forall_impl; [exact H|]. intros r Hr.
  unfold zcell in *. cbn [columns] in *. rewrite cell_of_fmap.
  by destruct (cell_of (columns df) c r) as [[]|]; simplify_eq.
Qed.

(** ** [add_prefix] *)

Lemma append_inj (p : string) : Inj (=) (=) (String.append p).
Proof.
  intros a b. induction p as [|x p IH]; simpl; [done|].
  intros E. apply IH. by injection E.
Qed.

Lemma add_prefix_len p df : df_len (add_prefix p df) = df_len df.
Proof. reflexivity. Qed.

Lemma add_prefix_wf p df : df_wf df -> df_wf (add_prefix p df).
Proof.
  intros [Hnd Hlen]. split; simpl.
  - apply NoDup_fmap_2; [apply append_inj | done].
  - eapply Forall_impl; [exact Hlen|]. intros r Hr. simpl.
    by rewrite length_map.
Qed.

Lemma add_prefix_no_nan p df : no_nan df -> no_nan (add_prefix p df).
Proof. done. Qed.

Lemma elem_of_add_prefix p df c :
  c ∈ columns (add_prefix p df) <->
  exists c', c = String.append p c' /\ c' ∈ columns df.
Proof. unfold add_prefix. simpl. apply list_elem_of_fmap. Qed.

(** The column [p ++ c] of the renamed table is the column [c]. *)
Lemma cell_of_add_prefix p cols c r :
  cell_of (String.append p <$> cols) (String.append p c) r = cell_of cols c r.
Proof.
  unfold cell_of. revert r. induction cols as [|c' cols IH]; intros r; [done|].
  destruct r as [|v r]; [done|]. simpl.
  destruct (decide (c = c')) as [->|Hne]; [by rewrite decide_True|].
  rewrite decide_False; [apply IH|]. intros E. by apply append_inj in E.
Qed.

Lemma add_prefix_int_column p df c :
  int_column df c -> int_column (add_prefix p df) (String.append p c).
Proof.
  unfold int_column, add_prefix, zcell. simpl. intros H.
  eapply Forall_impl; [exact H|]. intros r Hr. simpl.
  by rewrite cell_of_add_prefix.
Qed.

(** ** [merge] *)

(** Tables without a common label: no suffix is added. *)
Definition disjoint_labels (a b : list string) : Prop :=
  Forall (fun c => c ∉ b) a.

#[export] Instance disjoint_labels_dec a b : Decision (disjoint_labels a b).
Proof. unfold disjoint_labels. apply _. Defined.

(** The key of column [c] occurs in one row of the table only. *)
Definition unique_key (df : DataFrame) (c : string) : Prop :=
  NoDup (row_key (columns df) c <$> rows df).

#[export] Instance unique_key_dec df c : Decision (unique_key df c).
Proof. unfold unique_key. apply _. Defined.

(** Every key of column [lon] of [left] is a key of column [ron] of
    [right]. *)
Definition refers (left right : DataFrame) (lon ron : string) : Prop :=
  Forall (fun lr => row_key (columns left) lon lr
                    ∈ row_key (columns right) ron <$> rows right)
    (rows left).

#[export] Instance refers_dec left right lon ron :
  Decision (refers left right lon ron).
Proof. unfold refers. apply _. Defined.

Lemma refers_keys left right lon ron :
  refers left right lon ron <->
  Forall (fun k => k ∈ row_key (columns right) ron <$> rows right)
    (row_key (columns left) lon <$> rows left).
Proof. unfold refers. by rewrite Forall_fmap. Qed.

(** The join when no label is shared. *)
Definition joined (left right : DataFrame) (lon ron : string) : DataFrame :=
  {| columns := columns left ++ columns right;
     rows := flat_map (join_row (columns left) (columns right) lon ron
                         (rows right)) (rows left) |}.

Lemma disjoint_labels_sym a b : disjoint_labels a b -> disjoint_labels b a.
Proof.
  unfold disjoint_labels. rewrite !Forall_forall. intros H c Hc Hc'.
  by apply (H c Hc').
Qed.

Lemma suffix_overlap_disjoint sfx a b :
  disjoint_labels a b -> map (suffix_overlap sfx b) a = a.
Proof.
  intros H. rewrite <- (map_id a) at 2. apply map_ext_Forall.
  eapply Forall_impl; [exact H|]. intros c Hc. simpl.
  unfold suffix_overlap. by rewrite decide_False.
Qed.

(** The key of the right table is looked up first. *)
Lemma merge_KeyError_right left right lon ron :
  ron ∉ columns right -> merge left right lon ron = Raise (KeyError ron).
Proof. intros H. unfold merge. by rewrite decide_False. Qed.

Lemma merge_KeyError_left left right lon ron :
  ron ∈ columns right -> lon ∉ columns left ->
  merge left right lon ron = Raise (KeyError lon).
Proof. intros Hr Hl. unfold merge. by rewrite decide_True, decide_False. Qed.

Lemma merge_joined left right lon ron :
  lon ∈ columns left -> ron ∈ columns right ->
  disjoint_labels (columns left) (columns right) ->
  merge left right lon ron = Ok (joined left right lon ron).
Proof.
  intros Hl Hr Hd. unfold merge, joined. rewrite !decide_True by done.
  rewrite decide_False.
  - by rewrite !suffix_overlap_disjoint by auto using disjoint_labels_sym.
  - intros ->. unfold disjoint_labels in Hd. rewrite Forall_forall in Hd.
    by apply (Hd ron).
Qed.

Section Joined.
Context (left right : DataFrame) (lon ron : string).

Let m := joined left right lon ron.

(** A row of the join is a row of [left] followed by a row of [right] with
    the same key, and every such pair is a row of the join. *)
Lemma elem_of_joined r :
  r ∈ rows m <->
  exists lr rr, lr ∈ rows left /\ rr ∈ rows right /\
    row_key (columns left) lon lr = row_key (columns right) ron rr /\
    r = lr ++ rr.
Proof.
  unfold m, joined, join_row. simpl.
  rewrite list_elem_of_In, in_flat_map. split.
  - intros (lr & Hlr & Hr). apply list_elem_of_In in Hlr, Hr.
    apply list_elem_of_fmap in Hr as (rr & -> & Hrr).
    apply list_elem_of_filter in Hrr as [Hk Hrr]. by exists lr, rr.
  - intros (lr & rr & Hlr & Hrr & Hk & ->). exists lr.
    rewrite <- !list_elem_of_In. split; [done|].
    apply list_elem_of_fmap_2. by apply list_elem_of_filter.
Qed.

Lemma joined_wf :
  df_wf left -> df_wf right ->
  disjoint_labels (columns left) (columns right) -> df_wf m.
Proof.
  intros [Hndl Hl] [Hndr Hr] Hd. split.
  - simpl. apply NoDup_app. split_and!; [done | | done].
    intros c Hc. unfold disjoint_labels in Hd. rewrite Forall_forall in Hd.
    by apply Hd.
  - apply Forall_forall. intros r (lr & rr & Hlr & Hrr & _ & ->)%elem_of_joined.
    rewrite Forall_forall in Hl, Hr. simpl.
    rewrite !length_app. by rewrite (Hl lr), (Hr rr).
Qed.

Lemma joined_no_nan : no_nan left -> no_nan right -> no_nan m.
Proof.
  unfold no_nan. rewrite !Forall_forall. intros Hl Hr r.
  intros (lr & rr & Hlr & Hrr & _ & ->)%elem_of_joined.
  apply Forall_app. auto.
Qed.

(** With a unique key on the right, a row of [left] gives at most one row of
    the join, and exactly one when its key is found. *)
Lemma join_row_length_le lr :
  unique_key right ron ->
  length (join_row (columns left) (columns right) lon ron (rows right) lr) <= 1.
Proof.
  intros Hu. unfold join_row. rewrite length_map.
  by apply (filter_key_length_le (row_key (columns right) ron)).
Qed.

Lemma join_row_length lr :
  unique_key right ron ->
  row_key (columns left) lon lr ∈ row_key (columns right) ron <$> rows right ->
  length (join_row (columns left) (columns right) lon ron (rows right) lr) = 1.
Proof.
  intros Hu Hk. unfold join_row. rewrite length_map.
  by apply (filter_key_length (row_key (columns right) ron)).
Qed.

Lemma join_row_unmatched lr :
  row_key (columns left) lon lr ∉ row_key (columns right) ron <$> rows right ->
  join_row (columns left) (columns right) lon ron (rows right) lr = [].
Proof.
  intros Hk. unfold join_row.
  exact (f_equal (map (app lr))
           (filter_key_none (row_key (columns right) ron) _ _ Hk)).
Qed.

Lemma joined_len_le : unique_key right ron -> df_len m <= df_len left.
Proof.
  intros Hu. unfold df_len, m, joined. simpl. rewrite length_flat_map.
  induction (rows left) as [|lr l IH]; simpl; [lia|].
  pose proof (join_row_length_le lr Hu). lia.
Qed.

Lemma joined_len :
  unique_key right ron -> refers left right lon ron ->
  df_len m = df_len left.
Proof.
  intros Hu. unfold refers, df_len, m, joined. simpl.
  rewrite length_flat_map.
  induction 1 as [|lr l Hlr _ IH]; simpl; [done|].
  by rewrite join_row_length, IH.
Qed.

End Joined.

(** ** The cells of a joined row *)

Lemma cell_of_app_l lcols rcols c lr rr :
  c ∈ lcols -> length lr = length lcols ->
  cell_of (lcols ++ rcols) c (lr ++ rr) = cell_of lcols c lr.
Proof.
  unfold cell_of. revert lr.
  induction lcols as [|c' lcols IH]; intros lr Hc Hlen.
  - by apply elem_of_nil in Hc.
  - destruct lr as [|v lr]; [done|]. simpl. case_decide; [done|].
    apply IH; [|by simplify_eq/=]. apply elem_of_cons in Hc as [?|?]; done.
Qed.

Lemma cell_of_app_r lcols rcols c lr rr :
  c ∉ lcols -> length lr = length lcols ->
  cell_of (lcols ++ rcols) c (lr ++ rr) = cell_of rcols c rr.
Proof.
  unfold cell_of. revert lr.
  induction lcols as [|c' lcols IH]; intros lr Hc Hlen.
  - by destruct lr.
  - destruct lr as [|v lr]; [done|]. simpl.
    rewrite not_elem_of_cons in Hc. destruct Hc.
    rewrite decide_False by done. apply IH; [done | by simplify_eq/=].
Qed.

(** A cell that is carried over unchanged stays an integer. *)
Lemma int_cell_carried cols cols' c c' r r' :
  cell_of cols' c' r' = cell_of cols c r ->
  cell_of cols c r = Some (CInt (zcell cols c r)) ->
  cell_of cols' c' r' = Some (CInt (zcell cols' c' r')).
Proof. unfold zcell. intros -> E. by rewrite E. Qed.

Lemma joined_int_column_l left right lon ron c :
  df_wf left -> c ∈ columns left -> int_column left c ->
  int_column (joined left right lon ron) c.
Proof.
  intros [_ Hlen] Hc Hint. apply Forall_forall.
  intros r (lr & rr & Hlr & _ & _ & ->)%elem_of_joined.
  rewrite Forall_forall in Hlen. simpl.
  eapply int_cell_carried; [by apply cell_of_app_l; auto|].
  by apply int_column_cell.
Qed.

Lemma joined_int_column_r left right lon ron c :
  df_wf left -> c ∉ columns left -> int_column right c ->
  int_column (joined left right lon ron) c.
Proof.
  intros [_ Hlen] Hc Hint. apply Forall_forall.
  intros r (lr & rr & Hlr & Hrr & _ & ->)%elem_of_joined.
  rewrite Forall_forall in Hlen. simpl.
  eapply int_cell_carried; [by apply cell_of_app_r; auto|].
  by apply int_column_cell.
Qed.

(** ** [drop] *)

(** The table without the columns [cs]. *)
Definition dropped (cs : list string) (df : DataFrame) : DataFrame :=
  {| columns := filter (fun c => c ∉ cs) (columns df);
     rows := map (drop_cells cs (columns df)) (rows df) |}.

Lemma drop_dropped cs df :
  Forall (fun c => c ∈ columns df) cs -> drop cs df = Ok (dropped cs df).
Proof.
  intros H. unfold drop. rewrite filter_none; [done|].
  eapply Forall_impl; [exact H|]. intros c Hc. simpl. tauto.
Qed.

(** A label that is no column: [drop] returns no table. *)
Lemma drop_KeyError cs df c :
  c ∈ cs -> c ∉ columns df -> exists e, drop cs df = Raise e.
Proof.
  intros Hc Hn. unfold drop.
  assert (c ∈ filter (fun c => c ∉ columns df) cs) as Hin
    by by apply list_elem_of_filter.
  destruct (filter _ cs) as [|c' l]; [by apply elem_of_nil in Hin|].
  destruct (repr_list (c' :: l)); by eexists.
Qed.

(** The exception names the labels that are no columns, in the order in
    which they were given. *)
Lemma drop_missing :
  drop ["idWine"; "wine_Style"]%string
    {| columns := ["idRev"; "wine_ID"]%string; rows := [] |}
  = Raise (KeyError "['idWine', 'wine_Style'] not found in axis").
Proof. reflexivity. Qed.

Lemma dropped_len cs df : df_len (dropped cs df) = df_len df.
Proof. unfold df_len, dropped. simpl. apply length_map. Qed.

(** The labelled cells that are kept are those of the kept labels. *)
Lemma zip_drop_cells (cs cols : list string) (r : list cell) :
  length r = length cols ->
  zip (filter (fun c => c ∉ cs) cols) (drop_cells cs cols r)
  = filter (fun cv => cv.1 ∉ cs) (zip cols r).
Proof.
  unfold drop_cells. revert r. induction cols as [|c cols IH]; intros r Hlen.
  - done.
  - destruct r as [|v r]; [done|].
    change (zip (c :: cols) (v :: r)) with ((c, v) :: zip cols r).
    rewrite !filter_cons. simpl. case_decide; simpl; rewrite IH; auto.
Qed.

Lemma assoc_filter (cs : list string) c (row : list (string * cell)) :
  c ∉ cs -> assoc c (filter (fun cv => cv.1 ∉ cs) row) = assoc c row.
Proof.
  intros Hc. induction row as [|[c' v] row IH]; [done|].
  rewrite filter_cons. simpl. destruct (decide (c = c')) as [<-|Hne].
  - rewrite decide_True by done. simpl. by rewrite decide_True.
  - case_decide; simpl; [by rewrite decide_False|done].
Qed.

Lemma cell_of_dropped cs cols c r :
  c ∉ cs -> length r = length cols ->
  cell_of (filter (fun c => c ∉ cs) cols) c (drop_cells cs cols r)
  = cell_of cols c r.
Proof.
  intros Hc Hlen. unfold cell_of.
  by rewrite zip_drop_cells, assoc_filter.
Qed.

Lemma length_drop_cells (cs cols : list string) (r : list cell) :
  length r = length cols ->
  length (drop_cells cs cols r) = length (filter (fun c => c ∉ cs) cols).
Proof.
  unfold drop_cells. rewrite length_fmap. revert r.
  induction cols as [|c cols IH]; intros [|v r] Hlen; try done.
  change (zip (c :: cols) (v :: r)) with ((c, v) :: zip cols r).
  rewrite !filter_cons. simpl.
  case_decide; simpl; rewrite IH; auto.
Qed.

Lemma dropped_wf cs df : df_wf df -> df_wf (dropped cs df).
Proof.
  intros [Hnd Hlen]. split; simpl.
  - by apply NoDup_filter.
  - apply Forall_map. eapply Forall_impl; [exact Hlen|].
    intros r Hr. simpl. by apply length_drop_cells.
Qed.

Lemma drop_cells_subseteq cs cols r : drop_cells cs cols r ⊆ r.
Proof.
  unfold drop_cells. intros v (cv & -> & Hcv)%list_elem_of_fmap.
  apply list_elem_of_filter in Hcv as [_ Hcv].
  destruct cv as [c w]. by apply elem_of_zip_r in Hcv.
Qed.

Lemma dropped_no_nan cs df : no_nan df -> no_nan (dropped cs df).
Proof.
  unfold no_nan, dropped. simpl. intros H. apply Forall_map.
  eapply Forall_impl; [exact H|]. intros r Hr. simpl.
  rewrite Forall_forall in *. intros v Hv.
  by apply Hr, (drop_cells_subseteq cs (columns df)).
Qed.

Lemma dropped_int_column cs df c :
  df_wf df -> c ∉ cs -> int_column df c -> int_column (dropped cs df) c.
Proof.
  intros [_ Hlen] Hc Hint. unfold int_column, dropped. simpl.
  apply Forall_map. rewrite Forall_forall in *. intros r Hr. simpl.
  eapply int_cell_carried; [by apply cell_of_dropped; auto|].
  by apply int_column_cell.
Qed.

(** ** The contract of [merge] *)

Lemma merge_Ok_inv left right lon ron m :
  merge left right lon ron = Ok m ->
  lon ∈ columns left /\ ron ∈ columns right.
Proof. unfold merge. by repeat case_decide. Qed.

(** The inner join of two tables without a common label: the columns
    are those of the left table followed by those of the right one, and
    the rows are exactly the pairs of a left row and a right row whose
    cells under the two join columns are equal as keys, the left row
    first.  A left row without partner is in no row of the result. *)
Theorem merge_inner_join (left right m : DataFrame) (lon ron : string)
    (r : list cell) :
  disjoint_labels (columns left) (columns right) ->
  merge left right lon ron = Ok m ->
  columns m = columns left ++ columns right /\
  (r ∈ rows m <->
   exists lr rr, lr ∈ rows left /\ rr ∈ rows right /\
     row_key (columns left) lon lr = row_key (columns right) ron rr /\
     r = lr ++ rr).
Proof.
  intros Hd Hm. pose proof Hm as [Hl Hr]%merge_Ok_inv.
  rewrite merge_joined in Hm by done. injection Hm as <-.
  split; [done | apply elem_of_joined].
Qed.

Lemma merge_inner_join_witness :
  exists m,
    merge {| columns := ["idWine"; "Note"];
             rows := [[CInt 7; CStr "a"]; [CInt 9; CStr "b"]] |}
          {| columns := ["wine_ID"; "wine_Name"];
             rows := [[CFloat 7; CStr "Seven"]] |} "idWine" "wine_ID" = Ok m
    /\ columns m = ["idWine"; "Note"; "wine_ID"; "wine_Name"]
    /\ ([CInt 9; CStr "b"; CFloat 7; CStr "Seven"] ∈ rows m <->
        exists lr rr,
          lr ∈ [[CInt 7; CStr "a"]; [CInt 9; CStr "b"]] /\
          rr ∈ [[CFloat 7; CStr "Seven"]] /\
          row_key ["idWine"; "Note"] "idWine" lr
          = row_key ["wine_ID"; "wine_Name"] "wine_ID" rr /\
          [CInt 9; CStr "b"; CFloat 7; CStr "Seven"] = lr ++ rr).
Proof.
  eexists. split; [by vm_compute|].
  apply (merge_inner_join
           {| columns := ["idWine"; "Note"];
              rows := [[CInt 7; CStr "a"]; [CInt 9; CStr "b"]] |}
           {| columns := ["wine_ID"; "wine_Name"];
              rows := [[CFloat 7; CStr "Seven"]] |});
    [compute_done | by vm_compute].
Defined.
