(* ===== verification/Relational.v ===== *)
(** * Tables built row by row

    The table operations of [src/src/crawler.py]: a table made of tuples
    ([pd.DataFrame(results, columns=...)]), [pd.concat] of two tables one
    under the other, [drop_duplicates(subset=c)], which keeps the first row
    of every key, and [left.merge(right)], the inner join on all the columns
    the two tables share. *)

From Stdlib Require Import ZArith QArith String List Lia.
From stdpp Require Import base tactics option numbers list strings.
From S2P Require Import Prelude Groupby Cell Frame Join.

(** ** First occurrences *)

Section Dedup.
Context {A K : Type} `{EqDecision K}.
Variable f : A -> K.

(** The elements whose key is not in [seen] and not the key of an earlier
    element. *)
Fixpoint dedup_by (seen : list K) (l : list A) : list A :=
  match l with
  | [] => []
  | x :: l' =>
      if decide (f x ∈ seen) then dedup_by seen l'
      else x :: dedup_by (f x :: seen) l'
  end.

Lemma dedup_by_sublist seen l : sublist (dedup_by seen l) l.
Proof.
  revert seen. induction l as [|x l IH]; intros seen; simpl; [done|].
  case_decide; [by apply sublist_cons | by apply sublist_skip].
Qed.

Lemma elem_of_dedup_by seen l x :
  x ∈ dedup_by seen l -> x ∈ l /\ f x ∉ seen.
Proof.
  revert seen. induction l as [|y l IH]; intros seen; simpl.
  - by intros ?%elem_of_nil.
  - case_decide as Hy.
    + intros [? ?]%IH. split; [by right | done].
    + intros [->|[? Hn]%IH]%elem_of_cons; [split; [left | done]|].
      split; [by right|]. intros ?. apply Hn. by right.
Qed.

Lemma dedup_by_NoDup seen l : NoDup (f <$> dedup_by seen l).
Proof.
  revert seen. induction l as [|x l IH]; intros seen; simpl; [constructor|].
  case_decide; [apply IH|]. rewrite fmap_cons. constructor; [|apply IH].
  intros (y & E & Hy)%list_elem_of_fmap.
  apply elem_of_dedup_by in Hy as [_ Hy]. apply Hy. rewrite E. left.
Qed.

(** Every key that is not in [seen] keeps a row. *)
Lemma dedup_by_keys seen l k :
  k ∈ f <$> dedup_by seen l <-> k ∈ f <$> l /\ k ∉ seen.
Proof.
  revert seen. induction l as [|x l IH]; intros seen.
  - simpl. split; [by intros ?%elem_of_nil | by intros [?%elem_of_nil _]].
  - cbn [dedup_by]. case_decide as Hx.
    + rewrite IH, fmap_cons, elem_of_cons. split; [tauto|].
      intros [[->|?] ?]; [done | tauto].
    + rewrite !fmap_cons, !elem_of_cons, IH, not_elem_of_cons.
      destruct (decide (k = f x)) as [->|]; tauto.
Qed.

(** The row that is kept for a key is the first of the table with it. *)
Lemma dedup_by_first seen l k :
  k ∉ seen ->
  head (filter (fun x => k = f x) (dedup_by seen l))
  = head (filter (fun x => k = f x) l).
Proof.
  revert seen. induction l as [|x l IH]; intros seen Hk; simpl; [done|].
  rewrite (filter_cons _ x l). case_decide as Hx.
  - rewrite decide_False by (by intros ->). by apply IH.
  - rewrite filter_cons. case_decide; [done|].
    apply IH. rewrite not_elem_of_cons. split; [done | by auto].
Qed.

(** A table whose keys are distinct is left as it is. *)
Lemma dedup_by_id seen l :
  NoDup (f <$> l) -> Forall (fun x => f x ∉ seen) l -> dedup_by seen l = l.
Proof.
  revert seen. induction l as [|x l IH]; intros seen Hnd Hs; simpl; [done|].
  rewrite fmap_cons in Hnd. apply NoDup_cons in Hnd as [Hx Hnd].
  apply Forall_cons in Hs as [Hxs Hs].
  rewrite decide_False by done. f_equal. apply IH; [done|].
  apply Forall_forall. intros y Hy. rewrite not_elem_of_cons. split.
  - intros E. apply Hx. rewrite <- E. by apply list_elem_of_fmap_2.
  - rewrite Forall_forall in Hs. by apply Hs.
Qed.

Lemma dedup_by_idemp l : dedup_by [] (dedup_by [] l) = dedup_by [] l.
Proof.
  apply dedup_by_id; [apply dedup_by_NoDup|].
  apply Forall_forall. intros x _. apply not_elem_of_nil.
Qed.

Lemma dedup_by_length seen l : length (dedup_by seen l) <= length l.
Proof. apply sublist_length, dedup_by_sublist. Qed.

End Dedup.

(** ** Tables *)

(** [pd.DataFrame(columns=cols)]. *)
Definition empty_frame (cols : list string) : DataFrame :=
  {| columns := cols; rows := [] |}.

(** The cells of a row under the labels [to], missing where the row has
    none. *)
Definition reindex (from to : list string) (r : list cell) : list cell :=
  map (fun c => default CNaN (cell_of from c r)) to.

(** [pd.concat([a, b], ignore_index=True)]: the rows of [a], then those of
    [b], under the labels of [a] followed by the new labels of [b]. *)
Definition concat (a b : DataFrame) : DataFrame :=
  let cols := columns a ++ filter (fun c => c ∉ columns a) (columns b) in
  {| columns := cols;
     rows := map (reindex (columns a) cols) (rows a)
             ++ map (reindex (columns b) cols) (rows b) |}.

(** [df.drop_duplicates(subset=c)]: the first row of every key; missing
    values are one key. *)
Definition drop_duplicates (df : DataFrame) (c : string) : exc DataFrame :=
  if decide (c ∈ columns df)
  then Ok {| columns := columns df;
             rows := dedup_by (row_key (columns df) c) [] (rows df) |}
  else Raise (KeyError c).

(** The rows of [right] that agree with [lr] on every label of [on]. *)
Definition agree (lcols rcols on : list string) (lr rr : list cell) : Prop :=
  Forall (fun c => key_match (cell_of lcols c lr) (cell_of rcols c rr)) on.

#[export] Instance agree_dec lcols rcols on lr rr :
  Decision (agree lcols rcols on lr rr).
Proof. unfold agree. apply _. Defined.

(** [left.merge(right)]: the inner join on the labels that both tables
    have, in the order of [left]; the shared columns appear once. *)
Definition merge_common (left right : DataFrame) : exc DataFrame :=
  let on := filter (fun c => c ∈ columns right) (columns left) in
  match on with
  | [] => Raise MergeError
  | _ :: _ =>
      Ok {| columns := columns left
                       ++ filter (fun c => c ∉ on) (columns right);
            rows :=
              flat_map (fun lr =>
                  map (fun rr => lr ++ drop_cells on (columns right) rr)
                    (filter (agree (columns left) (columns right) on lr)
                       (rows right)))
                (rows left) |}
  end.

(** ** [concat] *)

Lemma reindex_id cols r :
  NoDup cols -> length r = length cols -> reindex cols cols r = r.
Proof.
  unfold reindex, cell_of. revert r.
  induction cols as [|c cols IH]; intros r Hnd Hlen.
  - by destruct r.
  - destruct r as [|v r]; [done|]. apply NoDup_cons in Hnd as [Hc Hnd].
    simpl. rewrite decide_True by done. simpl. f_equal.
    etrans; [|apply (IH r); [done | by simplify_eq/=]].
    apply map_ext_Forall, Forall_forall. intros c' Hc'. simpl.
    rewrite decide_False; [done|]. by intros ->.
Qed.

(** Under the same labels the rows are put one after the other. *)
Lemma concat_same a b :
  df_wf a -> df_wf b -> columns b = columns a ->
  concat a b = {| columns := columns a; rows := rows a ++ rows b |}.
Proof.
  intros [Hnd Ha] [_ Hb] Hcols. unfold concat. rewrite Hcols in *.
  rewrite filter_none, app_nil_r by (apply Forall_forall; tauto).
  f_equal. f_equal; rewrite <- (map_id (rows _)) at 2;
    apply map_ext_Forall; (eapply Forall_impl; [eassumption|]);
    intros r Hr; by apply reindex_id.
Qed.

Lemma concat_empty cols b :
  df_wf b -> columns b = cols -> concat (empty_frame cols) b = b.
Proof.
  intros Hb Hcols. rewrite concat_same; [| |done|done].
  - destruct b. simpl in *. by subst.
  - destruct Hb. split; simpl; [by subst | done].
Qed.

Lemma concat_wf a b :
  df_wf a -> df_wf b -> columns b = columns a -> df_wf (concat a b).
Proof.
  intros Ha Hb Hcols. rewrite concat_same by done.
  destruct Ha as [Hnd Ha], Hb as [_ Hb]. split; simpl; [done|].
  apply Forall_app. split; [done|]. by rewrite <- Hcols.
Qed.

(** ** [drop_duplicates] *)

Section DropDuplicates.
Context (df out : DataFrame) (c : string).
Hypothesis Hout : drop_duplicates df c = Ok out.

Lemma drop_duplicates_Ok :
  c ∈ columns df /\ columns out = columns df /\
  rows out = dedup_by (row_key (columns df) c) [] (rows df).
Proof.
  unfold drop_duplicates in Hout. case_decide; [|done].
  by injection Hout as <-.
Qed.

Lemma drop_duplicates_unique : unique_key out c.
Proof.
  destruct drop_duplicates_Ok as (_ & Hc & Hr). unfold unique_key.
  rewrite Hc, Hr. apply dedup_by_NoDup.
Qed.

Lemma drop_duplicates_sublist : sublist (rows out) (rows df).
Proof.
  destruct drop_duplicates_Ok as (_ & _ & ->). apply dedup_by_sublist.
Qed.

Lemma drop_duplicates_wf : df_wf df -> df_wf out.
Proof.
  destruct drop_duplicates_Ok as (_ & Hc & Hr). intros [Hnd Hlen].
  split; rewrite Hc; [done|]. rewrite Forall_forall in *.
  intros r Hin. by apply Hlen, (sublist_subseteq _ _ drop_duplicates_sublist).
Qed.

(** No key is lost. *)
Lemma drop_duplicates_keys k :
  k ∈ row_key (columns out) c <$> rows out <->
  k ∈ row_key (columns df) c <$> rows df.
Proof.
  destruct drop_duplicates_Ok as (_ & -> & ->). rewrite dedup_by_keys.
  split; [tauto|]. split; [done | apply not_elem_of_nil].
Qed.

End DropDuplicates.

Lemma drop_duplicates_missing df c :
  c ∉ columns df -> drop_duplicates df c = Raise (KeyError c).
Proof. intros H. unfold drop_duplicates. by rewrite decide_False. Qed.

(** ** [merge] on the common columns *)

(** The labels both tables have, in the order of [left]. *)
Definition common (left right : DataFrame) : list string :=
  filter (fun c => c ∈ columns right) (columns left).

(** The row of the join for a row of each side. *)
Definition paired_row (left right : DataFrame) (lr rr : list cell)
    : list cell :=
  lr ++ drop_cells (common left right) (columns right) rr.

Lemma merge_common_none left right :
  common left right = [] -> merge_common left right = Raise MergeError.
Proof. unfold merge_common, common. by intros ->. Qed.

Lemma merge_common_Ok left right :
  common left right <> [] ->
  merge_common left right
  = Ok {| columns := columns left
                     ++ filter (fun c => c ∉ common left right) (columns right);
          rows :=
            flat_map (fun lr =>
                map (paired_row left right lr)
                  (filter (agree (columns left) (columns right)
                             (common left right) lr) (rows right)))
              (rows left) |}.
Proof.
  unfold merge_common, paired_row. fold (common left right).
  by destruct (common left right).
Qed.

(** A row of the join is a row of [left] followed by the other cells of a
    row of [right] that agrees with it on the common columns. *)
Lemma elem_of_merge_common left right out r :
  merge_common left right = Ok out ->
  r ∈ rows out <->
  exists lr rr, lr ∈ rows left /\ rr ∈ rows right /\
    agree (columns left) (columns right) (common left right) lr rr /\
    r = paired_row left right lr rr.
Proof.
  destruct (decide (common left right = [])) as [E|E].
  { by rewrite merge_common_none. }
  rewrite merge_common_Ok by done. intros [= <-]. simpl.
  rewrite list_elem_of_In, in_flat_map. split.
  - intros (lr & Hlr & Hr). apply list_elem_of_In in Hlr, Hr.
    apply list_elem_of_fmap in Hr as (rr & -> & Hrr).
    apply list_elem_of_filter in Hrr as [Hk Hrr]. by exists lr, rr.
  - intros (lr & rr & Hlr & Hrr & Hk & ->). exists lr.
    rewrite <- !list_elem_of_In. split; [done|].
    apply list_elem_of_fmap_2. by apply list_elem_of_filter.
Qed.

(** When every row of [left] agrees with exactly one row of [right], the
    join has the rows of [left] in order, each with the cells of its
    partner. *)
Lemma merge_common_partner left right (partner : list cell -> list cell) :
  common left right <> [] ->
  Forall (fun lr =>
      filter (agree (columns left) (columns right) (common left right) lr)
        (rows right) = [partner lr]) (rows left) ->
  merge_common left right
  = Ok {| columns := columns left
                     ++ filter (fun c => c ∉ common left right) (columns right);
          rows := map (fun lr => paired_row left right lr (partner lr))
                    (rows left) |}.
Proof.
  intros Hc Hall. rewrite merge_common_Ok by done. do 2 f_equal.
  induction Hall as [|lr l Hlr _ IH]; [done|]. simpl. by rewrite Hlr, IH.
Qed.

(** [drop_duplicates(subset=c)] keeps, for every key of column [c],
    the first row of the table with that key and no other: the result has
    the columns of the table, its rows are rows of the table in their
    order, no key occurs twice, and the first row of a key is the same in
    both tables. *)
Theorem drop_duplicates_first (df out : DataFrame) (c : string) :
  drop_duplicates df c = Ok out ->
  columns out = columns df /\ unique_key out c /\
  sublist (rows out) (rows df) /\
  forall k,
    head (filter (fun r => k = row_key (columns df) c r) (rows out))
    = head (filter (fun r => k = row_key (columns df) c r) (rows df)).
Proof.
  intros H. pose proof H as (_ & Hc & Hr)%drop_duplicates_Ok.
  split_and!; [done | by eapply drop_duplicates_unique
              | by eapply drop_duplicates_sublist |].
  intros k. rewrite Hr. apply dedup_by_first, not_elem_of_nil.
Qed.

Lemma drop_duplicates_first_witness :
  exists out,
    drop_duplicates {| columns := ["id"; "v"];
                       rows := [[CInt 1; CStr "a"]; [CInt 2; CStr "b"];
                                [CFloat 1; CStr "c"]] |} "id" = Ok out /\
    rows out = [[CInt 1; CStr "a"]; [CInt 2; CStr "b"]] /\
    unique_key out "id".
Proof.
  eexists. split; [by vm_compute|]. split; [done|].
  eapply (drop_duplicates_first
            {| columns := ["id"; "v"];
               rows := [[CInt 1; CStr "a"]; [CInt 2; CStr "b"];
                        [CFloat 1; CStr "c"]] |}).
  by vm_compute.
Defined.
