(* ===== verification/Crawler.v ===== *)
(** * The crawler: requests and query parameters

    [src/src/crawler.py] asks the user for the filters of a search
    ([inputParameters]), downloads the wines that match ([wineCrawler],
    file [Wines]) and their reviews ([reviewsCrawler], file [Reviews]), and
    writes both tables ([exportCSV] and [main], file [CrawlerMain]).  This
    file holds what the three share and the first step: the web API, the
    request of the reviews ([getWine]) and [inputParameters].

    The web API is a [server]: a function from a request to the decoded
    answer or to an exception.  The user is the function [input] from a
    prompt to the line typed.  [checkWineTz] belongs to a module that is not
    part of the sources and is an argument of [inputParameters].  The
    functions print: each returns the lines it printed with its result
    ([logged]); the prompt of [input] is the argument of the user and is
    not among the lines. *)

From Stdlib Require Import ZArith QArith String Ascii List Lia.
From stdpp Require Import base tactics option numbers list strings.
From S2P Require Import Prelude Groupby Cell Value Frame Effects Proc Logged.

#[local] Open Scope exc_scope.
#[local] Notation "a +:+ b" := (String.append a b)
  (at level 60, right associativity).

(** ** Requests *)

(** What [checkWineTz] is given: its second argument is a list of
    parameters, or a name and a table. *)
Inductive check_arg : Type :=
| AParam (p : param)
| AText (s : string)
| ATable (df : DataFrame).

Record server : Type := mkServer {
  (** GET [/api/explore/explore] with the parameters, decoded. *)
  explore : params -> exc pyval;
  (** GET [/api/wines/<id>/reviews?per_page=25&year=<year>&page=<page>],
      decoded. *)
  reviews_of : cell -> cell -> Z -> exc pyval
}.

(** Lines 12-20. *)
Definition getWine (srv : server) (wine_id year : cell) (page : Z)
    : exc pyval :=
  reviews_of srv wine_id year page.

(** ** [inputParameters] *)

(** [s.strip()] and [s.split()], on ASCII white space. *)
Definition py_strip (s : string) : string :=
  string_of_list_ascii (strip (list_ascii_of_string s)).

Fixpoint split_words (word : list ascii) (l : list ascii) : list string :=
  match l with
  | [] =>
      match word with
      | [] => []
      | _ => [string_of_list_ascii (rev word)]
      end
  | a :: l' =>
      if is_space a then
        match word with
        | [] => split_words [] l'
        | _ => string_of_list_ascii (rev word) :: split_words [] l'
        end
      else split_words (a :: word) l'
  end.

Definition py_split (s : string) : list string :=
  split_words [] (list_ascii_of_string s).

(** [d.get(k) or default]. *)
Definition get_or (d : list (string * string)) (k default : string) : string :=
  match dict_get d k with
  | Some (String a s) => String a s
  | _ => default
  end.

(** [d.get(k, '').split() if d.get(k) else default]. *)
Definition split_or (d : list (string * string)) (k default : string) : param :=
  match dict_get d k with
  | Some (String a s) => PList (py_split (String a s))
  | _ => PStr default
  end.

Definition info_requested : list string :=
  ["countries"; "minimum rating"; "maximum price"; "minimum price";
   "type"]%string.

(** Lines 22-62. *)
Definition inputParameters (checkWineTz : Z -> list check_arg -> exc unit)
    (input : string -> string) (verbose specify development : bool)
    : logged unit params :=
  (if development then
     log_ret
       [("wine_type_ids[]", PStr "1"); ("country_codes[]", PStr "it");
        ("min_rating", PStr "4.2"); ("price_range_max", PStr "9")]%string
   else
     wine_info <-
       (if specify then
          _ <- tell (Print
                 "Enter the following parameters (press Enter to skip):") ;;
          log_ret
            (fold_left (fun wine_info item =>
                 dict_set wine_info item
                   (py_strip (input ("Type wine " +:+ item +:+ "> "))))
               info_requested [])
        else log_ret []) ;;
     let price_range_min := PStr (get_or wine_info "minimum price" "10") in
     let price_range_max := PStr (get_or wine_info "maximum price" "250") in
     let params :=
       [("wine_type_ids[]", split_or wine_info "type" "1");
        ("country_codes[]", split_or wine_info "countries" "it");
        ("min_rating", PStr (get_or wine_info "minimum ratinge" "1"));
        ("price_range_min", price_range_min);
        ("price_range_max", price_range_max)]%string in
     _ <- quietly
            (checkWineTz 1%Z [AParam price_range_min; AParam price_range_max]) ;;
     _ <- when verbose
            (_ <- tell (Print ("Debug Print: " +:+ nl)) ;;
             tell (Show [PParams params])) ;;
     log_ret params)%log.

(** ** Sample answers of the API *)

#[local] Open Scope string_scope.

Definition sample_match (winery name : string) (year id : Z) : pyval :=
  VDict [("vintage",
          VDict [("year", VInt year);
                 ("wine", VDict [("id", VInt id); ("name", VStr name);
                                 ("winery", VDict [("name", VStr winery)])]);
                 ("statistics", VDict [("ratings_average", VFloat 4.2);
                                       ("ratings_count", VInt 120)])])].

Definition sample_explore (matched : Z) (ms : list pyval) : pyval :=
  VDict [("explore_vintage",
          VDict [("records_matched", VInt matched); ("matches", VList ms)])].

Definition sample_review (rating : Q) (note : string) : pyval :=
  VDict [("rating", VFloat rating); ("note", VStr note);
         ("created_at", VStr "2016-10-05T20:48:41.000Z")].

(** A catalogue of 30 matches: wines 1 and 2 on page 1 (wine 1 twice),
    wine 3 on page 2.  Wine 1 has two pages of reviews, wine 2 one, wine 3
    none. *)
Definition sample_server : server :=
  {| explore := fun ps =>
       match dict_get ps "page" with
       | Some (PInt 2) => Ok (sample_explore 30 [sample_match "C" "Tre" 2019 3])
       | _ => Ok (sample_explore 30 [sample_match "A" "Uno" 2020 1;
                                     sample_match "B" "Due" 2021 2;
                                     sample_match "A" "Uno" 2020 1])
       end;
     reviews_of := fun id _ page =>
       Ok (VDict [("reviews",
         VList (match id, page with
                | CInt 1, 1%Z => [sample_review 5 "a"; sample_review 4 "b"]
                | CInt 1, 2%Z => [sample_review 3 "c"]
                | CInt 2, 1%Z => [sample_review 2 "d"]
                | _, _ => []
                end))]) |}.

(** A server whose pages of reviews never end. *)
Definition endless_server : server :=
  {| explore := explore sample_server;
     reviews_of := fun _ _ _ =>
       Ok (VDict [("reviews", VList [sample_review 5 "a"])]) |}.

Definition no_check : Z -> list check_arg -> exc unit := fun _ _ => Ok tt.

(** Answers of a user who sets every filter. *)
Definition sample_input (prompt : string) : string :=
  if decide (prompt = "Type wine countries> ") then " fr  es "
  else if decide (prompt = "Type wine minimum rating> ") then "4.5"
  else if decide (prompt = "Type wine maximum price> ") then "40"
  else if decide (prompt = "Type wine minimum price> ") then "20"
  else "2".

(** ** [inputParameters]: which answers reach the query *)

Section InputParameters.
Context (checkWineTz : Z -> list check_arg -> exc unit).
Context (input : string -> string).

(** What the user typed for [item], stripped. *)
Definition answer (item : string) : string :=
  py_strip (input ("Type wine " +:+ item +:+ "> ")).

(** The dictionary [wine_info] after the prompts. *)
Definition answers : list (string * string) := fill answer [] info_requested.

Lemma get_or_answer item default :
  item ∈ info_requested ->
  get_or answers item default
  = if decide (answer item = "") then default else answer item.
Proof.
  intros Hi. unfold get_or, answers. rewrite dict_get_fill by done.
  by destruct (answer item).
Qed.

Lemma get_or_unknown item default :
  item ∉ info_requested -> get_or answers item default = default.
Proof.
  intros Hi. unfold get_or, answers. by rewrite dict_get_fill_other.
Qed.

Lemma split_or_answer item default :
  item ∈ info_requested ->
  split_or answers item default
  = if decide (answer item = "") then PStr default
    else PList (py_split (answer item)).
Proof.
  intros Hi. unfold split_or, answers. rewrite dict_get_fill by done.
  by destruct (answer item).
Qed.

(** The query of a run with [specify], in terms of the answers. *)
Definition specified : params :=
  [("wine_type_ids[]",
    if decide (answer "type" = "") then PStr "1"
    else PList (py_split (answer "type")));
   ("country_codes[]",
    if decide (answer "countries" = "") then PStr "it"
    else PList (py_split (answer "countries")));
   ("min_rating", PStr "1");
   ("price_range_min",
    PStr (if decide (answer "minimum price" = "") then "10"
          else answer "minimum price"));
   ("price_range_max",
    PStr (if decide (answer "maximum price" = "") then "250"
          else answer "maximum price"))].

(** The query of a run without [specify] and without [development]. *)
Definition defaults : params :=
  [("wine_type_ids[]", PStr "1"); ("country_codes[]", PStr "it");
   ("min_rating", PStr "1"); ("price_range_min", PStr "10");
   ("price_range_max", PStr "250")].

(** The result of [inputParameters] with [specify], whatever [verbose]. *)
Lemma inputParameters_specify verbose :
  (inputParameters checkWineTz input verbose true false).2
  = (_ <- checkWineTz 1%Z
            [AParam (PStr (if decide (answer "minimum price" = "") then "10"
                           else answer "minimum price"));
             AParam (PStr (if decide (answer "maximum price" = "") then "250"
                           else answer "maximum price"))] ;;
     Ok specified).
Proof.
  unfold inputParameters, specified.
  rewrite log_bind_assoc, log_bind_tell, log_bind_ret_l. cbv zeta.
  fold answer. fold answers.
  rewrite !get_or_answer, !split_or_answer, get_or_unknown by compute_done.
  cbn [snd]. rewrite !log_bind_result. cbn [quietly snd].
  destruct (checkWineTz _ _); [|done]. by destruct verbose.
Qed.

Lemma inputParameters_default verbose :
  (inputParameters checkWineTz input verbose false false).2
  = (_ <- checkWineTz 1%Z [AParam (PStr "10"); AParam (PStr "250")] ;;
     Ok defaults).
Proof.
  unfold inputParameters. rewrite log_bind_ret_l. cbv zeta.
  rewrite !log_bind_result. cbn [quietly snd].
  destruct (checkWineTz _ _); [|done]. by destruct verbose.
Qed.

Lemma inputParameters_min_rating verbose specify ps :
  (inputParameters checkWineTz input verbose specify false).2 = Ok ps ->
  dict_get ps "min_rating" = Some (PStr "1").
Proof.
  destruct specify.
  - rewrite inputParameters_specify. intros H. exc_inv H. by simplify_eq.
  - rewrite inputParameters_default. intros H. exc_inv H. by simplify_eq.
Qed.

(** [verbose] changes no result of [inputParameters]. *)
Lemma inputParameters_result verbose specify development :
  (inputParameters checkWineTz input verbose specify development).2
  = (inputParameters checkWineTz input false specify development).2.
Proof.
  destruct development; [done|]. destruct specify.
  - by rewrite !inputParameters_specify.
  - by rewrite !inputParameters_default.
Qed.

(** What it prints: the invitation before the questions, and with
    [verbose] the query, once [checkWineTz] has accepted the prices. *)
Lemma inputParameters_output verbose specify ps :
  (inputParameters checkWineTz input verbose specify false).2 = Ok ps ->
  (inputParameters checkWineTz input verbose specify false).1
  = ((if specify
      then [Print "Enter the following parameters (press Enter to skip):"]
      else [])
     ++ (if verbose then [Print ("Debug Print: " +:+ nl); Show [PParams ps]]
         else []))%list.
Proof.
  unfold inputParameters.
  destruct specify; rewrite ?log_bind_assoc, ?log_bind_tell, log_bind_ret_l;
    cbv zeta;
    cbn [fst snd]; rewrite log_bind_quietly;
    (destruct (checkWineTz _ _) as [[]|]; [|done]);
    destruct verbose; simpl; by intros [= <-].
Qed.

Lemma inputParameters_development verbose specify :
  inputParameters checkWineTz input verbose specify true
  = ([], Ok [("wine_type_ids[]", PStr "1"); ("country_codes[]", PStr "it");
             ("min_rating", PStr "4.2"); ("price_range_max", PStr "9")]).
Proof. reflexivity. Qed.

#[export] Instance inputParameters_talk verbose specify development :
  Talk (inputParameters checkWineTz input verbose specify development).
Proof. unfold inputParameters. destruct development, specify; apply _. Qed.

End InputParameters.

(** C35.  The minimum rating typed by the user never reaches the query: the
    dictionary of the answers is read under the key [minimum ratinge],
    which no prompt fills, so outside [development] the parameter
    [min_rating] is ["1"] whatever was typed. *)
Theorem inputParameters_min_rating_ignored
    (checkWineTz : Z -> list check_arg -> exc unit)
    (input : string -> string) (verbose specify : bool) (ps : params) :
  (inputParameters checkWineTz input verbose specify false).2 = Ok ps ->
  dict_get ps "min_rating" = Some (PStr "1").
Proof. apply inputParameters_min_rating. Qed.

Lemma inputParameters_min_rating_ignored_witness :
  answer sample_input "minimum rating" = "4.5" /\
  dict_get [("wine_type_ids[]", PList ["2"]);
            ("country_codes[]", PList ["fr"; "es"]);
            ("min_rating", PStr "1"); ("price_range_min", PStr "20");
            ("price_range_max", PStr "40")] "min_rating"
  = Some (PStr "1").
Proof.
  split; [reflexivity|].
  apply (inputParameters_min_rating_ignored no_check sample_input true true).
  reflexivity.
Defined.

(** With [specify], the query holds the words typed for the type and
    the countries, and the prices typed, each replaced by its default when
    the stripped answer is empty; [checkWineTz] sees the two prices first
    and its exception ends the function. *)
Theorem inputParameters_specified
    (checkWineTz : Z -> list check_arg -> exc unit)
    (input : string -> string) (verbose : bool) :
  (inputParameters checkWineTz input verbose true false).2
  = (_ <- checkWineTz 1%Z
            [AParam (PStr (if decide (answer input "minimum price" = "")
                           then "10" else answer input "minimum price"));
             AParam (PStr (if decide (answer input "maximum price" = "")
                           then "250" else answer input "maximum price"))] ;;
     Ok (specified input)).
Proof. apply inputParameters_specify. Qed.
