(* ===== verification/Wines.v ===== *)
(** * The crawler: the wines

    [wineCrawler] (lines 64-120 of [src/src/crawler.py]) asks the catalogue
    for the number of matches, downloads the result pages and keeps one row
    per wine.  The loop over the pages is a fold on the pair of the table
    built so far and the dictionary of the parameters, which the loop
    updates in place; [wineCrawler_spec] is what it computes, without the
    state.  A value of the answer becomes a cell where it is read; one that
    no cell holds (a list, a boolean) ends the run there with
    [Unsupported].  With [verbose] the function prints the parameters, the
    number of matches and two lines for every page; the lines are returned
    with the result and change nothing of it. *)

From Stdlib Require Import ZArith QArith String Ascii List Lia.
From stdpp Require Import base tactics option numbers list strings.
From S2P Require Import Prelude Groupby Cell Value Frame Effects Proc.
From S2P Require Import Logged Join Relational Crawler.

#[local] Open Scope exc_scope.
#[local] Notation "a +:+ b" := (String.append a b)
  (at level 60, right associativity).

(** ** [wineCrawler] *)

Definition wine_frame_columns : list string :=
  ["Winery"; "Year"; "Wine ID"; "Wine"; "Rating"; "Rates count"]%string.

(** [v[k1][k2]...]. *)
Definition path (v : pyval) (keys : list string) : exc pyval :=
  foldlM getitem v keys.

(** [matches / 25] as a number. *)
Definition div25 (matches : pyval) : exc Q :=
  match matches with
  | VInt z => Ok (inject_Z z / 25)%Q
  | VFloat q => Ok (q / 25)%Q
  | VBool b => Ok (inject_Z (if b then 1 else 0) / 25)%Q
  | _ =>
      Raise (TypeError ("unsupported operand type(s) for /: '"
                        +:+ type_name matches +:+ "' and 'int'"))
  end.

(** Line 84: [max(1, int(matches / 25))], the number of pages requested. *)
Definition page_count (matches : pyval) : exc Z :=
  q <- div25 matches ;; Ok (Z.max 1 (Qtrunc q)).

(** Lines 99-106: the tuple of one match. *)
Definition match_row (t : pyval) : exc (list cell) :=
  winery <- path t ["vintage"; "wine"; "winery"; "name"]%string ;;
  year <- path t ["vintage"; "year"]%string ;;
  id <- path t ["vintage"; "wine"; "id"]%string ;;
  name' <- path t ["vintage"; "wine"; "name"]%string ;;
  name_s <- py_str name' ;;
  year' <- path t ["vintage"; "year"]%string ;;
  year_s <- py_str year' ;;
  rating <- path t ["vintage"; "statistics"; "ratings_average"]%string ;;
  count <- path t ["vintage"; "statistics"; "ratings_count"]%string ;;
  mapM to_cell [winery; year; id; VStr (name_s +:+ " " +:+ year_s); rating;
                count].

(** Lines 84-117: one turn of the loop over the pages.  The state is the
    table built so far and the dictionary of the parameters, which the loop
    updates in place. *)
Definition wine_page (verbose : bool) (srv : server)
    (st : DataFrame * params) (i : Z) : logged unit (DataFrame * params) :=
  (let '(main_dataframe, wineParameters) := st in
   let wineParameters := dict_set wineParameters "page" (PInt i) in
   _ <- when verbose (tell (Print ("Scraping from " +:+ str_of_Z i))) ;;
   rew <- quietly (explore srv wineParameters) ;;
   results <- quietly (ms <- path rew ["explore_vintage"; "matches"]%string ;;
                       ts <- iterate ms ;;
                       mapM match_row ts)%exc ;;
   let dataframe := {| columns := wine_frame_columns; rows := results |} in
   let main_dataframe := concat main_dataframe dataframe in
   _ <- when verbose
          (tell (Print ("Size of main dataframe after page " +:+ str_of_Z i
                        +:+ ": "
                        +:+ str_of_Z (Z.of_nat (df_len main_dataframe))))) ;;
   log_ret (main_dataframe, wineParameters))%log.

(** Lines 64-120. *)
Definition wineCrawler (verbose : bool) (srv : server)
    (wineParameters : params) : logged unit DataFrame :=
  (_ <- when verbose
          (tell (Show [PText ("loaded parameters for crawling: " +:+ nl);
                       PText " "; PParams wineParameters])) ;;
   req <- quietly (explore srv wineParameters) ;;
   matches <- quietly
                (path req ["explore_vintage"; "records_matched"]%string) ;;
   _ <- when verbose
          (tell (Show [PText "Matches obtained: "; PText " "; PVal matches])) ;;
   n <- quietly (page_count matches) ;;
   st <- log_foldlM (wine_page verbose srv)
           (empty_frame wine_frame_columns, wineParameters) (seqZ 1 n) ;;
   quietly (drop_duplicates st.1 "Wine ID"))%log.

#[local] Open Scope string_scope.

(** ** The number of pages *)

Lemma Qtrunc_div25 (n : Z) : Qtrunc (inject_Z n / 25) = (n ÷ 25)%Z.
Proof. unfold Qtrunc. simpl. by rewrite Z.mul_1_r. Qed.

Lemma page_count_int (n : Z) :
  page_count (VInt n) = Ok (Z.max 1 (n ÷ 25)).
Proof. unfold page_count. simpl. by rewrite Qtrunc_div25. Qed.

(** With 25 results on a page, what the requested pages can hold. *)
Lemma page_count_short (n p : Z) :
  (25 <= n)%Z -> (n mod 25 <> 0)%Z -> page_count (VInt n) = Ok p ->
  (1 <= p /\ 25 * p < n /\ n < 25 * (p + 1))%Z.
Proof.
  rewrite page_count_int. intros Hn Hm [= <-].
  rewrite Z.quot_div_nonneg by lia.
  pose proof (Z.div_mod n 25). pose proof (Z.mod_pos_bound n 25). lia.
Qed.

Lemma page_count_exact (n p : Z) :
  (0 <= n)%Z -> (n mod 25 = 0)%Z -> page_count (VInt n) = Ok p ->
  (25 * p = Z.max 25 n)%Z.
Proof.
  rewrite page_count_int. intros Hn Hm [= <-].
  rewrite Z.quot_div_nonneg by lia. pose proof (Z.div_mod n 25). lia.
Qed.

(** ** [wineCrawler]: the loop over the pages *)

(** The request for page [i] and the rows of its matches. *)
Definition page_rows (srv : server) (wineParameters : params) (i : Z)
    : exc (list (list cell)) :=
  rew <- explore srv (dict_set wineParameters "page" (PInt i)) ;;
  ms <- path rew ["explore_vintage"; "matches"] ;;
  ts <- iterate ms ;;
  mapM match_row ts.

(** [wineCrawler] without the loop state: the pages one after the other,
    then the first row of every wine. *)
Definition wineCrawler_spec (srv : server) (wineParameters : params)
    : exc DataFrame :=
  req <- explore srv wineParameters ;;
  matches <- path req ["explore_vintage"; "records_matched"] ;;
  n <- page_count matches ;;
  pages <- mapM (page_rows srv wineParameters) (seqZ 1 n) ;;
  Ok {| columns := wine_frame_columns;
        rows := dedup_by (row_key wine_frame_columns "Wine ID") []
                  (List.concat pages) |}.

Lemma match_row_length t r : match_row t = Ok r -> length r = 6.
Proof.
  unfold match_row. intros H. do 9 exc_inv H.
  by apply mapM_Ok_length in H.
Qed.

Lemma page_rows_wf srv ps i rs :
  page_rows srv ps i = Ok rs -> Forall (fun r => length r = 6) rs.
Proof.
  unfold page_rows. intros H. do 3 exc_inv H.
  eapply mapM_Ok_Forall; [|done]. intros t r. apply match_row_length.
Qed.

(** The tables the loop goes through. *)
Definition wine_table (rs : list (list cell)) : DataFrame :=
  {| columns := wine_frame_columns; rows := rs |}.

Lemma wine_table_wf rs :
  Forall (fun r => length r = 6) rs -> df_wf (wine_table rs).
Proof. intros H. split; [compute_done | done]. Qed.

(** Parameters that differ in the number of the page only. *)
Definition same_query (ps ps0 : params) : Prop :=
  forall i, dict_set ps "page" (PInt i) = dict_set ps0 "page" (PInt i).

Lemma same_query_refl ps : same_query ps ps.
Proof. done. Qed.

Lemma same_query_page ps0 i : same_query (dict_set ps0 "page" (PInt i)) ps0.
Proof. intros j. apply dict_set_set. Qed.

(** The result of one turn, whatever [verbose]. *)
Lemma wine_page_result verbose srv df ps i :
  (wine_page verbose srv (df, ps) i).2
  = (rew <- explore srv (dict_set ps "page" (PInt i)) ;;
     ms <- path rew ["explore_vintage"; "matches"] ;;
     ts <- iterate ms ;;
     results <- mapM match_row ts ;;
     Ok (concat df {| columns := wine_frame_columns; rows := results |},
         dict_set ps "page" (PInt i))).
Proof.
  unfold wine_page. cbv zeta. rewrite log_bind_when_result, log_bind_quietly.
  destruct (explore srv _) as [rew|]; [|done]. rewrite log_bind_quietly.
  cbn [exc_bind]. destruct (path rew _) as [ms|]; [|done]. cbn [exc_bind].
  destruct (iterate ms) as [ts|]; [|done]. cbn [exc_bind].
  destruct (mapM match_row ts); [|done]. apply log_bind_when_result.
Qed.

(** One turn of the loop adds the rows of the page, and leaves the
    parameters with the number of the page. *)
Lemma wine_page_rows verbose srv ps0 ps acc i :
  Forall (fun r => length r = 6) acc -> same_query ps ps0 ->
  (wine_page verbose srv (wine_table acc, ps) i).2
  = (rs <- page_rows srv ps0 i ;;
     Ok (wine_table (acc ++ rs), dict_set ps0 "page" (PInt i))).
Proof.
  intros Hacc Hps. rewrite wine_page_result. unfold page_rows. rewrite Hps.
  destruct (explore srv _) as [rew|]; [|done]. simpl.
  destruct (path rew _) as [ms|]; [|done]. simpl.
  destruct (iterate ms) as [ts|]; [|done]. simpl.
  destruct (mapM match_row ts) as [rs|] eqn:E; [|done]. simpl.
  rewrite concat_same; [done | by apply wine_table_wf | | done].
  apply wine_table_wf. eapply mapM_Ok_Forall; [|exact E].
  intros t r. apply match_row_length.
Qed.

Lemma wine_loop verbose srv ps0 l : forall ps acc,
  Forall (fun r => length r = 6) acc -> same_query ps ps0 ->
  exc_map fst (log_foldlM (wine_page verbose srv) (wine_table acc, ps) l).2
  = (pages <- mapM (page_rows srv ps0) l ;;
     Ok (wine_table (acc ++ List.concat pages))).
Proof.
  induction l as [|i l IH]; intros ps acc Hacc Hps.
  - simpl. by rewrite app_nil_r.
  - cbn [log_foldlM mapM].
    rewrite log_bind_result, (wine_page_rows verbose srv ps0) by done.
    destruct (page_rows srv ps0 i) as [rs|] eqn:E; [|done].
    cbn [exc_bind]. rewrite IH.
    + destruct (mapM _ l); [|done]. simpl. by rewrite app_assoc.
    + apply Forall_app. split; [done | by eapply page_rows_wf].
    + apply same_query_page.
Qed.

Lemma wine_loop_wf verbose srv ps l st :
  (log_foldlM (wine_page verbose srv) (empty_frame wine_frame_columns, ps)
     l).2 = Ok st ->
  columns st.1 = wine_frame_columns /\ df_wf st.1.
Proof.
  intros H. pose proof (wine_loop verbose srv ps l ps [] (Forall_nil_2 _)
                          (same_query_refl ps)) as E.
  change (wine_table []) with (empty_frame wine_frame_columns) in E.
  rewrite H in E. simpl in E.
  destruct (mapM _ l) as [pages|] eqn:Hp; [|done]. simpl in E.
  injection E as ->. split; [done|]. apply wine_table_wf.
  apply Forall_concat. eapply mapM_Ok_Forall; [|exact Hp].
  intros i rs. apply page_rows_wf.
Qed.

(** The result of [wineCrawler], whatever [verbose]. *)
Lemma wineCrawler_result verbose srv ps :
  (wineCrawler verbose srv ps).2
  = (req <- explore srv ps ;;
     matches <- path req ["explore_vintage"; "records_matched"] ;;
     n <- page_count matches ;;
     st <- (log_foldlM (wine_page verbose srv)
              (empty_frame wine_frame_columns, ps) (seqZ 1 n)).2 ;;
     drop_duplicates st.1 "Wine ID").
Proof.
  unfold wineCrawler. rewrite log_bind_when_result, log_bind_quietly.
  destruct (explore srv ps) as [req|]; [|done]. rewrite log_bind_quietly.
  cbn [exc_bind]. destruct (path req _) as [matches|]; [|done].
  rewrite log_bind_when_result, log_bind_quietly. cbn [exc_bind].
  destruct (page_count matches) as [n|]; [|done]. cbn [exc_bind].
  by rewrite log_bind_result.
Qed.

Lemma loop_computes_spec verbose srv ps :
  (wineCrawler verbose srv ps).2 = wineCrawler_spec srv ps.
Proof.
  rewrite wineCrawler_result. unfold wineCrawler_spec.
  destruct (explore srv ps) as [req|]; [|done]. simpl.
  destruct (path req _) as [matches|]; [|done].
  cbn [exc_bind]. destruct (page_count matches) as [n|]; [|done].
  cbn [exc_bind].
  pose proof (wine_loop verbose srv ps (seqZ 1 n) ps [] (Forall_nil_2 _)
                (same_query_refl ps)) as E.
  change (wine_table []) with (empty_frame wine_frame_columns) in E.
  destruct (log_foldlM _ _ _).2 as [[df ps']|];
    destruct (mapM _ (seqZ 1 n)) as [pages|]; simplify_eq/=; done.
Qed.

Lemma wineCrawler_Ok verbose srv ps df :
  (wineCrawler verbose srv ps).2 = Ok df ->
  exists n pages,
    (req <- explore srv ps ;;
     matches <- path req ["explore_vintage"; "records_matched"] ;;
     page_count matches) = Ok n /\
    mapM (page_rows srv ps) (seqZ 1 n) = Ok pages /\
    df = wine_table (dedup_by (row_key wine_frame_columns "Wine ID") []
                       (List.concat pages)).
Proof.
  rewrite loop_computes_spec. unfold wineCrawler_spec. intros H.
  destruct (explore srv ps) as [req|]; [|done]. simpl in *.
  destruct (path req _) as [matches|]; [|done]. cbn [exc_bind] in *.
  destruct (page_count matches) as [n|]; [|done]. cbn [exc_bind] in *.
  destruct (mapM _ _) as [pages|] eqn:Hp; [|done]. simpl in H.
  exists n, pages. injection H as <-. done.
Qed.

(** [verbose] changes no result of [wineCrawler]. *)
Lemma wineCrawler_verbose verbose srv ps :
  (wineCrawler verbose srv ps).2 = (wineCrawler false srv ps).2.
Proof. by rewrite !loop_computes_spec. Qed.

(** Without [verbose] nothing is printed. *)
Lemma wine_page_silent srv st i : (wine_page false srv st i).1 = [].
Proof.
  destruct st as [df ps]. unfold wine_page. cbv zeta.
  rewrite when_false, log_bind_ret_l, log_bind_quietly.
  destruct (explore srv _) as [rew|]; [|done]. rewrite log_bind_quietly.
  by destruct (_ <- path rew _ ;; _)%exc.
Qed.

Lemma wineCrawler_silent srv ps : (wineCrawler false srv ps).1 = [].
Proof.
  unfold wineCrawler. rewrite when_false, log_bind_ret_l, log_bind_quietly.
  destruct (explore srv ps) as [req|]; [|done]. rewrite log_bind_quietly.
  destruct (path req _) as [matches|]; [|done].
  rewrite when_false, log_bind_ret_l, log_bind_quietly.
  destruct (page_count matches) as [n|]; [|done].
  rewrite log_bind_output, log_foldlM_silent by apply wine_page_silent.
  by destruct (log_foldlM _ _ _).2.
Qed.

(** ** What a verbose run shows *)

(** The two lines of a page: its number, and the size of the table after
    it. *)
Definition page_lines (i : Z) (size : nat) : list (effect unit) :=
  [Print ("Scraping from " +:+ str_of_Z i);
   Print ("Size of main dataframe after page " +:+ str_of_Z i +:+ ": "
          +:+ str_of_Z (Z.of_nat size))].

(** The lines of the loop on pages that all answer: the size grows by the
    rows of each page, those of a wine seen before included. *)
Fixpoint loop_lines (size : nat) (l : list Z)
    (pages : list (list (list cell))) : list (effect unit) :=
  match l, pages with
  | i :: l', rs :: pages' =>
      page_lines i (size + length rs)
      ++ loop_lines (size + length rs) l' pages'
  | _, _ => []
  end.

Lemma wine_page_shown srv ps0 ps acc i rs :
  Forall (fun r => length r = 6) acc -> same_query ps ps0 ->
  page_rows srv ps0 i = Ok rs ->
  (wine_page true srv (wine_table acc, ps) i).1
  = page_lines i (length acc + length rs).
Proof.
  intros Hacc Hps H. pose proof (page_rows_wf _ _ _ _ H) as Hrs.
  unfold page_rows in H. rewrite <- Hps in H.
  unfold wine_page. cbv zeta. rewrite when_true, log_bind_tell.
  destruct (explore srv _) as [rew|]; [|done]. cbn [exc_bind] in H.
  rewrite log_bind_quietly, log_bind_quietly, H. cbv beta iota.
  rewrite when_true, log_bind_tell.
  rewrite concat_same by (done || by apply wine_table_wf).
  unfold page_lines, df_len. simpl. by rewrite length_app.
Qed.

Lemma wine_loop_shown srv ps0 l : forall pages ps acc,
  Forall (fun r => length r = 6) acc -> same_query ps ps0 ->
  mapM (page_rows srv ps0) l = Ok pages ->
  (log_foldlM (wine_page true srv) (wine_table acc, ps) l).1
  = loop_lines (length acc) l pages.
Proof.
  induction l as [|i l IH]; intros pages ps acc Hacc Hps H; [done|].
  cbn [mapM] in H. exc_inv H. exc_inv H. injection H as <-.
  cbn [log_foldlM loop_lines].
  rewrite log_bind_output, (wine_page_shown srv ps0 ps acc i a) by done.
  rewrite (wine_page_rows true srv ps0), Ha by done. cbn [exc_bind].
  rewrite (IH a0); [by rewrite length_app|..|done].
  - apply Forall_app. split; [done | by eapply page_rows_wf].
  - apply same_query_page.
Qed.

(** A page that raises is announced, and nothing is shown after it. *)
Lemma wine_page_raised srv ps0 ps df i e :
  same_query ps ps0 -> page_rows srv ps0 i = Raise e ->
  wine_page true srv (df, ps) i
  = ([Print ("Scraping from " +:+ str_of_Z i)], Raise e).
Proof.
  intros Hps H. unfold page_rows in H. rewrite <- Hps in H.
  unfold wine_page. cbv zeta. rewrite when_true, log_bind_tell.
  destruct (explore srv _) as [rew|]; [|by simplify_eq/=].
  cbn [exc_bind] in H. by rewrite log_bind_quietly, log_bind_quietly, H.
Qed.

(** What a verbose run of [wineCrawler] shows when every page answers: the
    parameters, the number of matches, and for every page its number and
    the size of the table after it.  The sizes count the rows as they
    come, before [drop_duplicates]. *)
Theorem wineCrawler_shown (srv : server) (ps : params) (req matches : pyval)
    (n : Z) (pages : list (list (list cell))) :
  explore srv ps = Ok req ->
  path req ["explore_vintage"; "records_matched"] = Ok matches ->
  page_count matches = Ok n ->
  mapM (page_rows srv ps) (seqZ 1 n) = Ok pages ->
  (wineCrawler true srv ps).1
  = Show [PText ("loaded parameters for crawling: " +:+ nl); PText " ";
          PParams ps]
    :: Show [PText "Matches obtained: "; PText " "; PVal matches]
    :: loop_lines 0 (seqZ 1 n) pages.
Proof.
  intros Hreq Hm Hn Hp. unfold wineCrawler.
  rewrite when_true, log_bind_tell, log_bind_quietly, Hreq.
  rewrite log_bind_quietly, Hm, when_true, log_bind_tell.
  rewrite log_bind_quietly, Hn. cbn [fst]. do 2 f_equal.
  rewrite log_bind_output.
  change (empty_frame wine_frame_columns) with (wine_table []).
  rewrite (wine_loop_shown srv ps _ pages) by done.
  destruct (log_foldlM _ _ _).2 as [st|]; [|by rewrite app_nil_r].
  unfold quietly. simpl. by rewrite app_nil_r.
Qed.

Lemma wineCrawler_shown_witness :
  (wineCrawler true sample_server []).1
  = [Show [PText ("loaded parameters for crawling: " +:+ nl); PText " ";
           PParams []];
     Show [PText "Matches obtained: "; PText " "; PVal (VInt 30)];
     Print "Scraping from 1";
     Print "Size of main dataframe after page 1: 3"].
Proof.
  etrans; [eapply wineCrawler_shown; by vm_compute | by vm_compute].
Defined.

(** With or without, no file is written. *)
#[export] Instance wine_page_talk verbose srv st i :
  Talk (wine_page verbose srv st i).
Proof. destruct st. unfold wine_page. apply _. Qed.

#[export] Instance wineCrawler_talk verbose srv ps :
  Talk (wineCrawler verbose srv ps).
Proof. unfold wineCrawler. apply _. Qed.

Lemma length_concat_le {A} (ls : list (list A)) (b : nat) :
  Forall (fun l => length l <= b) ls ->
  length (List.concat ls) <= b * length ls.
Proof.
  induction 1 as [|l ls Hl _ IH]; simpl; [lia|]. rewrite length_app. lia.
Qed.

Lemma wineCrawler_len srv ps df n pages :
  mapM (page_rows srv ps) (seqZ 1 n) = Ok pages ->
  (forall i rs, page_rows srv ps i = Ok rs -> length rs <= 25) ->
  (0 <= n)%Z ->
  df = wine_table (dedup_by (row_key wine_frame_columns "Wine ID") []
                     (List.concat pages)) ->
  (Z.of_nat (df_len df) <= 25 * n)%Z.
Proof.
  intros Hp Hsize Hn ->. unfold df_len. simpl.
  pose proof (dedup_by_length (row_key wine_frame_columns "Wine ID") []
                (List.concat pages)).
  assert (length (List.concat pages) <= 25 * length pages).
  { apply length_concat_le. eapply mapM_Ok_Forall; [|exact Hp]. done. }
  apply mapM_Ok_length in Hp. rewrite length_seqZ in Hp. lia.
Qed.

(** C23.  The loop of [wineCrawler], which grows a table page by page and
    updates the parameters in place, computes the stateless description
    [wineCrawler_spec]: the rows of the pages 1 to [page_count] in order,
    each page requested with the original parameters and its number, then
    the first row of every wine identifier; exceptions included. *)
Theorem wineCrawler_refines (verbose : bool) (srv : server)
    (wineParameters : params) :
  (wineCrawler verbose srv wineParameters).2
  = wineCrawler_spec srv wineParameters.
Proof. apply loop_computes_spec. Qed.

(** C24.  The table [wineCrawler] returns has the six columns of the wines,
    one cell per column in every row, and no wine identifier twice. *)
Theorem wineCrawler_unique (verbose : bool) (srv : server) (ps : params)
    (df : DataFrame) :
  (wineCrawler verbose srv ps).2 = Ok df ->
  columns df = wine_frame_columns /\ df_wf df /\ unique_key df "Wine ID".
Proof.
  intros (n & pages & _ & Hp & ->)%wineCrawler_Ok. split_and!; [done | |].
  - apply wine_table_wf. rewrite Forall_forall. intros r Hr.
    apply (sublist_subseteq _ _ (dedup_by_sublist _ _ _)) in Hr.
    revert r Hr. apply Forall_forall, Forall_concat.
    eapply mapM_Ok_Forall; [|exact Hp]. intros i rs. apply page_rows_wf.
  - apply dedup_by_NoDup.
Qed.

Lemma wineCrawler_unique_witness :
  exists df, (wineCrawler true sample_server []).2 = Ok df /\
    columns df = wine_frame_columns /\ df_wf df /\ unique_key df "Wine ID".
Proof.
  eexists. split; [by vm_compute|].
  apply (wineCrawler_unique true sample_server []). by vm_compute.
Defined.

(** C25.  When the number of matches [n] is at least 25 and no multiple of
    25, and a page holds at most 25 matches, [wineCrawler] returns fewer
    than [n] wines: it requests [n // 25] pages and never the last,
    partial one. *)
Theorem wineCrawler_misses_last_page (verbose : bool) (srv : server)
    (ps : params) (df : DataFrame) (req : pyval) (n : Z) :
  explore srv ps = Ok req ->
  path req ["explore_vintage"; "records_matched"] = Ok (VInt n) ->
  (25 <= n)%Z -> (n mod 25 <> 0)%Z ->
  (forall i rs, page_rows srv ps i = Ok rs -> length rs <= 25) ->
  (wineCrawler verbose srv ps).2 = Ok df ->
  (Z.of_nat (df_len df) < n)%Z.
Proof.
  intros Hreq Hm Hn Hmod Hsize (p & pages & Hp & Hpages & Hdf)%wineCrawler_Ok.
  rewrite Hreq in Hp. cbn [exc_bind] in Hp. rewrite Hm in Hp.
  cbn [exc_bind] in Hp.
  destruct (page_count_short n p Hn Hmod Hp) as (? & ? & _).
  assert (0 <= p)%Z as Hp0 by lia.
  pose proof (wineCrawler_len srv ps df p pages Hpages Hsize Hp0 Hdf). lia.
Qed.

Lemma wineCrawler_misses_last_page_witness :
  exists df, (wineCrawler false sample_server []).2 = Ok df /\
             (Z.of_nat (df_len df) < 30)%Z.
Proof.
  eexists. split; [by vm_compute|].
  apply (wineCrawler_misses_last_page false sample_server []
           _ (sample_explore 30 [sample_match "A" "Uno" 2020 1;
                                 sample_match "B" "Due" 2021 2;
                                 sample_match "A" "Uno" 2020 1]));
    [reflexivity | reflexivity | lia | by vm_compute | | by vm_compute].
  intros i rs. unfold page_rows, sample_server. cbn [explore].
  rewrite dict_get_set.
  destruct i as [|[[]|[]|]|]; intros [= <-]; simpl; lia.
Defined.
