(* ===== verification/Reviews.v ===== *)
(** * The crawler: the reviews

    [reviewsCrawler] (lines 122-173 of [src/src/crawler.py]) downloads the
    reviews of every wine page by page until a page is empty, and joins
    them with the wines.

    The loop over the pages of one wine has no bound in the source; here it
    runs on fuel, and [None] is a run that used it up.  The fuel is per
    wine: with fuel [n] at most [n] pages of one wine are requested.  The
    relation [pages_run] is the same loop without fuel.

    With [verbose] the function prints a line for every page it requests;
    without, it drives a progress bar, one step for every wine.  Both are
    returned with the result ([run]): what is printed changes nothing of
    the table. *)

From Stdlib Require Import ZArith QArith String Ascii List Lia.
From stdpp Require Import base tactics option numbers list strings.
From S2P Require Import Prelude Groupby Cell Value Frame Effects Proc.
From S2P Require Import Logged Join Relational Crawler Wines.

#[local] Open Scope exc_scope.
#[local] Notation "a +:+ b" := (String.append a b)
  (at level 60, right associativity).

(** ** [reviewsCrawler] *)

Definition ratings_columns : list string :=
  ["Year"; "Wine ID"; "User Rating"; "Note"; "CreatedAt"]%string.

(** Lines 140-142: the request for one page and its list of reviews. *)
Definition page_reviews (srv : server) (row : Series) (page : Z) : exc pyval :=
  wine_id <- series_get row "Wine ID" ;;
  year <- series_get row "Year" ;;
  d <- getWine srv wine_id year page ;;
  getitem d "reviews".

(** Lines 149-157: the row of one review. *)
Definition rating_row (row : Series) (r : pyval) : exc (list cell) :=
  year <- series_get row "Year" ;;
  wine_id <- series_get row "Wine ID" ;;
  rating <- getitem r "rating" ;;
  note <- getitem r "note" ;;
  created_at <- getitem r "created_at" ;;
  rating <- to_cell rating ;;
  note <- to_cell note ;;
  created_at <- to_cell created_at ;;
  Ok [year; wine_id; rating; note; created_at].

(** Lines 137-157: one turn of the [while] loop: the rows of the reviews
    of the page, or [None] when the page has none and the loop ends. *)
Definition page_turn (verbose : bool) (srv : server) (row : Series)
    (page : Z) : logged unit (option (list (list cell))) :=
  (_ <- (if verbose then
           wine_id <- quietly (series_get row "Wine ID") ;;
           year <- quietly (series_get row "Year") ;;
           tell (Show [PText "Getting info about wine "; PCell wine_id;
                       PText "-"; PCell year;
                       PText (" Page " +:+ str_of_Z page)])
         else log_ret tt) ;;
   reviews <- quietly (page_reviews srv row page) ;;
   if negb (truthy reviews) then log_ret None
   else
     new <- quietly (rs <- iterate reviews ;; mapM (rating_row row) rs)%exc ;;
     log_ret (Some new))%log.

(** Lines 134-158: the pages of one wine from [page] on, until one has no
    review. *)
Fixpoint wine_pages (fuel : nat) (verbose : bool) (srv : server)
    (row : Series) (page : Z) (ratings : list (list cell))
    : run unit (list (list cell)) :=
  match fuel with
  | O => None
  | S fuel' =>
      (turn <- ends (page_turn verbose srv row page) ;;
       match turn with
       | None => ends (log_ret ratings)
       | Some new =>
           wine_pages fuel' verbose srv row (page + 1) (ratings ++ new)
       end)%run
  end.

(** Lines 132-161: the loop over the wines. *)
Fixpoint all_ratings (fuel : nat) (verbose : bool) (srv : server)
    (wines : list Series) (ratings : list (list cell))
    : run unit (list (list cell)) :=
  match wines with
  | [] => ends (log_ret ratings)
  | row :: wines' =>
      (ratings <- wine_pages fuel verbose srv row 1 ratings ;;
       _ <- ends (when (negb verbose) (tell (Progress (BarUpdate 1)))) ;;
       all_ratings fuel verbose srv wines' ratings)%run
  end.

(** Lines 122-173. *)
Definition reviewsCrawler (fuel : nat) (verbose : bool) (srv : server)
    (wineDF : DataFrame) : run unit DataFrame :=
  (_ <- ends (when verbose
                (tell (Print ("Start reviews crawling..." +:+ nl)))) ;;
   _ <- ends (when (negb verbose)
                (tell (Progress (BarOpen (df_len wineDF) "reviews" "wine")))) ;;
   ratings <- all_ratings fuel verbose srv (iterrows wineDF) [] ;;
   _ <- ends (when (negb verbose) (tell (Progress BarClose))) ;;
   let ratings := {| columns := ratings_columns; rows := ratings |} in
   ends (quietly (merge_common ratings wineDF)))%run.

#[local] Open Scope string_scope.

(** ** [reviewsCrawler]: the pages of one wine *)

(** The result of one turn of the [while]. *)
Definition page_ratings (srv : server) (row : Series) (page : Z)
    : exc (option (list (list cell))) :=
  reviews <- page_reviews srv row page ;;
  if negb (truthy reviews) then Ok None
  else
    rs <- iterate reviews ;;
    new <- mapM (rating_row row) rs ;;
    Ok (Some new).

(** The loop as a relation: from [page] with the rows [acc] collected so
    far, the loop ends with the result [r]. *)
Inductive pages_run (srv : server) (row : Series)
    : Z -> list (list cell) -> exc (list (list cell)) -> Prop :=
| run_empty page acc :
    page_ratings srv row page = Ok None ->
    pages_run srv row page acc (Ok acc)
| run_raise page acc e :
    page_ratings srv row page = Raise e ->
    pages_run srv row page acc (Raise e)
| run_next page acc new r :
    page_ratings srv row page = Ok (Some new) ->
    pages_run srv row (page + 1) (acc ++ new) r ->
    pages_run srv row page acc r.

Section Verbose.
Variable verbose : bool.

(** The result of one turn does not depend on [verbose]: the cells that
    the message shows are those the request reads first. *)
Lemma page_turn_result srv row page :
  (page_turn verbose srv row page).2 = page_ratings srv row page.
Proof.
  unfold page_turn, page_ratings. rewrite log_bind_result.
  set (rest := log_bind (quietly (page_reviews srv row page)) _).
  assert (rest.2
          = (reviews <- page_reviews srv row page ;;
             if negb (truthy reviews) then Ok None
             else rs <- iterate reviews ;;
                  new <- mapM (rating_row row) rs ;; Ok (Some new))) as ->.
  { subst rest. rewrite log_bind_quietly.
    destruct (page_reviews srv row page) as [reviews|]; [|done]. simpl.
    destruct (truthy reviews); [|done]. simpl. rewrite log_bind_quietly.
    destruct (iterate reviews) as [rs|]; [|done]. simpl.
    by destruct (mapM (rating_row row) rs). }
  destruct verbose; [|done].
  rewrite !log_bind_result. cbn [quietly snd]. unfold page_reviews.
  destruct (series_get row "Wine ID") as [wine_id|]; [|done]. cbn [exc_bind].
  by destruct (series_get row "Year") as [year|].
Qed.

Lemma wine_pages_S fuel srv row page acc :
  result (wine_pages (S fuel) verbose srv row page acc)
  = match page_ratings srv row page with
    | Raise e => Some (Raise e)
    | Ok None => Some (Ok acc)
    | Ok (Some new) =>
        result (wine_pages fuel verbose srv row (page + 1) (acc ++ new))
    end.
Proof.
  cbn [wine_pages]. rewrite result_run_bind, result_ends, page_turn_result.
  by destruct (page_ratings srv row page) as [[new|]|e].
Qed.

Lemma all_ratings_cons fuel srv row wines acc :
  result (all_ratings fuel verbose srv (row :: wines) acc)
  = match result (wine_pages fuel verbose srv row 1 acc) with
    | Some (Ok acc') => result (all_ratings fuel verbose srv wines acc')
    | stopped => stopped
    end.
Proof.
  cbn [all_ratings]. rewrite result_run_bind.
  destruct (result (wine_pages _ _ _ _ _ _)) as [[acc'|e]|]; [|done..].
  by rewrite result_bind_when.
Qed.

Lemma reviewsCrawler_result fuel srv wineDF :
  result (reviewsCrawler fuel verbose srv wineDF)
  = match result (all_ratings fuel verbose srv (iterrows wineDF) []) with
    | None => None
    | Some (Raise e) => Some (Raise e)
    | Some (Ok ratings) =>
        Some (merge_common {| columns := ratings_columns; rows := ratings |}
                wineDF)
    end.
Proof.
  unfold reviewsCrawler. do 2 (rewrite result_bind_when; cbv beta).
  rewrite result_run_bind.
  destruct (result (all_ratings _ _ _ _ _)) as [[ratings|e]|]; [|done..].
  by rewrite result_bind_when.
Qed.

(** A result of the loop on fuel is a result of the loop. *)
Lemma wine_pages_sound fuel srv row : forall page acc r,
  result (wine_pages fuel verbose srv row page acc) = Some r ->
  pages_run srv row page acc r.
Proof.
  induction fuel as [|fuel IH]; intros page acc r; [done|].
  rewrite wine_pages_S.
  destruct (page_ratings srv row page) as [[new|]|e] eqn:E.
  - intros H. eapply run_next; eauto.
  - intros [= <-]. by apply run_empty.
  - intros [= <-]. by apply run_raise.
Qed.

(** More fuel does not change a result. *)
Lemma wine_pages_mono fuel fuel' srv row : forall page acc r,
  fuel <= fuel' ->
  result (wine_pages fuel verbose srv row page acc) = Some r ->
  result (wine_pages fuel' verbose srv row page acc) = Some r.
Proof.
  revert fuel'. induction fuel as [|fuel IH]; intros fuel' page acc r Hle;
    [done|].
  destruct fuel' as [|fuel']; [lia|]. rewrite !wine_pages_S.
  destruct (page_ratings srv row page) as [[new|]|e]; [|done..].
  apply IH. lia.
Qed.

(** The loop that ends, ends on fuel: one unit per page requested. *)
Lemma wine_pages_complete srv row page acc r :
  pages_run srv row page acc r ->
  exists fuel, result (wine_pages fuel verbose srv row page acc) = Some r.
Proof.
  induction 1 as [page acc E|page acc e E|page acc new r E _ [fuel IH]].
  - exists 1. by rewrite wine_pages_S, E.
  - exists 1. by rewrite wine_pages_S, E.
  - exists (S fuel). by rewrite wine_pages_S, E.
Qed.

Lemma pages_run_det srv row page acc r r' :
  pages_run srv row page acc r -> pages_run srv row page acc r' -> r = r'.
Proof.
  intros H1 H2.
  destruct (wine_pages_complete _ _ _ _ _ H1) as [f1 E1].
  destruct (wine_pages_complete _ _ _ _ _ H2) as [f2 E2].
  apply (wine_pages_mono f1 (f1 + f2)) in E1; [|lia].
  apply (wine_pages_mono f2 (f1 + f2)) in E2; [|lia]. congruence.
Qed.

(** The rows collected before the loop are kept in front. *)
Lemma wine_pages_acc fuel srv row : forall page acc,
  result (wine_pages fuel verbose srv row page acc)
  = exc_map (app acc) <$> result (wine_pages fuel verbose srv row page []).
Proof.
  induction fuel as [|fuel IH]; intros page acc; [done|].
  rewrite !wine_pages_S.
  destruct (page_ratings srv row page) as [[new|]|e]; simpl.
  - rewrite (IH _ (acc ++ new)%list), (IH _ new).
    destruct (result (wine_pages fuel verbose srv row (page + 1) []))
      as [[rows|e]|]; simpl; by rewrite ?app_assoc.
  - by rewrite app_nil_r.
  - done.
Qed.

(** A server that has reviews on every page of a wine keeps the loop
    running: no amount of fuel gives a result. *)
Lemma wine_pages_endless fuel srv row : forall page acc,
  (forall p, (page <= p)%Z -> exists new, page_ratings srv row p = Ok (Some new)) ->
  result (wine_pages fuel verbose srv row page acc) = None.
Proof.
  induction fuel as [|fuel IH]; intros page acc Hsrv; [done|].
  rewrite wine_pages_S. destruct (Hsrv page) as [new ->]; [lia|].
  apply IH. intros p Hp. apply Hsrv. lia.
Qed.

(** The loop ends within [k + 1] requests when page [page + k] is the first
    that has no review or raises. *)
Lemma wine_pages_ends srv row : forall (k : nat) page acc,
  (forall new, page_ratings srv row (page + Z.of_nat k) <> Ok (Some new)) ->
  is_Some (result (wine_pages (S k) verbose srv row page acc)).
Proof.
  induction k as [|k IH]; intros page acc Hend; rewrite wine_pages_S.
  - rewrite Z.add_0_r in Hend.
    destruct (page_ratings srv row page) as [[new|]|e]; [|done..].
    by destruct (Hend new).
  - destruct (page_ratings srv row page) as [[new|]|e]; [|done..].
    apply IH. intros new'. rewrite <- Z.add_assoc.
    replace (1 + Z.of_nat k)%Z with (Z.of_nat (S k)) by lia. apply Hend.
Qed.

(** ** [reviewsCrawler]: the loop over the wines *)

Lemma all_ratings_mono fuel fuel' srv wines : forall acc r,
  fuel <= fuel' ->
  result (all_ratings fuel verbose srv wines acc) = Some r ->
  result (all_ratings fuel' verbose srv wines acc) = Some r.
Proof.
  induction wines as [|row wines IH]; intros acc r Hle; [done|].
  rewrite !all_ratings_cons.
  destruct (result (wine_pages fuel verbose srv row 1 acc))
    as [[acc'|e]|] eqn:E; [| |done].
  - rewrite (wine_pages_mono fuel fuel' _ _ _ _ _ Hle E). by apply IH.
  - by rewrite (wine_pages_mono fuel fuel' _ _ _ _ _ Hle E).
Qed.

(** The pages of the wine [row] end within [fuel] requests. *)
Definition pages_end_within (fuel : nat) (srv : server) (row : Series) : Prop :=
  exists k, k < fuel /\
    forall new, page_ratings srv row (1 + Z.of_nat k) <> Ok (Some new).

Lemma all_ratings_ends fuel srv wines : forall acc,
  Forall (pages_end_within fuel srv) wines ->
  is_Some (result (all_ratings fuel verbose srv wines acc)).
Proof.
  induction wines as [|row wines IH]; intros acc Hall; [by eexists|].
  apply Forall_cons in Hall as [(k & Hk & Hend) Hall].
  rewrite all_ratings_cons.
  destruct (wine_pages_ends srv row k 1 acc Hend) as [r Hr].
  rewrite (wine_pages_mono (S k) fuel _ _ _ _ _ ltac:(lia) Hr).
  destruct r; [by apply IH | by eexists].
Qed.

(** The rows of the wines in order, each wine with its pages in order. *)
Lemma all_ratings_Ok fuel srv wines : forall acc rs,
  result (all_ratings fuel verbose srv wines acc) = Some (Ok rs) ->
  exists per_wine,
    Forall2 (fun row rows => pages_run srv row 1 [] (Ok rows)) wines per_wine
    /\ rs = (acc ++ List.concat per_wine)%list.
Proof.
  induction wines as [|row wines IH]; intros acc rs.
  - intros [= <-]. exists []. split; [constructor | by rewrite app_nil_r].
  - rewrite all_ratings_cons, wine_pages_acc.
    destruct (result (wine_pages fuel verbose srv row 1 []))
      as [[rows|e]|] eqn:E; [|done..].
    simpl. intros (per_wine & Hall & ->)%IH. exists (rows :: per_wine).
    split; [|by rewrite <- app_assoc].
    constructor; [by eapply wine_pages_sound | done].
Qed.

Lemma reviewsCrawler_None fuel srv wineDF :
  result (reviewsCrawler fuel verbose srv wineDF) = None <->
  result (all_ratings fuel verbose srv (iterrows wineDF) []) = None.
Proof.
  rewrite reviewsCrawler_result.
  by destruct (result (all_ratings _ verbose _ _ _)) as [[]|].
Qed.

End Verbose.

(** [verbose] changes no result. *)
Lemma wine_pages_verbose verbose fuel srv row : forall page acc,
  result (wine_pages fuel verbose srv row page acc)
  = result (wine_pages fuel false srv row page acc).
Proof.
  induction fuel as [|fuel IH]; intros page acc; [done|].
  rewrite !wine_pages_S.
  by destruct (page_ratings srv row page) as [[new|]|e].
Qed.

Lemma all_ratings_verbose verbose fuel srv wines : forall acc,
  result (all_ratings fuel verbose srv wines acc)
  = result (all_ratings fuel false srv wines acc).
Proof.
  induction wines as [|row wines IH]; intros acc; [done|].
  rewrite !all_ratings_cons, wine_pages_verbose.
  by destruct (result (wine_pages _ _ _ _ _ _)) as [[acc'|e]|].
Qed.

Lemma reviewsCrawler_verbose verbose fuel srv wineDF :
  result (reviewsCrawler fuel verbose srv wineDF)
  = result (reviewsCrawler fuel false srv wineDF).
Proof. by rewrite !reviewsCrawler_result, all_ratings_verbose. Qed.

(** No file is written, with or without [verbose]. *)
#[export] Instance page_turn_talk verbose srv row page :
  Talk (page_turn verbose srv row page).
Proof.
  unfold page_turn. apply log_bind_talk; [destruct verbose; apply _|].
  intros _. apply log_bind_talk; [apply _|]. intros reviews.
  destruct (negb (truthy reviews)); apply _.
Qed.

Lemma wine_pages_talks verbose fuel srv row : forall page acc,
  talks (wine_pages fuel verbose srv row page acc).
Proof.
  induction fuel as [|fuel IH]; intros page acc; [done|]. cbn [wine_pages].
  apply run_bind_talks; [apply ends_talks, _|].
  intros [new|]; [apply IH | apply ends_talks, _].
Qed.

Lemma all_ratings_talks verbose fuel srv wines : forall acc,
  talks (all_ratings fuel verbose srv wines acc).
Proof.
  induction wines as [|row wines IH]; intros acc; [apply ends_talks, _|].
  cbn [all_ratings]. apply run_bind_talks; [apply wine_pages_talks|].
  intros acc'. apply run_bind_talks; [apply ends_talks, _ | intros _; apply IH].
Qed.

Lemma reviewsCrawler_talks verbose fuel srv wineDF :
  talks (reviewsCrawler fuel verbose srv wineDF).
Proof.
  unfold reviewsCrawler.
  repeat (apply run_bind_talks; [try apply ends_talks, _ | intros ?]);
    [apply all_ratings_talks | apply ends_talks, _].
Qed.

(** ** [reviewsCrawler]: what a verbose run shows *)

(** The line of one request. *)
Definition page_line (wine_id year : cell) (page : Z) : effect unit :=
  Show [PText "Getting info about wine "; PCell wine_id; PText "-";
        PCell year; PText (" Page " +:+ str_of_Z page)].

Lemma page_turn_shown srv row wine_id year page :
  series_get row "Wine ID" = Ok wine_id -> series_get row "Year" = Ok year ->
  page_turn true srv row page
  = ([page_line wine_id year page], page_ratings srv row page).
Proof.
  intros Hid Hyear.
  rewrite (surjective_pairing (page_turn _ _ _ _)), page_turn_result.
  f_equal. unfold page_turn.
  rewrite !log_bind_assoc, log_bind_quietly, Hid, log_bind_quietly, Hyear.
  rewrite log_bind_tell, log_bind_quietly. cbn [fst]. f_equal.
  destruct (page_reviews srv row page) as [reviews|]; [|done].
  destruct (negb (truthy reviews)); [done|]. rewrite log_bind_quietly.
  by destruct (_ <- iterate reviews ;; _).
Qed.

(** The pages of a wine are requested, and announced, one after the other
    from [page] on: one line for every page with reviews and one for the
    page that ends the loop. *)
Lemma wine_pages_shown fuel srv row wine_id year :
  series_get row "Wine ID" = Ok wine_id -> series_get row "Year" = Ok year ->
  forall page acc m,
    wine_pages fuel true srv row page acc = Some m ->
    exists k, k < fuel /\
      m.1 = page_line wine_id year <$> seqZ page (Z.of_nat (S k)).
Proof.
  intros Hid Hyear. induction fuel as [|fuel IH]; intros page acc m; [done|].
  cbn [wine_pages]. rewrite (page_turn_shown _ _ wine_id year) by done.
  rewrite run_bind_ends. cbn [fst snd].
  destruct (page_ratings srv row page) as [[new|]|e];
    [|intros [= <-]; exists 0; split; [lia | done]..].
  destruct (wine_pages fuel _ _ _ _ _) as [m'|] eqn:E; [|done].
  intros [= <-]. destruct (IH _ _ _ E) as (k & Hk & ->). exists (S k).
  split; [lia|]. rewrite (seqZ_cons page) by lia. cbn [fst fmap list_fmap].
  do 3 f_equal. lia.
Qed.

(** ** [reviewsCrawler]: the progress bar *)

(** Without [verbose] a turn of the page loop shows nothing. *)
Lemma page_turn_quiet srv row page :
  page_turn false srv row page = quietly (page_ratings srv row page).
Proof.
  rewrite (surjective_pairing (page_turn _ _ _ _)), page_turn_result.
  f_equal. unfold page_turn. rewrite log_bind_ret_l, log_bind_quietly.
  destruct (page_reviews srv row page) as [reviews|]; [|done].
  destruct (negb (truthy reviews)); [done|]. rewrite log_bind_quietly.
  by destruct (_ <- iterate reviews ;; _).
Qed.

Lemma wine_pages_quiet fuel srv row : forall page acc m,
  wine_pages fuel false srv row page acc = Some m -> m.1 = [].
Proof.
  induction fuel as [|fuel IH]; intros page acc m; [done|].
  cbn [wine_pages]. rewrite page_turn_quiet, run_bind_ends. cbn [quietly snd fst].
  destruct (page_ratings srv row page) as [[new|]|e]; [|by intros [= <-]..].
  rewrite after_nil. apply IH.
Qed.

(** The calls of the bar in the loop over the wines: one step after the
    pages of each wine.  [n] steps are made when the loop ends normally
    on [n] wines, fewer when it ends with an exception. *)
Definition steps (n : nat) : list (effect unit) :=
  repeat (Progress (BarUpdate 1)) n.

Lemma all_ratings_steps fuel srv wines : forall acc m,
  all_ratings fuel false srv wines acc = Some m ->
  exists n, m.1 = steps n /\
    match m.2 with
    | Ok _ => n = length wines
    | Raise _ => n < length wines
    end.
Proof.
  induction wines as [|row wines IH]; intros acc m.
  { intros [= <-]. by exists 0. }
  cbn [all_ratings].
  destruct (wine_pages fuel false srv row 1 acc) as [[out [acc'|e]]|] eqn:E;
    [|intros [= <-]; apply wine_pages_quiet in E; exists 0; simpl in *;
      split; [done | lia] | done].
  apply wine_pages_quiet in E. simpl in E. subst out. cbn.
  destruct (all_ratings fuel false srv wines acc') as [m'|] eqn:E'; [|done].
  intros [= <-]. destruct (IH _ _ E') as (n & -> & Hn). exists (S n).
  split; [done|]. simpl. destruct m'.2; lia.
Qed.

(** Termination of the page loop: when some page of the wine, the
    [k]-th after [page], has no review or raises, the loop ends after at
    most [k + 1] requests, with the result that the loop as a relation
    gives; more fuel gives the same result. *)
Theorem wine_pages_terminates (verbose : bool) (srv : server) (row : Series)
    (k : nat) (page : Z) (acc : list (list cell)) :
  (forall new, page_ratings srv row (page + Z.of_nat k) <> Ok (Some new)) ->
  exists r, pages_run srv row page acc r /\
    forall fuel, k < fuel ->
      result (wine_pages fuel verbose srv row page acc) = Some r.
Proof.
  intros Hend.
  destruct (wine_pages_ends verbose srv row k page acc Hend) as [r Hr].
  exists r. split; [by eapply wine_pages_sound|].
  intros fuel Hk. eapply wine_pages_mono; [|exact Hr]. lia.
Qed.

Lemma wine_pages_terminates_witness :
  exists r,
    pages_run sample_server [("Wine ID", CInt 1); ("Year", CInt 2020)] 1 [] r
    /\ forall fuel, 2 < fuel ->
       result (wine_pages fuel true sample_server
                 [("Wine ID", CInt 1); ("Year", CInt 2020)] 1 []) = Some r.
Proof.
  apply (wine_pages_terminates true _ _ 2). intros new. by vm_compute.
Defined.

(** C28.  The page loop has no bound of its own: against a server that has
    reviews on every page of a wine it never ends, and [reviewsCrawler]
    returns nothing, whatever the fuel. *)
Theorem reviewsCrawler_endless (fuel : nat) (verbose : bool) (srv : server)
    (wineDF : DataFrame) (row : Series) (rest : list Series) :
  iterrows wineDF = row :: rest ->
  (forall p, (1 <= p)%Z -> exists new, page_ratings srv row p = Ok (Some new)) ->
  reviewsCrawler fuel verbose srv wineDF = None.
Proof.
  intros Hrows Hsrv. apply result_None, reviewsCrawler_None.
  rewrite Hrows, all_ratings_cons. by rewrite wine_pages_endless.
Qed.

Lemma reviewsCrawler_endless_witness :
  reviewsCrawler 1000 false endless_server
    (wine_table [[CStr "A"; CInt 2020; CInt 1; CStr "Uno 2020"; CFloat 4.2;
                  CInt 120]]) = None.
Proof.
  eapply reviewsCrawler_endless; [reflexivity|].
  intros p _. eexists. reflexivity.
Defined.

(** C27.  Termination of [reviewsCrawler]: when the pages of every wine of
    the table end within [fuel] requests, the function returns (a table or
    an exception). *)
Theorem reviewsCrawler_terminates (fuel : nat) (verbose : bool)
    (srv : server) (wineDF : DataFrame) :
  Forall (pages_end_within fuel srv) (iterrows wineDF) ->
  is_Some (reviewsCrawler fuel verbose srv wineDF).
Proof.
  intros Hall. apply result_is_Some. rewrite reviewsCrawler_result.
  destruct (all_ratings_ends verbose fuel srv _ [] Hall) as [[rs|e] ->];
    by eexists.
Qed.

Lemma reviewsCrawler_terminates_witness :
  is_Some (reviewsCrawler 3 true sample_server
             (wine_table [[CStr "A"; CInt 2020; CInt 1; CStr "Uno 2020";
                           CFloat 4.2; CInt 120];
                          [CStr "B"; CInt 2021; CInt 2; CStr "Due 2021";
                           CFloat 4.2; CInt 120]])).
Proof.
  apply reviewsCrawler_terminates. repeat constructor.
  - exists 2. split; [lia|]. intros new. by vm_compute.
  - exists 1. split; [lia|]. intros new. by vm_compute.
Defined.

(** C29.  The progress bar of a run without [verbose] that returns a table:
    the bar is opened with the number of wines as its total, it makes one
    step of 1 for every wine, and it is closed; nothing else is shown. *)
Theorem reviewsCrawler_progress (fuel : nat) (srv : server)
    (wineDF : DataFrame) (shown : list (effect unit)) (out : DataFrame) :
  reviewsCrawler fuel false srv wineDF = Some (shown, Ok out) ->
  shown = Progress (BarOpen (df_len wineDF) "reviews" "wine")
          :: steps (df_len wineDF) ++ [Progress BarClose].
Proof.
  unfold reviewsCrawler. cbn.
  destruct (all_ratings _ _ _ _ _) as [[bar [ratings|e]]|] eqn:E; [|done..].
  destruct (all_ratings_steps _ _ _ _ _ E) as (n & Hbar & Hn).
  simpl in Hbar, Hn. rewrite iterrows_length in Hn. subst bar n. cbn.
  by intros [= <- _].
Qed.

Lemma reviewsCrawler_progress_witness :
  [Progress (BarOpen 1 "reviews" "wine"); Progress (BarUpdate 1);
   Progress BarClose]
  = Progress
      (BarOpen
         (df_len (wine_table [[CStr "B"; CInt 2021; CInt 2; CStr "Due 2021";
                               CFloat 4.2; CInt 120]])) "reviews" "wine")
    :: steps (df_len (wine_table [[CStr "B"; CInt 2021; CInt 2;
                                   CStr "Due 2021"; CFloat 4.2; CInt 120]]))
       ++ [Progress BarClose].
Proof.
  apply (reviewsCrawler_progress 2 sample_server _ _
           {| columns := ratings_columns
                         ++ ["Winery"; "Wine"; "Rating"; "Rates count"];
              rows := [[CInt 2021; CInt 2; CFloat 2; CStr "d";
                        CStr "2016-10-05T20:48:41.000Z"; CStr "B";
                        CStr "Due 2021"; CFloat 4.2; CInt 120]] |}).
  by vm_compute.
Defined.

(** A run that ends with an exception in the loop leaves the bar open: it
    has made fewer steps than there are wines and is never closed. *)
Lemma reviewsCrawler_bar_open fuel srv wineDF e :
  result (all_ratings fuel false srv (iterrows wineDF) []) = Some (Raise e) ->
  exists n, n < df_len wineDF /\
    reviewsCrawler fuel false srv wineDF
    = Some (Progress (BarOpen (df_len wineDF) "reviews" "wine") :: steps n,
            Raise e).
Proof.
  unfold reviewsCrawler. cbn.
  destruct (all_ratings _ _ _ _ _) as [[bar [ratings|e']]|] eqn:E; [done| |done].
  intros [= ->]. destruct (all_ratings_steps _ _ _ _ _ E) as (n & Hbar & Hn).
  simpl in Hbar, Hn. rewrite iterrows_length in Hn. subst bar. by exists n.
Qed.

(** ** [reviewsCrawler]: the table returned *)

(** The columns of the result: those of the ratings, then the columns of
    the wines that the ratings do not have. *)
Definition reviews_frame_columns : list string :=
  ratings_columns ++ ["Winery"; "Wine"; "Rating"; "Rates count"].

(** The table of the ratings before the join. *)
Definition ratings_table (rs : list (list cell)) : DataFrame :=
  {| columns := ratings_columns; rows := rs |}.

(** A rating of the wine [w]: its year and identifier first. *)
Definition rating_of (w r : list cell) : Prop :=
  exists a b c,
    r = [default CNaN (w !! 1); default CNaN (w !! 2); a; b; c].

Lemma rating_row_of w v r :
  length w = 6 -> rating_row (zip wine_frame_columns w) v = Ok r ->
  rating_of w r.
Proof.
  intros Hw. destruct w as [|w0 [|w1 [|w2 [|w3 [|w4 [|w5 [|]]]]]]]; try done.
  unfold rating_row. simpl. intros H. do 6 exc_inv H.
  injection H as <-. by eexists _, _, _.
Qed.

Lemma page_ratings_of srv w page new :
  length w = 6 ->
  page_ratings srv (zip wine_frame_columns w) page = Ok (Some new) ->
  Forall (rating_of w) new.
Proof.
  intros Hw. unfold page_ratings. intros H. exc_inv H.
  destruct (truthy a); [|done]. simpl in H. do 2 exc_inv H.
  injection H as <-. eapply mapM_Ok_Forall; [|done].
  intros v r. by apply rating_row_of.
Qed.

Lemma pages_run_of srv w page acc r :
  length w = 6 ->
  pages_run srv (zip wine_frame_columns w) page acc r ->
  forall rs, r = Ok rs -> Forall (rating_of w) acc -> Forall (rating_of w) rs.
Proof.
  intros Hw. induction 1 as [page acc E|page acc e E|page acc new r E _ IH];
    intros rs Hr Hacc; simplify_eq; [done|].
  apply IH; [done|]. apply Forall_app. split; [done|].
  by eapply page_ratings_of.
Qed.

Section Partner.
Context (wineDF : DataFrame).
Hypothesis Hcols : columns wineDF = wine_frame_columns.
Hypothesis Hwf : df_wf wineDF.
Hypothesis Hu : unique_key wineDF "Wine ID".

Lemma wine_row_length w : w ∈ rows wineDF -> length w = 6.
Proof.
  destruct Hwf as [_ Hlen]. rewrite Forall_forall in Hlen.
  intros Hw. rewrite (Hlen w Hw), Hcols. done.
Qed.

Lemma common_ratings rs :
  common (ratings_table rs) wineDF = ["Year"; "Wine ID"].
Proof. unfold common. rewrite Hcols. reflexivity. Qed.

(** A rating of a wine agrees with the row of that wine and with no other
    row of the table. *)
Lemma rating_partner rs w r :
  w ∈ rows wineDF -> rating_of w r ->
  filter (agree (columns (ratings_table rs)) (columns wineDF)
            (common (ratings_table rs) wineDF) r) (rows wineDF) = [w].
Proof.
  intros Hw (a & b & c & ->). rewrite common_ratings, Hcols.
  pose proof (wine_row_length w Hw) as Hlen.
  eapply (filter_singleton (row_key (columns wineDF) "Wine ID"));
    [exact Hu | done | |].
  - destruct w as [|w0 [|w1 [|w2 [|w3 [|w4 [|w5 [|]]]]]]]; try done.
    by repeat constructor.
  - intros w' Hw' Hag. pose proof (wine_row_length w' Hw') as Hlen'.
    destruct w as [|w0 [|w1 [|w2 [|w3 [|w4 [|w5 [|]]]]]]]; try done.
    destruct w' as [|v0 [|v1 [|v2 [|v3 [|v4 [|v5 [|]]]]]]]; try done.
    apply Forall_cons in Hag as [_ Hag]. apply Forall_cons in Hag as [Hid _].
    rewrite Hcols. symmetry. exact Hid.
Qed.

End Partner.

(** The cells of a wine that a rating does not have yet. *)
Definition wine_details (w : list cell) : list cell :=
  drop_cells ["Year"; "Wine ID"] wine_frame_columns w.

(** The rows of the result for the ratings [rs] of the wine [w]. *)
Definition rated (w : list cell) (rs : list (list cell)) : list (list cell) :=
  map (fun r => (r ++ wine_details w)%list) rs.

Section Joined.
Context (verbose : bool) (srv : server) (wineDF : DataFrame).
Hypothesis Hcols : columns wineDF = wine_frame_columns.
Hypothesis Hwf : df_wf wineDF.
Hypothesis Hu : unique_key wineDF "Wine ID".

(** The ratings of the wine [w], as the loop over its pages collects
    them. *)
Definition ratings_of (w : list cell) (rs : list (list cell)) : Prop :=
  pages_run srv (zip wine_frame_columns w) 1 [] (Ok rs).

Lemma ratings_of_shape w rs :
  w ∈ rows wineDF -> ratings_of w rs -> Forall (rating_of w) rs.
Proof.
  intros Hw Hrun.
  eapply (pages_run_of srv w 1 []); eauto using wine_row_length.
Qed.

Lemma join_ratings all w rs :
  w ∈ rows wineDF -> Forall (rating_of w) rs ->
  flat_map (fun lr =>
      map (paired_row (ratings_table all) wineDF lr)
        (filter (agree (columns (ratings_table all)) (columns wineDF)
                   (common (ratings_table all) wineDF) lr) (rows wineDF))) rs
  = rated w rs.
Proof.
  intros Hw. induction 1 as [|r rs Hr _ IH]; [done|]. cbn [flat_map].
  rewrite (rating_partner wineDF Hcols Hwf Hu all w r Hw Hr), IH.
  unfold paired_row, wine_details.
  by rewrite (common_ratings wineDF Hcols), Hcols.
Qed.

Lemma join_all_ratings all ws per_wine :
  ws ⊆ rows wineDF -> Forall2 ratings_of ws per_wine ->
  flat_map (fun lr =>
      map (paired_row (ratings_table all) wineDF lr)
        (filter (agree (columns (ratings_table all)) (columns wineDF)
                   (common (ratings_table all) wineDF) lr) (rows wineDF)))
    (List.concat per_wine)
  = List.concat (zip_with rated ws per_wine).
Proof.
  intros Hws. induction 1 as [|w rs ws per_wine Hrs _ IH]; [done|].
  simpl. rewrite flat_map_app. f_equal.
  - apply join_ratings; [apply Hws; left|].
    apply ratings_of_shape; [apply Hws; left | done].
  - apply IH. intros x Hx. apply Hws. by right.
Qed.

Lemma reviewsCrawler_joined fuel out :
  result (reviewsCrawler fuel verbose srv wineDF) = Some (Ok out) ->
  exists per_wine,
    Forall2 ratings_of (rows wineDF) per_wine /\
    out = {| columns := reviews_frame_columns;
             rows := List.concat (zip_with rated (rows wineDF) per_wine) |}.
Proof.
  rewrite reviewsCrawler_result.
  destruct (result (all_ratings _ verbose _ _ _)) as [[ratings|]|] eqn:E;
    [|done..].
  apply all_ratings_Ok in E as (per_wine & Hall & ->). simpl.
  unfold iterrows in Hall. rewrite Hcols in Hall.
  apply Forall2_fmap_l in Hall. intros [= Hm]. exists per_wine.
  split; [done|].
  rewrite merge_common_Ok in Hm by by rewrite (common_ratings wineDF Hcols).
  injection Hm as <-. f_equal.
  - rewrite (common_ratings wineDF Hcols), Hcols. reflexivity.
  - by apply join_all_ratings.
Qed.

End Joined.

(** C26.  The table [reviewsCrawler] returns for the wines of [wineCrawler]
    (six columns, distinct identifiers): its columns are those of the
    ratings followed by winery, wine, rating and rates count, and its rows
    are, wine by wine in the order of the table and page by page, the
    reviews of the wine, each as year, identifier, rating, note and date
    followed by the details of that wine.  No review is joined with another
    wine and none is lost in the join. *)
Theorem reviewsCrawler_rows (fuel : nat) (verbose : bool) (srv : server)
    (wineDF out : DataFrame) :
  columns wineDF = wine_frame_columns -> df_wf wineDF ->
  unique_key wineDF "Wine ID" ->
  result (reviewsCrawler fuel verbose srv wineDF) = Some (Ok out) ->
  exists per_wine,
    Forall2 (ratings_of srv) (rows wineDF) per_wine /\
    out = {| columns := reviews_frame_columns;
             rows := List.concat (zip_with rated (rows wineDF) per_wine) |}.
Proof. intros. by eapply reviewsCrawler_joined. Qed.

Lemma reviewsCrawler_rows_witness :
  exists per_wine,
    Forall2 (ratings_of sample_server)
      [[CStr "B"; CInt 2021; CInt 2; CStr "Due 2021"; CFloat 4.2; CInt 120]]
      per_wine /\
    {| columns := reviews_frame_columns;
       rows := [[CInt 2021; CInt 2; CFloat 2; CStr "d";
                 CStr "2016-10-05T20:48:41.000Z"; CStr "B"; CStr "Due 2021";
                 CFloat 4.2; CInt 120]] |}
    = {| columns := reviews_frame_columns;
         rows := List.concat
           (zip_with rated
              [[CStr "B"; CInt 2021; CInt 2; CStr "Due 2021"; CFloat 4.2;
                CInt 120]] per_wine) |}.
Proof.
  apply (reviewsCrawler_rows 2 false sample_server
           (wine_table [[CStr "B"; CInt 2021; CInt 2; CStr "Due 2021";
                         CFloat 4.2; CInt 120]]));
    [reflexivity | compute_done | compute_done | by vm_compute].
Defined.
