(* ===== verification/CrawlerMain.v ===== *)
(** * The crawler: the export and the entry point

    [exportCSV] (lines 175-198 of [src/src/crawler.py]) writes a table
    under a name made of the date and the time, after creating the two
    directories it needs; [main] (lines 200-217) runs the crawl of the
    wines, their export, the crawl of the reviews and their export, in this
    order.  Both are procedures on the directories that exist.  What [main]
    reads from outside is the record [world]: the web API, the user, the
    two functions of the module [checkCrawler], the clock and the operating
    system.  What the crawl prints ([verbose]) or shows of its progress is
    in the output of [main], between the effects on the files. *)

From Stdlib Require Import ZArith QArith String Ascii List Lia.
From stdpp Require Import base tactics option numbers list strings.
From S2P Require Import Prelude Groupby Cell Value Clock Frame Effects Proc.
From S2P Require Import Logged Join Relational Crawler Wines Reviews.

#[local] Open Scope exc_scope.
#[local] Notation "a +:+ b" := (String.append a b)
  (at level 60, right associativity).

(** ** [exportCSV] and [main] *)

(** Lines 175-198.  [now_date] and [now_time] are the readings of the clock
    at lines 186 and 195. *)
Definition exportCSV {J} (sys : system) (now_date now_time : datetime)
    (data : string) (dataframe : DataFrame) : proc J unit :=
  (let directory_name := "../out"%string in
   _ <- ensure_dir sys "Error in creating the directory: " directory_name ;;
   let currentData := strftime_dm now_date in
   let directory_name := ("../out/out " +:+ currentData)%string in
   _ <- ensure_dir sys "Error in creating second directory: "
          directory_name ;;
   let currentTime := strftime_HMS now_time in
   let name := ("../out/" +:+ directory_name +:+ "/out " +:+ data +:+ " "
                +:+ currentTime +:+ ".csv")%string in
   write_csv sys name dataframe)%proc.

(** What [main] finds outside: the web API, the user, the two functions of
    the module [checkCrawler], the readings of the clock in their order
    (two for each export), and the operating system. *)
Record world : Type := mkWorld {
  w_server : server;
  w_input : string -> string;
  w_checkWineTz : Z -> list check_arg -> exc unit;
  w_resetInfo : proc unit unit;
  w_clock : nat -> datetime;
  w_system : system
}.

(** Lines 205-209: what [main] does before the first export. *)
Definition crawl_wines (w : world) (verbose specify development : bool)
    : logged unit DataFrame :=
  (wineParameters <- inputParameters (w_checkWineTz w) (w_input w) verbose
                       specify development ;;
   wineDF <- wineCrawler verbose (w_server w) wineParameters ;;
   _ <- quietly (w_checkWineTz w 2%Z [AText "wine"; ATable wineDF]) ;;
   log_ret wineDF)%log.

(** Lines 202-210: the run up to the export of the wines. *)
Definition export_wines (w : world) (verbose reset specify development : bool)
    : proc unit DataFrame :=
  (_ <- (if reset then w_resetInfo w else proc_ret tt) ;;
   wineDF <- say (crawl_wines w verbose specify development) ;;
   _ <- exportCSV (w_system w) (w_clock w 0) (w_clock w 1) "wine" wineDF ;;
   proc_ret wineDF)%proc.

(** Lines 212-217, on what [reviewsCrawler] printed and returned. *)
Definition export_reviews (w : world) (reviews : logged unit DataFrame)
    : proc unit unit :=
  (reviewsDF <- say reviews ;;
   _ <- lift (w_checkWineTz w 2%Z [AText "reviews"; ATable reviewsDF]) ;;
   _ <- exportCSV (w_system w) (w_clock w 2) (w_clock w 3) "reviews"
          reviewsDF ;;
   print "Dataset exported.")%proc.

(** Lines 200-217.  The result is the directories that exist afterwards,
    the effects, and [Ok tt] or the exception that ended the run; [None]
    when the fuel of [reviewsCrawler] is used up. *)
Definition main (fuel : nat) (w : world)
    (verbose reset specify development : bool) (fs : dirs)
    : option (dirs * list (effect unit) * exc unit) :=
  match export_wines w verbose reset specify development fs with
  | (fs, out, Raise e) => Some (fs, out, Raise e)
  | (fs, out, Ok wineDF) =>
      reviews ← reviewsCrawler fuel verbose (w_server w) wineDF;
      Some (resume fs out (export_reviews w reviews))
  end.

(** ** [exportCSV] and [main]: what is written, and in which order *)

#[local] Close Scope string_scope.

Definition sample_world : world :=
  {| w_server := sample_server; w_input := sample_input;
     w_checkWineTz := no_check; w_resetInfo := proc_ret tt;
     w_clock := fun n =>
       if decide (n < 2) then sample_now
       else {| year := 2016; month := 10; day := 5; hour := 10; minute := 31;
               second := 15 |};
     w_system := reliable |}.

(** The path [exportCSV] writes to. *)
Definition csv_name (currentData currentTime data : string) : string :=
  "../out/" +:+ ("../out/out " +:+ currentData) +:+ "/out " +:+ data +:+ " "
  +:+ currentTime +:+ ".csv".

(** The two directories of an export. *)
Definition export_dirs (currentData : string) : list string :=
  ["../out"; "../out/out " +:+ currentData].

Section ExportCSV.
Context {J : Type}.
Variable sys : system.
Implicit Types (fs : dirs) (d data : string) (a b : datetime)
  (df : DataFrame).

(** The two guards of [exportCSV] on a system that permits both
    directories: they return, both directories are there afterwards, and
    nothing is written. *)
Lemma export_dirs_made d fs :
  Forall (fun p => sys p = None) (export_dirs d) ->
  exists fs' made,
    (_ <- ensure_dir (J:=J) sys "Error in creating the directory: " "../out" ;;
     ensure_dir sys "Error in creating second directory: "
       ("../out/out " +:+ d))%proc fs
    = (fs', made, Ok tt)
    /\ Forall (fun e => is_write e = false) made
    /\ Forall (path_exists fs') (export_dirs d)
    /\ (Forall (path_exists fs) (export_dirs d) -> fs' = fs /\ made = []).
Proof.
  intros [H1 [H2 _]%Forall_cons]%Forall_cons.
  pose proof (append_nonempty "../out/out " d ltac:(done)) as Hd.
  destruct (ensure_dir_spec (J:=J) sys "Error in creating the directory: "
              "../out" fs) as (fs1 & m1 & E1 & W1 & X1 & M1 & I1); [done..|].
  destruct (ensure_dir_spec (J:=J) sys "Error in creating second directory: "
              ("../out/out " +:+ d) fs1)
    as (fs2 & m2 & E2 & W2 & X2 & M2 & I2); [done..|].
  exists fs2, (m1 ++ m2). rewrite (proc_bind_Ok _ _ _ _ _ _ E1). unfold resume.
  rewrite E2. split_and!; [done | by apply Forall_app | |].
  - apply Forall_cons_2; [auto|]. by apply Forall_cons_2.
  - intros HY. inversion_clear HY as [|?? Y1 HY'].
    inversion_clear HY' as [|?? Y2 _].
    destruct (I1 Y1) as [-> ->]. by destruct (I2 Y2) as [-> ->].
Qed.

(** On a system that refuses none of its paths, an export creates the
    directories that are missing and writes the table. *)
Lemma exportCSV_writes a b data df fs :
  Forall (fun p => sys p = None)
    (csv_name (strftime_dm a) (strftime_HMS b) data
     :: export_dirs (strftime_dm a)) ->
  exists fs' made,
    exportCSV (J:=J) sys a b data df fs
    = (fs',
       made ++ [WriteCsv (csv_name (strftime_dm a) (strftime_HMS b) data) df],
       Ok tt)
    /\ Forall (fun e => is_write e = false) made
    /\ Forall (path_exists fs') (export_dirs (strftime_dm a))
    /\ (Forall (path_exists fs) (export_dirs (strftime_dm a)) ->
        fs' = fs /\ made = []).
Proof.
  intros [Hf Hd]%Forall_cons.
  destruct (export_dirs_made (strftime_dm a) fs Hd)
    as (fs' & made & E & Hm & Hex & Hid).
  exists fs', made. split; [|done].
  unfold exportCSV. rewrite <- proc_bind_assoc, (proc_bind_Ok _ _ _ _ _ _ E).
  unfold resume. by rewrite (write_csv_permitted _ _ _ _ Hf).
Qed.

(** A refusal of the file ends the export with nothing written. *)
Lemma exportCSV_refused a b data df fs e :
  Forall (fun p => sys p = None) (export_dirs (strftime_dm a)) ->
  sys (csv_name (strftime_dm a) (strftime_HMS b) data) = Some e ->
  exists fs' made,
    exportCSV (J:=J) sys a b data df fs = (fs', made, Raise e)
    /\ Forall (fun e => is_write e = false) made.
Proof.
  intros Hd Hf.
  destruct (export_dirs_made (strftime_dm a) fs Hd)
    as (fs' & made & E & Hm & _).
  exists fs', made. split; [|done].
  unfold exportCSV. rewrite <- proc_bind_assoc, (proc_bind_Ok _ _ _ _ _ _ E).
  unfold resume. rewrite (write_csv_refused _ _ _ _ _ Hf).
  by rewrite app_nil_r.
Qed.

(** On any system, an export that raises has written nothing. *)
Lemma exportCSV_Raise a b data df fs e :
  (exportCSV (J:=J) sys a b data df fs).2 = Raise e ->
  writes (exportCSV (J:=J) sys a b data df fs).1.2 = [].
Proof.
  unfold exportCSV. cbv zeta. rewrite !proc_bind_writes, !proc_bind_result.
  rewrite ensure_dir_writes. simpl.
  destruct (ensure_dir _ _ _ fs).2; [|done]. simpl.
  rewrite ensure_dir_writes.
  destruct (ensure_dir _ _ _ _).2; [|done]. simpl.
  by intros ->%write_csv_Raise.
Qed.

End ExportCSV.

(** The crawl of the wines writes no file, and its result does not depend
    on [verbose]. *)
#[export] Instance crawl_wines_talk w verbose specify development :
  Talk (crawl_wines w verbose specify development).
Proof. unfold crawl_wines. apply _. Qed.

Lemma crawl_wines_result w verbose specify development :
  (crawl_wines w verbose specify development).2
  = (wineParameters <- (inputParameters (w_checkWineTz w) (w_input w) false
                          specify development).2 ;;
     wineDF <- wineCrawler_spec (w_server w) wineParameters ;;
     _ <- w_checkWineTz w 2%Z [AText "wine"; ATable wineDF] ;;
     Ok wineDF)%exc.
Proof.
  unfold crawl_wines. rewrite log_bind_result, inputParameters_result.
  destruct (inputParameters _ _ false _ _).2 as [ps|]; [|done].
  cbn [exc_bind]. rewrite log_bind_result, loop_computes_spec.
  destruct (wineCrawler_spec _ _) as [wineDF|]; [|done]. cbn [exc_bind].
  rewrite log_bind_quietly. by destruct (w_checkWineTz w _ _).
Qed.

(** What is left of [main] after [reviewsCrawler] writes no file when it
    raises. *)
Lemma export_reviews_failed w (reviews : logged unit DataFrame) fs e :
  Talk reviews ->
  (export_reviews w reviews fs).2 = Raise e ->
  writes (export_reviews w reviews fs).1.2 = [].
Proof.
  intros Ht. unfold export_reviews. rewrite proc_bind_say.
  destruct reviews.2 as [reviewsDF|]; [|done].
  rewrite resume_result, resume_output, writes_app, Ht, proc_bind_lift.
  destruct (w_checkWineTz w _ _); [|done].
  rewrite proc_bind_writes, proc_bind_result.
  destruct (exportCSV _ _ _ _ _ _).2 eqn:E; [done|].
  intros _. by rewrite (exportCSV_Raise _ _ _ _ _ _ _ E).
Qed.

(** The path of the export number [n] of [main] (0 for the wines, 1 for the
    reviews), from the readings of the clock. *)
Definition export_name (w : world) (n : nat) (data : string) : string :=
  csv_name (strftime_dm (w_clock w (2 * n)))
    (strftime_HMS (w_clock w (2 * n + 1))) data.

(** The system of [w] refuses none of the paths of the export number [n]
    of the table [data]. *)
Definition export_permitted (w : world) (n : nat) (data : string) : Prop :=
  Forall (fun p => w_system w p = None)
    (export_name w n data :: export_dirs (strftime_dm (w_clock w (2 * n)))).

#[export] Instance export_permitted_dec w n data :
  Decision (export_permitted w n data).
Proof. unfold export_permitted. apply _. Defined.

(** [main] without [reset], after the wines are crawled. *)
Lemma main_crawled fuel w fs verbose specify development wineDF :
  (crawl_wines w verbose specify development).2 = Ok wineDF ->
  main fuel w verbose false specify development fs
  = match exportCSV (w_system w) (w_clock w 0) (w_clock w 1) "wine"
            wineDF fs with
    | (fs1, out, Raise e) =>
        Some (fs1, (crawl_wines w verbose specify development).1 ++ out,
              Raise e)
    | (fs1, out, Ok _) =>
        reviews ← reviewsCrawler fuel verbose (w_server w) wineDF;
        Some (resume fs1
                ((crawl_wines w verbose specify development).1 ++ out)
                (export_reviews w reviews))
    end.
Proof.
  intros H. unfold main, export_wines.
  rewrite proc_bind_ret_l, proc_bind_say, H. unfold resume.
  rewrite proc_bind_run.
  destruct (exportCSV _ _ _ _ _ _) as [[fs1 out] [[]|e]]; simpl; [|done].
  by rewrite app_nil_r.
Qed.

(** No directory is lost by an export, nor by a run that does not reset;
    a reset keeps the directories when [resetInfo] does. *)
#[export] Instance exportCSV_keeps {J} sys a b data df :
  Keeps (exportCSV (J:=J) sys a b data df).
Proof. unfold exportCSV. cbv zeta. apply _. Qed.

Lemma export_wines_keeps w (verbose reset specify development : bool) :
  (reset = true -> Keeps (w_resetInfo w)) ->
  Keeps (export_wines w verbose reset specify development).
Proof.
  intros H. unfold export_wines. destruct reset; [|apply _].
  specialize (H eq_refl). apply _.
Qed.

#[export] Instance export_reviews_keeps w reviews :
  Keeps (export_reviews w reviews).
Proof. unfold export_reviews. apply _. Qed.

Lemma main_keeps fuel w verbose reset specify development fs fs' out r q :
  (reset = true -> Keeps (w_resetInfo w)) ->
  main fuel w verbose reset specify development fs = Some (fs', out, r) ->
  path_exists fs q -> path_exists fs' q.
Proof.
  intros Hk Hm Hq. unfold main in Hm.
  pose proof (export_wines_keeps w verbose reset specify development Hk fs q
                Hq) as H1.
  destruct (export_wines _ _ _ _ _) as [[fs1 out1] [wineDF|e]]; simpl in *.
  - destruct (reviewsCrawler _ _ _) as [reviews|]; [|done].
    injection Hm as Hm. apply (f_equal (fun x => x.1.1)) in Hm.
    rewrite resume_dirs in Hm. simpl in Hm. subst fs'. by apply keeps.
  - by simplify_eq.
Qed.

(** ** [verbose] *)

(** What a run of [main] leaves behind. *)
Definition observed (r : option (dirs * list (effect unit) * exc unit))
    : option (dirs * list (effect unit) * exc unit) :=
  observe <$> r.

Lemma export_wines_verbose w verbose reset specify development fs :
  observe (export_wines w verbose reset specify development fs)
  = observe (export_wines w false reset specify development fs).
Proof.
  unfold export_wines. apply observe_proc_bind; [done|]. intros _ fs1.
  apply observe_proc_bind; [|done].
  apply observe_say; [apply _..|]. by rewrite !crawl_wines_result.
Qed.

Lemma export_reviews_verbose w (reviews reviews' : logged unit DataFrame) fs :
  Talk reviews -> Talk reviews' -> reviews.2 = reviews'.2 ->
  observe (export_reviews w reviews fs)
  = observe (export_reviews w reviews' fs).
Proof.
  intros H H' E. unfold export_reviews.
  apply observe_proc_bind; [by apply observe_say | done].
Qed.

(** A run with [verbose] and the run without it leave the same behind. *)
Lemma main_quiet fuel w verbose reset specify development fs :
  observed (main fuel w verbose reset specify development fs)
  = observed (main fuel w false reset specify development fs).
Proof.
  unfold main.
  destruct (observe_inv _ _
              (export_wines_verbose w verbose reset specify development fs))
    as (Hd & Hw & Hr).
  destruct (export_wines w verbose _ _ _ fs) as [[fs1 out1] r1].
  destruct (export_wines w false _ _ _ fs) as [[fs2 out2] r2].
  simpl in Hd, Hw, Hr. subst fs2 r2.
  destruct r1 as [wineDF|e]; [|unfold observed, observe; simpl; by rewrite Hw].
  pose proof (reviewsCrawler_verbose verbose fuel (w_server w) wineDF) as Hv.
  pose proof (reviewsCrawler_talks verbose fuel (w_server w) wineDF) as Ht.
  pose proof (reviewsCrawler_talks false fuel (w_server w) wineDF) as Ht'.
  destruct (reviewsCrawler fuel verbose _ _) as [m|],
    (reviewsCrawler fuel false _ _) as [m'|]; try done.
  injection Hv as Hv. unfold observed. simpl. f_equal.
  apply observe_resume; [done|].
  apply export_reviews_verbose; [by apply Ht | by apply Ht' | done].
Qed.

(** C30.  [verbose] changes what is shown and nothing else: two runs of
    [main] that differ in [verbose] only end alike (or both run out of
    fuel), with the same exception if any, the same directories and the
    same files written with the same tables. *)
Theorem main_verbose (fuel : nat) (w : world)
    (verbose verbose' reset specify development : bool) (fs : dirs) :
  observed (main fuel w verbose reset specify development fs)
  = observed (main fuel w verbose' reset specify development fs).
Proof.
  by rewrite (main_quiet _ _ verbose), (main_quiet _ _ verbose').
Qed.

(** C31.  On a system that refuses none of the paths, a complete run of
    [main] without [reset] writes two files, in this order: the wines under
    [out wine <time>.csv] and the reviews under [out reviews <time>.csv],
    with what [reviewsCrawler] shows in between and the last message at the
    end; when the date has not changed between the two exports, the second
    creates no directory. *)
Theorem main_exports (fuel : nat) (w : world) (fs : dirs)
    (verbose specify development : bool) (wineDF reviewsDF : DataFrame)
    (shown : list (effect unit)) :
  (crawl_wines w verbose specify development).2 = Ok wineDF ->
  reviewsCrawler fuel verbose (w_server w) wineDF
  = Some (shown, Ok reviewsDF) ->
  w_checkWineTz w 2%Z [AText "reviews"; ATable reviewsDF] = Ok tt ->
  strftime_dm (w_clock w 2) = strftime_dm (w_clock w 0) ->
  export_permitted w 0 "wine" -> export_permitted w 1 "reviews" ->
  exists fs' made,
    writes made = [] /\ writes shown = [] /\
    main fuel w verbose false specify development fs
    = Some (fs',
            made ++ [WriteCsv (export_name w 0 "wine") wineDF] ++ shown
            ++ [WriteCsv (export_name w 1 "reviews") reviewsDF;
                Print "Dataset exported."],
            Ok tt).
Proof.
  intros Hw Hr Hc Hd P0 P1. rewrite (main_crawled _ _ _ _ _ _ _ Hw), Hr.
  destruct (exportCSV_writes (J:=unit) (w_system w) (w_clock w 0)
              (w_clock w 1) "wine" wineDF fs P0)
    as (fs1 & made & -> & Hmade & Hex & _).
  destruct (exportCSV_writes (J:=unit) (w_system w) (w_clock w 2)
              (w_clock w 3) "reviews" reviewsDF fs1 P1)
    as (fs2 & made2 & E2 & _ & _ & Hid).
  simpl in Hid, E2. rewrite Hd in Hid. destruct (Hid Hex) as [-> ->].
  exists fs1, ((crawl_wines w verbose specify development).1 ++ made).
  split_and!.
  - by rewrite writes_app, talk, (writes_none made).
  - by apply (reviewsCrawler_talks _ _ _ _ _ Hr).
  - simpl. unfold resume, export_reviews.
    rewrite proc_bind_say. cbn [fst snd]. unfold resume.
    rewrite proc_bind_lift, Hc, (proc_bind_Ok _ _ _ _ _ _ E2).
    simpl. by rewrite <- !app_assoc.
Qed.

Lemma main_exports_witness :
  exists fs' made,
    writes made = [] /\
    writes [Progress (BarOpen 2 "reviews" "wine"); Progress (BarUpdate 1);
            Progress (BarUpdate 1); Progress BarClose : effect unit] = [] /\
    main 3 sample_world false false true false []
    = Some (fs',
            made
            ++ [WriteCsv "../out/../out/out 05.10/out wine 10.30.00.csv"
                  (wine_table
                     [[CStr "A"; CInt 2020; CInt 1; CStr "Uno 2020";
                       CFloat 4.2; CInt 120];
                      [CStr "B"; CInt 2021; CInt 2; CStr "Due 2021";
                       CFloat 4.2; CInt 120]])]
            ++ [Progress (BarOpen 2 "reviews" "wine"); Progress (BarUpdate 1);
                Progress (BarUpdate 1); Progress BarClose]
            ++ [WriteCsv "../out/../out/out 05.10/out reviews 10.31.15.csv"
                  {| columns := reviews_frame_columns;
                     rows := List.concat
                       (zip_with rated
                          [[CStr "A"; CInt 2020; CInt 1; CStr "Uno 2020";
                            CFloat 4.2; CInt 120];
                           [CStr "B"; CInt 2021; CInt 2; CStr "Due 2021";
                            CFloat 4.2; CInt 120]]
                          [[[CInt 2020; CInt 1; CFloat 5; CStr "a";
                             CStr "2016-10-05T20:48:41.000Z"];
                            [CInt 2020; CInt 1; CFloat 4; CStr "b";
                             CStr "2016-10-05T20:48:41.000Z"];
                            [CInt 2020; CInt 1; CFloat 3; CStr "c";
                             CStr "2016-10-05T20:48:41.000Z"]];
                           [[CInt 2021; CInt 2; CFloat 2; CStr "d";
                             CStr "2016-10-05T20:48:41.000Z"]]]) |};
                Print "Dataset exported."],
            Ok tt).
Proof.
  apply (main_exports 3 sample_world [] false true false);
    solve [by vm_compute | compute_done].
Defined.

(** C32.  The wines are exported before the reviews are downloaded: a run
    that has exported the wines and fails afterwards (an exception of the
    API, of the check of the reviews, or a refusal of the system at the
    second export) leaves the file of the wines, and only that file. *)
Theorem main_partial_export (fuel : nat) (w : world) (fs fs' : dirs)
    (verbose specify development : bool) (wineDF : DataFrame) out e :
  (crawl_wines w verbose specify development).2 = Ok wineDF ->
  export_permitted w 0 "wine" ->
  main fuel w verbose false specify development fs
  = Some (fs', out, Raise e) ->
  writes out = [WriteCsv (export_name w 0 "wine") wineDF].
Proof.
  intros Hw P0. rewrite (main_crawled _ _ _ _ _ _ _ Hw).
  destruct (exportCSV_writes (J:=unit) (w_system w) (w_clock w 0)
              (w_clock w 1) "wine" wineDF fs P0)
    as (fs1 & made & -> & Hmade & _).
  destruct (reviewsCrawler _ _ _ _) as [reviews|] eqn:Er; [|done]. simpl.
  intros [= Hr].
  pose proof (f_equal (fun x => x.1.2) Hr) as Ho.
  pose proof (f_equal snd Hr) as He. simpl in Ho, He.
  rewrite resume_output in Ho. rewrite resume_result in He. subst out.
  rewrite !writes_app, talk, (writes_none made) by done.
  rewrite (export_reviews_failed _ _ _ _ (reviewsCrawler_talks _ _ _ _ _ Er)
             He).
  done.
Qed.

(** A world whose API fails on every request for reviews. *)
Definition failing_world : world :=
  {| w_server := {| explore := explore sample_server;
                    reviews_of := fun _ _ _ => Raise ConnectionError |};
     w_input := sample_input; w_checkWineTz := no_check;
     w_resetInfo := proc_ret tt;
     w_clock := fun _ => sample_now;
     w_system := reliable |}.

Lemma main_partial_export_witness :
  exists fs' out,
    main 3 failing_world true false true false ["../out"]
    = Some (fs', out, Raise ConnectionError)
    /\ writes out
       = [WriteCsv (csv_name "05.10" "10.30.00" "wine")
            (wine_table [[CStr "A"; CInt 2020; CInt 1; CStr "Uno 2020";
                          CFloat 4.2; CInt 120];
                         [CStr "B"; CInt 2021; CInt 2; CStr "Due 2021";
                          CFloat 4.2; CInt 120]])].
Proof.
  eexists _, _. split; [by vm_compute|].
  apply (main_partial_export 3 failing_world ["../out"]
           ["../out/out 05.10"; "../out"]%string true true false _ _
           ConnectionError); solve [by vm_compute | compute_done].
Defined.

(** A system that refuses every file named [out wine ...]. *)
Definition read_only_world : world :=
  {| w_server := endless_server; w_input := sample_input;
     w_checkWineTz := no_check; w_resetInfo := proc_ret tt;
     w_clock := fun _ => sample_now;
     w_system := fun p =>
       if decide (p = csv_name "05.10" "10.30.00" "wine")
       then Some (PermissionError p) else None |}.

(** C33.  A refusal of the file of the wines ends [main] before any review
    is requested: whatever the fuel, and whatever the API would answer, the
    run ends with the exception of the system and no file is written. *)
Theorem main_wine_refused (fuel : nat) (w : world) (fs : dirs)
    (verbose specify development : bool) (wineDF : DataFrame) (e : pyexc) :
  (crawl_wines w verbose specify development).2 = Ok wineDF ->
  Forall (fun p => w_system w p = None)
    (export_dirs (strftime_dm (w_clock w 0))) ->
  w_system w (export_name w 0 "wine") = Some e ->
  exists fs' made,
    main fuel w verbose false specify development fs
    = Some (fs', made, Raise e)
    /\ writes made = [].
Proof.
  intros Hw Hd Hf. rewrite (main_crawled _ _ _ _ _ _ _ Hw).
  destruct (exportCSV_refused (J:=unit) (w_system w) (w_clock w 0)
              (w_clock w 1) "wine" wineDF fs e Hd Hf)
    as (fs' & made & -> & Hm).
  exists fs', ((crawl_wines w verbose specify development).1 ++ made).
  split; [done|]. by rewrite writes_app, talk, (writes_none made).
Qed.

Lemma main_wine_refused_witness :
  exists fs' made,
    main 0 read_only_world false false false true []
    = Some (fs', made,
            Raise (PermissionError
                     "../out/../out/out 05.10/out wine 10.30.00.csv"))
    /\ writes made = [].
Proof.
  apply (main_wine_refused 0 read_only_world [] false false true
           (wine_table [[CStr "A"; CInt 2020; CInt 1; CStr "Uno 2020";
                         CFloat 4.2; CInt 120];
                        [CStr "B"; CInt 2021; CInt 2; CStr "Due 2021";
                         CFloat 4.2; CInt 120]]));
    solve [by vm_compute | compute_done].
Defined.
