(* ===== verification/Samples.v ===== *)
(** * Sample tables

    Small concrete tables in the shape the source documents
    ([src/data/dataLoad.py], lines 8-61): the three input tables
    [reviews.csv], [wine.csv] and [style.csv], and the joined table that
    [setHierarchy] receives.  The theorems of the other files are applied to
    them, and the scenarios of the specification are evaluated on them. *)

From Stdlib Require Import ZArith QArith String List.
From stdpp Require Import base tactics option numbers list strings.
From S2P Require Import Prelude Groupby Cell Frame.

#[local] Open Scope string_scope.

(** The header of the joined table (line 40 of the source). *)
Definition merged_columns : list string :=
  ["idRev"; "Language"; "User Rating"; "Note"; "CreatedAt";
   "wine_ID"; "wine_Winery"; "wine_Name"; "wine_Year"; "wine_Rating";
   "wine_Rates count"; "wine_Type"; "wine_Price";
   "style_ID"; "style_Region"; "style_Description"; "style_Nation"].

(** One joined row: a review, its wine, the style of the wine. *)
Definition merged_row (idRev : Z) (lang : string) (rating : Q) (note : string)
    (wine : Z) (winery name : string) (year type : Z)
    (style : Z) (region descr nation : string) : list cell :=
  [CInt idRev; CStr lang; CFloat rating; CStr note;
   CStr "2016-10-05T20:48:41.000Z";
   CInt wine; CStr winery; CStr name; CInt year; CFloat 4.5;
   CInt 16; CInt type; CFloat 8.75;
   CInt style; CStr region; CStr descr; CStr nation].

(** Scenario A: one wine (id 123, type 1, style 47), one review in Italian
    with rating 5. *)
Definition joined_A : DataFrame :=
  {| columns := merged_columns;
     rows := [merged_row 1 "it" 5 "ottimo" 123 "Ducato Grazioli"
                "Petit Verdot" 2021 1 47 "Italia centrale" "" "it"] |}.

(** Scenario B: two wines of style 47, one of type 1 and one of type 2. *)
Definition joined_B : DataFrame :=
  {| columns := merged_columns;
     rows := [merged_row 1 "it" 5 "ottimo" 123 "Ducato Grazioli"
                "Petit Verdot" 2021 2 47 "Italia centrale" "" "it";
              merged_row 2 "en" 4 "fine" 124 "Cantina" "Rosso" 2019 1 47
                "Italia centrale" "" "it"] |}.

(** Five reviews of three wines in two styles and two types, out of order;
    wine 7 has three reviews that are not adjacent. *)
Definition joined_mixed : DataFrame :=
  {| columns := merged_columns;
     rows := [merged_row 1 "it" 5 "a" 7 "W" "Seven" 2020 2 47 "R47" "d" "it";
              merged_row 2 "en" 4 "b" 3 "V" "Three" 2018 1 12 "R12" "e" "fr";
              merged_row 3 "en" 3 "c" 7 "W" "Seven" 2020 2 47 "R47" "d" "it";
              merged_row 4 "it" 2 "d" 5 "U" "Five" 2019 2 47 "R47" "d" "it";
              merged_row 5 "it" 1 "e" 7 "W" "Seven" 2020 2 47 "R47" "d" "it"] |}.

(** The joined table with a header and no row. *)
Definition joined_empty : DataFrame :=
  {| columns := merged_columns; rows := [] |}.

(** Two wines of one style whose rows disagree on the region of the style. *)
Definition joined_disagree : DataFrame :=
  {| columns := merged_columns;
     rows := [merged_row 1 "it" 5 "a" 3 "V" "Three" 2018 1 47 "first" "" "it";
              merged_row 2 "en" 4 "b" 9 "W" "Nine" 2020 1 47 "second" "" "it"] |}.

(** The row of [joined_A] with the wine identifier missing: a table that did
    not go through [fillna]. *)
Definition joined_nan_wine : DataFrame :=
  {| columns := merged_columns;
     rows := [<[5 := CNaN]>
                (merged_row 1 "it" 5 "ottimo" 123 "Ducato Grazioli"
                   "Petit Verdot" 2021 1 47 "Italia centrale" "" "it")] |}.

(** Two styles of type 1; the only row of the second style (47) has no wine
    identifier. *)
Definition joined_stale : DataFrame :=
  {| columns := merged_columns;
     rows := [merged_row 1 "it" 5 "a" 3 "V" "Three" 2018 1 12 "R12" "e" "fr";
              <[5 := CNaN]>
                (merged_row 2 "en" 4 "b" 9 "W" "Nine" 2020 1 47 "R47" "d"
                   "it")] |}.

(** The row of [joined_A] after [fillna] when the year was missing. *)
Definition joined_no_year : DataFrame :=
  {| columns := merged_columns;
     rows := [<[8 := CStr ""]>
                (merged_row 1 "it" 5 "ottimo" 123 "Ducato Grazioli"
                   "Petit Verdot" 2021 1 47 "Italia centrale" "" "it")] |}.

(** A table without the column of the type. *)
Definition joined_no_type : DataFrame :=
  {| columns := ["idRev"; "Language"; "wine_ID"];
     rows := [[CInt 1; CStr "it"; CInt 123]] |}.

(** A joined table without the column of the notes. *)
Definition dropped_note (df : DataFrame) : DataFrame :=
  {| columns := filter (fun c => c <> "Note") (columns df);
     rows := map (fun r => (firstn 3 r ++ skipn 4 r)%list) (rows df) |}.

(** Two reviews of one wine; the year of the first row is not a number. *)
Definition joined_unread_year : DataFrame :=
  {| columns := merged_columns;
     rows := [<[8 := CStr "n.d."]>
                (merged_row 1 "it" 5 "a" 7 "W" "Seven" 2020 2 47 "R47" "d"
                   "it");
              merged_row 3 "en" 3 "c" 7 "W" "Seven" 2020 2 47 "R47" "d"
                "it"] |}.

(** The same with the year of the last row not a number. *)
Definition joined_bad_year : DataFrame :=
  {| columns := merged_columns;
     rows := [merged_row 1 "it" 5 "a" 7 "W" "Seven" 2020 2 47 "R47" "d" "it";
              <[8 := CStr "n.d."]>
                (merged_row 3 "en" 3 "c" 7 "W" "Seven" 2020 2 47 "R47" "d"
                   "it")] |}.
