(* ===== verification/Hierarchy.v ===== *)
(** * The hierarchy: type -> style -> wine -> reviews

    [setHierarchy] of [src/data/dataLoad.py] (lines 63-120), translated
    statement by statement.  The four nested [for] loops are [foldlM]s over
    the groups of [df_groupby] and over the rows of [iterrows]; each appends
    one dictionary to a list.  The dictionaries are records with the keys of
    the source as fields.

    Python's loop variables outlive their loop, and the source relies on it:
    the fields of a wine are read from [row] after the loop over the rows of
    the wine, and the fields of a style from [wineGroup] after the loop over
    the wines of the style.  The translation keeps both variables in
    [locals] and threads them through all loops; reading one that was never
    assigned raises [UnboundLocalError], as in Python.

    [hierarchy_spec] is the same document computed without state: the fields
    of a wine come from the last row of its group, those of a style from the
    first row of the last wine group of the style.  [setHierarchy_refines]
    proves the two equal on every table that is rectangular and has no
    missing value, which is what [loadStructure] passes. *)

From Stdlib Require Import ZArith QArith String List.
From stdpp Require Import base tactics option numbers list strings.
From S2P Require Import Prelude Groupby Cell Frame Samples.

(** ** The document *)

Record review_data : Type := mk_review {
  Language : cell;
  User_Rating : cell;
  Note : cell;
  CreatedAt : cell
}.

Record wine_data : Type := mk_wine {
  wine_ID : Z;
  wine_Winery : cell;
  wine_Name : cell;
  wine_Year : Z;
  wine_Rating : cell;
  wine_Rates_count : cell;
  wine_Price : cell;
  reviews : list review_data
}.

Record style_data : Type := mk_style {
  style_ID : Z;
  style_Region : cell;
  style_Description : cell;
  style_Nation : cell;
  wines : list wine_data
}.

Record type_data : Type := mk_type {
  wine_Type : Z;
  styles : list style_data
}.

Record output_json : Type := mk_output {
  wine_types : list type_data
}.

#[export] Instance review_data_eq_dec : EqDecision review_data.
Proof. solve_decision. Defined.
#[export] Instance wine_data_eq_dec : EqDecision wine_data.
Proof. solve_decision. Defined.
#[export] Instance style_data_eq_dec : EqDecision style_data.
Proof. solve_decision. Defined.
#[export] Instance type_data_eq_dec : EqDecision type_data.
Proof. solve_decision. Defined.
#[export] Instance output_json_eq_dec : EqDecision output_json.
Proof. solve_decision. Defined.

(** ** The local variables that outlive their loop *)

Record locals : Type := mk_locals {
  v_row : option Series;
  v_wineGroup : option DataFrame
}.

Definition no_locals : locals := {| v_row := None; v_wineGroup := None |}.

Definition set_row (row : Series) (env : locals) : locals :=
  {| v_row := Some row; v_wineGroup := v_wineGroup env |}.

Definition set_wineGroup (g : DataFrame) (env : locals) : locals :=
  {| v_row := v_row env; v_wineGroup := Some g |}.

(** Reading a local variable. *)
Definition read_var {A} (name : string) (v : option A) : exc A :=
  of_option (UnboundLocalError name) v.

(** ** The dictionaries *)

(** Lines 81-86: the dictionary of one review. *)
Definition review_fields (row : Series) : exc review_data :=
  language <- series_get row "Language" ;;
  user_rating <- series_get row "User Rating" ;;
  note <- series_get row "Note" ;;
  created_at <- series_get row "CreatedAt" ;;
  Ok {| Language := language; User_Rating := user_rating; Note := note;
        CreatedAt := created_at |}.

(** Lines 89-98: the dictionary of one wine, read from the variable [row]. *)
Definition wine_fields (v : option Series) (revs : list review_data)
    : exc wine_data :=
  row <- read_var "row" v ;;
  c_id <- series_get row "wine_ID" ;;
  id <- py_int c_id ;;
  winery <- series_get row "wine_Winery" ;;
  name <- series_get row "wine_Name" ;;
  c_year <- series_get row "wine_Year" ;;
  year <- py_int c_year ;;
  rating <- series_get row "wine_Rating" ;;
  rates_count <- series_get row "wine_Rates count" ;;
  price <- series_get row "wine_Price" ;;
  Ok {| wine_ID := id; wine_Winery := winery; wine_Name := name;
        wine_Year := year; wine_Rating := rating;
        wine_Rates_count := rates_count; wine_Price := price;
        reviews := revs |}.

(** [wineGroup[c].iloc[0]]. *)
Definition first_of (g : DataFrame) (c : string) : exc cell :=
  col <- column g c ;; iloc0 col.

(** Lines 101-107: the dictionary of one style, read from [styleName] and
    from the variable [wineGroup]. *)
Definition style_fields (styleName : cell) (v : option DataFrame)
    (lWines : list wine_data) : exc style_data :=
  id <- py_int styleName ;;
  wineGroup <- read_var "wineGroup" v ;;
  region <- first_of wineGroup "style_Region" ;;
  description <- first_of wineGroup "style_Description" ;;
  nation <- first_of wineGroup "style_Nation" ;;
  Ok {| style_ID := id; style_Region := region;
        style_Description := description; style_Nation := nation;
        wines := lWines |}.

(** Lines 110-113: the dictionary of one type. *)
Definition type_fields (typeName : cell) (lStyle : list style_data)
    : exc type_data :=
  id <- py_int typeName ;;
  Ok {| wine_Type := id; styles := lStyle |}.

(** ** The loops *)

(** Lines 80-87: one round of [for index, row in wineGroup.iterrows()]. *)
Definition review_body (st : list review_data * locals) (row : Series)
    : exc (list review_data * locals) :=
  review <- review_fields row ;;
  Ok (st.1 ++ [review], set_row row st.2).

(** Lines 77-99: one round of [for wineName, wineGroup in gWines]. *)
Definition wine_body (st : list wine_data * locals) (wg : cell * DataFrame)
    : exc (list wine_data * locals) :=
  '(revs, env) <- foldlM review_body ([], set_wineGroup wg.2 st.2)
                    (iterrows wg.2) ;;
  wine <- wine_fields (v_row env) revs ;;
  Ok (st.1 ++ [wine], env).

(** Lines 72-108: one round of [for styleName, styleGroup in gStyle]. *)
Definition style_body (st : list style_data * locals) (sg : cell * DataFrame)
    : exc (list style_data * locals) :=
  gWines <- df_groupby sg.2 "wine_ID" ;;
  '(lWines, env) <- foldlM wine_body ([], st.2) gWines ;;
  style <- style_fields sg.1 (v_wineGroup env) lWines ;;
  Ok (st.1 ++ [style], env).

(** Lines 68-114: one round of [for typeName, typeGroup in gType]. *)
Definition type_body (st : list type_data * locals) (tg : cell * DataFrame)
    : exc (list type_data * locals) :=
  gStyle <- df_groupby tg.2 "style_ID" ;;
  '(lStyle, env) <- foldlM style_body ([], st.2) gStyle ;;
  type <- type_fields tg.1 lStyle ;;
  Ok (st.1 ++ [type], env).

(** Lines 63-120. *)
Definition setHierarchy (df : DataFrame) : exc output_json :=
  gType <- df_groupby df "wine_Type" ;;
  '(lType, _) <- foldlM type_body ([], no_locals) gType ;;
  Ok {| wine_types := lType |}.

(** ** The document without state *)

Definition wine_of (wg : cell * DataFrame) : exc wine_data :=
  revs <- mapM review_fields (iterrows wg.2) ;;
  wine_fields (last (iterrows wg.2)) revs.

Definition style_of (sg : cell * DataFrame) : exc style_data :=
  gWines <- df_groupby sg.2 "wine_ID" ;;
  lWines <- mapM wine_of gWines ;;
  style_fields sg.1 (snd <$> last gWines) lWines.

Definition type_of (tg : cell * DataFrame) : exc type_data :=
  gStyle <- df_groupby tg.2 "style_ID" ;;
  lStyle <- mapM style_of gStyle ;;
  type_fields tg.1 lStyle.

Definition hierarchy_spec (df : DataFrame) : exc output_json :=
  gType <- df_groupby df "wine_Type" ;;
  lType <- mapM type_of gType ;;
  Ok {| wine_types := lType |}.

(** The assignments one round of each loop leaves behind. *)
Definition upd_row (env : locals) (row : Series) : locals := set_row row env.

Definition upd_wine (env : locals) (wg : cell * DataFrame) : locals :=
  fold_left upd_row (iterrows wg.2) (set_wineGroup wg.2 env).

Definition upd_style (env : locals) (sg : cell * DataFrame) : locals :=
  match df_groupby sg.2 "wine_ID" with
  | Ok gWines => fold_left upd_wine gWines env
  | Raise _ => env
  end.

Definition upd_type (env : locals) (tg : cell * DataFrame) : locals :=
  match df_groupby tg.2 "style_ID" with
  | Ok gStyle => fold_left upd_style gStyle env
  | Raise _ => env
  end.

(** ** The loops compute the document without state *)

Lemma fold_left_upd_row l env :
  fold_left upd_row l env
  = {| v_row := from_option Some (v_row env) (last l);
       v_wineGroup := v_wineGroup env |}.
Proof.
  revert env. induction l as [|r l IH]; intros env.
  - destruct env. reflexivity.
  - simpl fold_left. rewrite IH. simpl. f_equal.
    destruct l as [|r' l']; [done|]. rewrite last_cons_cons.
    by destruct (last_is_Some (r' :: l')) as [x ->].
Qed.

(** After the rows of a wine with at least one row, [row] is its last row
    and [wineGroup] its table. *)
Lemma upd_wine_populated env wg :
  rows wg.2 <> [] ->
  upd_wine env wg
  = {| v_row := last (iterrows wg.2); v_wineGroup := Some wg.2 |}.
Proof.
  intros Hne. unfold upd_wine. rewrite fold_left_upd_row. simpl. f_equal.
  destruct (last_is_Some (iterrows wg.2)) as [r Hr];
    [by rewrite iterrows_nil | by rewrite Hr].
Qed.

Lemma review_body_collects row : collects review_body review_fields upd_row row.
Proof. intros acc env. reflexivity. Qed.

Lemma wine_body_collects wg :
  rows wg.2 <> [] -> collects wine_body wine_of upd_wine wg.
Proof.
  intros Hne acc env. unfold wine_body, wine_of.
  rewrite (foldlM_collect review_body review_fields upd_row)
    by (apply Forall_forall; intros; apply review_body_collects).
  destruct (mapM review_fields (iterrows wg.2)); simpl; [|done].
  change (fold_left upd_row _ _) with (upd_wine env wg).
  by rewrite upd_wine_populated.
Qed.

Lemma fold_left_upd_wine gWines env wg :
  Forall (fun wg => rows wg.2 <> []) gWines ->
  last gWines = Some wg ->
  fold_left upd_wine gWines env
  = {| v_row := last (iterrows wg.2); v_wineGroup := Some wg.2 |}.
Proof.
  intros Hall Hlast.
  assert (rows wg.2 <> []) as Hne.
  { rewrite Forall_forall in Hall. by apply Hall, last_elem_of. }
  revert env. induction gWines as [|wg' [|wg'' l] IH]; intros env; [done| |].
  - simpl in *. simplify_eq. by apply upd_wine_populated.
  - simpl fold_left. apply IH; [by eapply Forall_inv_tail | done].
Qed.

Lemma style_body_collects sg :
  populated sg.2 -> collects style_body style_of upd_style sg.
Proof.
  intros Hpop acc env. unfold style_body, style_of, upd_style.
  destruct (df_groupby sg.2 "wine_ID") as [gWines|e] eqn:E; simpl; [|done].
  destruct (df_groupby_populated _ _ _ Hpop E) as [Hne Hall].
  assert (Forall (fun wg : cell * DataFrame => rows wg.2 <> []) gWines) as Hr.
  { eapply Forall_impl; [exact Hall|]. by intros ? (_ & _ & ?). }
  rewrite (foldlM_collect wine_body wine_of upd_wine)
    by (eapply Forall_impl; [exact Hr | apply wine_body_collects]).
  destruct (mapM wine_of gWines) as [lWines|e]; simpl; [|done].
  destruct (last_is_Some gWines Hne) as [wg Hwg].
  rewrite (fold_left_upd_wine gWines env wg Hr Hwg), Hwg. simpl.
  by destruct (style_fields _ _ _).
Qed.

Lemma type_body_collects tg :
  populated tg.2 -> collects type_body type_of upd_type tg.
Proof.
  intros Hpop acc env. unfold type_body, type_of, upd_type.
  destruct (df_groupby tg.2 "style_ID") as [gStyle|e] eqn:E; simpl; [|done].
  destruct (df_groupby_populated _ _ _ Hpop E) as [_ Hall].
  rewrite (foldlM_collect style_body style_of upd_style)
    by (eapply Forall_impl; [exact Hall | apply style_body_collects]).
  destruct (mapM style_of gStyle) as [lStyle|e]; simpl; [|done].
  by destruct (type_fields _ _).
Qed.

(** The loops and the stateless document agree on every clean table. *)
Lemma loops_compute_spec (df : DataFrame) :
  df_wf df -> no_nan df -> setHierarchy df = hierarchy_spec df.
Proof.
  intros Hwf Hnan. unfold setHierarchy, hierarchy_spec.
  destruct (df_groupby df "wine_Type") as [gType|e] eqn:E; simpl; [|done].
  pose proof (df_groupby_clean df _ gType Hwf Hnan E) as Hall.
  rewrite (foldlM_collect type_body type_of upd_type)
    by (eapply Forall_impl; [exact Hall | apply type_body_collects]).
  by destruct (mapM type_of gType).
Qed.

(** C1.  Refinement: on a table that is rectangular and has no missing value,
    the four nested loops of [setHierarchy], with the variables [row] and
    [wineGroup] that they leave behind, compute exactly the document of
    [hierarchy_spec], and raise exactly the exception it raises. *)
Theorem setHierarchy_refines (df : DataFrame) :
  df_wf df -> no_nan df -> setHierarchy df = hierarchy_spec df.
Proof. apply loops_compute_spec. Qed.

Lemma setHierarchy_refines_witness :
  setHierarchy joined_mixed = hierarchy_spec joined_mixed.
Proof. apply setHierarchy_refines; compute_done. Defined.

(** ** Exceptions *)

(** A table without the column [wine_Type] makes the first [groupby]
    raise [KeyError]; nothing is returned. *)
Theorem setHierarchy_KeyError (df : DataFrame) :
  "wine_Type" ∉ columns df -> setHierarchy df = Raise (KeyError "wine_Type").
Proof. intros Hc. unfold setHierarchy. by rewrite df_groupby_missing. Qed.

Lemma setHierarchy_KeyError_witness :
  setHierarchy joined_no_type = Raise (KeyError "wine_Type").
Proof. apply setHierarchy_KeyError. compute_done. Defined.

(** An empty join is a valid run: on a table with the column
    [wine_Type] and no row, the document has no type node and no exception
    is raised, whatever other columns the table has. *)
Theorem setHierarchy_empty (df : DataFrame) :
  "wine_Type" ∈ columns df -> rows df = [] ->
  setHierarchy df = Ok {| wine_types := [] |}.
Proof.
  intros Hc Hrows. unfold setHierarchy.
  rewrite df_groupby_Ok, Hrows by done. reflexivity.
Qed.

Lemma setHierarchy_empty_witness :
  setHierarchy joined_empty = Ok {| wine_types := [] |}.
Proof. apply setHierarchy_empty; [compute_done | reflexivity]. Defined.

(** *** No variable is read before it is assigned *)

Lemma never_unbound_series_get row c : never is_unbound (series_get row c).
Proof. unfold series_get. never_step. Qed.

Lemma never_unbound_py_int c : never is_unbound (py_int c).
Proof. destruct c; simpl; never_step. Qed.

Lemma never_unbound_column g c : never is_unbound (column g c).
Proof. unfold column. case_decide; never_step. Qed.

Lemma never_unbound_iloc0 col : never is_unbound (iloc0 col).
Proof. unfold iloc0. never_step. Qed.

Lemma never_unbound_first_of g c : never is_unbound (first_of g c).
Proof.
  unfold first_of. apply never_bind; [apply never_unbound_column|].
  intros; apply never_unbound_iloc0.
Qed.

Lemma never_unbound_df_groupby df c : never is_unbound (df_groupby df c).
Proof. unfold df_groupby. case_decide; never_step. Qed.

#[export] Hint Resolve never_unbound_series_get never_unbound_py_int
  never_unbound_column never_unbound_iloc0 never_unbound_first_of
  never_unbound_df_groupby : py.

Ltac never_unbound := repeat first [never_step | solve [auto with py]].

Lemma never_unbound_review_fields row : never is_unbound (review_fields row).
Proof. unfold review_fields. never_unbound. Qed.

Lemma never_unbound_wine_fields row revs :
  never is_unbound (wine_fields (Some row) revs).
Proof. unfold wine_fields. simpl. never_unbound. Qed.

Lemma never_unbound_style_fields name g lWines :
  never is_unbound (style_fields name (Some g) lWines).
Proof. unfold style_fields, read_var. simpl. never_unbound. Qed.

Lemma never_unbound_wine_of wg : rows wg.2 <> [] -> never is_unbound (wine_of wg).
Proof.
  intros Hne. unfold wine_of.
  destruct (last_is_Some (iterrows wg.2)) as [row ->];
    [by rewrite iterrows_nil|].
  apply never_bind; [|intros; apply never_unbound_wine_fields].
  apply never_mapM, Forall_forall. intros; apply never_unbound_review_fields.
Qed.

Lemma never_unbound_style_of sg : populated sg.2 -> never is_unbound (style_of sg).
Proof.
  intros Hpop. unfold style_of.
  apply never_bind; [auto with py|]. intros gWines E.
  destruct (df_groupby_populated _ _ _ Hpop E) as [Hne Hall].
  destruct (last_is_Some gWines Hne) as [wg ->]. simpl.
  apply never_bind; [|intros; apply never_unbound_style_fields].
  apply never_mapM. eapply Forall_impl; [exact Hall|].
  intros wg' (_ & _ & ?). by apply never_unbound_wine_of.
Qed.

Lemma never_unbound_type_of tg : populated tg.2 -> never is_unbound (type_of tg).
Proof.
  intros Hpop. unfold type_of, type_fields.
  apply never_bind; [auto with py|]. intros gStyle E.
  destruct (df_groupby_populated _ _ _ Hpop E) as [_ Hall].
  apply never_bind; [|intros; never_unbound].
  apply never_mapM. eapply Forall_impl; [exact Hall|].
  intros sg. apply never_unbound_style_of.
Qed.

(** C11.  Safety of the loop variables: on a table that is rectangular and
    has no missing value, [setHierarchy] never reads [row] or [wineGroup]
    before a loop has assigned it; it raises no [UnboundLocalError]. *)
Theorem setHierarchy_never_unbound (df : DataFrame) :
  df_wf df -> no_nan df -> never is_unbound (setHierarchy df).
Proof.
  intros Hwf Hnan. rewrite loops_compute_spec by done. unfold hierarchy_spec.
  apply never_bind; [auto with py|]. intros gType E.
  apply never_bind; [|intros; never_unbound].
  apply never_mapM. eapply Forall_impl; [by eapply df_groupby_clean|].
  intros tg. apply never_unbound_type_of.
Qed.

Lemma setHierarchy_never_unbound_witness :
  never is_unbound (setHierarchy joined_no_year).
Proof. apply setHierarchy_never_unbound; compute_done. Defined.

(** Without [fillna] the guarantee is lost.  A style whose rows all lack the
    wine identifier has no wine group; if it is the first style, reading
    [wineGroup] fails. *)
Example setHierarchy_unbound_without_fillna :
  setHierarchy joined_nan_wine = Raise (UnboundLocalError "wineGroup").
Proof. by vm_compute. Qed.

(** If it is a later style, [wineGroup] still holds the last wine of the
    style before: the node of style 47 gets the region of style 12 and no
    wine. *)
Example setHierarchy_stale_without_fillna :
  exc_map (fun h => (fun s => (style_ID s, style_Region s, wines s)) <$>
                      (head (wine_types h) ≫= fun t => last (styles t)))
    (setHierarchy joined_stale)
  = Ok (Some (47%Z, CStr "R12", [])).
Proof. by vm_compute. Qed.

(** A year that is missing in [wine.csv] is the empty string after
    [fillna], and [int('')] ends the run. *)
Example setHierarchy_ValueError :
  setHierarchy joined_no_year
  = Raise (ValueError "invalid literal for int() with base 10" (Some "")).
Proof. by vm_compute. Qed.

(** ** The scenarios of the specification *)

(** Scenario A: one review of one wine gives one type node holding one style
    node holding one wine node holding the review. *)
Example scenario_A :
  setHierarchy joined_A
  = Ok {| wine_types :=
      [ {| wine_Type := 1; styles :=
          [ {| style_ID := 47; style_Region := CStr "Italia centrale";
               style_Description := CStr ""; style_Nation := CStr "it";
               wines :=
                 [ {| wine_ID := 123; wine_Winery := CStr "Ducato Grazioli";
                      wine_Name := CStr "Petit Verdot"; wine_Year := 2021;
                      wine_Rating := CFloat 4.5; wine_Rates_count := CInt 16;
                      wine_Price := CFloat 8.75;
                      reviews :=
                        [ {| Language := CStr "it"; User_Rating := CFloat 5;
                             Note := CStr "ottimo";
                             CreatedAt := CStr "2016-10-05T20:48:41.000Z" |} ]
                   |} ] |} ] |} ] |}.
Proof. by vm_compute. Qed.

(** Scenario B: one style code under two types gives two style nodes, one
    under each type, each with its own wine. *)
Example scenario_B :
  exc_map (fun h => (fun t => (wine_Type t,
                       (fun s => (style_ID s, wine_ID <$> wines s))
                         <$> styles t)) <$> wine_types h)
    (setHierarchy joined_B)
  = Ok [(1, [(47, [124])]); (2, [(47, [123])])]%Z.
Proof. by vm_compute. Qed.

(** Scenario D: a style without description carries the empty string in
    [style_Description]; the field is present and nothing is raised. *)
Example scenario_D :
  exc_map (fun h => t ← head (wine_types h); s ← head (styles t);
                    Some (style_Description s))
    (setHierarchy joined_A)
  = Ok (Some (CStr "")).
Proof. by vm_compute. Qed.

(** ** A missing column *)

(** The labels in the order in which a run first reads them: the three
    grouping columns, then the fields of the first review. *)
Definition review_labels : list string :=
  ["Language"; "User Rating"; "Note"; "CreatedAt"].

Definition read_order : list string :=
  "wine_Type" :: "style_ID" :: "wine_ID" :: review_labels.

(** The first of [labels] that is no column. *)
Definition first_missing (cols labels : list string) : option string :=
  head (filter (fun c => c ∉ cols) labels).

Lemma first_missing_in cols l ls :
  l ∈ cols -> first_missing cols (l :: ls) = first_missing cols ls.
Proof. intros H. unfold first_missing. by rewrite filter_cons, decide_False by tauto. Qed.

Lemma first_missing_out cols l ls :
  l ∉ cols -> first_missing cols (l :: ls) = Some l.
Proof. intros H. unfold first_missing. by rewrite filter_cons, decide_True. Qed.

(** Reads the next label: it is a column and the read returns a cell, or it
    is the missing one. *)
Ltac read_label H Hlen :=
  match goal with
  | |- context [series_get (zip ?cols ?r) ?l] =>
      destruct (decide (l ∈ cols)) as [Hin|Hout];
      [ rewrite (first_missing_in cols l) in H by done;
        let v := fresh "v" in
        let Hv := fresh "Hv" in
        destruct (cell_of_is_Some cols l r Hin Hlen) as [v Hv];
        rewrite (series_get_zip cols l r), Hv; cbn [of_option exc_bind];
        clear Hin
      | rewrite (first_missing_out cols l) in H by done;
        injection H as <-;
        by rewrite (series_get_missing cols l r) ]
  end.

Lemma review_fields_missing cols r c :
  length r = length cols -> first_missing cols review_labels = Some c ->
  review_fields (zip cols r) = Raise (KeyError c).
Proof.
  intros Hlen H. unfold review_fields, review_labels in *.
  do 4 (read_label H Hlen). done.
Qed.

Lemma mapM_Raise_head {A B} (f : A -> exc B) x l e :
  f x = Raise e -> mapM f (x :: l) = Raise e.
Proof. intros H. simpl. by rewrite H. Qed.

Lemma wine_of_missing wg c :
  populated wg.2 -> first_missing (columns wg.2) review_labels = Some c ->
  wine_of wg = Raise (KeyError c).
Proof.
  intros ([_ Hlen] & _ & Hne) H. unfold wine_of, iterrows.
  destruct (rows wg.2) as [|r rs]; [done|].
  apply Forall_cons in Hlen as [Hr _]. cbn [map].
  by rewrite (mapM_Raise_head _ _ _ (KeyError c))
    by by apply review_fields_missing.
Qed.

(** On a populated table, the loop over the groups of column [c] raises
    what its body raises on every group. *)
Lemma first_group_raises {B} df c (f : cell * DataFrame -> exc B) e :
  populated df -> c ∈ columns df ->
  (forall g, populated g.2 -> columns g.2 = columns df -> f g = Raise e) ->
  (gs <- df_groupby df c ;; mapM f gs) = Raise e.
Proof.
  intros Hpop Hc Hf. destruct (df_groupby df c) as [gs|] eqn:E.
  - destruct (df_groupby_populated df c gs Hpop E) as [Hne Hall].
    apply df_groupby_Ok_inv in E as [_ E].
    assert (Forall (fun g => columns g.2 = columns df) gs) as Hcols.
    { rewrite E. by apply Forall_map, Forall_true. }
    destruct gs as [|g gs]; [done|]. apply Forall_cons in Hall as [Hg _].
    apply Forall_cons in Hcols as [Hcols _]. simpl. by rewrite Hf.
  - apply df_groupby_Ok in Hc. congruence.
Qed.

(** And so does what follows the loop. *)
Lemma level_raises {B C} df c (f : cell * DataFrame -> exc B)
    (k : list (cell * DataFrame) -> list B -> exc C) e :
  populated df -> c ∈ columns df ->
  (forall g, populated g.2 -> columns g.2 = columns df -> f g = Raise e) ->
  (gs <- df_groupby df c ;; bs <- mapM f gs ;; k gs bs) = Raise e.
Proof.
  intros Hpop Hc Hf. pose proof (first_group_raises df c f e Hpop Hc Hf) as E.
  destruct (df_groupby df c) as [gs|e']; simpl in *.
  - by rewrite E.
  - by injection E as ->.
Qed.

(** One level of the hierarchy: the column of the level is missing, or the
    level below raises on every group. *)
Lemma level_missing {B C} df l ls (f : cell * DataFrame -> exc B)
    (k : list (cell * DataFrame) -> list B -> exc C) c :
  populated df -> first_missing (columns df) (l :: ls) = Some c ->
  (forall g, populated g.2 -> first_missing (columns g.2) ls = Some c ->
             f g = Raise (KeyError c)) ->
  (gs <- df_groupby df l ;; bs <- mapM f gs ;; k gs bs) = Raise (KeyError c).
Proof.
  intros Hpop H Hf. destruct (decide (l ∈ columns df)) as [Hin|Hout].
  - rewrite first_missing_in in H by done. apply level_raises; [done..|].
    intros g Hg Hcols. apply Hf; [done | by rewrite Hcols].
  - rewrite first_missing_out in H by done. injection H as <-.
    by rewrite df_groupby_missing.
Qed.

Lemma style_of_missing sg c :
  populated sg.2 ->
  first_missing (columns sg.2) ("wine_ID" :: review_labels) = Some c ->
  style_of sg = Raise (KeyError c).
Proof.
  intros Hpop H. unfold style_of.
  apply (level_missing sg.2 "wine_ID" review_labels wine_of
           (fun gWines lWines => style_fields sg.1 (snd <$> last gWines) lWines));
    auto using wine_of_missing.
Qed.

Lemma type_of_missing tg c :
  populated tg.2 ->
  first_missing (columns tg.2) ("style_ID" :: "wine_ID" :: review_labels)
  = Some c ->
  type_of tg = Raise (KeyError c).
Proof.
  intros Hpop H. unfold type_of.
  apply (level_missing tg.2 "style_ID" ("wine_ID" :: review_labels) style_of
           (fun _ lStyle => type_fields tg.1 lStyle));
    auto using style_of_missing.
Qed.

Lemma hierarchy_spec_missing df c :
  populated df -> first_missing (columns df) read_order = Some c ->
  hierarchy_spec df = Raise (KeyError c).
Proof.
  intros Hpop H. unfold hierarchy_spec.
  apply (level_missing df "wine_Type"
           ("style_ID" :: "wine_ID" :: review_labels) type_of
           (fun _ lType => Ok {| wine_types := lType |}));
    auto using type_of_missing.
Qed.

(** C17.  A required column that is absent is fatal: on a table with a row and
    without missing values, [setHierarchy] raises [KeyError] with the first
    label, in the order in which a run reads them (the three grouping
    columns, then the four fields of a review), that is no column of the
    table; no default is substituted and nothing is returned. *)
Theorem setHierarchy_missing_column (df : DataFrame) (c : string) :
  populated df -> first_missing (columns df) read_order = Some c ->
  setHierarchy df = Raise (KeyError c).
Proof.
  intros Hpop H. destruct Hpop as (Hwf & Hnan & Hne).
  rewrite loops_compute_spec by done. by apply hierarchy_spec_missing.
Qed.

Lemma setHierarchy_missing_column_witness :
  setHierarchy (dropped_note joined_A) = Raise (KeyError "Note").
Proof. apply setHierarchy_missing_column; [compute_done | reflexivity]. Defined.
