(* ===== verification/Document.v ===== *)
(** * The document in closed form

    What [setHierarchy] returns on the table that [loadStructure] builds:
    the columns of the joined table are present (lines 40-59 of
    [src/data/dataLoad.py]) and nothing is missing.

    When the three identifiers are integers ([keyed]) the only conversion
    that can fail is [int] of the year of a wine, and the result is
    [document_or_error]: a node per distinct type, style and wine in
    ascending order of the identifier, or the exception of the first year
    that [int] refuses.  When the year is an integer too ([typed]) no
    exception is raised and the result is [document].

    [setHierarchy_document] proves it.  The properties of the output that the
    specification lists (ordering, completeness of the partition, the count
    of reviews) are then theorems about [document]. *)

From Stdlib Require Import ZArith QArith String List.
From stdpp Require Import base tactics option numbers list strings sorting.
From S2P Require Import Prelude Groupby Cell Frame Samples Hierarchy.

#[local] Open Scope string_scope.

(** ** The schema of the joined table *)

(** The columns [setHierarchy] reads. *)
Definition required_columns : list string :=
  ["Language"; "User Rating"; "Note"; "CreatedAt";
   "wine_ID"; "wine_Winery"; "wine_Name"; "wine_Year"; "wine_Rating";
   "wine_Rates count"; "wine_Type"; "wine_Price";
   "style_ID"; "style_Region"; "style_Description"; "style_Nation"].

(** The columns of dtype int64 that [setHierarchy] converts with [int]. *)
Definition int_columns : list string :=
  ["wine_Type"; "style_ID"; "wine_ID"; "wine_Year"].

Definition typed (df : DataFrame) : Prop :=
  df_wf df /\ no_nan df /\
  Forall (fun c => c ∈ columns df) required_columns /\
  Forall (int_column df) int_columns.

#[export] Instance typed_dec df : Decision (typed df).
Proof. unfold typed. apply _. Defined.

(** ** The document in closed form *)

(** The cell of a row under [c]. *)
Definition cell_at (cols : list string) (c : string) (r : list cell) : cell :=
  default CNaN (cell_of cols c r).

(** The sub-tables of the distinct integers of column [c], ascending. *)
Definition groups_of (df : DataFrame) (c : string) : list (Z * DataFrame) :=
  map (fun z => (z, sub_frame df (rows_with df c z))) (int_values df c).

Definition review_row (cols : list string) (r : list cell) : review_data :=
  {| Language := cell_at cols "Language" r;
     User_Rating := cell_at cols "User Rating" r;
     Note := cell_at cols "Note" r;
     CreatedAt := cell_at cols "CreatedAt" r |}.

(** The node of a wine: its fields from the last row of its table. *)
Definition wine_node (wg : DataFrame) : wine_data :=
  let cols := columns wg in
  let r := default [] (last (rows wg)) in
  {| wine_ID := zcell cols "wine_ID" r;
     wine_Winery := cell_at cols "wine_Winery" r;
     wine_Name := cell_at cols "wine_Name" r;
     wine_Year := zcell cols "wine_Year" r;
     wine_Rating := cell_at cols "wine_Rating" r;
     wine_Rates_count := cell_at cols "wine_Rates count" r;
     wine_Price := cell_at cols "wine_Price" r;
     reviews := map (review_row cols) (rows wg) |}.

(** The row the fields of a style are read from: the first row of the last
    wine of the style. *)
Definition style_row (sg : DataFrame) : list cell :=
  default [] (last (groups_of sg "wine_ID") ≫= fun g => head (rows g.2)).

Definition style_node (zsg : Z * DataFrame) : style_data :=
  let cols := columns zsg.2 in
  let r := style_row zsg.2 in
  {| style_ID := zsg.1;
     style_Region := cell_at cols "style_Region" r;
     style_Description := cell_at cols "style_Description" r;
     style_Nation := cell_at cols "style_Nation" r;
     wines := map (fun g => wine_node g.2) (groups_of zsg.2 "wine_ID") |}.

Definition type_node (ztg : Z * DataFrame) : type_data :=
  {| wine_Type := ztg.1;
     styles := map style_node (groups_of ztg.2 "style_ID") |}.

Definition document (df : DataFrame) : output_json :=
  {| wine_types := map type_node (groups_of df "wine_Type") |}.

(** ** The document or the exception, on integer identifiers *)

(** The identifier columns. *)
Definition key_columns : list string := ["wine_Type"; "style_ID"; "wine_ID"].

(** A joined table whose three identifiers are integers; the year is any
    value that is not missing. *)
Definition keyed (df : DataFrame) : Prop :=
  df_wf df /\ no_nan df /\
  Forall (fun c => c ∈ columns df) required_columns /\
  Forall (int_column df) key_columns.

#[export] Instance keyed_dec df : Decision (keyed df).
Proof. unfold keyed. apply _. Defined.

(** The year of a wine: [int] of the year of the last row of its table. *)
Definition year_of (wg : DataFrame) : exc Z :=
  py_int (cell_at (columns wg) "wine_Year" (default [] (last (rows wg)))).

(** The node of a wine with the year [year]. *)
Definition wine_with (wg : DataFrame) (year : Z) : wine_data :=
  let cols := columns wg in
  let r := default [] (last (rows wg)) in
  {| wine_ID := zcell cols "wine_ID" r;
     wine_Winery := cell_at cols "wine_Winery" r;
     wine_Name := cell_at cols "wine_Name" r;
     wine_Year := year;
     wine_Rating := cell_at cols "wine_Rating" r;
     wine_Rates_count := cell_at cols "wine_Rates count" r;
     wine_Price := cell_at cols "wine_Price" r;
     reviews := map (review_row cols) (rows wg) |}.

Definition wine_entry (wg : DataFrame) : exc wine_data :=
  year <- year_of wg ;; Ok (wine_with wg year).

Definition style_entry (zsg : Z * DataFrame) : exc style_data :=
  lWines <- mapM (fun g => wine_entry g.2) (groups_of zsg.2 "wine_ID") ;;
  let cols := columns zsg.2 in
  let r := style_row zsg.2 in
  Ok {| style_ID := zsg.1;
        style_Region := cell_at cols "style_Region" r;
        style_Description := cell_at cols "style_Description" r;
        style_Nation := cell_at cols "style_Nation" r;
        wines := lWines |}.

Definition type_entry (ztg : Z * DataFrame) : exc type_data :=
  lStyle <- mapM style_entry (groups_of ztg.2 "style_ID") ;;
  Ok {| wine_Type := ztg.1; styles := lStyle |}.

(** The result of [setHierarchy] on a table with integer identifiers: the
    document, or the exception of the first year that [int] refuses. *)
Definition document_or_error (df : DataFrame) : exc output_json :=
  lType <- mapM type_entry (groups_of df "wine_Type") ;;
  Ok {| wine_types := lType |}.

(** ** Sub-tables *)

Lemma typed_keyed df : typed df -> keyed df.
Proof.
  intros (Hwf & Hnan & Hreq & Hint). refine (conj Hwf (conj Hnan (conj Hreq _))).
  change int_columns with (key_columns ++ ["wine_Year"%string])%list in Hint.
  by apply Forall_app in Hint as [? _].
Qed.

Lemma keyed_sub df g : keyed df -> g ⊆ rows df -> keyed (sub_frame df g).
Proof.
  intros (Hwf & Hnan & Hreq & Hint) Hg. repeat split.
  - by destruct Hwf.
  - simpl. destruct Hwf as [_ Hlen]. rewrite Forall_forall in *. auto.
  - by apply sub_frame_no_nan.
  - done.
  - eapply Forall_impl; [exact Hint|]. intros c Hc.
    by apply sub_frame_int_column.
Qed.

Lemma typed_sub df g : typed df -> g ⊆ rows df -> typed (sub_frame df g).
Proof.
  intros Ht Hg. destruct (keyed_sub df g (typed_keyed df Ht) Hg) as (?&?&?&_).
  destruct Ht as (_ & _ & _ & Hint). split_and!; try done.
  eapply Forall_impl; [exact Hint|]. intros c Hc.
  by apply sub_frame_int_column.
Qed.

Lemma keyed_required df c : keyed df -> c ∈ required_columns -> c ∈ columns df.
Proof. intros (_ & _ & Hreq & _) Hc. rewrite Forall_forall in Hreq. auto. Qed.

Lemma keyed_int df c : keyed df -> c ∈ key_columns -> int_column df c.
Proof. intros (_ & _ & _ & Hint) Hc. rewrite Forall_forall in Hint. auto. Qed.

Lemma typed_int df c : typed df -> c ∈ int_columns -> int_column df c.
Proof. intros (_ & _ & _ & Hint) Hc. rewrite Forall_forall in Hint. auto. Qed.

Lemma keyed_length df r :
  keyed df -> r ∈ rows df -> length r = length (columns df).
Proof. intros ([_ Hlen] & _) Hr. rewrite Forall_forall in Hlen. auto. Qed.

Lemma keyed_not_nan df r c :
  keyed df -> r ∈ rows df -> c ∈ required_columns ->
  cell_at (columns df) c r <> CNaN.
Proof.
  intros Hk Hr Hc. unfold cell_at.
  destruct (cell_of_is_Some (columns df) c r) as [v Hv];
    [by apply keyed_required | by apply keyed_length |].
  rewrite Hv. simpl. destruct Hk as (_ & Hnan & _).
  unfold no_nan in Hnan. rewrite Forall_forall in Hnan.
  specialize (Hnan r Hr). rewrite Forall_forall in Hnan.
  intros ->. by specialize (Hnan CNaN (cell_of_elem_of _ _ _ _ Hv)).
Qed.

Lemma rows_with_subseteq df c z : rows_with df c z ⊆ rows df.
Proof. intros r [_ ?]%list_elem_of_filter. done. Qed.

Lemma rows_with_nonempty df c z : z ∈ int_values df c -> rows_with df c z <> [].
Proof.
  rewrite <- group_keys_int_values, <- group_rows_rows_with.
  apply group_rows_nonempty.
Qed.

Lemma rows_with_zcell df c z r : r ∈ rows_with df c z -> zcell (columns df) c r = z.
Proof. by intros [? _]%list_elem_of_filter. Qed.

(** The groups of a table are tables of the same kind and have a row. *)
Lemma groups_of_keyed df c :
  keyed df ->
  Forall (fun g => keyed g.2 /\ rows g.2 <> []) (groups_of df c).
Proof.
  intros Ht. unfold groups_of. rewrite Forall_fmap, Forall_forall.
  intros z Hz. simpl. split.
  - apply keyed_sub; [done | apply rows_with_subseteq].
  - by apply rows_with_nonempty.
Qed.

Lemma groups_of_typed df c :
  typed df ->
  Forall (fun g => typed g.2 /\ rows g.2 <> []) (groups_of df c).
Proof.
  intros Ht. unfold groups_of. rewrite Forall_fmap, Forall_forall.
  intros z Hz. simpl. split.
  - apply typed_sub; [done | apply rows_with_subseteq].
  - by apply rows_with_nonempty.
Qed.

(** [groupby] on an identifier column is [groups_of]. *)
Lemma df_groupby_groups_of df c :
  keyed df -> c ∈ key_columns -> c ∈ required_columns ->
  df_groupby df c = Ok (map (fun g => (CInt g.1, g.2)) (groups_of df c)).
Proof.
  intros Ht Hi Hr. rewrite df_groupby_int.
  - unfold groups_of. by rewrite map_map.
  - by apply keyed_required.
  - by apply keyed_int.
Qed.

Lemma elem_of_int_values df c z :
  z ∈ int_values df c <-> exists r, r ∈ rows df /\ zcell (columns df) c r = z.
Proof.
  unfold int_values. rewrite elem_of_sort_keys, list_elem_of_fmap.
  split; intros (r & ? & ?); eauto.
Qed.

Lemma groups_of_nonempty df c : rows df <> [] -> groups_of df c <> [].
Proof.
  intros Hne Hnil%fmap_nil_inv. destruct (rows df) as [|r l] eqn:E; [done|].
  assert (zcell (columns df) c r ∈ int_values df c) as Hin.
  { apply elem_of_int_values. exists r. rewrite E. split; [left | done]. }
  rewrite Hnil in Hin. by apply elem_of_nil in Hin.
Qed.

(** ** Reading a row *)

(** Membership of a literal label in a literal list of labels. *)
Ltac label := by (apply (bool_decide_unpack _); vm_compute).

Lemma series_get_Ok cols c r :
  c ∈ cols -> length r = length cols ->
  series_get (zip cols r) c = Ok (cell_at cols c r).
Proof.
  intros Hc Hlen. rewrite series_get_zip. unfold cell_at.
  by destruct (cell_of_is_Some cols c r Hc Hlen) as [v ->].
Qed.

Section KeyedRow.
Variable df : DataFrame.
Hypothesis Hk : keyed df.
Variable r : list cell.
Hypothesis Hr : r ∈ rows df.

Lemma keyed_get c :
  c ∈ required_columns ->
  series_get (zip (columns df) r) c = Ok (cell_at (columns df) c r).
Proof.
  intros Hc. apply series_get_Ok; [by apply keyed_required | by apply keyed_length].
Qed.

Lemma keyed_cell_int c :
  c ∈ key_columns -> cell_at (columns df) c r = CInt (zcell (columns df) c r).
Proof.
  intros Hc. unfold cell_at.
  by rewrite (int_column_cell df c r) by (try exact Hr; by apply keyed_int).
Qed.

Lemma review_fields_row :
  review_fields (zip (columns df) r) = Ok (review_row (columns df) r).
Proof. unfold review_fields. by rewrite !keyed_get by label. Qed.

(** The fields of a wine: [int] of the year is the one conversion that can
    fail. *)
Lemma wine_fields_year revs :
  wine_fields (Some (zip (columns df) r)) revs
  = (year <- py_int (cell_at (columns df) "wine_Year" r) ;;
     Ok {| wine_ID := zcell (columns df) "wine_ID" r;
           wine_Winery := cell_at (columns df) "wine_Winery" r;
           wine_Name := cell_at (columns df) "wine_Name" r;
           wine_Year := year;
           wine_Rating := cell_at (columns df) "wine_Rating" r;
           wine_Rates_count := cell_at (columns df) "wine_Rates count" r;
           wine_Price := cell_at (columns df) "wine_Price" r;
           reviews := revs |}).
Proof.
  unfold wine_fields. cbn [read_var exc_bind of_option].
  rewrite !keyed_get by label. cbn [exc_bind].
  by rewrite (keyed_cell_int "wine_ID") by label.
Qed.

(** The year is an integer, or a text that [int] refuses with
    [ValueError]. *)
Lemma py_int_year :
  is_Ok (py_int (cell_at (columns df) "wine_Year" r))
  \/ exists s, int_of_string s = None /\
       py_int (cell_at (columns df) "wine_Year" r) = Raise (invalid_literal s).
Proof.
  pose proof (keyed_not_nan df r "wine_Year" Hk Hr ltac:(label)) as Hn.
  destruct (cell_at (columns df) "wine_Year" r) as [z|q|s|]; simpl;
    [by left | by left | | done].
  destruct (int_of_string s) eqn:E; simpl; [by left | right; by exists s].
Qed.

End KeyedRow.

(** ** The levels *)

Lemma mapM_map {A B C} (f : B -> exc C) (g : A -> B) (l : list A) :
  mapM f (map g l) = mapM (fun x => f (g x)) l.
Proof. induction l as [|x l IH]; simpl; [done | by rewrite IH]. Qed.

Lemma wine_of_entry n wg :
  keyed wg -> rows wg <> [] -> wine_of (n, wg) = wine_entry wg.
Proof.
  intros Ht Hne. unfold wine_of, iterrows. simpl.
  rewrite (mapM_fmap_Ok _ (review_row (columns wg)))
    by (apply Forall_forall; intros r Hr; by apply review_fields_row).
  simpl. rewrite fmap_last.
  destruct (last_is_Some (rows wg) Hne) as [r Hr].
  unfold wine_entry, year_of, wine_with. rewrite Hr. simpl.
  by rewrite (wine_fields_year wg Ht r) by by apply last_elem_of.
Qed.

Lemma first_of_row g c r l :
  keyed g -> c ∈ required_columns -> rows g = r :: l ->
  first_of g c = Ok (cell_at (columns g) c r).
Proof.
  intros Ht Hc Hrows. unfold first_of, column.
  rewrite decide_True by by apply keyed_required. simpl. rewrite Hrows.
  assert (r ∈ rows g) as Hr by (rewrite Hrows; left).
  destruct (cell_of_is_Some (columns g) c r) as [v Hv];
    [by apply keyed_required | by apply keyed_length |].
  simpl. unfold cell_at. by rewrite Hv.
Qed.

Lemma style_fields_row z g r l lWines :
  keyed g -> rows g = r :: l ->
  style_fields (CInt z) (Some g) lWines
  = Ok {| style_ID := z;
          style_Region := cell_at (columns g) "style_Region" r;
          style_Description := cell_at (columns g) "style_Description" r;
          style_Nation := cell_at (columns g) "style_Nation" r;
          wines := lWines |}.
Proof.
  intros Ht Hrows. unfold style_fields. simpl.
  by rewrite !(first_of_row g _ r l) by (done || label).
Qed.

Lemma style_of_entry zsg :
  keyed zsg.2 -> rows zsg.2 <> [] ->
  style_of (CInt zsg.1, zsg.2) = style_entry zsg.
Proof.
  destruct zsg as [z sg]. simpl. intros Ht Hne. unfold style_of, style_entry.
  cbn [fst snd].
  rewrite df_groupby_groups_of by (done || label). cbn [exc_bind].
  pose proof (groups_of_keyed sg "wine_ID" Ht) as Hg.
  rewrite mapM_map.
  rewrite (mapM_ext _ (fun g => wine_entry g.2)).
  2:{ eapply Forall_impl; [exact Hg|]. intros [z' g] [? ?].
      by apply wine_of_entry. }
  apply exc_bind_ext. intros lWines _. rewrite fmap_last.
  destruct (last_is_Some (groups_of sg "wine_ID")) as [[zw wg] Hlast];
    [by apply groups_of_nonempty|].
  rewrite Hlast. simpl.
  rewrite Forall_forall in Hg.
  destruct (Hg (zw, wg)) as [Htw Hnew]; [by apply last_elem_of|]. simpl in *.
  destruct (rows wg) as [|r l] eqn:Hrows; [done|].
  rewrite (style_fields_row z wg r l) by done.
  unfold style_row. rewrite Hlast. simpl. rewrite Hrows. simpl.
  assert (columns wg = columns sg) as ->; [|done].
  apply last_elem_of in Hlast. unfold groups_of in Hlast.
  apply list_elem_of_fmap in Hlast as (? & ? & _). by simplify_eq.
Qed.

Lemma type_of_entry ztg :
  keyed ztg.2 -> type_of (CInt ztg.1, ztg.2) = type_entry ztg.
Proof.
  destruct ztg as [z tg]. simpl. intros Ht. unfold type_of, type_entry.
  cbn [fst snd].
  rewrite df_groupby_groups_of by (done || label). cbn [exc_bind].
  rewrite mapM_map. rewrite (mapM_ext _ style_entry); [done|].
  eapply Forall_impl; [apply (groups_of_keyed tg "style_ID" Ht)|].
  intros zsg [? ?]. by apply style_of_entry.
Qed.

Lemma hierarchy_spec_entries df :
  keyed df -> hierarchy_spec df = document_or_error df.
Proof.
  intros Ht. unfold hierarchy_spec, document_or_error.
  rewrite df_groupby_groups_of by (done || label). cbn [exc_bind].
  rewrite mapM_map. rewrite (mapM_ext _ type_entry); [done|].
  eapply Forall_impl; [apply (groups_of_keyed df "wine_Type" Ht)|].
  intros ztg [? _]. by apply type_of_entry.
Qed.

(** With integer identifiers the loops return the document or the
    exception of the closed form. *)
Lemma loops_compute_entries (df : DataFrame) :
  keyed df -> setHierarchy df = document_or_error df.
Proof.
  intros Ht. rewrite loops_compute_spec.
  - by apply hierarchy_spec_entries.
  - by destruct Ht.
  - by destruct Ht as (_ & ? & _).
Qed.

(** ** With integer years nothing is raised *)

Lemma wine_entry_node wg :
  typed wg -> rows wg <> [] -> wine_entry wg = Ok (wine_node wg).
Proof.
  intros Ht Hne. unfold wine_entry, year_of.
  destruct (last_is_Some (rows wg) Hne) as [r Hr]. rewrite Hr. simpl.
  unfold cell_at.
  rewrite (int_column_cell wg "wine_Year" r);
    [| apply typed_int; [done | label] | by apply last_elem_of].
  simpl. unfold wine_with, wine_node. by rewrite Hr.
Qed.

Lemma style_entry_node zsg : typed zsg.2 -> style_entry zsg = Ok (style_node zsg).
Proof.
  intros Ht. unfold style_entry.
  rewrite (mapM_ext _ (fun g => Ok (wine_node g.2))).
  - by rewrite mapM_pure.
  - eapply Forall_impl; [apply (groups_of_typed _ "wine_ID" Ht)|].
    intros g [? ?]. by apply wine_entry_node.
Qed.

Lemma type_entry_node ztg : typed ztg.2 -> type_entry ztg = Ok (type_node ztg).
Proof.
  intros Ht. unfold type_entry.
  rewrite (mapM_ext _ (fun g => Ok (style_node g))).
  - by rewrite mapM_pure.
  - eapply Forall_impl; [apply (groups_of_typed _ "style_ID" Ht)|].
    intros g [? _]. by apply style_entry_node.
Qed.

Lemma document_or_error_typed df :
  typed df -> document_or_error df = Ok (document df).
Proof.
  intros Ht. unfold document_or_error.
  rewrite (mapM_ext _ (fun g => Ok (type_node g))).
  - by rewrite mapM_pure.
  - eapply Forall_impl; [apply (groups_of_typed _ "wine_Type" Ht)|].
    intros g [? _]. by apply type_entry_node.
Qed.

Lemma hierarchy_spec_document df :
  typed df -> hierarchy_spec df = Ok (document df).
Proof.
  intros Ht. rewrite hierarchy_spec_entries by by apply typed_keyed.
  by apply document_or_error_typed.
Qed.

(** On a typed table the loops return the closed form. *)
Lemma loops_compute_document (df : DataFrame) :
  typed df -> setHierarchy df = Ok (document df).
Proof.
  intros Ht. rewrite loops_compute_entries by by apply typed_keyed.
  by apply document_or_error_typed.
Qed.

(** From a successful run on a typed table to the closed form. *)
Lemma setHierarchy_Ok_document df h :
  typed df -> setHierarchy df = Ok h -> h = document df.
Proof. intros Ht Hh. rewrite loops_compute_document in Hh by done. congruence. Qed.

(** C2.  On a typed table (the joined columns present, nothing missing,
    identifiers and year integers) [setHierarchy] raises no exception and
    returns [document]: one node per distinct type, style and wine, in
    ascending order, each wine with its rows as reviews. *)
Theorem setHierarchy_document (df : DataFrame) :
  typed df -> setHierarchy df = Ok (document df).
Proof. apply loops_compute_document. Qed.

Lemma setHierarchy_document_witness :
  setHierarchy joined_mixed = Ok (document joined_mixed).
Proof. apply setHierarchy_document. compute_done. Defined.

(** ** The nodes of the document *)

Lemma groups_of_fst df c : map fst (groups_of df c) = int_values df c.
Proof. unfold groups_of. rewrite map_map. apply map_id. Qed.

Lemma elem_of_groups_of df c zg :
  zg ∈ groups_of df c <->
  zg.1 ∈ int_values df c /\ zg.2 = sub_frame df (rows_with df c zg.1).
Proof.
  unfold groups_of. rewrite list_elem_of_fmap. split.
  - by intros (z & -> & ?).
  - destruct zg as [z g]. simpl. intros [? ->]. by exists z.
Qed.

Lemma int_values_sorted df c : StronglySorted Z.lt (int_values df c).
Proof. exact (@StronglySorted_sort_keys Z Z_KeyOrder _). Qed.

(** The rows of a group sum up to the rows of the table. *)
Lemma groups_of_length df c :
  sum_list (map (fun g => df_len g.2) (groups_of df c)) = df_len df.
Proof.
  pose proof (groupby_length (fun r => Some (zcell (columns df) c r)) (rows df))
    as Hlen.
  rewrite keyed_all in Hlen by (apply Forall_forall; intros; by eexists).
  unfold df_len. rewrite <- Hlen. unfold groups_of, groupby.
  rewrite !map_map, group_keys_int_values. f_equal.
  apply Forall_fmap_ext, Forall_forall. intros z _. simpl.
  by rewrite group_rows_rows_with.
Qed.

(** The identifier of a wine node, read from its last row, is the integer its
    rows were grouped under. *)
Lemma wine_node_id sg z :
  z ∈ int_values sg "wine_ID" ->
  wine_ID (wine_node (sub_frame sg (rows_with sg "wine_ID" z))) = z.
Proof.
  intros Hz. simpl.
  destruct (last_is_Some (rows_with sg "wine_ID" z)) as [r Hr];
    [by apply rows_with_nonempty|].
  rewrite Hr. simpl. by apply rows_with_zcell, last_elem_of.
Qed.

Lemma style_node_wine_ids zsg :
  map wine_ID (wines (style_node zsg)) = int_values zsg.2 "wine_ID".
Proof.
  simpl. unfold groups_of. rewrite !map_map. rewrite <- (map_id (int_values _ _)) at 2.
  apply Forall_fmap_ext, Forall_forall. intros z Hz. by apply wine_node_id.
Qed.

Lemma type_node_style_ids ztg :
  map style_ID (styles (type_node ztg)) = int_values ztg.2 "style_ID".
Proof. simpl. rewrite map_map. apply groups_of_fst. Qed.

Lemma document_type_ids df :
  map wine_Type (wine_types (document df)) = int_values df "wine_Type".
Proof. simpl. rewrite map_map. apply groups_of_fst. Qed.

(** ** The number of reviews *)

Definition wine_reviews (w : wine_data) : nat := length (reviews w).
Definition style_reviews (s : style_data) : nat :=
  sum_list (map wine_reviews (wines s)).
Definition type_reviews (t : type_data) : nat :=
  sum_list (map style_reviews (styles t)).
(** The reviews of the whole document. *)
Definition review_count (h : output_json) : nat :=
  sum_list (map type_reviews (wine_types h)).

Lemma sum_list_groups {B} (cnt : B -> nat) (node : Z * DataFrame -> B) df c :
  (forall g, g ∈ groups_of df c -> cnt (node g) = df_len g.2) ->
  sum_list (map cnt (map node (groups_of df c))) = df_len df.
Proof.
  intros Hn. rewrite map_map, <- (groups_of_length df c). f_equal.
  apply Forall_fmap_ext, Forall_forall. intros g Hg. by apply Hn.
Qed.

Lemma style_node_reviews zsg : style_reviews (style_node zsg) = df_len zsg.2.
Proof.
  unfold style_reviews. simpl.
  apply (sum_list_groups wine_reviews (fun g => wine_node g.2)).
  intros g _. unfold wine_reviews. simpl. apply length_map.
Qed.

Lemma type_node_reviews ztg : type_reviews (type_node ztg) = df_len ztg.2.
Proof.
  unfold type_reviews. simpl. apply sum_list_groups.
  intros g _. apply style_node_reviews.
Qed.

Lemma document_reviews df : review_count (document df) = df_len df.
Proof.
  unfold review_count. simpl. apply sum_list_groups.
  intros g _. apply type_node_reviews.
Qed.

(** C4.  Round trip of the count: the reviews in all the leaves of the
    document are as many as the rows of the table; grouping drops no row
    and repeats none. *)
Theorem setHierarchy_review_count (df : DataFrame) (h : output_json) :
  typed df -> setHierarchy df = Ok h -> review_count h = df_len df.
Proof.
  intros Ht Hh. rewrite (setHierarchy_Ok_document df h Ht Hh).
  apply document_reviews.
Qed.

Lemma setHierarchy_review_count_witness :
  review_count (document joined_mixed) = df_len joined_mixed.
Proof.
  apply (setHierarchy_review_count joined_mixed);
    [compute_done | by vm_compute].
Defined.

(** ** Ascending order of the nodes *)

(** The identifiers at every level of the document are strictly ascending. *)
Definition ordered (h : output_json) : Prop :=
  StronglySorted Z.lt (map wine_Type (wine_types h)) /\
  Forall (fun t =>
    StronglySorted Z.lt (map style_ID (styles t)) /\
    Forall (fun s => StronglySorted Z.lt (map wine_ID (wines s))) (styles t))
    (wine_types h).

Lemma document_ordered df : ordered (document df).
Proof.
  split; [rewrite document_type_ids; apply int_values_sorted|].
  unfold document. cbn [wine_types].
  rewrite Forall_fmap, Forall_forall. intros ztg _. unfold compose. split.
  - rewrite type_node_style_ids. apply int_values_sorted.
  - unfold type_node. cbn [styles].
    rewrite Forall_fmap, Forall_forall. intros zsg _. unfold compose.
    rewrite style_node_wine_ids. apply int_values_sorted.
Qed.

(** C5.  Ordering: type nodes are in strictly ascending order of [wine_Type],
    the style nodes of a type in strictly ascending order of [style_ID], the
    wine nodes of a style in strictly ascending order of [wine_ID]; in
    particular no identifier occurs twice under one parent. *)
Theorem setHierarchy_ordered (df : DataFrame) (h : output_json) :
  typed df -> setHierarchy df = Ok h -> ordered h.
Proof.
  intros Ht Hh. rewrite (setHierarchy_Ok_document df h Ht Hh).
  apply document_ordered.
Qed.

Lemma setHierarchy_ordered_witness : ordered (document joined_mixed).
Proof.
  apply (setHierarchy_ordered joined_mixed); [compute_done | by vm_compute].
Defined.

(** ** The leaves are the rows *)

(** The rows of the table with the three identifiers [t], [s], [w], in the
    order of the table. *)
Definition rows_of (df : DataFrame) (t s w : Z) : list (list cell) :=
  filter (fun r => zcell (columns df) "wine_Type" r = t /\
                   zcell (columns df) "style_ID" r = s /\
                   zcell (columns df) "wine_ID" r = w) (rows df).

(** [w] is a wine node under style [s] under type [t] of the document. *)
Definition wine_at (h : output_json) (t s : Z) (w : wine_data) : Prop :=
  exists tn sn, tn ∈ wine_types h /\ wine_Type tn = t /\
                sn ∈ styles tn /\ style_ID sn = s /\ w ∈ wines sn.

Lemma rows_with_rows_with df c1 z1 c2 z2 :
  rows_with (sub_frame df (rows_with df c1 z1)) c2 z2
  = filter (fun r => zcell (columns df) c2 r = z2 /\
                     zcell (columns df) c1 r = z1) (rows df).
Proof. unfold rows_with. simpl. apply list_filter_filter. Qed.

(** The rows of the wine table three levels down are the rows with the three
    identifiers. *)
Lemma rows_three_levels df t s w :
  rows_with (sub_frame (sub_frame df (rows_with df "wine_Type" t))
               (rows_with (sub_frame df (rows_with df "wine_Type" t))
                  "style_ID" s)) "wine_ID" w
  = rows_of df t s w.
Proof.
  unfold rows_with, rows_of. simpl. rewrite !list_filter_filter.
  apply list_filter_iff. intros r. tauto.
Qed.

Lemma document_wine_at df t s w :
  wine_at (document df) t s w ->
  wine_ID w ∈ int_values
    (sub_frame (sub_frame df (rows_with df "wine_Type" t))
       (rows_with (sub_frame df (rows_with df "wine_Type" t)) "style_ID" s))
    "wine_ID" /\
  w = wine_node (sub_frame df (rows_of df t s (wine_ID w))).
Proof.
  intros (tn & sn & Htn & <- & Hsn & <- & Hw). simpl in Htn.
  apply list_elem_of_fmap in Htn as ([zt tg] & -> & [Hzt Htg]%elem_of_groups_of).
  simpl in *. subst tg.
  apply list_elem_of_fmap in Hsn as ([zs sg] & -> & [Hzs Hsg]%elem_of_groups_of).
  simpl in *. subst sg.
  apply list_elem_of_fmap in Hw as ([zw wg] & -> & [Hzw Hwg]%elem_of_groups_of).
  simpl in Hzw, Hwg. subst wg. cbn [snd].
  rewrite (wine_node_id _ zw Hzw). split; [done|].
  by rewrite rows_three_levels.
Qed.

(** C6.  The reviews of a wine node are the rows of the table that carry its
    three identifiers, each projected to the four review fields, in the
    order of the table: no review is attached to another wine, none is
    missing, and their relative order is kept. *)
Theorem setHierarchy_reviews (df : DataFrame) (h : output_json) t s w :
  typed df -> setHierarchy df = Ok h -> wine_at h t s w ->
  reviews w = map (review_row (columns df)) (rows_of df t s (wine_ID w)).
Proof.
  intros Ht Hh Hw. rewrite (setHierarchy_Ok_document df h Ht Hh) in Hw.
  apply document_wine_at in Hw as [_ Hw]. by rewrite Hw at 1.
Qed.

Lemma setHierarchy_reviews_witness :
  reviews (wine_node (sub_frame joined_mixed (rows_of joined_mixed 2 47 7)))
  = map (review_row (columns joined_mixed))
      (rows_of joined_mixed 2 47
         (wine_ID (wine_node (sub_frame joined_mixed
                                (rows_of joined_mixed 2 47 7))))).
Proof.
  apply (setHierarchy_reviews joined_mixed (document joined_mixed) 2 47);
    [compute_done | by vm_compute |].
  exists (type_node (2%Z, sub_frame joined_mixed
                            (rows_with joined_mixed "wine_Type" 2))).
  exists (style_node (47%Z, sub_frame joined_mixed
                              (rows_with (sub_frame joined_mixed
                                 (rows_with joined_mixed "wine_Type" 2))
                                 "style_ID" 47))).
  repeat split; compute_done.
Defined.

(** ** Every row has its leaf *)

Lemma document_complete df r :
  r ∈ rows df ->
  exists w,
    wine_at (document df) (zcell (columns df) "wine_Type" r)
      (zcell (columns df) "style_ID" r) w /\
    wine_ID w = zcell (columns df) "wine_ID" r /\
    review_row (columns df) r ∈ reviews w.
Proof.
  intros Hr.
  set (zt := zcell (columns df) "wine_Type" r).
  set (zs := zcell (columns df) "style_ID" r).
  set (zw := zcell (columns df) "wine_ID" r).
  set (tg := sub_frame df (rows_with df "wine_Type" zt)).
  set (sg := sub_frame tg (rows_with tg "style_ID" zs)).
  set (wg := sub_frame sg (rows_with sg "wine_ID" zw)).
  assert (r ∈ rows tg) as Hrt by by apply list_elem_of_filter.
  assert (r ∈ rows sg) as Hrs by by apply list_elem_of_filter.
  assert (r ∈ rows wg) as Hrw by by apply list_elem_of_filter.
  assert (zt ∈ int_values df "wine_Type") as Hzt
    by (apply elem_of_int_values; eauto).
  assert (zs ∈ int_values tg "style_ID") as Hzs
    by (apply elem_of_int_values; eauto).
  assert (zw ∈ int_values sg "wine_ID") as Hzw
    by (apply elem_of_int_values; eauto).
  exists (wine_node wg). split; [|split].
  - exists (type_node (zt, tg)), (style_node (zs, sg)). repeat split.
    + simpl. apply list_elem_of_fmap. exists (zt, tg).
      split; [done | by apply elem_of_groups_of].
    + simpl. apply list_elem_of_fmap. exists (zs, sg).
      split; [done | by apply elem_of_groups_of].
    + cbn [style_node wines snd]. apply list_elem_of_fmap. exists (zw, wg).
      split; [done | by apply elem_of_groups_of].
  - by apply wine_node_id.
  - cbn [wine_node reviews]. apply list_elem_of_fmap. by exists r.
Qed.

(** C3.  Completeness of the partition: every row of the table has a wine
    node under the type and the style of the row, with the wine identifier
    of the row, and the review of the row is among its reviews. *)
Theorem setHierarchy_complete (df : DataFrame) (h : output_json) r :
  typed df -> setHierarchy df = Ok h -> r ∈ rows df ->
  exists w,
    wine_at h (zcell (columns df) "wine_Type" r)
      (zcell (columns df) "style_ID" r) w /\
    wine_ID w = zcell (columns df) "wine_ID" r /\
    review_row (columns df) r ∈ reviews w.
Proof.
  intros Ht Hh Hr. rewrite (setHierarchy_Ok_document df h Ht Hh).
  by apply document_complete.
Qed.

Lemma setHierarchy_complete_witness :
  exists w,
    wine_at (document joined_mixed) 2 47 w /\
    wine_ID w = 7%Z /\
    review_row merged_columns
      (merged_row 1 "it" 5 "a" 7 "W" "Seven" 2020 2 47 "R47" "d" "it")
    ∈ reviews w.
Proof.
  apply (setHierarchy_complete joined_mixed (document joined_mixed)
           (merged_row 1 "it" 5 "a" 7 "W" "Seven" 2020 2 47 "R47" "d" "it"));
    [compute_done | by vm_compute | compute_done].
Defined.

(** ** Where the fields of a style and of a wine come from *)

(** The three descriptive fields of a style node are those of row [r]. *)
Definition style_fields_of (cols : list string) (sn : style_data)
    (r : list cell) : Prop :=
  style_Region sn = cell_at cols "style_Region" r /\
  style_Description sn = cell_at cols "style_Description" r /\
  style_Nation sn = cell_at cols "style_Nation" r.

#[export] Instance style_fields_of_dec cols sn r :
  Decision (style_fields_of cols sn r).
Proof. unfold style_fields_of. apply _. Defined.

(** The rows of the table with type [t] and style [s]. *)
Definition style_rows (df : DataFrame) (t s : Z) : list (list cell) :=
  filter (fun r => zcell (columns df) "wine_Type" r = t /\
                   zcell (columns df) "style_ID" r = s) (rows df).

Lemma rows_of_style_rows df t s w r :
  r ∈ rows_of df t s w -> r ∈ style_rows df t s.
Proof.
  unfold rows_of, style_rows. rewrite !list_elem_of_filter. tauto.
Qed.

Lemma document_style_source df tn sn :
  tn ∈ wine_types (document df) -> sn ∈ styles tn ->
  exists w r l,
    last (wines sn) = Some w /\
    rows_of df (wine_Type tn) (style_ID sn) (wine_ID w) = r :: l /\
    style_fields_of (columns df) sn r.
Proof.
  intros Htn Hsn. simpl in Htn.
  apply list_elem_of_fmap in Htn as ([zt tg] & -> & [Hzt Htg]%elem_of_groups_of).
  simpl in *. subst tg.
  apply list_elem_of_fmap in Hsn as ([zs sg] & -> & [Hzs Hsg]%elem_of_groups_of).
  simpl in *. subst sg.
  set (tg := sub_frame df (rows_with df "wine_Type" zt)).
  set (sg := sub_frame tg (rows_with tg "style_ID" zs)).
  destruct (last_is_Some (groups_of sg "wine_ID")) as [[zw wg] Hlast].
  { apply groups_of_nonempty. by apply rows_with_nonempty. }
  pose proof (last_elem_of _ _ Hlast) as [Hzw Hwg]%elem_of_groups_of.
  simpl in Hzw, Hwg.
  destruct (rows wg) as [|r l] eqn:Hrows.
  { subst wg. simpl in Hrows. by apply rows_with_nonempty in Hrows. }
  exists (wine_node wg), r, l. split; [|split].
  - rewrite fmap_last, Hlast. done.
  - subst wg. rewrite (wine_node_id sg zw Hzw).
    rewrite <- (rows_three_levels df zt zs zw). exact Hrows.
  - unfold style_fields_of, style_node, style_row. cbn [snd fst].
    fold tg. fold sg. rewrite Hlast. simpl. rewrite Hrows. done.
Qed.

(** C7.  The region, description and nation of a style node are read from
    the first row of the last wine of the style (the wine with the largest
    identifier), not from the first row of the style: the loop variable
    [wineGroup] still holds the last wine when the style is built. *)
Theorem setHierarchy_style_source (df : DataFrame) (h : output_json) tn sn :
  typed df -> setHierarchy df = Ok h ->
  tn ∈ wine_types h -> sn ∈ styles tn ->
  exists w r l,
    last (wines sn) = Some w /\
    rows_of df (wine_Type tn) (style_ID sn) (wine_ID w) = r :: l /\
    style_fields_of (columns df) sn r.
Proof.
  intros Ht Hh. rewrite (setHierarchy_Ok_document df h Ht Hh).
  apply document_style_source.
Qed.

(** The rows of one style agree on the fields of the style. *)
Definition style_consistent (df : DataFrame) : Prop :=
  Forall (fun r => Forall (fun r' =>
    zcell (columns df) "wine_Type" r = zcell (columns df) "wine_Type" r' ->
    zcell (columns df) "style_ID" r = zcell (columns df) "style_ID" r' ->
    Forall (fun c => cell_at (columns df) c r = cell_at (columns df) c r')
      ["style_Region"; "style_Description"; "style_Nation"])
    (rows df)) (rows df).

#[export] Instance style_consistent_dec df : Decision (style_consistent df).
Proof. unfold style_consistent. apply _. Defined.

Lemma style_consistent_rows df t s r r' :
  style_consistent df -> r ∈ style_rows df t s -> r' ∈ style_rows df t s ->
  forall sn, style_fields_of (columns df) sn r ->
             style_fields_of (columns df) sn r'.
Proof.
  unfold style_consistent, style_rows. rewrite !list_elem_of_filter.
  intros Hcons [[Ht Hs] Hr] [[Ht' Hs'] Hr'] sn (H1 & H2 & H3).
  rewrite Forall_forall in Hcons. specialize (Hcons r Hr).
  rewrite Forall_forall in Hcons. specialize (Hcons r' Hr').
  rewrite !Forall_cons in Hcons.
  destruct Hcons as (E1 & E2 & E3 & _); [congruence | congruence |].
  unfold style_fields_of. by rewrite H1, H2, H3, E1, E2, E3.
Qed.

(** When the rows of a style agree on region, description and nation
    (the invariant of the data model), the fields of the style node are those
    of every row of the style, the first one included: which row is read
    makes no difference. *)
Theorem setHierarchy_style_consistent (df : DataFrame) (h : output_json)
    tn sn r :
  typed df -> style_consistent df -> setHierarchy df = Ok h ->
  tn ∈ wine_types h -> sn ∈ styles tn ->
  r ∈ style_rows df (wine_Type tn) (style_ID sn) ->
  style_fields_of (columns df) sn r.
Proof.
  intros Ht Hcons Hh Htn Hsn Hr.
  rewrite (setHierarchy_Ok_document df h Ht Hh) in Htn.
  destruct (document_style_source df tn sn Htn Hsn)
    as (w & r0 & l & _ & Hrows & Hsrc).
  apply (style_consistent_rows df (wine_Type tn) (style_ID sn) r0 r Hcons);
    [|done..].
  apply (rows_of_style_rows _ _ _ (wine_ID w)). rewrite Hrows. left.
Qed.

Lemma setHierarchy_style_source_witness :
  exists w r l,
    last (wines (style_node (47%Z, sub_frame joined_disagree
                                     (rows joined_disagree)))) = Some w /\
    rows_of joined_disagree 1 47 (wine_ID w) = r :: l /\
    style_fields_of merged_columns
      (style_node (47%Z, sub_frame joined_disagree (rows joined_disagree))) r.
Proof.
  apply (setHierarchy_style_source joined_disagree (document joined_disagree)
           (type_node (1%Z, sub_frame joined_disagree (rows joined_disagree))));
    [compute_done | by vm_compute | compute_done | compute_done].
Defined.

Lemma setHierarchy_style_consistent_witness :
  style_fields_of merged_columns
    (style_node (47%Z, sub_frame joined_mixed
                         (rows_with joined_mixed "wine_Type" 2)))
    (merged_row 1 "it" 5 "a" 7 "W" "Seven" 2020 2 47 "R47" "d" "it").
Proof.
  apply (setHierarchy_style_consistent joined_mixed (document joined_mixed)
           (type_node (2%Z, sub_frame joined_mixed
                              (rows_with joined_mixed "wine_Type" 2))));
    [compute_done | compute_done | by vm_compute | compute_done..].
Defined.

(** On [joined_disagree] the two rows of style 47 name the regions "first"
    and "second"; the style node carries "second", the region of the wine
    with the larger identifier, although the row with "first" comes first. *)
Example style_region_of_last_wine :
  exc_map (fun h => style_Region <$>
                      (head (wine_types h) ≫= fun t => head (styles t)))
    (setHierarchy joined_disagree)
  = Ok (Some (CStr "second")).
Proof. by vm_compute. Qed.

(** ** Which row the fields of a wine come from *)

(** The fields of a wine node other than its reviews are those of [r]. *)
Definition wine_fields_of (cols : list string) (w : wine_data)
    (r : list cell) : Prop :=
  wine_Winery w = cell_at cols "wine_Winery" r /\
  wine_Name w = cell_at cols "wine_Name" r /\
  wine_Year w = zcell cols "wine_Year" r /\
  wine_Rating w = cell_at cols "wine_Rating" r /\
  wine_Rates_count w = cell_at cols "wine_Rates count" r /\
  wine_Price w = cell_at cols "wine_Price" r.

#[export] Instance wine_fields_of_dec cols w r :
  Decision (wine_fields_of cols w r).
Proof. unfold wine_fields_of. apply _. Defined.

Lemma wine_node_source df rs r :
  last rs = Some r -> wine_fields_of (columns df) (wine_node (sub_frame df rs)) r.
Proof. intros E. unfold wine_fields_of, wine_node. simpl. by rewrite E. Qed.

Lemma document_wine_source df t s w :
  wine_at (document df) t s w ->
  exists r, last (rows_of df t s (wine_ID w)) = Some r /\
            wine_fields_of (columns df) w r.
Proof.
  intros Hw. apply document_wine_at in Hw as [Hin Hw].
  apply rows_with_nonempty in Hin. rewrite rows_three_levels in Hin.
  destruct (last_is_Some _ Hin) as [r Hr]. exists r. split; [done|].
  pose proof (wine_node_source df _ r Hr) as G. by rewrite <- Hw in G.
Qed.

(** Winery, name, year, rating, rates count and price of a wine node
    are those of the last row of the wine in the table: the loop variable
    [row] still holds that row when the wine is built. *)
Theorem setHierarchy_wine_source (df : DataFrame) (h : output_json) t s w :
  typed df -> setHierarchy df = Ok h -> wine_at h t s w ->
  exists r, last (rows_of df t s (wine_ID w)) = Some r /\
            wine_fields_of (columns df) w r.
Proof.
  intros Ht Hh. rewrite (setHierarchy_Ok_document df h Ht Hh).
  apply document_wine_source.
Qed.

Lemma setHierarchy_wine_source_witness :
  exists r,
    last (rows_of joined_mixed 2 47
            (wine_ID (wine_node (sub_frame joined_mixed
                                   (rows_of joined_mixed 2 47 7)))))
    = Some r /\
    wine_fields_of (columns joined_mixed)
      (wine_node (sub_frame joined_mixed (rows_of joined_mixed 2 47 7))) r.
Proof.
  apply (setHierarchy_wine_source joined_mixed (document joined_mixed) 2 47);
    [compute_done | by vm_compute |].
  exists (type_node (2%Z, sub_frame joined_mixed
                            (rows_with joined_mixed "wine_Type" 2))).
  exists (style_node (47%Z, sub_frame joined_mixed
                              (rows_with (sub_frame joined_mixed
                                 (rows_with joined_mixed "wine_Type" 2))
                                 "style_ID" 47))).
  repeat split; compute_done.
Defined.

(** ** A wine is in one node *)

(** Every wine identifier has one type and one style in the table. *)
Definition wine_in_one_style (df : DataFrame) : Prop :=
  Forall (fun r => Forall (fun r' =>
      zcell (columns df) "wine_ID" r = zcell (columns df) "wine_ID" r' ->
      zcell (columns df) "wine_Type" r = zcell (columns df) "wine_Type" r' /\
      zcell (columns df) "style_ID" r = zcell (columns df) "style_ID" r')
    (rows df)) (rows df).

#[export] Instance wine_in_one_style_dec df : Decision (wine_in_one_style df).
Proof. unfold wine_in_one_style. apply _. Defined.

(** A wine node has a row of the table with its three identifiers. *)
Lemma document_wine_row df t s w :
  wine_at (document df) t s w ->
  exists r, r ∈ rows df /\ zcell (columns df) "wine_Type" r = t /\
            zcell (columns df) "style_ID" r = s /\
            zcell (columns df) "wine_ID" r = wine_ID w.
Proof.
  intros [Hin _]%document_wine_at. apply rows_with_nonempty in Hin.
  rewrite rows_three_levels in Hin.
  destruct (rows_of df t s (wine_ID w)) as [|r l] eqn:E; [done|].
  assert (r ∈ rows_of df t s (wine_ID w)) as Hr by (rewrite E; left).
  unfold rows_of in Hr. apply list_elem_of_filter in Hr as [(? & ? & ?) ?].
  by exists r.
Qed.

Lemma document_wine_once df t s w t' s' w' :
  wine_in_one_style df ->
  wine_at (document df) t s w -> wine_at (document df) t' s' w' ->
  wine_ID w = wine_ID w' -> t = t' /\ s = s' /\ w = w'.
Proof.
  intros Hone Hw Hw' Hid.
  destruct (document_wine_row _ _ _ _ Hw) as (r & Hr & <- & <- & Hrw).
  destruct (document_wine_row _ _ _ _ Hw') as (r' & Hr' & <- & <- & Hrw').
  unfold wine_in_one_style in Hone. rewrite Forall_forall in Hone.
  pose proof (Hone r Hr) as Hone'. rewrite Forall_forall in Hone'.
  destruct (Hone' r' Hr') as [Et Es]; [congruence|].
  apply document_wine_at in Hw as [_ Hw]. apply document_wine_at in Hw' as [_ Hw'].
  split_and!; [done | done |]. rewrite Hw, Hw'. by rewrite Et, Es, Hid.
Qed.

(** C22.  When every wine identifier has one type and one style in the
    table, a wine is in one node of the document: two wine nodes with the
    same identifier are the same node, under the same type and style. *)
Theorem setHierarchy_wine_once (df : DataFrame) (h : output_json)
    t s w t' s' w' :
  typed df -> wine_in_one_style df -> setHierarchy df = Ok h ->
  wine_at h t s w -> wine_at h t' s' w' -> wine_ID w = wine_ID w' ->
  t = t' /\ s = s' /\ w = w'.
Proof.
  intros Ht Hone Hh. rewrite (setHierarchy_Ok_document df h Ht Hh).
  by apply document_wine_once.
Qed.

Lemma wine_at_mixed :
  wine_at (document joined_mixed) 2 47
    (wine_node (sub_frame joined_mixed (rows_of joined_mixed 2 47 7))).
Proof.
  exists (type_node (2%Z, sub_frame joined_mixed
                            (rows_with joined_mixed "wine_Type" 2))).
  exists (style_node (47%Z, sub_frame joined_mixed
                              (rows_with (sub_frame joined_mixed
                                 (rows_with joined_mixed "wine_Type" 2))
                                 "style_ID" 47))).
  repeat split; compute_done.
Defined.

Lemma setHierarchy_wine_once_witness :
  2%Z = 2%Z /\ 47%Z = 47%Z /\
  wine_node (sub_frame joined_mixed (rows_of joined_mixed 2 47 7))
  = wine_node (sub_frame joined_mixed (rows_of joined_mixed 2 47 7)).
Proof.
  apply (setHierarchy_wine_once joined_mixed (document joined_mixed));
    [compute_done | compute_done | by vm_compute | apply wine_at_mixed..
    | reflexivity].
Defined.
