(* ===== verification/Malformed.v ===== *)
(** * A year that is not a number

    [setHierarchy] of [src/data/dataLoad.py] converts the year of a wine
    with [int(row['wine_Year'])] (line 93), where [row] is the last row of
    the wine.  On a table whose three identifiers are integers this is the
    one conversion that can fail.  This file states when it does: the run
    ends with [ValueError] exactly when the year of the last row of some
    wine is not the text of an integer, and the exception names the text
    of the first such wine in the order of the document; the years of the
    other rows are never read. *)

From Stdlib Require Import ZArith QArith String List.
From stdpp Require Import base tactics option numbers list strings.
From S2P Require Import Prelude Groupby Cell Frame Samples Hierarchy Document.

#[local] Open Scope exc_scope.

(** The tables of the wines: one per type, style and wine of the table. *)
Definition leaves (df : DataFrame) : list DataFrame :=
  tg ← groups_of df "wine_Type" ;
  sg ← groups_of tg.2 "style_ID" ;
  wg ← groups_of sg.2 "wine_ID" ;
  [wg.2].

(** The year of row [r], as [int] returns it. *)
Definition year_at (df : DataFrame) (r : list cell) : exc Z :=
  py_int (cell_at (columns df) "wine_Year" r).

(** [r] is the last row of its wine in the table. *)
Definition last_of_wine (df : DataFrame) (r : list cell) : Prop :=
  last (rows_of df (zcell (columns df) "wine_Type" r)
          (zcell (columns df) "style_ID" r)
          (zcell (columns df) "wine_ID" r)) = Some r.

#[export] Instance last_of_wine_dec df r : Decision (last_of_wine df r).
Proof. unfold last_of_wine. apply _. Defined.

(** ** The tables of the wines *)

Lemma elem_of_groups_pair df c z g :
  (z, g) ∈ groups_of df c
  <-> z ∈ int_values df c /\ g = sub_frame df (rows_with df c z).
Proof. apply elem_of_groups_of. Qed.

Lemma elem_of_leaves df wg :
  wg ∈ leaves df <->
  exists t s w, rows_of df t s w <> []
                /\ wg = sub_frame df (rows_of df t s w).
Proof.
  unfold leaves. split.
  - intros ([t tg] & ([s sg] & ([w g] & Hwg & Hg)%list_elem_of_bind
                      & Hsg)%list_elem_of_bind & Htg)%list_elem_of_bind.
    apply list_elem_of_singleton in Hwg as ->.
    cbn [snd] in *.
    apply elem_of_groups_pair in Htg as [_ ->].
    apply elem_of_groups_pair in Hsg as [_ ->].
    apply elem_of_groups_pair in Hg as [Hw ->].
    exists t, s, w. rewrite <- rows_three_levels.
    split; [by apply rows_with_nonempty | done].
  - intros (t & s & w & Hne & ->).
    destruct (rows_of df t s w) as [|r l] eqn:Hrows; [done|].
    assert (r ∈ rows_of df t s w) as Hr by (rewrite Hrows; left).
    apply list_elem_of_filter in Hr as [(Ht & Hs & Hw) Hr].
    set (tg := sub_frame df (rows_with df "wine_Type" t)).
    set (sg := sub_frame tg (rows_with tg "style_ID" s)).
    assert (r ∈ rows tg) as Hrt by by apply list_elem_of_filter.
    assert (r ∈ rows sg) as Hrs by by apply list_elem_of_filter.
    apply list_elem_of_bind. exists (t, tg). split.
    2:{ apply elem_of_groups_pair. split; [|done].
        apply elem_of_int_values; eauto. }
    apply list_elem_of_bind. exists (s, sg). split.
    2:{ apply elem_of_groups_pair. split; [|done].
        apply elem_of_int_values; eauto. }
    apply list_elem_of_bind.
    exists (w, sub_frame sg (rows_with sg "wine_ID" w)). split.
    2:{ apply elem_of_groups_pair. split; [|done].
        apply elem_of_int_values; eauto. }
    cbn [snd]. subst sg tg. rewrite rows_three_levels, Hrows.
    apply list_elem_of_singleton. done.
Qed.

(** The year of a table of a wine is the year of its last row. *)
Lemma year_of_last df t s w r :
  last (rows_of df t s w) = Some r ->
  year_of (sub_frame df (rows_of df t s w)) = year_at df r.
Proof. intros Hr. unfold year_of, year_at. simpl. by rewrite Hr. Qed.

Lemma last_rows_of df t s w r :
  last (rows_of df t s w) = Some r -> r ∈ rows df /\ last_of_wine df r.
Proof.
  intros Hl. pose proof (last_elem_of _ _ Hl) as Hr.
  apply list_elem_of_filter in Hr as [(Ht & Hs & Hw) Hr].
  split; [done|]. unfold last_of_wine. by rewrite Ht, Hs, Hw.
Qed.

(** ** When the run returns *)

Lemma wine_entry_is_Ok wg :
  is_Ok (wine_entry wg) = is_Ok (year_of wg).
Proof. unfold wine_entry. by destruct (year_of wg). Qed.

Lemma is_Ok_bind_pure {A B} (m : exc A) (h : A -> B) :
  is_Ok (x <- m ;; Ok (h x)) = is_Ok m.
Proof. by destruct m. Qed.

Lemma document_or_error_is_Ok df :
  is_Ok (document_or_error df) = true
  <-> Forall (fun wg => is_Ok (year_of wg) = true) (leaves df).
Proof.
  unfold document_or_error, leaves.
  rewrite is_Ok_bind_pure, mapM_is_Ok, Forall_bind.
  apply Forall_proper; [|done]. intros tg. unfold compose, type_entry.
  rewrite is_Ok_bind_pure, mapM_is_Ok, Forall_bind.
  apply Forall_proper; [|done]. intros sg. unfold compose, style_entry.
  rewrite is_Ok_bind_pure, mapM_is_Ok, Forall_bind.
  apply Forall_proper; [|done]. intros wg. unfold compose.
  by rewrite wine_entry_is_Ok, Forall_singleton.
Qed.

(** ** What the run raises *)

(** What [int] raises on the first wine, in the order of the document,
    whose year it refuses. *)
Definition first_refused (df : DataFrame) : option pyexc :=
  head (omap (fun wg => raised (year_of wg)) (leaves df)).

Lemma raised_style_entry zsg :
  raised (style_entry zsg)
  = head (omap (fun g => raised (year_of g.2)) (groups_of zsg.2 "wine_ID")).
Proof.
  unfold style_entry. rewrite raised_bind_pure, raised_mapM.
  f_equal. apply omap_pointwise. intros g.
  unfold wine_entry. apply raised_bind_pure.
Qed.

(** The run ends with the exception of the first year that is refused. *)
Lemma raised_document_or_error df :
  raised (document_or_error df) = first_refused df.
Proof.
  unfold document_or_error, first_refused, leaves.
  rewrite raised_bind_pure, raised_mapM, <- head_omap_bind.
  f_equal. apply omap_pointwise. intros tg. cbv beta.
  unfold type_entry. rewrite raised_bind_pure, raised_mapM, <- head_omap_bind.
  f_equal. apply omap_pointwise. intros sg. cbv beta.
  rewrite raised_style_entry, <- head_omap_bind.
  f_equal. apply omap_pointwise. intros wg. simpl.
  by destruct (raised (year_of wg.2)).
Qed.

Lemma setHierarchy_raised df :
  keyed df -> raised (setHierarchy df) = first_refused df.
Proof.
  intros Hk. rewrite loops_compute_entries by done.
  apply raised_document_or_error.
Qed.

(** What is refused is the text of the year of the last row of a wine. *)
Lemma first_refused_year df e :
  keyed df -> first_refused df = Some e ->
  exists r s, r ∈ rows df /\ last_of_wine df r /\
    cell_at (columns df) "wine_Year" r = CStr s /\
    int_of_string s = None /\ e = invalid_literal s.
Proof.
  intros Hk (wg & Hwg & He)%head_Some_elem_of%list_elem_of_omap.
  apply elem_of_leaves in Hwg as (t & s & w & Hne & ->).
  destruct (last_is_Some _ Hne) as [r Hr].
  rewrite (year_of_last _ _ _ _ _ Hr) in He. apply raised_Some in He.
  destruct (last_rows_of _ _ _ _ _ Hr) as [Hin Hl]. exists r.
  unfold year_at in He.
  pose proof (keyed_not_nan df r "wine_Year" Hk Hin ltac:(label)) as Hn.
  destruct (cell_at (columns df) "wine_Year" r) as [z|q|y|]; try done.
  apply py_int_CStr_Raise in He as [Hy ->]. by exists y.
Qed.

(** The run returns when the year of the last row of every wine is read
    by [int], and raises what [int] raises on the first that is not. *)
Lemma loops_compute_years df :
  keyed df ->
  if decide (Forall (fun wg => is_Ok (year_of wg) = true) (leaves df))
  then is_Ok (setHierarchy df) = true
  else exists e, first_refused df = Some e /\ setHierarchy df = Raise e.
Proof.
  intros Hk. pose proof (setHierarchy_raised df Hk) as H.
  rewrite loops_compute_entries in * by done.
  case_decide as Hall; [by apply document_or_error_is_Ok|].
  destruct (document_or_error df) as [h|e] eqn:E.
  - destruct Hall. apply document_or_error_is_Ok. by rewrite E.
  - by exists e.
Qed.

(** C16.  A year that [int] refuses on the last row of a wine ends the run
    with [ValueError]: no document is returned, whatever the other rows
    hold.  The exception names the text that was refused: the year of the
    last row of the first wine, in the order of the document, that has
    such a year. *)
Theorem setHierarchy_bad_year (df : DataFrame) (r : list cell) (e : pyexc) :
  keyed df -> r ∈ rows df -> last_of_wine df r ->
  year_at df r = Raise e ->
  exists s, int_of_string s = None /\
    first_refused df
    = Some (ValueError "invalid literal for int() with base 10" (Some s)) /\
    setHierarchy df
    = Raise (ValueError "invalid literal for int() with base 10" (Some s)).
Proof.
  intros Hk Hr Hl He. pose proof (loops_compute_years df Hk) as H.
  case_decide as Hall.
  - exfalso. rewrite Forall_forall in Hall. unfold last_of_wine in Hl.
    pose proof (year_of_last _ _ _ _ _ Hl) as Hy. rewrite He in Hy.
    eapply (eq_true_false_abs (is_Ok (Raise e))); [|done].
    rewrite <- Hy. apply Hall, elem_of_leaves. eexists _, _, _.
    split; [|done]. intros Hnil. by rewrite Hnil in Hl.
  - destruct H as (e' & Hfirst & Hrun).
    destruct (first_refused_year df e' Hk Hfirst)
      as (r' & s & _ & _ & _ & Hs & ->).
    by exists s.
Qed.

Lemma setHierarchy_bad_year_witness :
  exists s, int_of_string s = None /\
    first_refused joined_bad_year
    = Some (ValueError "invalid literal for int() with base 10" (Some s)) /\
    setHierarchy joined_bad_year
    = Raise (ValueError "invalid literal for int() with base 10" (Some s)).
Proof.
  apply (setHierarchy_bad_year joined_bad_year
           (<[8 := CStr "n.d."]>
              (merged_row 3 "en" 3 "c" 7 "W" "Seven" 2020 2 47 "R47" "d"
                 "it"))
           (invalid_literal "n.d."));
    [compute_done | compute_done | compute_done | by vm_compute].
Defined.

(** The text that the exception names, on the sample. *)
Example setHierarchy_bad_year_names :
  setHierarchy joined_bad_year = Raise (invalid_literal "n.d.").
Proof. by vm_compute. Qed.

(** C18.  Only the year of the last row of a wine is read: when [int] accepts
    the year of the last row of every wine, the run returns a document,
    even if the year of another row is not a number. *)
Theorem setHierarchy_year_last_only (df : DataFrame) :
  keyed df ->
  (forall r, r ∈ rows df -> last_of_wine df r ->
             is_Ok (year_at df r) = true) ->
  exists h, setHierarchy df = Ok h.
Proof.
  intros Hk Hyears. pose proof (loops_compute_years df Hk) as H.
  rewrite decide_True in H; [by apply is_Ok_true|].
  apply Forall_forall. intros wg (t & s & w & Hne & ->)%elem_of_leaves.
  destruct (last_is_Some _ Hne) as [r Hr].
  rewrite (year_of_last _ _ _ _ _ Hr).
  destruct (last_rows_of _ _ _ _ _ Hr). auto.
Qed.

Lemma setHierarchy_year_last_only_witness :
  is_Ok (year_at joined_unread_year (hd [] (rows joined_unread_year))) = false
  /\ exists h, setHierarchy joined_unread_year = Ok h.
Proof.
  split; [by vm_compute|].
  apply (setHierarchy_year_last_only joined_unread_year); [compute_done|].
  assert (Forall (fun r => last_of_wine joined_unread_year r ->
                           is_Ok (year_at joined_unread_year r) = true)
            (rows joined_unread_year)) as HF by compute_done.
  rewrite Forall_forall in HF. exact HF.
Defined.
