(* ===== verification/Invariance.v ===== *)
(** * The order of the rows of different wines does not matter

    [setHierarchy] of [src/data/dataLoad.py] groups the joined table three
    times.  What it returns depends on the table only through its columns
    and, for every type, style and wine, the rows with these three
    identifiers in their order: two tables that agree on these are
    equivalent ([same_wines]), and equivalent tables give the same
    document or the same exception.  Rows of different wines can be
    interleaved in any way; only the order of the rows of one wine is
    seen (it is the order of its reviews, and its last row gives the
    fields of the wine).

    The equivalence is stated for any list of key columns ([same_by]),
    so that one lemma serves the three levels: grouping by the first key
    gives the same keys and equivalent groups for the keys that remain. *)

From Stdlib Require Import ZArith QArith String List.
From stdpp Require Import base tactics option numbers list strings.
From S2P Require Import Prelude Groupby Cell Frame Samples Hierarchy Document.

#[local] Open Scope exc_scope.

(** ** Tables that agree on the rows of every key *)

(** Row [r] has the integers [zs] under the columns [ks]. *)
Fixpoint has_keys (cols ks : list string) (zs : list Z) (r : list cell)
    : Prop :=
  match ks, zs with
  | [], [] => True
  | k :: ks, z :: zs => zcell cols k r = z /\ has_keys cols ks zs r
  | _, _ => False
  end.

#[export] Instance has_keys_dec cols ks zs r : Decision (has_keys cols ks zs r).
Proof.
  revert zs. induction ks as [|k ks IH]; intros [|z zs]; simpl; apply _.
Defined.

(** The rows with the integers [zs] under [ks], in the order of the
    table. *)
Definition keyed_rows (g : DataFrame) (ks : list string) (zs : list Z)
    : list (list cell) :=
  filter (has_keys (columns g) ks zs) (rows g).

(** The two tables have the same columns and, for every key, the same rows
    in the same order. *)
Definition same_by (ks : list string) (g g' : DataFrame) : Prop :=
  columns g = columns g' /\
  forall zs, keyed_rows g ks zs = keyed_rows g' ks zs.

(** Tables that agree on the rows of every wine. *)
Definition same_wines : relation DataFrame := same_by key_columns.

#[export] Instance same_by_equiv ks : Equivalence (same_by ks).
Proof.
  split.
  - by intros g.
  - intros g g' [Hc Hr]. by split.
  - intros g1 g2 g3 [Hc1 Hr1] [Hc2 Hr2]. split; [congruence|].
    intros zs. by rewrite Hr1.
Qed.

#[export] Instance same_wines_equiv : Equivalence same_wines.
Proof. unfold same_wines. apply _. Qed.

Section SameBy.
Implicit Types (g : DataFrame) (k : string) (ks : list string).

(** The keys of a row select it. *)
Lemma has_own_keys cols ks r :
  has_keys cols ks (map (fun k => zcell cols k r) ks) r.
Proof. induction ks as [|k ks IH]; simpl; auto. Qed.

(** A group of a group: the rows of the longer key. *)
Lemma keyed_rows_sub g k ks z zs :
  keyed_rows (sub_frame g (rows_with g k z)) ks zs
  = keyed_rows g (k :: ks) (z :: zs).
Proof.
  unfold keyed_rows, rows_with. simpl. rewrite list_filter_filter.
  apply list_filter_iff. intros r. tauto.
Qed.

Lemma keyed_rows_nil g : keyed_rows g [] [] = rows g.
Proof.
  unfold keyed_rows. simpl.
  induction (rows g) as [|r l IH]; [done|].
  by rewrite filter_cons_True, IH.
Qed.

Lemma same_by_sub k ks g g' z :
  same_by (k :: ks) g g' ->
  same_by ks (sub_frame g (rows_with g k z)) (sub_frame g' (rows_with g' k z)).
Proof.
  intros [Hc Hr]. split; [done|]. intros zs. by rewrite !keyed_rows_sub.
Qed.

Lemma same_by_nil g g' : same_by [] g g' -> g = g'.
Proof.
  intros [Hc Hr]. specialize (Hr []). rewrite !keyed_rows_nil in Hr.
  destruct g, g'. simpl in *. congruence.
Qed.

(** The values of the first key column are the keys that have a row. *)
Lemma elem_of_int_values_keyed g k ks z :
  z ∈ int_values g k <-> exists zs, keyed_rows g (k :: ks) (z :: zs) <> [].
Proof.
  rewrite elem_of_int_values. split.
  - intros (r & Hr & Hz).
    exists (map (fun k' => zcell (columns g) k' r) ks). intros Hnil.
    assert (r ∈ keyed_rows g (k :: ks)
                  (z :: map (fun k' => zcell (columns g) k' r) ks)) as Hin.
    { apply list_elem_of_filter. split; [|done].
      split; [done | apply has_own_keys]. }
    rewrite Hnil in Hin. by apply elem_of_nil in Hin.
  - intros [zs Hne].
    destruct (keyed_rows g (k :: ks) (z :: zs)) as [|r l] eqn:E; [done|].
    assert (r ∈ keyed_rows g (k :: ks) (z :: zs)) as Hin by (rewrite E; left).
    apply list_elem_of_filter in Hin as [[Hz _] Hr]. eauto.
Qed.

Lemma same_by_int_values k ks g g' :
  same_by (k :: ks) g g' -> int_values g k = int_values g' k.
Proof.
  intros [Hc Hr]. unfold int_values at 2. apply sort_keys_unique.
  - apply StronglySorted_sort_keys.
  - intros z.
    rewrite <- (elem_of_sort_keys (map (zcell (columns g') k) (rows g'))).
    change (z ∈ int_values g k <-> z ∈ int_values g' k).
    rewrite (elem_of_int_values_keyed g k ks), (elem_of_int_values_keyed g' k ks).
    split; intros [zs Hz]; exists zs; by rewrite ?Hr in *.
Qed.

(** Grouping by the first key: the same keys, and groups that agree on
    the keys that remain. *)
Lemma groups_of_same k ks g g' :
  same_by (k :: ks) g g' ->
  Forall2 (prod_relation eq (same_by ks)) (groups_of g k) (groups_of g' k).
Proof.
  intros Hs. unfold groups_of. rewrite (same_by_int_values k ks g g' Hs).
  apply Forall2_fmap, Forall_Forall2_diag, Forall_forall. intros z _.
  split; [done|]. by apply same_by_sub.
Qed.

Lemma groups_of_same_last k g g' :
  same_by [k] g g' -> groups_of g k = groups_of g' k.
Proof.
  intros Hs%groups_of_same. induction Hs as [|[z a] [z' a'] l l' [Hz Ha] _ IH];
    [done|]. simpl in *. by rewrite Hz, (same_by_nil _ _ Ha), IH.
Qed.

End SameBy.

(** ** The levels respect the equivalence *)

#[export] Instance style_entry_proper :
  Proper (prod_relation eq (same_by ["wine_ID"%string]) ==> eq) style_entry.
Proof.
  intros [s sg] [s' sg'] [Hs Hg]. simpl in *. subst s'.
  unfold style_entry, style_row. cbn [fst snd].
  by rewrite (groups_of_same_last _ _ _ Hg), (proj1 Hg).
Qed.

#[export] Instance type_entry_proper :
  Proper (prod_relation eq (same_by ["style_ID"; "wine_ID"]%string) ==> eq)
    type_entry.
Proof.
  intros [t tg] [t' tg'] [Ht Hg]. simpl in *. subst t'.
  unfold type_entry. cbn [fst snd].
  by rewrite (mapM_proper _ _ _ style_entry_proper _ _
                (groups_of_same _ _ _ _ Hg)).
Qed.

#[export] Instance document_or_error_proper :
  Proper (same_wines ==> eq) document_or_error.
Proof.
  intros df df' Hs. unfold document_or_error.
  by rewrite (mapM_proper _ _ _ type_entry_proper _ _
                (groups_of_same _ _ _ _ Hs)).
Qed.

(** ** The rows of a wine *)

Lemma keyed_rows_of df t s w :
  keyed_rows df key_columns [t; s; w] = rows_of df t s w.
Proof.
  unfold keyed_rows, rows_of. apply list_filter_iff. intros r. simpl. tauto.
Qed.

Lemma has_keys_length cols ks zs r :
  has_keys cols ks zs r -> length zs = length ks.
Proof.
  revert zs. induction ks as [|k ks IH]; intros [|z zs]; simpl; try done.
  intros [_ H]. by rewrite (IH zs).
Qed.

(** Agreement on the rows of every type, style and wine. *)
Lemma same_wines_rows_of df df' :
  same_wines df df' <->
  columns df = columns df'
  /\ forall t s w, rows_of df t s w = rows_of df' t s w.
Proof.
  split; intros [Hc Hr]; (split; [done|]).
  - intros t s w. by rewrite <- !keyed_rows_of.
  - intros zs. destruct zs as [|t [|s [|w [|z zs]]]];
      try (by rewrite !keyed_rows_of);
      unfold keyed_rows; rewrite !filter_none; try done;
      apply Forall_forall; intros r _ Hk%has_keys_length; done.
Qed.

(** Two neighbours with different identifiers can change places. *)
Lemma same_wines_swap cols l1 a b l2 :
  (zcell cols "wine_Type" a, zcell cols "style_ID" a, zcell cols "wine_ID" a)
  <> (zcell cols "wine_Type" b, zcell cols "style_ID" b, zcell cols "wine_ID" b) ->
  same_wines {| columns := cols; rows := l1 ++ a :: b :: l2 |}
             {| columns := cols; rows := l1 ++ b :: a :: l2 |}.
Proof.
  intros Hne. apply same_wines_rows_of. split; [done|]. intros t s w.
  unfold rows_of. simpl. rewrite !filter_app. f_equal.
  rewrite !filter_cons.
  repeat case_decide; try done.
  destruct_and!. destruct Hne. congruence.
Qed.

(** C15.  Two joined tables with integer identifiers that agree on the
    rows of every wine (the same columns and, for every type, style and
    wine, the same rows in the same order) give the same result: the same
    document, or the same exception.  The document does not depend on how the rows of
    different wines are interleaved. *)
Theorem setHierarchy_interleaving (df df' : DataFrame) :
  keyed df -> keyed df' -> same_wines df df' ->
  setHierarchy df = setHierarchy df'.
Proof.
  intros Hk Hk' Hs. rewrite !loops_compute_entries by done. by rewrite Hs.
Qed.

(** [joined_mixed] with the row of wine 3 moved behind the reviews of
    wines 7 and 5. *)
Definition joined_shuffled : DataFrame :=
  {| columns := merged_columns;
     rows := [merged_row 1 "it" 5 "a" 7 "W" "Seven" 2020 2 47 "R47" "d" "it";
              merged_row 3 "en" 3 "c" 7 "W" "Seven" 2020 2 47 "R47" "d" "it";
              merged_row 4 "it" 2 "d" 5 "U" "Five" 2019 2 47 "R47" "d" "it";
              merged_row 2 "en" 4 "b" 3 "V" "Three" 2018 1 12 "R12" "e" "fr";
              merged_row 5 "it" 1 "e" 7 "W" "Seven" 2020 2 47 "R47" "d" "it"] |}.

Lemma same_wines_shuffled : same_wines joined_mixed joined_shuffled.
Proof.
  etransitivity;
    [apply (same_wines_swap merged_columns
              [merged_row 1 "it" 5 "a" 7 "W" "Seven" 2020 2 47 "R47" "d" "it"]);
     by vm_compute|].
  apply (same_wines_swap merged_columns
           [merged_row 1 "it" 5 "a" 7 "W" "Seven" 2020 2 47 "R47" "d" "it";
            merged_row 3 "en" 3 "c" 7 "W" "Seven" 2020 2 47 "R47" "d" "it"]).
  by vm_compute.
Qed.

Lemma setHierarchy_interleaving_witness :
  setHierarchy joined_mixed = setHierarchy joined_shuffled.
Proof.
  apply setHierarchy_interleaving;
    [compute_done | compute_done | apply same_wines_shuffled].
Defined.
