(* ===== verification/Load.v ===== *)
(** * The join stage

    Lines 134-143 of [loadStructure] in [src/data/dataLoad.py]: the three
    tables are cleaned with [fillna], the columns of the wines and of the
    styles are prefixed, the reviews are joined with their wine and the
    result with the style of the wine, and the two join columns of the left
    side are dropped ([merged_table]).  On inputs with the documented
    columns and integer identifiers the result is the table [flat_table];
    its rows are the matching triples of a review, a wine and a style, and
    it is a table that [setHierarchy] accepts.  On inputs without a join
    key the stage ends with [KeyError] on the key that the first join
    looks up first ([first_key]). *)

From Stdlib Require Import ZArith QArith String List Lia.
From stdpp Require Import base tactics option numbers list strings.
From S2P Require Import Prelude Groupby Cell Frame Join Samples.
From S2P Require Import Hierarchy Document.

#[local] Open Scope exc_scope.
#[local] Notation "a +:+ b" := (String.append a b)
  (at level 60, right associativity).

(** ** The input tables (lines 9-11 of the source) *)

Definition wine_columns : list string :=
  ["ID"; "Winery"; "Name"; "Year"; "Style"; "Rating"; "Rates count"; "Type";
   "Price"]%string.

Definition style_columns : list string :=
  ["ID"; "Region"; "Description"; "Nation"]%string.

Definition reviews_columns : list string :=
  ["idRev"; "Language"; "idWine"; "User Rating"; "Note"; "CreatedAt"]%string.

(** ** The join *)

(** Lines 134-143: the table that is nested and exported. *)
Definition merged_table (reviews_df wine_df style_df : DataFrame)
    : exc DataFrame :=
  let reviews_df := fillna reviews_df in
  let wine_df := fillna wine_df in
  let style_df := fillna style_df in
  let wine_df := add_prefix "wine_" wine_df in
  let style_df := add_prefix "style_" style_df in
  merged_df <- merge reviews_df wine_df "idWine" "wine_ID" ;;
  merged_df <- merge merged_df style_df "wine_Style" "style_ID" ;;
  drop ["idWine"; "wine_Style"]%string merged_df.

(** ** Sample inputs *)

Definition sample_reviews : DataFrame :=
  {| columns := reviews_columns;
     rows := [[CInt 1; CStr "it"; CInt 123; CFloat 5; CStr "ottimo";
               CStr "2016-10-05T20:48:41.000Z"];
              [CInt 2; CStr "en"; CInt 999; CFloat 3; CNaN;
               CStr "2017-01-01T00:00:00.000Z"];
              [CInt 3; CStr "en"; CInt 124; CFloat 4; CStr "fine";
               CStr "2018-03-04T10:00:00.000Z"]] |}.

Definition sample_wine : DataFrame :=
  {| columns := wine_columns;
     rows := [[CInt 123; CStr "Ducato Grazioli"; CStr "Petit Verdot";
               CInt 2021; CInt 47; CFloat 4.5; CInt 16; CInt 1; CFloat 8.75];
              [CInt 124; CStr "Cantina"; CStr "Rosso";
               CInt 2019; CInt 47; CFloat 3.9; CInt 40; CInt 2; CNaN]] |}.

Definition sample_style : DataFrame :=
  {| columns := style_columns;
     rows := [[CInt 47; CStr "Italia centrale"; CNaN; CStr "it"]] |}.

(** ** Inputs that the stage accepts *)

(** The three tables have the documented columns, every row has one cell
    per column, and the identifiers, the year and the type are integers
    (columns of dtype int64; the join columns of both sides are of one
    dtype).  Other cells may be missing. *)
Definition inputs_ok (reviews_df wine_df style_df : DataFrame) : Prop :=
  (df_wf reviews_df /\ df_wf wine_df /\ df_wf style_df) /\
  (columns reviews_df = reviews_columns /\ columns wine_df = wine_columns /\
   columns style_df = style_columns) /\
  int_column reviews_df "idWine" /\
  Forall (int_column wine_df) ["ID"; "Year"; "Style"; "Type"]%string /\
  int_column style_df "ID".

#[export] Instance inputs_ok_dec r w s : Decision (inputs_ok r w s).
Proof. unfold inputs_ok. apply _. Defined.

(** The three tables as the joins see them. *)
Definition clean_reviews (reviews_df : DataFrame) : DataFrame :=
  fillna reviews_df.
Definition clean_wine (wine_df : DataFrame) : DataFrame :=
  add_prefix "wine_" (fillna wine_df).
Definition clean_style (style_df : DataFrame) : DataFrame :=
  add_prefix "style_" (fillna style_df).

(** Reviews with their wine. *)
Definition with_wine (reviews_df wine_df : DataFrame) : DataFrame :=
  joined (clean_reviews reviews_df) (clean_wine wine_df) "idWine" "wine_ID".

(** Reviews with their wine and its style. *)
Definition with_style (reviews_df wine_df style_df : DataFrame) : DataFrame :=
  joined (with_wine reviews_df wine_df) (clean_style style_df)
    "wine_Style" "style_ID".

(** The table of [merged_table] in closed form. *)
Definition flat_table (reviews_df wine_df style_df : DataFrame) : DataFrame :=
  dropped ["idWine"; "wine_Style"]%string
    (with_style reviews_df wine_df style_df).

Section Inputs.
Context (R W S : DataFrame).
Hypothesis Hin : inputs_ok R W S.

Lemma inputs_columns :
  columns (clean_reviews R) = reviews_columns /\
  columns (clean_wine W) = String.append "wine_" <$> wine_columns /\
  columns (clean_style S) = String.append "style_" <$> style_columns.
Proof.
  destruct Hin as (_ & (HR & HW & HS) & _).
  unfold clean_reviews, clean_wine, clean_style. simpl.
  by rewrite HR, HW, HS.
Qed.

Lemma with_wine_columns :
  columns (with_wine R W)
  = reviews_columns ++ (String.append "wine_" <$> wine_columns).
Proof.
  destruct inputs_columns as (HR & HW & _).
  unfold with_wine, joined. cbn [columns]. by rewrite HR, HW.
Qed.

Lemma with_style_columns :
  columns (with_style R W S)
  = (reviews_columns ++ (String.append "wine_" <$> wine_columns))
    ++ (String.append "style_" <$> style_columns).
Proof.
  destruct inputs_columns as (_ & _ & HS).
  unfold with_style, joined. cbn [columns].
  by rewrite with_wine_columns, HS.
Qed.

Lemma flat_table_columns : columns (flat_table R W S) = merged_columns.
Proof.
  unfold flat_table, dropped. cbn [columns].
  by rewrite with_style_columns.
Qed.

Lemma merged_table_flat : merged_table R W S = Ok (flat_table R W S).
Proof.
  destruct inputs_columns as (HR & HW & HS). unfold merged_table.
  fold (clean_reviews R) (clean_wine W) (clean_style S).
  rewrite merge_joined; [|rewrite ?HR, ?HW; compute_done..].
  fold (with_wine R W). simpl exc_bind.
  rewrite merge_joined; [|rewrite ?with_wine_columns, ?HS; compute_done..].
  fold (with_style R W S). simpl exc_bind.
  apply drop_dropped. rewrite with_style_columns. compute_done.
Qed.

End Inputs.

(** ** A join key that is missing *)

(** The key that the first join does not find: [merge] looks up the key of
    the right table first, so a wine table without [ID] is reported before
    a reviews table without [idWine]. *)
Definition first_key (reviews_df wine_df : DataFrame) : string :=
  if decide ("ID"%string ∈ columns wine_df) then "idWine"%string
  else "wine_ID"%string.

Lemma add_prefix_column p df c :
  String.append p c ∈ columns (add_prefix p df) <-> c ∈ columns df.
Proof.
  rewrite elem_of_add_prefix. split; [|by exists c].
  by intros (c' & ->%append_inj & Hc').
Qed.

Lemma merged_table_first_key R W S :
  "idWine"%string ∉ columns R \/ "ID"%string ∉ columns W ->
  merged_table R W S = Raise (KeyError (first_key R W)).
Proof.
  intros H. unfold merged_table, first_key. case_decide as HW.
  - rewrite merge_KeyError_left; [done| |by destruct H].
    by apply (add_prefix_column "wine_" (fillna W) "ID").
  - rewrite merge_KeyError_right; [done|].
    by rewrite (add_prefix_column "wine_" (fillna W) "ID").
Qed.

(** ** The joined table is what [setHierarchy] expects *)

Section Typed.
Context (R W S : DataFrame).
Hypothesis Hin : inputs_ok R W S.

Lemma with_wine_wf : df_wf (with_wine R W).
Proof.
  destruct (inputs_columns R W S Hin) as (HR & HW & _).
  destruct Hin as ((? & ? & ?) & _).
  apply joined_wf; [by apply fillna_wf | by apply add_prefix_wf, fillna_wf |].
  rewrite HR, HW. compute_done.
Qed.

Lemma with_style_wf : df_wf (with_style R W S).
Proof.
  destruct (inputs_columns R W S Hin) as (_ & _ & HS).
  destruct Hin as ((? & ? & ?) & _).
  apply joined_wf; [apply with_wine_wf | by apply add_prefix_wf, fillna_wf |].
  rewrite (with_wine_columns R W S Hin), HS. compute_done.
Qed.

Lemma flat_table_wf : df_wf (flat_table R W S).
Proof. apply dropped_wf, with_style_wf. Qed.

Lemma flat_table_no_nan : no_nan (flat_table R W S).
Proof.
  apply dropped_no_nan.
  repeat first [apply joined_no_nan | apply add_prefix_no_nan
               | apply fillna_no_nan].
Qed.

(** The prefixed labels of the wines are no labels of the reviews, and
    only [wine_Style] is dropped. *)
Lemma wine_labels c :
  c ∈ wine_columns ->
  (String.append "wine_" c ∉ reviews_columns) /\
  (c <> "Style"%string ->
   String.append "wine_" c ∉ ["idWine"; "wine_Style"]%string).
Proof.
  revert c. apply Forall_forall. compute_done.
Qed.

(** An integer column of the wines is an integer column of the result. *)
Lemma flat_table_wine_int c :
  c ∈ wine_columns -> c <> "Style"%string -> int_column W c ->
  int_column (flat_table R W S) (String.append "wine_" c).
Proof.
  intros Hc Hne Hint. pose proof (inputs_columns R W S Hin) as (HR & HW & _).
  destruct (wine_labels c Hc) as [Hrev Hdrop].
  apply dropped_int_column; [apply with_style_wf | auto |].
  apply joined_int_column_l; [apply with_wine_wf | |].
  { rewrite (with_wine_columns R W S Hin). apply elem_of_app. right.
    by apply list_elem_of_fmap_2. }
  destruct Hin as ((? & ? & ?) & _).
  apply joined_int_column_r; [by apply fillna_wf | by rewrite HR |].
  by apply add_prefix_int_column, fillna_int_column.
Qed.

Lemma flat_table_style_int :
  int_column (flat_table R W S) "style_ID".
Proof.
  pose proof (with_wine_columns R W S Hin) as HRW.
  destruct Hin as ((? & ? & ?) & _ & _ & _ & HS).
  apply dropped_int_column; [apply with_style_wf | compute_done |].
  apply joined_int_column_r; [apply with_wine_wf | |].
  - rewrite HRW. compute_done.
  - by apply (add_prefix_int_column "style_" _ "ID"), fillna_int_column.
Qed.

Lemma flat_table_typed : typed (flat_table R W S).
Proof.
  split_and!; [apply flat_table_wf | apply flat_table_no_nan | |].
  - rewrite (flat_table_columns R W S Hin). compute_done.
  - destruct Hin as (_ & _ & _ & HW & _).
    apply Forall_cons in HW as [HID HW].
    apply Forall_cons in HW as [HYear HW].
    apply Forall_cons in HW as [_ HW].
    apply Forall_cons in HW as [HType _].
    unfold int_columns. repeat apply Forall_cons_2; [| | | |done].
    + by apply (flat_table_wine_int "Type"); [compute_done|..].
    + apply flat_table_style_int.
    + by apply (flat_table_wine_int "ID"); [compute_done|..].
    + by apply (flat_table_wine_int "Year"); [compute_done|..].
Qed.

End Typed.

(** C9.  On inputs with the documented columns whose identifiers, year and
    type are integers, the join stage raises nothing; its table has the 17
    documented columns, one cell per column in every row, no missing value
    and integer identifiers: it is a table [setHierarchy] accepts. *)
Theorem merged_table_typed (R W S : DataFrame) :
  inputs_ok R W S ->
  exists m, merged_table R W S = Ok m /\ columns m = merged_columns /\ typed m.
Proof.
  intros Hin. exists (flat_table R W S).
  auto using merged_table_flat, flat_table_columns, flat_table_typed.
Qed.

Lemma merged_table_typed_witness :
  exists m, merged_table sample_reviews sample_wine sample_style = Ok m /\
            columns m = merged_columns /\ typed m.
Proof. apply merged_table_typed. compute_done. Defined.

(** Scenario C: the review of wine 999, which [wine.csv] does not have, is
    in neither artifact, and nothing is raised.  The missing note of no
    review and the missing description of the style are empty strings. *)
Example scenario_C :
  exc_map (fun m => (cell_at (columns m) "idRev" <$> rows m,
                     cell_at (columns m) "style_Description" <$> rows m))
    (merged_table sample_reviews sample_wine sample_style)
  = Ok ([CInt 1; CInt 3], [CStr ""; CStr ""]).
Proof. by vm_compute. Qed.

(** ** The rows of the joined table *)

(** Cleaning keeps the keys of an integer column. *)
Lemma row_key_fillna df c r :
  int_column df c -> r ∈ rows df ->
  row_key (columns df) c (fillna_cell <$> r) = row_key (columns df) c r.
Proof.
  intros Hint Hr. unfold row_key.
  by rewrite cell_of_fmap, (int_column_cell df c r).
Qed.

Lemma row_key_add_prefix p cols c r :
  row_key (String.append p <$> cols) (String.append p c) r = row_key cols c r.
Proof. unfold row_key. by rewrite cell_of_add_prefix. Qed.

Lemma keys_fillna df c :
  int_column df c ->
  row_key (columns df) c <$> rows (fillna df) = row_key (columns df) c <$> rows df.
Proof.
  intros Hint. unfold fillna. simpl.
  change (map (map fillna_cell) (rows df))
    with (fmap (M:=list) fillna_cell <$> rows df).
  rewrite <- list_fmap_compose. apply Forall_fmap_ext, Forall_forall.
  intros r Hr. by apply row_key_fillna.
Qed.

(** The keys of a cleaned and prefixed table are the keys of the input. *)
Lemma keys_clean p df c :
  int_column df c ->
  row_key (columns (add_prefix p (fillna df))) (String.append p c)
    <$> rows (add_prefix p (fillna df))
  = row_key (columns df) c <$> rows df.
Proof.
  intros Hint. rewrite <- (keys_fillna df c Hint).
  apply list_fmap_ext. intros _ r _. apply row_key_add_prefix.
Qed.

Lemma unique_key_clean p df c :
  int_column df c -> unique_key df c ->
  unique_key (add_prefix p (fillna df)) (String.append p c).
Proof. intros Hint Hu. unfold unique_key. by rewrite keys_clean. Qed.

(** The key of a row of [with_wine] under [wine_Style] is the key of its
    wine. *)
Lemma with_wine_style_key R W S rv wn :
  inputs_ok R W S -> rv ∈ rows (clean_reviews R) ->
  row_key (columns (with_wine R W)) "wine_Style" (rv ++ wn)
  = row_key (columns (clean_wine W)) "wine_Style" wn.
Proof.
  intros Hin Hrv. destruct (inputs_columns R W S Hin) as (HR & _ & _).
  destruct Hin as ((HwfR & _ & _) & _).
  apply fillna_wf in HwfR as [_ Hlen]. rewrite Forall_forall in Hlen.
  unfold row_key, with_wine, joined. cbn [columns].
  rewrite cell_of_app_r; [done | | by apply Hlen].
  rewrite HR. compute_done.
Qed.

(** The labels of a review, its wine and the style of the wine, and the row
    that is kept of the three. *)
Definition joined_columns : list string :=
  (reviews_columns ++ (String.append "wine_" <$> wine_columns))
  ++ (String.append "style_" <$> style_columns).

Definition flat_row (rv wn st : list cell) : list cell :=
  drop_cells ["idWine"; "wine_Style"]%string joined_columns ((rv ++ wn) ++ st).

(** A review [rv] and a wine [wn] are joined when the key of the review
    under [idWine] is the key of the wine under [ID], and a wine and a style
    when the key of the wine under [Style] is the key of the style under
    [ID]. *)
Definition review_of_wine (R W : DataFrame) (rv wn : list cell) : Prop :=
  row_key (columns (clean_reviews R)) "idWine" rv
  = row_key (columns (clean_wine W)) "wine_ID" wn.

Definition wine_of_style (W S : DataFrame) (wn st : list cell) : Prop :=
  row_key (columns (clean_wine W)) "wine_Style" wn
  = row_key (columns (clean_style S)) "style_ID" st.

Lemma flat_row_cells a1 a2 a3 a4 a5 a6 b1 b2 b3 b4 b5 b6 b7 b8 b9 c1 c2 c3 c4 :
  flat_row [a1; a2; a3; a4; a5; a6] [b1; b2; b3; b4; b5; b6; b7; b8; b9]
    [c1; c2; c3; c4]
  = [a1; a2; a4; a5; a6; b1; b2; b3; b4; b6; b7; b8; b9; c1; c2; c3; c4].
Proof. reflexivity. Qed.

Lemma elem_of_flat_table R W S r :
  inputs_ok R W S ->
  r ∈ rows (flat_table R W S) <->
  exists rv wn st,
    (rv ∈ rows (clean_reviews R) /\ wn ∈ rows (clean_wine W) /\
     st ∈ rows (clean_style S)) /\
    review_of_wine R W rv wn /\ wine_of_style W S wn st /\
    r = flat_row rv wn st.
Proof.
  intros Hin. unfold flat_table, dropped, flat_row, joined_columns.
  cbn [rows]. rewrite (with_style_columns R W S Hin), list_elem_of_fmap.
  split.
  - intros (x & -> & (rw & st & Hrw & Hst & Hk & ->)%elem_of_joined).
    apply elem_of_joined in Hrw as (rv & wn & Hrv & Hwn & Hk1 & ->).
    rewrite (with_wine_style_key R W S) in Hk by done.
    by exists rv, wn, st.
  - intros (rv & wn & st & (Hrv & Hwn & Hst) & Hk1 & Hk2 & ->).
    eexists; split; [done|]. apply elem_of_joined.
    exists (rv ++ wn), st. split_and!; [|done| |done].
    + apply elem_of_joined. by exists rv, wn.
    + by rewrite (with_wine_style_key R W S).
Qed.

(** A review is an orphan when no wine of the table has its [idWine]. *)
Definition orphan (R W : DataFrame) (rv : list cell) : Prop :=
  Forall (fun wn => ~ review_of_wine R W rv wn) (rows (clean_wine W)).

#[export] Instance orphan_dec R W rv : Decision (orphan R W rv).
Proof. unfold orphan, review_of_wine. apply _. Defined.

(** When every review is an orphan, the joined table has its 17 columns
    and no row. *)
Lemma flat_table_orphans R W S :
  inputs_ok R W S -> Forall (orphan R W) (rows (clean_reviews R)) ->
  flat_table R W S = joined_empty.
Proof.
  intros Hin Ho. pose proof (flat_table_columns R W S Hin) as Hc.
  assert (rows (flat_table R W S) = []) as Hr.
  { apply elem_of_nil_inv. intros r.
    intros (rv & wn & st & (Hrv & Hwn & _) & Hk & _)%elem_of_flat_table;
      [|done].
    rewrite Forall_forall in Ho. specialize (Ho rv Hrv).
    unfold orphan in Ho. rewrite Forall_forall in Ho. by apply (Ho wn). }
  destruct (flat_table R W S). simpl in *. by subst.
Qed.

(** C8.  The rows of the exported table are the triples of a review, its
    wine and the style of that wine, without the two join columns of the
    left side: a review whose wine is not in the wines, or whose wine has a
    style that is not in the styles, is in no row; a review that matches is
    in one row per matching wine and style. *)
Theorem merged_table_rows (R W S m : DataFrame) (r : list cell) :
  inputs_ok R W S -> merged_table R W S = Ok m ->
  r ∈ rows m <->
  exists rv wn st,
    (rv ∈ rows (clean_reviews R) /\ wn ∈ rows (clean_wine W) /\
     st ∈ rows (clean_style S)) /\
    review_of_wine R W rv wn /\ wine_of_style W S wn st /\
    r = flat_row rv wn st.
Proof.
  intros Hin Hm. rewrite merged_table_flat in Hm by done.
  injection Hm as <-. by apply elem_of_flat_table.
Qed.

Lemma merged_table_rows_witness :
  [CInt 3; CStr "en"; CFloat 4; CStr "fine"; CStr "2018-03-04T10:00:00.000Z";
   CInt 124; CStr "Cantina"; CStr "Rosso"; CInt 2019; CFloat 3.9; CInt 40;
   CInt 2; CStr ""; CInt 47; CStr "Italia centrale"; CStr ""; CStr "it"]
  ∈ rows (flat_table sample_reviews sample_wine sample_style).
Proof.
  apply (merged_table_rows sample_reviews sample_wine sample_style);
    [compute_done | by vm_compute |].
  exists [CInt 3; CStr "en"; CInt 124; CFloat 4; CStr "fine";
          CStr "2018-03-04T10:00:00.000Z"],
    [CInt 124; CStr "Cantina"; CStr "Rosso"; CInt 2019; CInt 47; CFloat 3.9;
     CInt 40; CInt 2; CStr ""],
    [CInt 47; CStr "Italia centrale"; CStr ""; CStr "it"].
  split_and!; compute_done.
Defined.

(** ** How many rows are exported *)

Section Count.
Context (R W S : DataFrame).
Hypothesis Hin : inputs_ok R W S.

Lemma inputs_int :
  int_column R "idWine" /\ int_column W "ID" /\ int_column W "Style" /\
  int_column S "ID".
Proof.
  destruct Hin as (_ & _ & HR & HW & HS).
  apply Forall_cons in HW as [HID HW]. apply Forall_cons in HW as [_ HW].
  by apply Forall_cons in HW as [HStyle _].
Qed.

(** The join keys of the cleaned tables are those of the inputs. *)
Lemma clean_reviews_keys :
  row_key (columns (clean_reviews R)) "idWine" <$> rows (clean_reviews R)
  = row_key (columns R) "idWine" <$> rows R.
Proof. destruct inputs_int as (H & _). exact (keys_fillna R "idWine" H). Qed.

Lemma clean_wine_keys :
  row_key (columns (clean_wine W)) "wine_ID" <$> rows (clean_wine W)
  = row_key (columns W) "ID" <$> rows W.
Proof.
  destruct inputs_int as (_ & H & _). exact (keys_clean "wine_" W "ID" H).
Qed.

Lemma clean_wine_style_keys :
  row_key (columns (clean_wine W)) "wine_Style" <$> rows (clean_wine W)
  = row_key (columns W) "Style" <$> rows W.
Proof.
  destruct inputs_int as (_ & _ & H & _).
  exact (keys_clean "wine_" W "Style" H).
Qed.

Lemma clean_style_keys :
  row_key (columns (clean_style S)) "style_ID" <$> rows (clean_style S)
  = row_key (columns S) "ID" <$> rows S.
Proof.
  destruct inputs_int as (_ & _ & _ & H).
  exact (keys_clean "style_" S "ID" H).
Qed.

Hypothesis HuW : unique_key W "ID".
Hypothesis HuS : unique_key S "ID".

Lemma clean_wine_unique : unique_key (clean_wine W) "wine_ID".
Proof. unfold unique_key. by rewrite clean_wine_keys. Qed.

Lemma clean_style_unique : unique_key (clean_style S) "style_ID".
Proof. unfold unique_key. by rewrite clean_style_keys. Qed.

Lemma with_wine_len_le : df_len (with_wine R W) <= df_len R.
Proof.
  rewrite <- (fillna_len R). apply joined_len_le, clean_wine_unique.
Qed.

Lemma flat_table_len_le : df_len (flat_table R W S) <= df_len R.
Proof.
  unfold flat_table. rewrite dropped_len.
  etrans; [apply joined_len_le, clean_style_unique | apply with_wine_len_le].
Qed.

(** Every review has its wine, and every wine its style. *)
Hypothesis HrefW : refers R W "idWine" "ID".
Hypothesis HrefS : refers W S "Style" "ID".

Lemma clean_reviews_refers :
  refers (clean_reviews R) (clean_wine W) "idWine" "wine_ID".
Proof.
  apply refers_keys. rewrite clean_reviews_keys, clean_wine_keys.
  by apply refers_keys.
Qed.

Lemma with_wine_refers :
  refers (with_wine R W) (clean_style S) "wine_Style" "style_ID".
Proof.
  apply refers_keys in HrefS.
  rewrite <- clean_wine_style_keys, <- clean_style_keys in HrefS.
  apply Forall_forall.
  intros r (rv & wn & Hrv & Hwn & _ & ->)%elem_of_joined.
  rewrite (with_wine_style_key R W S) by done.
  rewrite Forall_forall in HrefS. by apply HrefS, list_elem_of_fmap_2.
Qed.

Lemma flat_table_len : df_len (flat_table R W S) = df_len R.
Proof.
  unfold flat_table. rewrite dropped_len. unfold with_style.
  rewrite joined_len by auto using clean_style_unique, with_wine_refers.
  unfold with_wine.
  rewrite joined_len by auto using clean_wine_unique, clean_reviews_refers.
  apply fillna_len.
Qed.

End Count.

(** With one row per wine identifier and one per style identifier,
    the exported table has at most as many rows as there are reviews; it has
    exactly as many when every review names a wine of the wines and every
    wine a style of the styles: then no review is lost and none is
    repeated. *)
Theorem merged_table_len (R W S m : DataFrame) :
  inputs_ok R W S -> unique_key W "ID" -> unique_key S "ID" ->
  merged_table R W S = Ok m ->
  df_len m <= df_len R /\
  (refers R W "idWine" "ID" -> refers W S "Style" "ID" ->
   df_len m = df_len R).
Proof.
  intros Hin HuW HuS Hm. rewrite merged_table_flat in Hm by done.
  injection Hm as <-. auto using flat_table_len_le, flat_table_len.
Qed.

Lemma merged_table_len_witness :
  df_len (flat_table sample_reviews sample_wine sample_style)
  <= df_len sample_reviews.
Proof.
  apply (merged_table_len sample_reviews sample_wine sample_style);
    [compute_done.. | by vm_compute].
Defined.

(** A number that is missing in [wine.csv] is text in the document: the
    price of wine 124 is the empty string that [fillna] put there. *)
Example missing_price_is_text :
  (h ← of_exc (setHierarchy (flat_table sample_reviews sample_wine sample_style));
   t ← last (wine_types h); s ← head (styles t); w ← head (wines s);
   Some (wine_ID w, wine_Price w))
  = Some (124%Z, CStr "").
Proof. by vm_compute. Qed.
