(* ===== verification/Emit.v ===== *)
(** * The two artifacts

    [loadStructure] of [src/data/dataLoad.py] (lines 122-156) as a
    procedure: the output directory is created when it is not there
    ([ensure_dir]), the three tables are read ([read_tables]), joined
    ([merged_table]) and nested ([setHierarchy]), and the result is written
    twice ([export_dataset]): the document as JSON, the joined table as CSV.

    [pd.read_csv] is an argument, a function from the path to the table or
    to the exception of the read; the operating system is an argument too,
    with what it refuses.  What the function does to the outside is the
    list of its effects in order, next to the directories that exist
    afterwards and the result or the exception that ended it. *)

From Stdlib Require Import ZArith QArith String List Lia.
From stdpp Require Import base tactics option numbers list strings sets.
From S2P Require Import Prelude Groupby Cell Value Clock Frame Effects Proc.
From S2P Require Import Join Samples Hierarchy Document Load.

#[local] Open Scope exc_scope.
#[local] Notation "a +:+ b" := (String.append a b)
  (at level 60, right associativity).

(** ** [loadStructure] *)

(** [pd.read_csv]: the table of a path, or the exception of the read. *)
Definition reader : Type := string -> exc DataFrame.

(** Lines 130-132. *)
Definition read_tables (read_csv : reader) (path : string)
    : exc (DataFrame * DataFrame * DataFrame) :=
  reviews_df <- read_csv (path +:+ "/reviews.csv") ;;
  wine_df <- read_csv (path +:+ "/wine.csv") ;;
  style_df <- read_csv (path +:+ "/style.csv") ;;
  Ok (reviews_df, wine_df, style_df).

(** Lines 130-145: the table and its document, or the first exception. *)
Definition load_dataset (read_csv : reader) (path : string)
    : exc (DataFrame * output_json) :=
  tables <- read_tables read_csv path ;;
  merged_df <- merged_table tables.1.1 tables.1.2 tables.2 ;;
  dfJSON <- setHierarchy merged_df ;;
  Ok (merged_df, dfJSON).

(** Lines 147-156: the two files and the two messages. *)
Definition export_dataset (sys : system) (directory_name currentTime : string)
    (dfJSON : output_json) (merged_df : DataFrame) : proc output_json unit :=
  (let nameFile := "dataset " +:+ currentTime +:+ ".json" in
   let outPath := directory_name +:+ nameFile in
   _ <- write_json sys outPath dfJSON ;;
   _ <- print ("Results [JSON] exported in 'dataset/" +:+ nameFile +:+ "'.") ;;
   let nameFile := "dataset " +:+ currentTime +:+ ".csv" in
   let outPath := directory_name +:+ nameFile in
   _ <- write_csv sys outPath merged_df ;;
   print ("Results [CSV] exported in 'dataset/" +:+ nameFile +:+ "'."))%proc.

(** Lines 122-156.  The result is the directories that exist afterwards,
    the effects, and [Ok tt] or the exception that ended the run. *)
Definition loadStructure (sys : system) (read_csv : reader)
    (path directory_name currentTime : string) : proc output_json unit :=
  (_ <- ensure_dir sys "Error in creating the directory: " directory_name ;;
   loaded <- lift (load_dataset read_csv path) ;;
   export_dataset sys directory_name currentTime loaded.2 loaded.1)%proc.

(** ** Sample inputs *)

(** Three tables as the files of the directory [p]. *)
Definition reads (p : string) (reviews_df wine_df style_df : DataFrame)
    : reader := fun f =>
  if decide (f = p +:+ "/reviews.csv") then Ok reviews_df
  else if decide (f = p +:+ "/wine.csv") then Ok wine_df
  else if decide (f = p +:+ "/style.csv") then Ok style_df
  else Raise (FileNotFoundError f).

Definition sample_reader : reader :=
  reads "input/" sample_reviews sample_wine sample_style.

(** A system on which the disk is full when the second file is opened. *)
Definition csv_refused : system := fun p =>
  if decide (p = "dataset/dataset 10.30.csv") then Some (PermissionError p)
  else None.

(** ** The paths and the effects of a run *)

Definition json_path (directory_name currentTime : string) : string :=
  directory_name +:+ "dataset " +:+ currentTime +:+ ".json".

Definition csv_path (directory_name currentTime : string) : string :=
  directory_name +:+ "dataset " +:+ currentTime +:+ ".csv".

(** The system refuses none of the paths of a run, and the directory has a
    name. *)
Definition permitted (sys : system) (directory_name currentTime : string)
    : Prop :=
  directory_name <> ""%string /\
  Forall (fun p => sys p = None)
    [directory_name; json_path directory_name currentTime;
     csv_path directory_name currentTime].

#[export] Instance permitted_dec sys dir t : Decision (permitted sys dir t).
Proof. unfold permitted. apply _. Defined.

(** The directories after the guard of line 124. *)
Definition with_dir (fs : dirs) (directory_name : string) : dirs :=
  if decide (path_exists fs directory_name) then fs
  else directory_name :: fs.

(** What the guard puts out when the system permits the directory. *)
Definition made (fs : dirs) (directory_name : string)
    : list (effect output_json) :=
  if decide (path_exists fs directory_name) then []
  else [MakeDirs directory_name].

(** The effects of the two writes. *)
Definition json_written (directory_name currentTime : string)
    (doc : output_json) : list (effect output_json) :=
  [WriteJson (json_path directory_name currentTime) doc;
   Print ("Results [JSON] exported in 'dataset/"
          +:+ ("dataset " +:+ currentTime +:+ ".json") +:+ "'.")].

Definition csv_written (directory_name currentTime : string)
    (table : DataFrame) : list (effect output_json) :=
  [WriteCsv (csv_path directory_name currentTime) table;
   Print ("Results [CSV] exported in 'dataset/"
          +:+ ("dataset " +:+ currentTime +:+ ".csv") +:+ "'.")].

(** The effects of a run that succeeds. *)
Definition exported (fs : dirs) (directory_name currentTime : string)
    (doc : output_json) (table : DataFrame) : list (effect output_json) :=
  made fs directory_name ++ json_written directory_name currentTime doc
  ++ csv_written directory_name currentTime table.

(** The reads succeed with the three tables. *)
Definition reads_as (rd : reader) (p : string) (R W S : DataFrame) : Prop :=
  rd (p +:+ "/reviews.csv") = Ok R /\ rd (p +:+ "/wine.csv") = Ok W
  /\ rd (p +:+ "/style.csv") = Ok S.

#[export] Instance reads_as_dec rd p R W S : Decision (reads_as rd p R W S).
Proof. unfold reads_as. apply _. Defined.

Lemma reads_reads_as p R W S : reads_as (reads p R W S) p R W S.
Proof.
  unfold reads_as, reads. rewrite decide_True by done.
  rewrite decide_False, decide_True by (done || by intros ?%(inj _)).
  by rewrite !decide_False, decide_True by (done || by intros ?%(inj _)).
Qed.

(** ** The reads and the table *)

Lemma read_tables_Ok rd p R W S :
  reads_as rd p R W S -> read_tables rd p = Ok (R, W, S).
Proof. intros (HR & HW & HS). unfold read_tables. by rewrite HR, HW, HS. Qed.

Lemma read_tables_Ok_inv rd p R W S :
  read_tables rd p = Ok (R, W, S) -> reads_as rd p R W S.
Proof.
  unfold read_tables. intros H. do 3 exc_inv H. by simplify_eq.
Qed.

Lemma load_dataset_Ok rd p R W S m h :
  reads_as rd p R W S -> merged_table R W S = Ok m -> setHierarchy m = Ok h ->
  load_dataset rd p = Ok (m, h).
Proof.
  intros Hrd Hm Hh. unfold load_dataset.
  rewrite (read_tables_Ok _ _ _ _ _ Hrd). cbn [exc_bind fst snd].
  rewrite Hm. cbn [exc_bind]. by rewrite Hh.
Qed.

Lemma load_dataset_Ok_inv rd p m h :
  load_dataset rd p = Ok (m, h) ->
  exists R W S,
    reads_as rd p R W S /\ merged_table R W S = Ok m /\ setHierarchy m = Ok h.
Proof.
  unfold load_dataset. intros H. do 3 exc_inv H. simplify_eq.
  destruct a as [[R W] S]. exists R, W, S.
  split; [by apply read_tables_Ok_inv | done].
Qed.

Lemma load_dataset_exported rd p R W S :
  reads_as rd p R W S -> inputs_ok R W S ->
  load_dataset rd p = Ok (flat_table R W S, document (flat_table R W S)).
Proof.
  intros Hrd Hin. eapply load_dataset_Ok; [done | by apply merged_table_flat|].
  by apply loops_compute_document, flat_table_typed.
Qed.

(** ** The two writes *)

Section TwoWrites.
Variable sys : system.
Implicit Types (fs : dirs) (dir t : string) (h : output_json) (m : DataFrame).

(** The three ways [export_dataset] ends: the first file is refused, the
    second is, or both are written. *)
Lemma export_dataset_cases dir t h m fs :
  export_dataset sys dir t h m fs
  = match sys (json_path dir t), sys (csv_path dir t) with
    | Some e, _ => (fs, [], Raise e)
    | None, Some e => (fs, json_written dir t h, Raise e)
    | None, None => (fs, json_written dir t h ++ csv_written dir t m, Ok tt)
    end.
Proof.
  unfold export_dataset, proc_bind, write_json, write_csv, print, json_path,
    csv_path, json_written, csv_written. cbv zeta.
  destruct (sys (dir +:+ "dataset " +:+ t +:+ ".json")),
       (sys (dir +:+ "dataset " +:+ t +:+ ".csv")); done.
Qed.

End TwoWrites.

(** ** A run, by cases *)

Section Run.
Variables (sys : system) (rd : reader).
Implicit Types (fs : dirs) (p dir t : string).

(** A run is the guard of the directory, followed by the export of what
    [load_dataset] returned, or by nothing. *)
Lemma loadStructure_unfold p dir t fs :
  loadStructure sys rd p dir t fs
  = match ensure_dir sys "Error in creating the directory: " dir fs with
    | (fs1, out, Raise e) => (fs1, out, Raise e)
    | (fs1, out, Ok _) =>
        match load_dataset rd p with
        | Raise e => (fs1, out, Raise e)
        | Ok mh => resume fs1 out (export_dataset sys dir t mh.2 mh.1)
        end
    end.
Proof.
  unfold loadStructure. rewrite proc_bind_run.
  destruct (ensure_dir _ _ _ _) as [[fs1 out] [[]|e]]; simpl; [|done].
  unfold resume. rewrite proc_bind_lift.
  destruct (load_dataset rd p) as [mh|e]; [done|]. by rewrite app_nil_r.
Qed.

(** When the directory is there or can be created, the guard does what
    [with_dir] and [made] say. *)
Lemma loadStructure_guarded p dir t fs :
  dir <> ""%string -> sys dir = None ->
  loadStructure sys rd p dir t fs
  = match load_dataset rd p with
    | Raise e => (with_dir fs dir, made fs dir, Raise e)
    | Ok mh =>
        resume (with_dir fs dir) (made fs dir)
          (export_dataset sys dir t mh.2 mh.1)
    end.
Proof.
  intros Hd Hs. rewrite loadStructure_unfold, ensure_dir_permitted by done.
  unfold with_dir, made. by case_decide.
Qed.

Lemma permitted_inv dir t :
  permitted sys dir t ->
  dir <> ""%string /\ sys dir = None /\ sys (json_path dir t) = None
  /\ sys (csv_path dir t) = None.
Proof. unfold permitted. rewrite !Forall_cons. tauto. Qed.

Lemma loadStructure_Raise p dir t fs e :
  dir <> ""%string -> sys dir = None -> load_dataset rd p = Raise e ->
  loadStructure sys rd p dir t fs = (with_dir fs dir, made fs dir, Raise e).
Proof. intros Hd Hs He. by rewrite loadStructure_guarded, He. Qed.

Lemma loadStructure_Ok p R W S dir t m h fs :
  permitted sys dir t ->
  reads_as rd p R W S -> merged_table R W S = Ok m -> setHierarchy m = Ok h ->
  loadStructure sys rd p dir t fs
  = (with_dir fs dir, exported fs dir t h m, Ok tt).
Proof.
  intros (Hd & Hs & Hj & Hc)%permitted_inv Hrd Hm Hh.
  rewrite loadStructure_guarded by done.
  rewrite (load_dataset_Ok _ _ _ _ _ _ _ Hrd Hm Hh). unfold resume.
  by rewrite export_dataset_cases, Hj, Hc.
Qed.

Lemma loadStructure_exported p R W S dir t fs :
  permitted sys dir t -> reads_as rd p R W S -> inputs_ok R W S ->
  loadStructure sys rd p dir t fs
  = (with_dir fs dir,
     exported fs dir t (document (flat_table R W S)) (flat_table R W S),
     Ok tt).
Proof.
  intros Hp Hrd Hin. eapply loadStructure_Ok; [done..| by apply merged_table_flat|].
  by apply loops_compute_document, flat_table_typed.
Qed.

(** The files of a run, on any system and any input: none when the guard or
    the tables raise or the first file is refused, the document alone when
    the second file is refused, and both otherwise. *)
Lemma loadStructure_files p dir t fs :
  writes (loadStructure sys rd p dir t fs).1.2
  = match (ensure_dir (J:=output_json) sys
             "Error in creating the directory: " dir fs).2,
          load_dataset rd p with
    | Ok _, Ok mh =>
        match sys (json_path dir t), sys (csv_path dir t) with
        | Some _, _ => []
        | None, Some _ => [WriteJson (json_path dir t) mh.2]
        | None, None =>
            [WriteJson (json_path dir t) mh.2; WriteCsv (csv_path dir t) mh.1]
        end
    | _, _ => []
    end.
Proof.
  rewrite loadStructure_unfold.
  pose proof (ensure_dir_writes (J:=output_json) sys
                "Error in creating the directory: " dir fs) as Hw.
  destruct (ensure_dir _ _ _ _) as [[fs1 out] [[]|e]]; simpl in *; [|done].
  destruct (load_dataset rd p) as [mh|e]; [|done].
  rewrite resume_output, writes_app, Hw, export_dataset_cases.
  by destruct (sys (json_path dir t)), (sys (csv_path dir t)).
Qed.

(** The result of a run: the first exception among those of the guard, of
    the tables, of the first and of the second file. *)
Lemma loadStructure_result p dir t fs :
  (loadStructure sys rd p dir t fs).2
  = (_ <- (ensure_dir (J:=output_json) sys
             "Error in creating the directory: " dir fs).2 ;;
     _ <- load_dataset rd p ;;
     _ <- refusal (sys (json_path dir t)) ;;
     refusal (sys (csv_path dir t))).
Proof.
  rewrite loadStructure_unfold.
  destruct (ensure_dir _ _ _ _) as [[fs1 out] [[]|e]]; simpl; [|done].
  destruct (load_dataset rd p) as [mh|e]; [|done].
  rewrite resume_result, export_dataset_cases. simpl.
  by destruct (sys (json_path dir t)), (sys (csv_path dir t)).
Qed.

(** A run that ends normally has written the two files. *)
Lemma loadStructure_Ok_files p dir t fs :
  (loadStructure sys rd p dir t fs).2 = Ok tt ->
  exists m h,
    writes (loadStructure sys rd p dir t fs).1.2
    = [WriteJson (json_path dir t) h; WriteCsv (csv_path dir t) m].
Proof.
  rewrite loadStructure_result, loadStructure_files.
  destruct (ensure_dir _ _ _ _).2 as [[]|]; [|done].
  destruct (load_dataset rd p) as [[m h]|]; [|done]. simpl.
  destruct (sys (json_path dir t)); [done|].
  destruct (sys (csv_path dir t)); [done|]. eauto.
Qed.

(** The directories after a run are those after the guard. *)
Lemma loadStructure_dirs p dir t fs :
  (loadStructure sys rd p dir t fs).1.1
  = (ensure_dir (J:=output_json) sys
       "Error in creating the directory: " dir fs).1.1.
Proof.
  rewrite loadStructure_unfold.
  destruct (ensure_dir _ _ _ _) as [[fs1 out] [[]|e]]; simpl; [|done].
  destruct (load_dataset rd p) as [mh|e]; [|done].
  rewrite resume_dirs, export_dataset_cases.
  by destruct (sys (json_path dir t)), (sys (csv_path dir t)).
Qed.

End Run.

(** Names with suffixes of one length are equal when the suffixes are. *)
Lemma json_path_inj dir t t' :
  String.length t = String.length t' ->
  json_path dir t = json_path dir t' -> t = t'.
Proof.
  intros Hl. unfold json_path.
  intros [_ [_ [E _]%append_inj_length]%append_inj_length]%append_inj_length;
    done.
Qed.

(** The same in two directories: the names are equal when the directories
    and the suffixes are. *)
Lemma json_path_inj2 dir dir' t t' :
  String.length t = String.length t' ->
  json_path dir t = json_path dir' t' -> dir = dir' /\ t = t'.
Proof.
  intros Hl E. assert (String.length dir = String.length dir') as Hd.
  { apply (f_equal String.length) in E. unfold json_path in E.
    rewrite !length_append in E. lia. }
  unfold json_path in E. apply append_inj_length in E as [-> E]; [|done].
  split; [done|]. apply (json_path_inj dir'); [done|]. unfold json_path.
  by rewrite E.
Qed.

(** No directory is removed by a run. *)
#[export] Instance export_dataset_keeps sys dir t h m :
  Keeps (export_dataset sys dir t h m).
Proof. unfold export_dataset. cbv zeta. apply _. Qed.

#[export] Instance loadStructure_keeps sys rd p dir t :
  Keeps (loadStructure sys rd p dir t).
Proof. unfold loadStructure. apply _. Qed.

(** C14.  The footprint of a run, on any system and any input: the only
    directory it creates is [directory_name], the only files it writes are
    the two of the run, and every directory that was there is there
    afterwards. *)
Theorem loadStructure_footprint (sys : system) (rd : reader)
    (p dir t : string) (fs : dirs) :
  omap touched (loadStructure sys rd p dir t fs).1.2
    ⊆ [dir; json_path dir t; csv_path dir t]
  /\ (loadStructure sys rd p dir t fs).1.1 ⊆ dir :: fs
  /\ forall q, path_exists fs q ->
       path_exists (loadStructure sys rd p dir t fs).1.1 q.
Proof.
  destruct (ensure_dir_footprint (J:=output_json) sys
              "Error in creating the directory: " dir fs) as [Ht Hd].
  split; [|split; [|apply keeps]]; rewrite loadStructure_unfold;
    destruct (ensure_dir _ _ _ _) as [[fs1 out] [[]|e]]; simpl in *;
    try set_solver; destruct (load_dataset rd p); try set_solver;
    rewrite ?resume_output, ?resume_dirs, export_dataset_cases;
    destruct (sys (json_path dir t)), (sys (csv_path dir t)); simpl;
    rewrite ?omap_app; set_solver.
Qed.

(** C19.  An empty join is a run like any other: when the inputs have the
    documented columns and no review names a wine of [wine.csv], the run
    ends normally and writes both files, the document without a type node
    and the table with its 17 columns and no row. *)
Theorem loadStructure_empty_join (sys : system) (rd : reader)
    (R W S : DataFrame) (p dir t : string) (fs : dirs) :
  permitted sys dir t -> reads_as rd p R W S -> inputs_ok R W S ->
  Forall (orphan R W) (rows (clean_reviews R)) ->
  loadStructure sys rd p dir t fs
  = (with_dir fs dir,
     exported fs dir t {| wine_types := [] |} joined_empty, Ok tt).
Proof.
  intros Hp Hrd Hin Ho. eapply loadStructure_Ok; [done..| |].
  - rewrite merged_table_flat by done. by rewrite flat_table_orphans.
  - apply setHierarchy_empty; [compute_done | done].
Qed.

(** The reviews of two wines that [wine.csv] does not have. *)
Definition orphan_reviews : DataFrame :=
  {| columns := reviews_columns;
     rows := [[CInt 1; CStr "it"; CInt 998; CFloat 5; CStr "ottimo";
               CStr "2016-10-05T20:48:41.000Z"];
              [CInt 2; CStr "en"; CInt 999; CFloat 4; CNaN;
               CStr "2017-01-02T08:00:00.000Z"]] |}.

Lemma loadStructure_empty_join_witness :
  loadStructure reliable
    (reads "input/" orphan_reviews sample_wine sample_style)
    "input/" "dataset/" "10.30" []
  = (["dataset/"%string],
     [MakeDirs "dataset/";
      WriteJson "dataset/dataset 10.30.json" {| wine_types := [] |};
      Print "Results [JSON] exported in 'dataset/dataset 10.30.json'.";
      WriteCsv "dataset/dataset 10.30.csv" joined_empty;
      Print "Results [CSV] exported in 'dataset/dataset 10.30.csv'."],
     Ok tt).
Proof.
  apply (loadStructure_empty_join reliable _ orphan_reviews sample_wine
           sample_style "input/" "dataset/" "10.30" []);
    [compute_done | apply reads_reads_as | compute_done | compute_done].
Defined.

(** A run holds no state between runs: after a run that ended normally,
    the same run on the directories it left creates nothing, ends normally
    again and writes the same two files with the same contents. *)
Theorem loadStructure_again (sys : system) (rd : reader) (p dir t : string)
    (fs : dirs) :
  (loadStructure sys rd p dir t fs).2 = Ok tt ->
  let fs1 := (loadStructure sys rd p dir t fs).1.1 in
  (loadStructure sys rd p dir t fs1).1.1 = fs1
  /\ (loadStructure sys rd p dir t fs1).2 = Ok tt
  /\ writes (loadStructure sys rd p dir t fs1).1.2
     = writes (loadStructure sys rd p dir t fs).1.2.
Proof.
  intros Hr fs1. subst fs1.
  rewrite !loadStructure_dirs, !loadStructure_files, !loadStructure_result.
  rewrite loadStructure_result in Hr.
  destruct (ensure_dir_again (J:=output_json) sys
              "Error in creating the directory: " dir fs) as [-> ->].
  - destruct (ensure_dir _ _ _ fs).2 as [[]|]; done.
  - destruct (ensure_dir _ _ _ fs).2 as [[]|]; done.
Qed.

Example loadStructure_again_sample :
  let run := loadStructure reliable sample_reader "input/" "dataset/" "10.30" in
  (run []).1.1 = ["dataset/"%string]
  /\ (run (run []).1.1).1.1 = ["dataset/"%string]
  /\ (run (run []).1.1).1.2 = tail (run []).1.2.
Proof. by vm_compute. Qed.

(** C10.  On a system that refuses none of the paths, a run that reads
    inputs with the documented columns and integer identifiers ends without
    exception and has written, in this order, the document of the joined
    table as JSON and the joined table as CSV, under [directory_name]
    followed by [dataset <time>.json] and [dataset <time>.csv], after
    creating the directory if it was not there. *)
Theorem loadStructure_writes (sys : system) (rd : reader) (fs : dirs)
    (p : string) (R W S : DataFrame) (dir t : string) :
  permitted sys dir t -> reads_as rd p R W S -> inputs_ok R W S ->
  loadStructure sys rd p dir t fs
  = (with_dir fs dir,
     exported fs dir t (document (flat_table R W S)) (flat_table R W S),
     Ok tt).
Proof. apply loadStructure_exported. Qed.

Lemma loadStructure_writes_witness :
  loadStructure reliable sample_reader "input/" "dataset/" "10.30" []
  = (["dataset/"%string],
     exported [] "dataset/" "10.30"
       (document (flat_table sample_reviews sample_wine sample_style))
       (flat_table sample_reviews sample_wine sample_style), Ok tt).
Proof.
  apply (loadStructure_writes reliable sample_reader [] "input/"
           sample_reviews sample_wine sample_style); compute_done.
Defined.

(** C12.  All or nothing, on any input and any system that does not refuse
    the second file: a run that ends with an exception has written no file
    (the directory may have been created), and a run that ends normally has
    written both artifacts, the JSON being the nesting of the very table
    written as CSV. *)
Theorem loadStructure_all_or_nothing (sys : system) (rd : reader)
    (fs : dirs) (p dir t : string) :
  sys (csv_path dir t) = None ->
  match (loadStructure sys rd p dir t fs).2 with
  | Raise _ => writes (loadStructure sys rd p dir t fs).1.2 = []
  | Ok _ =>
      exists m h, setHierarchy m = Ok h /\
        writes (loadStructure sys rd p dir t fs).1.2
        = [WriteJson (json_path dir t) h; WriteCsv (csv_path dir t) m]
  end.
Proof.
  intros Hc. rewrite loadStructure_result, loadStructure_files, Hc.
  destruct (ensure_dir _ _ _ _).2 as [[]|]; [|done].
  destruct (load_dataset rd p) as [[m h]|e] eqn:E; [|done]. simpl.
  destruct (sys (json_path dir t)); [done|]. simpl.
  destruct (load_dataset_Ok_inv _ _ _ _ E) as (R & W & S & _ & _ & Hh). eauto.
Qed.

Lemma loadStructure_all_or_nothing_witness :
  exists m h, setHierarchy m = Ok h /\
    writes (loadStructure reliable sample_reader "input/" "dataset/" "10.30"
              []).1.2
    = [WriteJson "dataset/dataset 10.30.json" h;
       WriteCsv "dataset/dataset 10.30.csv" m].
Proof.
  exact (loadStructure_all_or_nothing reliable sample_reader [] "input/"
           "dataset/" "10.30" eq_refl).
Defined.

(** C13.  The document without the table: when the system refuses the second
    file, the run ends with that exception after the JSON file has been
    written and announced; the two artifacts of the run are not both
    there. *)
Theorem loadStructure_json_without_csv (sys : system) (rd : reader)
    (fs : dirs) (p : string) (R W S : DataFrame) (dir t : string)
    (e : pyexc) :
  dir <> ""%string -> sys dir = None -> sys (json_path dir t) = None ->
  sys (csv_path dir t) = Some e ->
  reads_as rd p R W S -> inputs_ok R W S ->
  loadStructure sys rd p dir t fs
  = (with_dir fs dir,
     made fs dir ++ json_written dir t (document (flat_table R W S)),
     Raise e).
Proof.
  intros Hd Hs Hj Hc Hrd Hin. rewrite loadStructure_guarded by done.
  rewrite (load_dataset_exported _ _ _ _ _ Hrd Hin). unfold resume.
  by rewrite export_dataset_cases, Hj, Hc.
Qed.

Lemma loadStructure_json_without_csv_witness :
  loadStructure csv_refused sample_reader "input/" "dataset/" "10.30" []
  = (["dataset/"%string],
     [MakeDirs "dataset/"]
     ++ json_written "dataset/" "10.30"
          (document (flat_table sample_reviews sample_wine sample_style)),
     Raise (PermissionError "dataset/dataset 10.30.csv")).
Proof.
  apply (loadStructure_json_without_csv csv_refused sample_reader []
           "input/" sample_reviews sample_wine sample_style "dataset/"
           "10.30"); compute_done.
Defined.

(** C21.  The handler around [os.makedirs] (lines 127-128) catches
    [subprocess.CalledProcessError], which is no refusal of the file
    system: when the directory is not there and the system refuses to
    create it, the run ends with the exception of the system before any
    table is read, and nothing is printed. *)
Theorem loadStructure_makedirs_refused (sys : system) (rd : reader)
    (fs : dirs) (p dir t : string) (e : pyexc) :
  ~ path_exists fs dir -> dir <> ""%string -> sys dir = Some e ->
  (forall status cmd, e <> CalledProcessError status cmd) ->
  loadStructure sys rd p dir t fs = (fs, [], Raise e).
Proof.
  intros Hx Hd Hs He. rewrite loadStructure_unfold.
  by rewrite (ensure_dir_refused _ _ _ _ _ Hx Hd Hs He).
Qed.

Lemma loadStructure_makedirs_refused_witness :
  loadStructure (fun p => Some (PermissionError p))
    (fun f => Raise (FileNotFoundError f)) "input/" "dataset/" "10.30" []
  = ([], [], Raise (PermissionError "dataset/")).
Proof.
  apply (loadStructure_makedirs_refused (fun p => Some (PermissionError p)));
    [apply path_exists_nil | done..].
Defined.

(** A directory without a name cannot be created: with the empty
    string as [directory_name] the run ends with [FileNotFoundError] at
    line 126, on every system, before any table is read. *)
Theorem loadStructure_empty_name (sys : system) (rd : reader) (fs : dirs)
    (p t : string) :
  loadStructure sys rd p "" t fs = (fs, [], Raise (FileNotFoundError "")).
Proof.
  rewrite loadStructure_unfold, ensure_dir_cases.
  rewrite decide_False by apply path_exists_empty. by rewrite decide_True.
Qed.

(** Round trip of the count through both artifacts, on any system:
    the reviews in the leaves of the JSON document are as many as the rows
    of the CSV table. *)
Theorem loadStructure_count (sys : system) (rd : reader) (fs : dirs)
    (p : string) (R W S : DataFrame) (dir t : string) p1 p2 doc table :
  reads_as rd p R W S -> inputs_ok R W S ->
  WriteJson p1 doc ∈ writes (loadStructure sys rd p dir t fs).1.2 ->
  WriteCsv p2 table ∈ writes (loadStructure sys rd p dir t fs).1.2 ->
  review_count doc = df_len table.
Proof.
  intros Hrd Hin. rewrite loadStructure_files.
  rewrite (load_dataset_exported _ _ _ _ _ Hrd Hin).
  destruct (ensure_dir _ _ _ _).2, (sys (json_path dir t)),
    (sys (csv_path dir t)); simpl;
    rewrite ?elem_of_cons, ?elem_of_nil; intros Hj Hc;
    destruct_or?; simplify_eq. apply document_reviews.
Qed.

Lemma loadStructure_count_witness :
  review_count (document (flat_table sample_reviews sample_wine sample_style))
  = df_len (flat_table sample_reviews sample_wine sample_style).
Proof.
  apply (loadStructure_count reliable sample_reader ["dataset/"%string]
           "input/" sample_reviews sample_wine sample_style
           "dataset/" "10.30" "dataset/dataset 10.30.json"
           "dataset/dataset 10.30.csv"); compute_done.
Defined.

Lemma loadStructure_first_key sys rd fs p R W S dir t :
  dir <> ""%string -> sys dir = None ->
  reads_as rd p R W S ->
  "idWine"%string ∉ columns R \/ "ID"%string ∉ columns W ->
  loadStructure sys rd p dir t fs
  = (with_dir fs dir, made fs dir, Raise (KeyError (first_key R W))).
Proof.
  intros Hd Hs Hrd Hc. apply loadStructure_Raise; [done..|].
  unfold load_dataset.
  rewrite (read_tables_Ok _ _ _ _ _ Hrd). simpl.
  by rewrite merged_table_first_key.
Qed.

(** A reviews table without the column [idWine], joined with a wine table
    that has its column [ID], ends the run with [KeyError('idWine')] before
    anything is written. *)
Theorem loadStructure_KeyError (sys : system) (rd : reader) (fs : dirs)
    (p : string) (R W S : DataFrame) (dir t : string) :
  dir <> ""%string -> sys dir = None ->
  reads_as rd p R W S ->
  "idWine"%string ∉ columns R -> "ID"%string ∈ columns W ->
  loadStructure sys rd p dir t fs
  = (with_dir fs dir, made fs dir, Raise (KeyError "idWine")).
Proof.
  intros Hd Hs Hrd HR HW.
  rewrite (loadStructure_first_key sys rd fs p R W S) by auto.
  unfold first_key. by rewrite decide_True.
Qed.

Lemma loadStructure_KeyError_witness :
  loadStructure reliable (reads "input/" joined_A sample_wine sample_style)
    "input/" "dataset/" "10.30" ["dataset/"%string]
  = (["dataset/"%string], [], Raise (KeyError "idWine")).
Proof.
  apply (loadStructure_KeyError reliable
           (reads "input/" joined_A sample_wine sample_style)
           ["dataset/"%string] "input/" joined_A sample_wine sample_style
           "dataset/" "10.30"); compute_done.
Defined.

(** C20.  The files are read in the order reviews, wines, styles, after the
    directory is created: a read that fails ends the run with its
    exception, the later files are not read, and nothing is written. *)
Theorem loadStructure_missing_file (sys : system) (rd : reader) (fs : dirs)
    (p dir t : string) (e : pyexc) :
  dir <> ""%string -> sys dir = None ->
  rd (p +:+ "/reviews.csv") = Raise e
  \/ (is_Ok (rd (p +:+ "/reviews.csv")) /\ rd (p +:+ "/wine.csv") = Raise e)
  \/ (is_Ok (rd (p +:+ "/reviews.csv")) /\ is_Ok (rd (p +:+ "/wine.csv"))
      /\ rd (p +:+ "/style.csv") = Raise e) ->
  loadStructure sys rd p dir t fs = (with_dir fs dir, made fs dir, Raise e).
Proof.
  intros Hd Hs Hrd. apply loadStructure_Raise; [done..|].
  unfold load_dataset, read_tables.
  destruct Hrd as [-> | [[HR ->] | (HR & HW & ->)]]; [done|..].
  - by destruct (rd (p +:+ "/reviews.csv")).
  - by destruct (rd (p +:+ "/reviews.csv")), (rd (p +:+ "/wine.csv")).
Qed.

Lemma loadStructure_missing_file_witness :
  loadStructure reliable (fun f => Raise (FileNotFoundError f)) "input/"
    "dataset/" "10.30" []
  = (["dataset/"%string], [MakeDirs "dataset/"],
     Raise (FileNotFoundError "input//reviews.csv")).
Proof.
  apply (loadStructure_missing_file reliable
           (fun f => Raise (FileNotFoundError f)) [] "input/" "dataset/"
           "10.30" (FileNotFoundError "input//reviews.csv")); [done..|].
  by left.
Defined.

(** ** Where the files go *)

Lemma inside_dataset dir t ext :
  inside dir (dir +:+ "dataset " +:+ t +:+ ext) = ends_with_slash dir.
Proof.
  destruct (ends_with_slash dir) eqn:He.
  - by apply inside_with_slash.
  - by apply inside_without_slash.
Qed.

(** C36.  On any system and any input, the path of each file written has
    the name of the directory and a separator at its beginning exactly when
    the name ends with the separator: the path of a file is the name of the
    directory followed by the name of the file, so for a directory typed
    as [out] the directory [out] is created and stays empty, and the files
    are [outdataset <time>.json] and [outdataset <time>.csv] beside it. *)
Theorem loadStructure_inside (sys : system) (rd : reader) (fs : dirs)
    (p dir t : string) (q : string) :
  q ∈ omap written (writes (loadStructure sys rd p dir t fs).1.2) ->
  inside dir q = ends_with_slash dir.
Proof.
  rewrite loadStructure_files.
  destruct (ensure_dir _ _ _ _).2, (load_dataset rd p),
    (sys (json_path dir t)), (sys (csv_path dir t)); simpl;
    rewrite ?elem_of_cons, ?elem_of_nil; intros Hq; destruct_or?;
    try done; subst; apply inside_dataset.
Qed.

Lemma loadStructure_inside_witness :
  inside "out" "outdataset 10.30.json" = false.
Proof.
  apply (loadStructure_inside reliable sample_reader [] "input/"
           "out" "10.30" "outdataset 10.30.json").
  vm_compute. left.
Defined.
