(* ===== verification/Cli.v ===== *)
(** * The two command lines and the reset of the output

    The script of [src/data/dataLoad.py] (lines 168-187) with [resetDataset]
    (lines 158-166), and the script of [src/src/crawler.py] (lines 219-230).

    The command line is the list of the arguments after the name of the
    program.  [parse_args] models [argparse] for options declared with
    [action="store_true"], on the forms these scripts are called with: an
    option string as declared, [-h] and [--help], [--], and words that are
    not options.  An abbreviated long option, short options joined in one
    word and a word with a dash that is no declared option are outside the
    model and answered with [Unsupported].  The name space is the list of
    the destinations that are set.

    What the script of the loader finds outside is the record [host]: the
    user at the terminal, the clock, [pd.read_csv], the programs that
    [subprocess.run] can start and the operating system with what it
    refuses.  Both scripts are procedures on the directories that exist. *)

From Stdlib Require Import ZArith QArith Ascii String List.
From stdpp Require Import base tactics option numbers list strings.
From S2P Require Import Prelude Groupby Cell Value Clock Frame Effects Proc.
From S2P Require Import Join.
From S2P Require Import Relational Crawler Wines Reviews CrawlerMain Samples.
From S2P Require Import Hierarchy Document Load.
From S2P Require Import Emit.

#[local] Open Scope exc_scope.
#[local] Open Scope string_scope.
#[local] Notation "a +:+ b" := (String.append a b)
  (at level 60, right associativity).

(** ** [argparse] *)

(** [parser.add_argument(short, long, action="store_true")]; the
    destination is the long option without its dashes. *)
Record argument : Type := Argument {
  short : string;
  long : string;
  dest : string
}.

#[export] Instance argument_eq_dec : EqDecision argument.
Proof. solve_decision. Defined.

(** The destinations that are [True]; the others are [False]. *)
Definition namespace : Type := list string.

(** [args.dest]. *)
Definition get_flag (args : namespace) (d : string) : bool :=
  bool_decide (d ∈ args).

(** The word is an option string of the argument. *)
Definition names (t : string) (a : argument) : Prop :=
  t = short a \/ t = long a.

#[export] Instance names_dec t a : Decision (names t a).
Proof. unfold names. apply _. Defined.

(** The destination of a declared option string. *)
Definition option_of (ps : list argument) (t : string) : option string :=
  dest <$> head (filter (names t) ps).

(** A word that does not look like an option: empty, a single dash, or
    without a leading dash. *)
Definition positional (t : string) : bool :=
  match t with
  | String "-"%char (String _ _) => false
  | _ => true
  end.

(** The scan of the words, with the destinations set and the words that
    nothing consumes.  The help option ends the process when the scan
    reaches it. *)
Fixpoint parse_known_args (ps : list argument) (argv : list string)
    (seen : namespace) (extras : list string)
    : exc (namespace * list string) :=
  match argv with
  | [] => Ok (seen, extras)
  | t :: argv' =>
      if decide (t = "-h" \/ t = "--help") then Raise (SystemExit (Some 0%Z))
      else
        match option_of ps t with
        | Some d => parse_known_args ps argv' (d :: seen) extras
        | None =>
            if decide (t = "--") then Ok (seen, (extras ++ argv')%list)
            else if positional t then
              parse_known_args ps argv' seen (extras ++ [t])%list
            else Raise (Unsupported "an option string that is not declared")
        end
  end.

(** [parser.parse_args()]: words that nothing consumes are an error, exit
    status 2. *)
Definition parse_args (ps : list argument) (argv : list string)
    : exc namespace :=
  r <- parse_known_args ps argv [] [] ;;
  match r.2 with
  | [] => Ok r.1
  | _ => Raise (SystemExit (Some 2%Z))
  end.

(** ** The loader *)

(** Lines 170-172. *)
Definition dataLoad_parser : list argument :=
  [Argument "-r" "--reset" "reset"; Argument "-f" "--file" "file"].

(** What the script finds outside: the user at the terminal, the clock,
    [pd.read_csv], the programs it can run and the operating system.
    [h_run args fs] is what the program [args] does where the directories
    [fs] exist: the directories it leaves, and its exit status, or the
    exception of [subprocess.run] when it cannot be started. *)
Record host : Type := Host {
  h_input : string -> string;
  h_now : datetime;
  h_read_csv : reader;
  h_run : list string -> dirs -> dirs * exc Z;
  h_system : system
}.

(** The command of line 161. *)
Definition rm_command : list string := ["rm"; "-fr"; "dataset"].

(** [rm -fr p] as the program [rm] does it: [p] and what is below it are
    gone, nothing else is touched, and the status is 0. *)
Definition rm_works (run : list string -> dirs -> dirs * exc Z) : Prop :=
  forall p fs, run ["rm"; "-fr"; p] fs = (rm_rf p fs, Ok 0%Z).

(** Lines 158-166.  Only [CalledProcessError] is caught; [quit()] ends the
    process. *)
Definition resetDataset (h : host) : proc output_json unit :=
  (_ <- if_exists "dataset/"
          (except_CalledProcessError (subprocess_run (h_run h) rm_command)
             (fun status cmd =>
                print ("Error in removing the existing directory: "
                       +:+ str_CalledProcessError status cmd)))
          (proc_ret tt) ;;
   _ <- print "Reset dataset folder" ;;
   lift (Raise (SystemExit None)))%proc.

(** Lines 168-187. *)
Definition dataLoad_script (h : host) (argv : list string)
    : proc output_json unit :=
  (args <- lift (parse_args dataLoad_parser argv) ;;
   _ <- (if get_flag args "reset" then resetDataset h else proc_ret tt) ;;
   let currentTime := strftime_HM (h_now h) in
   let inputPath :=
     h_input h "Type path directory of .csv from crawler or other> " in
   let inputPath := if decide (inputPath = "") then "input/" else inputPath in
   let directory_name := "dataset/" in
   let directory_name :=
     if get_flag args "file"
     then h_input h "Type path directory of the final dataset> "
     else directory_name in
   loadStructure (h_system h) (h_read_csv h) inputPath directory_name
     currentTime)%proc.

(** ** The crawler *)

(** Lines 221-226. *)
Definition crawler_parser : list argument :=
  [Argument "-d" "--development" "development";
   Argument "-s" "--specify" "specify";
   Argument "-p" "--production" "production";
   Argument "-v" "--verbose" "verbose";
   Argument "-r" "--reset" "reset"].

(** Lines 219-230.  [args.production] is not read. *)
Definition crawler_script (fuel : nat) (w : world) (argv : list string)
    (fs : dirs) : option (dirs * list (effect unit) * exc unit) :=
  match parse_args crawler_parser argv with
  | Raise e => Some (fs, [], Raise e)
  | Ok args =>
      main fuel w (get_flag args "verbose") (get_flag args "reset")
        (get_flag args "specify") (get_flag args "development") fs
  end.

(** ** Samples *)

(** A terminal where the user only presses return, a clock at 10.30, the
    sample tables in [input/], an [rm] that works and a system that refuses
    nothing. *)
Definition sample_host : host :=
  {| h_input := fun _ => "";
     h_now := sample_now;
     h_read_csv := reads "input/" sample_reviews sample_wine sample_style;
     h_run := fun args fs =>
       match args with
       | [prog; flag; p] =>
           if decide (prog = "rm" /\ flag = "-fr") then (rm_rf p fs, Ok 0%Z)
           else (fs, Raise (FileNotFoundError prog))
       | _ => (fs, Raise (FileNotFoundError (hd "" args)))
       end;
     h_system := reliable |}.

(** An [rm] that fails with status 1 and removes nothing. *)
Definition stuck_host : host :=
  {| h_input := h_input sample_host; h_now := h_now sample_host;
     h_read_csv := h_read_csv sample_host;
     h_run := fun _ fs => (fs, Ok 1%Z);
     h_system := reliable |}.

(** The user types [out] for the directory of the dataset. *)
Definition out_host : host :=
  {| h_input := fun prompt =>
       if decide (prompt = "Type path directory of the final dataset> ")
       then "out" else "";
     h_now := sample_now; h_read_csv := h_read_csv sample_host;
     h_run := h_run sample_host; h_system := reliable |}.

(** ** The name space of a command line *)

#[local] Open Scope list_scope.

Section Argparse.
Context (ps : list argument).

Definition is_help (t : string) : Prop := t = "-h" \/ t = "--help".

(** A declared option string. *)
Definition declared (t : string) : Prop :=
  ~ is_help t /\ is_Some (option_of ps t).

(** A word that is no option. *)
Definition plain (t : string) : Prop :=
  ~ is_help t /\ option_of ps t = None /\ positional t = true.

#[export] Instance is_help_dec t : Decision (is_help t).
Proof. unfold is_help. apply _. Defined.
#[export] Instance declared_dec t : Decision (declared t).
Proof. unfold declared. apply _. Defined.
#[export] Instance plain_dec t : Decision (plain t).
Proof. unfold plain. apply _. Defined.

Lemma plain_not_dashes t : plain t -> t <> "--".
Proof. by intros (_ & _ & Hp) ->. Qed.

(** The scan of a prefix of declared options and plain words. *)
Lemma parse_known_app pre rest seen extras :
  Forall (fun t => declared t \/ plain t) pre ->
  parse_known_args ps (pre ++ rest) seen extras
  = parse_known_args ps rest (reverse (omap (option_of ps) pre) ++ seen)
      (extras ++ filter plain pre).
Proof.
  intros Hpre. revert seen extras.
  induction Hpre as [|t pre Ht _ IH]; intros seen extras.
  - by rewrite filter_nil, app_nil_r.
  - cbn [app parse_known_args omap list_omap].
    destruct Ht as [[Hh [d Hd]] | (Hh & Hn & Hp)].
    + rewrite decide_False by done. rewrite Hd, IH.
      rewrite reverse_cons, <- app_assoc.
      rewrite filter_cons_False; [done|]. intros (_ & ? & _). congruence.
    + rewrite decide_False by done. rewrite Hn.
      rewrite decide_False by (by apply plain_not_dashes).
      rewrite Hp, IH, filter_cons_True by done. by rewrite <- app_assoc.
Qed.

Lemma parse_args_words argv :
  Forall (fun t => declared t \/ plain t) argv ->
  parse_args ps argv
  = match filter plain argv with
    | [] => Ok (reverse (omap (option_of ps) argv))
    | _ => Raise (SystemExit (Some 2%Z))
    end.
Proof.
  intros Hargv. unfold parse_args.
  rewrite <- (app_nil_r argv) at 1. rewrite parse_known_app by done.
  simpl. by rewrite app_nil_r.
Qed.

Lemma filter_plain_declared argv :
  Forall declared argv -> filter plain argv = [].
Proof.
  intros Hargv. apply filter_none. eapply Forall_impl; [exact Hargv|].
  intros t [_ [d Hd]] (_ & Hn & _). congruence.
Qed.

Lemma parse_args_declared argv :
  Forall declared argv ->
  parse_args ps argv = Ok (reverse (omap (option_of ps) argv)).
Proof.
  intros Hargv. rewrite parse_args_words.
  - by rewrite filter_plain_declared.
  - eapply Forall_impl; [exact Hargv | auto].
Qed.

Lemma get_flag_declared argv d :
  get_flag (reverse (omap (option_of ps) argv)) d = true
  <-> exists t, t ∈ argv /\ option_of ps t = Some d.
Proof.
  unfold get_flag. rewrite bool_decide_eq_true, elem_of_reverse.
  by rewrite list_elem_of_omap.
Qed.

(** On a command line of declared option strings [parse_args] returns,
    and a destination is set exactly when one of its option strings is on
    the line: the order of the options and their repetition do not
    matter. *)
Theorem parse_args_flags (argv : list string) :
  Forall declared argv ->
  exists args,
    parse_args ps argv = Ok args
    /\ forall d, get_flag args d = true
                 <-> exists t, t ∈ argv /\ option_of ps t = Some d.
Proof.
  intros Hargv. eexists. split; [by apply parse_args_declared|].
  apply get_flag_declared.
Qed.

(** The help option ends the process with status 0 when the scan reaches
    it, whatever follows; a word that nothing consumes ends it with status
    2 at the end of the scan. *)
Lemma parse_args_help pre t post :
  Forall (fun t => declared t \/ plain t) pre -> is_help t ->
  parse_args ps (pre ++ t :: post) = Raise (SystemExit (Some 0%Z)).
Proof.
  intros Hpre Ht. unfold parse_args. rewrite parse_known_app by done.
  simpl. by rewrite decide_True.
Qed.

Lemma parse_args_stray argv t :
  Forall (fun t => declared t \/ plain t) argv -> t ∈ argv -> plain t ->
  parse_args ps argv = Raise (SystemExit (Some 2%Z)).
Proof.
  intros Hargv Ht Hp. rewrite parse_args_words by done.
  destruct (filter plain argv) as [|? ?] eqn:E; [|done].
  assert (t ∈ filter plain argv) as Hin by by apply list_elem_of_filter.
  rewrite E in Hin. by apply elem_of_nil in Hin.
Qed.

End Argparse.

Lemma parse_args_flags_witness :
  exists args,
    parse_args crawler_parser ["-v"; "--specify"; "-v"] = Ok args
    /\ forall d, get_flag args d = true
                 <-> exists t, t ∈ ["-v"; "--specify"; "-v"]
                               /\ option_of crawler_parser t = Some d.
Proof. apply parse_args_flags. compute_done. Defined.

Example parse_args_examples :
  parse_args dataLoad_parser ["-r"; "--file"] = Ok ["file"; "reset"]
  /\ parse_args dataLoad_parser ["-f"; "--help"; "x"]
     = Raise (SystemExit (Some 0%Z))
  /\ parse_args dataLoad_parser ["-f"; "input"]
     = Raise (SystemExit (Some 2%Z))
  /\ parse_args dataLoad_parser ["-rf"]
     = Raise (Unsupported "an option string that is not declared").
Proof. by vm_compute. Qed.

(** ** Parsers whose option strings are made from the destination *)

(** The short option is a dash and the first letter of the destination, the
    long option two dashes and the destination, and no option string names
    two destinations. *)
Definition regular (ps : list argument) : Prop :=
  Forall (fun a => short a = "-" +:+ substring 0 1 (dest a)
                   /\ long a = "--" +:+ dest a) ps
  /\ Forall (fun d => option_of ps ("-" +:+ substring 0 1 d) = Some d
                      /\ option_of ps ("--" +:+ d) = Some d) (dest <$> ps).

#[export] Instance regular_dec ps : Decision (regular ps).
Proof. unfold regular. apply _. Defined.

Lemma option_of_inv ps t d :
  option_of ps t = Some d -> exists a, a ∈ ps /\ names t a /\ dest a = d.
Proof.
  unfold option_of.
  intros (a & [Hn Ha]%head_Some_elem_of%list_elem_of_filter & ->)%fmap_Some.
  eauto.
Qed.

(** With a regular parser a destination is set when its short or its long
    option is on the line. *)
Lemma regular_flag ps (argv : list string) (d : string) :
  regular ps -> d ∈ dest <$> ps ->
  (exists t, t ∈ argv /\ option_of ps t = Some d)
  <-> "-" +:+ substring 0 1 d ∈ argv \/ "--" +:+ d ∈ argv.
Proof.
  intros [Hreg Hun] Hd. rewrite Forall_forall in Hreg.
  rewrite Forall_forall in Hun. split.
  - intros (t & Ht & (a & Ha & Hn & <-)%option_of_inv).
    destruct (Hreg a Ha) as [Hs Hl]. destruct Hn as [-> | ->];
      [left; by rewrite <- Hs | right; by rewrite <- Hl].
  - destruct (Hun d Hd) as [H1 H2]. intros [?|?]; eauto.
Qed.

Lemma regular_get_flag ps (argv : list string) (d : string) :
  regular ps -> d ∈ dest <$> ps ->
  get_flag (reverse (omap (option_of ps) argv)) d
  = bool_decide ("-" +:+ substring 0 1 d ∈ argv \/ "--" +:+ d ∈ argv).
Proof.
  intros Hreg Hd. apply eq_true_iff_eq.
  by rewrite get_flag_declared, bool_decide_eq_true, regular_flag.
Qed.

(** ** [resetDataset] *)

(** What [resetDataset] does, by the outcome of [rm]: the exit status 0,
    another status, which is caught and printed, or an exception that kept
    [rm] from running, which is not caught. *)
Lemma resetDataset_cases h fs :
  resetDataset h fs
  = if decide (path_exists fs "dataset/") then
      match (h_run h rm_command fs).2 with
      | Ok Z0 =>
          ((h_run h rm_command fs).1, [Print "Reset dataset folder"],
           Raise (SystemExit None))
      | Ok (Zpos status) =>
          ((h_run h rm_command fs).1,
           [Print ("Error in removing the existing directory: "
                   +:+ str_CalledProcessError status
                         "['rm', '-fr', 'dataset']");
            Print "Reset dataset folder"],
           Raise (SystemExit None))
      | Ok (Zneg _) =>
          ((h_run h rm_command fs).1, [],
           Raise (Unsupported "a process ended by a signal"))
      | Raise (CalledProcessError status cmd) =>
          ((h_run h rm_command fs).1,
           [Print ("Error in removing the existing directory: "
                   +:+ str_CalledProcessError status cmd);
            Print "Reset dataset folder"],
           Raise (SystemExit None))
      | Raise e => ((h_run h rm_command fs).1, [], Raise e)
      end
    else (fs, [Print "Reset dataset folder"], Raise (SystemExit None)).
Proof.
  unfold resetDataset, proc_bind, if_exists, except_CalledProcessError,
    subprocess_run, print, lift, proc_ret.
  case_decide; [|done].
  by destruct (h_run h rm_command fs) as [fs' [[| |]|[]]].
Qed.

(** The function never returns: [quit()], or the exception of [rm]. *)
Lemma resetDataset_raises h fs : exists e, (resetDataset h fs).2 = Raise e.
Proof.
  rewrite resetDataset_cases. case_decide; [|by eexists].
  destruct (h_run h rm_command fs).2 as [[| |]|[]]; by eexists.
Qed.

Lemma resetDataset_no_write h fs :
  Forall (fun e => is_write e = false) (resetDataset h fs).1.2.
Proof.
  rewrite resetDataset_cases. case_decide; [|by repeat constructor].
  destruct (h_run h rm_command fs).2 as [[| |]|[]]; by repeat constructor.
Qed.

(** With an [rm] that works, the directory of the dataset is gone after
    the reset, and one message is printed: the command removes [dataset],
    which is the directory that the guard found as [dataset/]. *)
Lemma resetDataset_works h fs :
  rm_works (h_run h) ->
  exists fs',
    resetDataset h fs
    = (fs', [Print "Reset dataset folder"], Raise (SystemExit None))
    /\ ~ path_exists fs' "dataset/"
    /\ (forall p, path_exists fs' p -> path_exists fs p).
Proof.
  intros Hrm. rewrite resetDataset_cases. case_decide as Hex.
  - unfold rm_command. rewrite Hrm. eexists. split; [done|].
    split; [by apply rm_rf_not_exists | apply path_exists_rm_rf].
  - eexists. split; [done|]. auto.
Qed.

(** ** The script of the loader *)

Lemma dataLoad_script_args h fs argv args :
  parse_args dataLoad_parser argv = Ok args ->
  dataLoad_script h argv fs
  = if get_flag args "reset" then resetDataset h fs
    else loadStructure (h_system h) (h_read_csv h)
           (if decide (h_input h
                         "Type path directory of .csv from crawler or other> "
                       = "")
            then "input/"
            else h_input h
                   "Type path directory of .csv from crawler or other> ")
           (if get_flag args "file"
            then h_input h "Type path directory of the final dataset> "
            else "dataset/")
           (strftime_HM (h_now h)) fs.
Proof.
  intros Hargs. unfold dataLoad_script. rewrite proc_bind_lift, Hargs.
  destruct (get_flag args "reset"); [|by rewrite proc_bind_ret_l].
  destruct (resetDataset_raises h fs) as [e He].
  rewrite proc_bind_run, He.
  destruct (resetDataset h fs) as [[??]?]. simpl in *. by subst.
Qed.

(** With the option [-r] or [--reset] on the command line the script is
    [resetDataset] and nothing more: whatever the other options are, no
    question is asked, no table is read and no file is written; the run
    ends with [quit()] or with the exception of [rm]. *)
Theorem dataLoad_script_reset (h : host) (fs : dirs) (argv : list string) :
  Forall (declared dataLoad_parser) argv ->
  "-r" ∈ argv \/ "--reset" ∈ argv ->
  dataLoad_script h argv fs = resetDataset h fs
  /\ Forall (fun e => is_write e = false) (dataLoad_script h argv fs).1.2
  /\ exists e, (dataLoad_script h argv fs).2 = Raise e.
Proof.
  intros Hargv Hr.
  assert (dataLoad_script h argv fs = resetDataset h fs) as ->.
  { rewrite (dataLoad_script_args _ _ _ _ (parse_args_declared _ _ Hargv)).
    rewrite (regular_get_flag _ _ "reset") by compute_done.
    by rewrite bool_decide_eq_true_2. }
  auto using resetDataset_no_write, resetDataset_raises.
Qed.

Lemma dataLoad_script_reset_witness :
  dataLoad_script sample_host ["-f"; "-r"] ["dataset/"]
  = ([], [Print "Reset dataset folder"], Raise (SystemExit None)).
Proof.
  destruct (dataLoad_script_reset sample_host ["dataset/"] ["-f"; "-r"])
    as (-> & _); [compute_done | left; compute_done | reflexivity].
Defined.

(** Without options: the tables of the directory typed, or of [input/], go
    to [dataset/]. *)
Lemma dataLoad_script_plain h fs :
  dataLoad_script h [] fs
  = loadStructure (h_system h) (h_read_csv h)
      (if decide (h_input h
                    "Type path directory of .csv from crawler or other> "
                  = "")
       then "input/"
       else h_input h "Type path directory of .csv from crawler or other> ")
      "dataset/" (strftime_HM (h_now h)) fs.
Proof. by rewrite (dataLoad_script_args h fs [] []). Qed.

(** C38.  The answer to the first question has a default, the answer to the
    second has none: with the option [-f] (and no reset) and nothing typed
    for the directory of the dataset, the script ends with
    [FileNotFoundError] at [os.makedirs('')], before any table is read, on
    every system. *)
Theorem dataLoad_script_no_name (h : host) (fs : dirs) (argv : list string) :
  Forall (declared dataLoad_parser) argv ->
  "-f" ∈ argv \/ "--file" ∈ argv ->
  "-r" ∉ argv -> "--reset" ∉ argv ->
  h_input h "Type path directory of the final dataset> " = "" ->
  dataLoad_script h argv fs = (fs, [], Raise (FileNotFoundError "")).
Proof.
  intros Hargv Hf Hr Hr' Hin.
  rewrite (dataLoad_script_args _ _ _ _ (parse_args_declared _ _ Hargv)).
  rewrite !regular_get_flag by compute_done.
  rewrite bool_decide_eq_false_2 by (simpl; tauto).
  rewrite bool_decide_eq_true_2 by done.
  rewrite Hin. apply loadStructure_empty_name.
Qed.

Lemma dataLoad_script_no_name_witness :
  dataLoad_script sample_host ["-f"] ["dataset/"]
  = (["dataset/"], [], Raise (FileNotFoundError "")).
Proof.
  apply (dataLoad_script_no_name sample_host ["dataset/"] ["-f"]);
    compute_done.
Defined.

(** ** The names of the files and the clock *)

(** The directory of the dataset, as the command line and the user choose
    it (lines 183-185). *)
Definition output_dir (h : host) (argv : list string) : string :=
  if bool_decide ("-f" ∈ argv \/ "--file" ∈ argv)
  then h_input h "Type path directory of the final dataset> "
  else "dataset/".

(** The files of a run of the script that ends normally. *)
Lemma dataLoad_script_files h argv fs :
  Forall (declared dataLoad_parser) argv ->
  (dataLoad_script h argv fs).2 = Ok tt ->
  omap written (writes (dataLoad_script h argv fs).1.2)
  = [json_path (output_dir h argv) (strftime_HM (h_now h));
     csv_path (output_dir h argv) (strftime_HM (h_now h))].
Proof.
  intros Hargv.
  rewrite (dataLoad_script_args _ _ _ _ (parse_args_declared _ _ Hargv)).
  rewrite !regular_get_flag by compute_done.
  change (if bool_decide (_ ∈ argv \/ "--" +:+ "file" ∈ argv) then ?a else ?b)
    with (output_dir h argv).
  change ("-" +:+ substring 0 1 "reset") with "-r".
  change ("--" +:+ "reset") with "--reset".
  destruct (bool_decide ("-r" ∈ argv \/ "--reset" ∈ argv)).
  - destruct (resetDataset_raises h fs) as [e He]. intros H. congruence.
  - by intros (m & d & ->)%loadStructure_Ok_files.
Qed.

(** C37.  The suffix of the names is the hour and the minute of the run:
    two runs of the script that end normally, with whatever options, have
    written to the same two files exactly when they wrote into the same
    directory and their clocks showed the same hour and the same minute,
    on whatever days.  The later run has then replaced the files of the
    earlier one. *)
Theorem dataLoad_script_same_files (h h' : host) (argv argv' : list string)
    (fs fs' : dirs) :
  valid (h_now h) -> valid (h_now h') ->
  Forall (declared dataLoad_parser) argv ->
  Forall (declared dataLoad_parser) argv' ->
  (dataLoad_script h argv fs).2 = Ok tt ->
  (dataLoad_script h' argv' fs').2 = Ok tt ->
  omap written (writes (dataLoad_script h argv fs).1.2)
  = omap written (writes (dataLoad_script h' argv' fs').1.2)
  <-> output_dir h argv = output_dir h' argv'
      /\ hour (h_now h) = hour (h_now h')
      /\ minute (h_now h) = minute (h_now h').
Proof.
  intros Hv Hv' Ha Ha' Hr Hr'. rewrite !dataLoad_script_files by done.
  rewrite <- (strftime_HM_eq _ _ Hv Hv').
  split; [|by intros [-> ->]].
  intros E%(f_equal head)%(inj Some).
  apply json_path_inj2; [|exact E]. by rewrite !strftime_HM_length.
Qed.

(** The same minute, a day later. *)
Definition next_day_host : host :=
  {| h_input := h_input sample_host;
     h_now := {| year := 2016; month := 10; day := 6; hour := 10;
                 minute := 30; second := 59 |};
     h_read_csv := h_read_csv sample_host; h_run := h_run sample_host;
     h_system := reliable |}.

Lemma dataLoad_script_same_files_witness :
  omap written (writes (dataLoad_script sample_host [] []).1.2)
  = omap written
      (writes (dataLoad_script next_day_host [] ["dataset/"]).1.2).
Proof.
  apply (dataLoad_script_same_files sample_host next_day_host [] [] []
           ["dataset/"]); [compute_done.. | by vm_compute | by vm_compute
                          | done].
Defined.

(** ** Where the files go *)

(** The same from the command line: with [-f] and the answer [out], the
    directory [out] is created and both files are beside it. *)
Example dataLoad_script_beside :
  let '(fs, out, r) := dataLoad_script out_host ["-f"] [] in
  fs = ["out"] /\ head out = Some (MakeDirs "out")
  /\ omap written out = ["outdataset 10.30.json"; "outdataset 10.30.csv"]
  /\ r = Ok tt.
Proof. by vm_compute. Qed.

(** ** Reset, then load *)

(** C39.  After a reset with an [rm] that works, the directory [dataset/]
    does not exist, and the next run of [loadStructure] into [dataset/], on
    a system that permits it, starts by creating it.  The command removes
    [dataset]; the guards of both functions look for [dataset/], which is
    the same directory. *)
Theorem resetDataset_then_load (h : host) (fs : dirs) (sys : system)
    (rd : reader) (p t : string) :
  rm_works (h_run h) ->
  sys "dataset/" = None ->
  let fs' := (resetDataset h fs).1.1 in
  ~ path_exists fs' "dataset/"
  /\ head (loadStructure sys rd p "dataset/" t fs').1.2
     = Some (MakeDirs "dataset/")
  /\ path_exists (loadStructure sys rd p "dataset/" t fs').1.1 "dataset/".
Proof.
  intros Hrm Hs. destruct (resetDataset_works h fs Hrm) as (fs' & -> & Hno & _).
  cbn [fst snd]. split; [done|].
  rewrite loadStructure_guarded by done. unfold with_dir, made.
  rewrite !decide_False by done.
  assert (path_exists ("dataset/" :: fs') "dataset/") as Hex.
  { apply path_exists_cons. auto using at_or_inside_refl. }
  destruct (load_dataset rd p); [|done].
  by rewrite resume_output, resume_dirs, export_dataset_cases;
    destruct (sys (json_path "dataset/" t)), (sys (csv_path "dataset/" t)).
Qed.

Lemma resetDataset_then_load_witness :
  head (loadStructure reliable sample_reader "input/" "dataset/" "10.30"
          (resetDataset sample_host ["dataset"; "../out"]).1.1).1.2
  = Some (MakeDirs "dataset/").
Proof.
  apply (resetDataset_then_load sample_host ["dataset"; "../out"] reliable
           sample_reader "input/" "10.30" (fun p fs => eq_refl) eq_refl).
Defined.

(** An [rm] that fails leaves the directory, and the reset still says it
    was done. *)
Example resetDataset_stuck :
  resetDataset stuck_host ["dataset/"]
  = (["dataset/"],
     [Print ("Error in removing the existing directory: Command "
             +:+ "'['rm', '-fr', 'dataset']' returned non-zero exit status 1.");
      Print "Reset dataset folder"],
     Raise (SystemExit None)).
Proof. by vm_compute. Qed.

(** ** The script of the crawler *)

(** The flags that [main] gets are those on the command line. *)
Lemma crawler_script_main fuel w fs (argv : list string) :
  Forall (declared crawler_parser) argv ->
  crawler_script fuel w argv fs
  = main fuel w
      (bool_decide ("-v" ∈ argv \/ "--verbose" ∈ argv))
      (bool_decide ("-r" ∈ argv \/ "--reset" ∈ argv))
      (bool_decide ("-s" ∈ argv \/ "--specify" ∈ argv))
      (bool_decide ("-d" ∈ argv \/ "--development" ∈ argv)) fs.
Proof.
  intros Hargv. unfold crawler_script. rewrite parse_args_declared by done.
  by rewrite !regular_get_flag by compute_done.
Qed.

Lemma elem_of_cons_other {A} (x t : A) (l : list A) :
  x <> t -> x ∈ t :: l <-> x ∈ l.
Proof. rewrite elem_of_cons. tauto. Qed.

(** The option [-p] changes nothing: it is declared and never read. *)
Theorem crawler_script_ignores (fuel : nat) (w : world) (fs : dirs)
    (argv : list string) (t : string) :
  Forall (declared crawler_parser) argv ->
  t ∈ ["-p"; "--production"] ->
  crawler_script fuel w (t :: argv) fs = crawler_script fuel w argv fs.
Proof.
  intros Hargv Ht. rewrite !crawler_script_main; [|done|].
  - rewrite !elem_of_cons, elem_of_nil in Ht.
    repeat f_equal; apply bool_decide_ext;
      by rewrite !(elem_of_cons_other _ t) by (intros <-; destruct_or!; done).
  - constructor; [|done]. rewrite !elem_of_cons, elem_of_nil in Ht.
    destruct_or!; subst; compute_done.
Qed.

Lemma crawler_script_ignores_witness :
  crawler_script 3 sample_world ["-p"; "-d"] []
  = crawler_script 3 sample_world ["-d"] [].
Proof. apply crawler_script_ignores; compute_done. Defined.

(** The option [-v] changes what is shown and nothing else. *)
Theorem crawler_script_verbose (fuel : nat) (w : world) (fs : dirs)
    (argv : list string) (t : string) :
  Forall (declared crawler_parser) argv ->
  t ∈ ["-v"; "--verbose"] ->
  observed (crawler_script fuel w (t :: argv) fs)
  = observed (crawler_script fuel w argv fs).
Proof.
  intros Hargv Ht. rewrite !crawler_script_main; [|done|].
  - rewrite (main_quiet _ _ (bool_decide (_ ∈ t :: _ \/ _))),
      (main_quiet _ _ (bool_decide (_ ∈ argv \/ _))).
    rewrite !elem_of_cons, elem_of_nil in Ht.
    repeat f_equal; apply bool_decide_ext;
      by rewrite !(elem_of_cons_other _ t) by (intros <-; destruct_or!; done).
  - constructor; [|done]. rewrite !elem_of_cons, elem_of_nil in Ht.
    destruct_or!; subst; compute_done.
Qed.

Lemma crawler_script_verbose_witness :
  observed (crawler_script 3 sample_world ["-v"; "-d"] [])
  = observed (crawler_script 3 sample_world ["-d"] []).
Proof. apply crawler_script_verbose; compute_done. Defined.
