(* ===== verification/Pipeline.v ===== *)
(** * From the crawler to the loader

    The two programs meet through CSV files: the crawler writes the table of
    the wines and the table of the reviews ([main] of [src/src/crawler.py]),
    and [loadStructure] of [src/data/dataLoad.py] reads [reviews.csv],
    [wine.csv] and [style.csv].  This file states what the loader does with
    a table as the crawler writes it. *)

From Stdlib Require Import ZArith QArith String List.
From stdpp Require Import base tactics option numbers list strings.
From S2P Require Import Prelude Groupby Cell Value Frame Effects Proc Join.
From S2P Require Import Logged.
From S2P Require Import Relational Crawler Wines Reviews CrawlerMain Samples.
From S2P Require Import Hierarchy Document Load.
From S2P Require Import Emit.

(** The columns of the two tables the crawler exports. *)
Lemma reviews_frame_not_reviews :
  ("idWine"%string ∉ reviews_frame_columns) /\
  ("idRev"%string ∉ reviews_frame_columns) /\
  ("Language"%string ∉ reviews_frame_columns).
Proof. compute_done. Qed.

Lemma wine_frame_not_wine :
  Forall (fun c => c ∉ wine_frame_columns)
    ["ID"; "Style"; "Type"; "Price"]%string.
Proof. compute_done. Qed.

(** The loader on three tables saved as the files of the directory [p]. *)
Definition load_tables (sys : system) (reviewsDF W S : DataFrame)
    (p dir t : string) : proc output_json unit :=
  loadStructure sys (reads p reviewsDF W S) p dir t.

Lemma crawler_reviews_KeyError (fuel : nat) (verbose : bool) (srv : server)
    (wineDF reviewsDF W S : DataFrame) (sys : system) (rd : reader)
    (fs : dirs) (p dir t : string) :
  columns wineDF = wine_frame_columns -> df_wf wineDF ->
  unique_key wineDF "Wine ID" ->
  result (reviewsCrawler fuel verbose srv wineDF) = Some (Ok reviewsDF) ->
  reads_as rd p reviewsDF W S ->
  dir <> ""%string -> sys dir = None ->
  loadStructure sys rd p dir t fs
  = (with_dir fs dir, made fs dir, Raise (KeyError (first_key reviewsDF W))).
Proof.
  intros Hc Hwf Hu Hr Hrd Hd Hs.
  eapply loadStructure_first_key; [done | done | exact Hrd|]. left.
  destruct (reviewsCrawler_joined verbose srv wineDF Hc Hwf Hu fuel
              reviewsDF Hr)
    as (per_wine & _ & ->).
  apply reviews_frame_not_reviews.
Qed.

(** C34.  The table of the reviews that the crawler returns is not a
    [reviews.csv] for the loader: it has no column [idWine] (nor [idRev],
    nor [Language]), and [loadStructure] ends with [KeyError] on it before
    writing anything, whatever the other two tables are.  The key named
    is the one the first join misses first: [wine_ID] when the wine table
    has no column [ID], since [merge] looks up the key of the right table
    first, and [idWine] otherwise. *)
Theorem crawler_reviews_rejected (fuel : nat) (verbose : bool)
    (srv : server) (wineDF reviewsDF W S : DataFrame) (sys : system)
    (fs : dirs) (p dir t : string) :
  columns wineDF = wine_frame_columns -> df_wf wineDF ->
  unique_key wineDF "Wine ID" ->
  result (reviewsCrawler fuel verbose srv wineDF) = Some (Ok reviewsDF) ->
  dir <> ""%string -> sys dir = None ->
  load_tables sys reviewsDF W S p dir t fs
  = (with_dir fs dir, made fs dir,
     Raise (KeyError (if decide ("ID"%string ∈ columns W)
                      then "idWine"%string else "wine_ID"%string))).
Proof.
  intros Hc Hwf Hu Hr Hd Hs.
  eapply crawler_reviews_KeyError; eauto using reads_reads_as.
Qed.

(** The table of the reviews of one wine, as the crawler returns it. *)
Definition crawled_reviews : DataFrame :=
  {| columns := reviews_frame_columns;
     rows := [[CInt 2021; CInt 2; CFloat 2; CStr "d";
               CStr "2016-10-05T20:48:41.000Z"; CStr "B"; CStr "Due 2021";
               CFloat 4.2; CInt 120]] |}.

(** The table of the wines that the crawler exported before. *)
Definition crawled_wines : DataFrame :=
  wine_table [[CStr "B"; CInt 2021; CInt 2; CStr "Due 2021"; CFloat 4.2;
               CInt 120]].

Lemma crawler_reviews_rejected_witness :
  load_tables reliable crawled_reviews crawled_wines sample_style
    "input/" "dataset/" "10.30" ["dataset/"%string]
  = (["dataset/"%string], [], Raise (KeyError "wine_ID")).
Proof.
  apply (crawler_reviews_rejected 2 true sample_server crawled_wines
           crawled_reviews crawled_wines sample_style reliable
           ["dataset/"%string] "input/" "dataset/" "10.30");
    [reflexivity | compute_done | compute_done | by vm_compute | done..].
Defined.

(** The two tables of one run of the crawler, saved as [reviews.csv] and
    [wine.csv]: the loader ends in the first join, on the key of the
    wines. *)
Theorem crawler_tables_rejected (fuel : nat) (verbose : bool)
    (srv : server) (wineDF reviewsDF S : DataFrame) (sys : system)
    (fs : dirs) (p dir t : string) :
  columns wineDF = wine_frame_columns -> df_wf wineDF ->
  unique_key wineDF "Wine ID" ->
  result (reviewsCrawler fuel verbose srv wineDF) = Some (Ok reviewsDF) ->
  dir <> ""%string -> sys dir = None ->
  load_tables sys reviewsDF wineDF S p dir t fs
  = (with_dir fs dir, made fs dir, Raise (KeyError "wine_ID")).
Proof.
  intros Hc Hwf Hu Hr Hd Hs. unfold load_tables.
  rewrite (crawler_reviews_KeyError fuel verbose srv wineDF reviewsDF
             wineDF S sys _ fs p dir t) by eauto using reads_reads_as.
  unfold first_key. rewrite Hc, decide_False; [done|].
  pose proof wine_frame_not_wine as H. by inversion H.
Qed.

(** With a wine table as the loader documents it, the key named is that
    of the reviews. *)
Lemma crawler_reviews_rejected_idWine :
  load_tables reliable crawled_reviews sample_wine sample_style
    "input/" "dataset/" "10.30" ["dataset/"%string]
  = (["dataset/"%string], [], Raise (KeyError "idWine")).
Proof. by vm_compute. Qed.
